(** * VmaReplay: the trace replay engine of Vulkan Memory Allocator

    A shallow embedding of [src/VmaReplay/VmaReplay.cpp] and the properties
    of its specification.  The [Player] object is a record, its member
    functions are computations in a state monad over that record, and what
    the player does to the outside (text written with [printf], entry
    points of the target allocator it invokes) is collected in a trace.

    The helpers of [Common.h] ([CsvSplit], [StrRangeToUint], ...), the
    target allocator itself and the order in which the standard library
    walks an [unordered_map] are not part of the translation unit; they
    are interfaces here, and every theorem holds for each implementation. *)

From stdpp Require Import gmap strings list fin_maps.

Local Open Scope Z_scope.

(** ** Machine integers *)

Definition wrap32 (z : Z) : Z := z mod 2 ^ 32.
Definition wrap64 (z : Z) : Z := z mod 2 ^ 64.

(** [++c] on a [size_t] and on a [uint32_t]. *)
Definition size_t_inc (c : Z) : Z := wrap64 (c + 1).
Definition uint32_inc (c : Z) : Z := wrap32 (c + 1).

(** ** Constants of the translation unit and of the headers it includes *)

Definition RESULT_ERROR_FORMAT : Z := -3.
Definition VK_SUCCESS : Z := 0.
Definition VK_NULL_HANDLE : Z := 0.
Definition FIRST_PARAM_INDEX : nat := 4.
Definition MAX_WARNINGS_TO_SHOW : Z := 64.

(** Bits of [vulkan_core.h] and [vk_mem_alloc.h]. *)
Definition VK_BUFFER_USAGE_UNIFORM_TEXEL_BUFFER_BIT : Z := 0x4.
Definition VK_BUFFER_USAGE_STORAGE_TEXEL_BUFFER_BIT : Z := 0x8.
Definition VK_BUFFER_USAGE_UNIFORM_BUFFER_BIT : Z := 0x10.
Definition VK_BUFFER_USAGE_STORAGE_BUFFER_BIT : Z := 0x20.
Definition VK_BUFFER_USAGE_INDEX_BUFFER_BIT : Z := 0x40.
Definition VK_BUFFER_USAGE_VERTEX_BUFFER_BIT : Z := 0x80.
Definition VK_BUFFER_USAGE_INDIRECT_BUFFER_BIT : Z := 0x100.
Definition VK_IMAGE_USAGE_SAMPLED_BIT : Z := 0x4.
Definition VK_IMAGE_USAGE_COLOR_ATTACHMENT_BIT : Z := 0x10.
Definition VK_IMAGE_USAGE_DEPTH_STENCIL_ATTACHMENT_BIT : Z := 0x20.
Definition VK_IMAGE_USAGE_TRANSIENT_ATTACHMENT_BIT : Z := 0x40.
Definition VK_IMAGE_USAGE_INPUT_ATTACHMENT_BIT : Z := 0x80.
Definition VK_IMAGE_TILING_LINEAR : Z := 1.
Definition VMA_ALLOCATION_CREATE_DEDICATED_MEMORY_BIT : Z := 0x1.
Definition VMA_ALLOCATION_CREATE_USER_DATA_COPY_STRING_BIT : Z := 0x20.

Inductive VERBOSITY := MINIMUM | DEFAULT | MAXIMUM.

(** [g_Verbosity < VERBOSITY::MAXIMUM] *)
Definition below_MAXIMUM (v : VERBOSITY) : bool :=
  match v with MAXIMUM => false | _ => true end.

(** The globals the player reads; the command line sets them before any
    file is processed. *)
Record Globals := {
  g_Verbosity : VERBOSITY;
  g_UserDataEnabled : bool
}.

Inductive VMA_FUNCTION :=
| CreatePool
| DestroyPool
| SetAllocationUserData
| CreateBuffer
| DestroyBuffer
| CreateImage
| DestroyImage
| FreeMemory
| CreateLostAllocation
| AllocateMemory
| AllocateMemoryForBuffer
| AllocateMemoryForImage
| MapMemory
| UnmapMemory
| FlushAllocation
| InvalidateAllocation
| TouchAllocation
| GetAllocationInfo
| MakePoolAllocationsLost.

Definition VMA_FUNCTION_NAMES (func : VMA_FUNCTION) : string :=
  match func with
  | CreatePool => "vmaCreatePool"
  | DestroyPool => "vmaDestroyPool"
  | SetAllocationUserData => "vmaSetAllocationUserData"
  | CreateBuffer => "vmaCreateBuffer"
  | DestroyBuffer => "vmaDestroyBuffer"
  | CreateImage => "vmaCreateImage"
  | DestroyImage => "vmaDestroyImage"
  | FreeMemory => "vmaFreeMemory"
  | CreateLostAllocation => "vmaCreateLostAllocation"
  | AllocateMemory => "vmaAllocateMemory"
  | AllocateMemoryForBuffer => "vmaAllocateMemoryForBuffer"
  | AllocateMemoryForImage => "vmaAllocateMemoryForImage"
  | MapMemory => "vmaMapMemory"
  | UnmapMemory => "vmaUnmapMemory"
  | FlushAllocation => "vmaFlushAllocation"
  | InvalidateAllocation => "vmaInvalidateAllocation"
  | TouchAllocation => "vmaTouchAllocation"
  | GetAllocationInfo => "vmaGetAllocationInfo"
  | MakePoolAllocationsLost => "vmaMakePoolAllocationsLost"
  end.

#[global] Instance VMA_FUNCTION_eq_dec : EqDecision VMA_FUNCTION.
Proof. solve_decision. Defined.

Inductive OBJECT_TYPE := BUFFER | IMAGE.

(** ** The interface of [Common.h] *)

(** A [StrRange] is a pair of pointers into the loaded file; here a pair of
    offsets into the line they point into. *)
Record StrRange := {
  sr_buf : string;
  sr_beg : nat;
  sr_end : nat
}.

Definition to_str (r : StrRange) : string :=
  String.substring (sr_beg r) (sr_end r - sr_beg r) (sr_buf r).

(** [CsvSplit]: the line and the begin-end offsets of its columns. *)
Record CsvSplit := {
  m_Line : string;
  m_Ranges : list (nat * nat)
}.

Definition GetCount (csvSplit : CsvSplit) : nat := length (m_Ranges csvSplit).

Definition GetLine (csvSplit : CsvSplit) : StrRange :=
  {| sr_buf := m_Line csvSplit; sr_beg := 0;
     sr_end := String.length (m_Line csvSplit) |}.

(** The player reads column [index] only after it has checked that
    [index < GetCount]; outside that the model gives the empty range. *)
Definition GetRange (csvSplit : CsvSplit) (index : nat) : StrRange :=
  match m_Ranges csvSplit !! index with
  | Some (b, e) => {| sr_buf := m_Line csvSplit; sr_beg := b; sr_end := e |}
  | None => {| sr_buf := m_Line csvSplit; sr_beg := 0; sr_end := 0 |}
  end.

(** The conversions and the splitter are declared in [Common.h]: a
    conversion reports failure ([None]) or the value it would store.
    [CsvSplit_Set line None] is the call with the default column limit. *)
Class CommonH := {
  StrRangeToUint32 : string -> option Z;
  StrRangeToUint64 : string -> option Z;
  StrRangeToPtr : string -> option Z;
  StrRangeToBool : string -> option bool;
  CsvSplit_Set : string -> option nat -> CsvSplit
}.

Definition StrRangeEq (r : StrRange) (s : string) : bool :=
  String.eqb (to_str r) s.

(** ** The file version *)

Section FileVersion.
Context `{CommonH}.

(** [g_FileVersion = (major << 16) | minor] on [uint32_t]. *)
Definition PackFileVersion (major minor : Z) : Z :=
  Z.lor (wrap32 (Z.shiftl major 16)) minor.

Definition ValidateFileVersion (g_FileVersion : Z) : bool :=
  let major := Z.shiftr g_FileVersion 16 in
  let minor := Z.land g_FileVersion 0xFFFF in
  (major =? 1) && (minor <=? 2).

(** Returns the new [g_FileVersion], or [None] where the source returns
    [false] and leaves the global alone. *)
Definition ParseFileVersion (s : string) : option Z :=
  let csvSplit := CsvSplit_Set s (Some 2%nat) in
  if decide (GetCount csvSplit = 2%nat) then
    major ← StrRangeToUint32 (to_str (GetRange csvSplit 0));
    minor ← StrRangeToUint32 (to_str (GetRange csvSplit 1));
    Some (PackFileVersion major minor)
  else None.

(** The version gate of [ProcessFile]: [0] lets the load go on, and
    [RESULT_ERROR_FORMAT] is what [ProcessFile] returns otherwise. *)
Definition CheckFileVersion (line : option string) : Z :=
  match line with
  | None => RESULT_ERROR_FORMAT
  | Some l =>
      match ParseFileVersion l with
      | None => RESULT_ERROR_FORMAT
      | Some v => if ValidateFileVersion v then 0 else RESULT_ERROR_FORMAT
      end
  end.
End FileVersion.

(** ** Data of the player *)

(** What is passed as [pUserData]: a pointer value ([UdPtr 0] is the null
    pointer), or the address of [m_UserDataTmpStr] holding the given text. *)
Inductive UserData :=
| UdPtr (p : Z)
| UdStr (s : string).

Definition nullptr : UserData := UdPtr 0.

Record VmaPoolCreateInfo := {
  pool_memoryTypeIndex : Z;
  pool_flags : Z;
  pool_blockSize : Z;
  pool_minBlockCount : Z;
  pool_maxBlockCount : Z;
  pool_frameInUseCount : Z
}.

Record VmaAllocationCreateInfo := {
  aci_flags : Z;
  aci_usage : Z;
  aci_requiredFlags : Z;
  aci_preferredFlags : Z;
  aci_memoryTypeBits : Z;
  aci_pool : Z;
  aci_pUserData : UserData
}.

Record VkBufferCreateInfo := {
  buf_flags : Z;
  buf_size : Z;
  buf_usage : Z;
  buf_sharingMode : Z
}.

Record VkImageCreateInfo := {
  img_flags : Z;
  img_imageType : Z;
  img_format : Z;
  img_extent_width : Z;
  img_extent_height : Z;
  img_extent_depth : Z;
  img_mipLevels : Z;
  img_arrayLayers : Z;
  img_samples : Z;
  img_tiling : Z;
  img_usage : Z;
  img_sharingMode : Z;
  img_initialLayout : Z
}.

Record VkMemoryRequirements := {
  mr_size : Z;
  mr_alignment : Z;
  mr_memoryTypeBits : Z
}.

(** The entry points of the target allocator that the player invokes. *)
Inductive VmaCall :=
| vmaSetCurrentFrameIndex (frameIndex : Z)
| vmaCreatePool (info : VmaPoolCreateInfo)
| vmaDestroyPool (pool : Z)
| vmaSetAllocationUserData (allocation : Z) (pUserData : UserData)
| vmaCreateBuffer (bufCreateInfo : VkBufferCreateInfo)
    (allocCreateInfo : VmaAllocationCreateInfo)
| vmaDestroyBuffer (buffer allocation : Z)
| vmaCreateImage (imageCreateInfo : VkImageCreateInfo)
    (allocCreateInfo : VmaAllocationCreateInfo)
| vmaDestroyImage (image allocation : Z)
| vmaFreeMemory (allocation : Z)
| vmaCreateLostAllocation
| vmaAllocateMemory (memReq : VkMemoryRequirements)
    (allocCreateInfo : VmaAllocationCreateInfo)
| vmaMapMemory (allocation : Z)
| vmaUnmapMemory (allocation : Z)
| vmaFlushAllocation (allocation offset size : Z)
| vmaInvalidateAllocation (allocation offset size : Z)
| vmaTouchAllocation (allocation : Z)
| vmaGetAllocationInfo (allocation : Z)
| vmaMakePoolAllocationsLost (pool : Z).

(** What an entry point hands back: its [VkResult] and what it stored
    through its out-parameters (the handle of the pool, buffer or image,
    and the allocation). *)
Record VmaReply := {
  reply_res : Z;
  reply_handle : Z;
  reply_allocation : Z
}.

(** The target allocator: its answer to a call may depend on the calls
    made before. *)
Class TargetAllocator := vma_reply : list VmaCall -> VmaCall -> VmaReply.

(** The texts the player prints, by format string. *)
Inductive Message :=
| MsgIncorrectThreadId (lineNumber : Z)
| MsgIncorrectFrameIndex (lineNumber : Z)
| MsgUnknownFunction (lineNumber : Z)
| MsgTooFewColumns (lineNumber : Z)
| MsgPoolNotFound (lineNumber origPool : Z)
| MsgFailedOriginallySucceeded (lineNumber : Z) (functionName : string) (res : Z)
| MsgAllocationAlreadyExists (lineNumber origPtr : Z)
| MsgPoolAlreadyExists (lineNumber origPtr : Z)
| MsgSucceededOriginallyFailed (lineNumber : Z) (functionName : string)
| MsgFailedOriginallyAlsoFailed (lineNumber : Z) (functionName : string) (res : Z)
| MsgIncorrectParameterCount (lineNumber : Z)
| MsgInvalidUserData (lineNumber : Z)
| MsgInvalidParameters (lineNumber : Z) (functionName : string)
| MsgAllocationNotFound (lineNumber origPtr : Z)
| MsgAllocationIsNull (lineNumber : Z) (functionName : string)
| MsgMapMemoryFailed (lineNumber res : Z)
| MsgCannotReplayAccurately (lineNumber : Z)
| MsgAllocationsNotDestroyed (count : Z)
| MsgPoolsNotDestroyed (count : Z)
| MsgMoreWarningsNotShown (count : Z).

(** What the player does to the outside.  [EvWarning shown msg] is one
    [if(IssueWarning()) printf(msg)]: [shown] is what [IssueWarning]
    returned, so [msg] was printed exactly when it is [true].  [EvPrintf]
    is a [printf] that no [IssueWarning] guards. *)
Inductive Event :=
| EvWarning (shown : bool) (msg : Message)
| EvPrintf (msg : Message)
| EvCall (c : VmaCall).

(** [m_FunctionCallCount] is an array with one counter for each
    [VMA_FUNCTION]; the other two arrays have four counters. *)
Record Statistics := {
  m_FunctionCallCount : VMA_FUNCTION -> Z;
  m_ImageCreationCount : list Z;
  m_LinearImageCreationCount : Z;
  m_BufferCreationCount : list Z;
  m_AllocationCreationCount : Z;
  m_PoolCreationCount : Z
}.

Record Pool := { pool : Z }.

Record Allocation := {
  allocationFlags : Z;
  allocation : Z;
  buffer : Z;
  image : Z
}.

Record Thread := { callCount : Z }.

Record Player := {
  m_WarningCount : Z;
  m_AllocateForBufferImageWarningIssued : bool;
  m_VmaFrameIndex : Z;
  m_Pools : gmap Z Pool;
  m_Allocations : gmap Z Allocation;
  m_Threads : gmap Z Thread;
  m_LastLineTimeStr : string;
  m_Stats : Statistics;
  m_UserDataTmpStr : string;
  trace : list Event
}.

Definition Statistics_new : Statistics :=
  {| m_FunctionCallCount := fun _ => 0;
     m_ImageCreationCount := replicate 4 0;
     m_LinearImageCreationCount := 0;
     m_BufferCreationCount := replicate 4 0;
     m_AllocationCreationCount := 0;
     m_PoolCreationCount := 0 |}.

(** The player as its constructor leaves it. *)
Definition Player_new : Player :=
  {| m_WarningCount := 0;
     m_AllocateForBufferImageWarningIssued := false;
     m_VmaFrameIndex := 0;
     m_Pools := ∅;
     m_Allocations := ∅;
     m_Threads := ∅;
     m_LastLineTimeStr := EmptyString;
     m_Stats := Statistics_new;
     m_UserDataTmpStr := EmptyString;
     trace := [] |}.

Definition set_WarningCount (v : Z) (p : Player) : Player :=
  {| m_WarningCount := v;
     m_AllocateForBufferImageWarningIssued := m_AllocateForBufferImageWarningIssued p;
     m_VmaFrameIndex := m_VmaFrameIndex p; m_Pools := m_Pools p;
     m_Allocations := m_Allocations p; m_Threads := m_Threads p;
     m_LastLineTimeStr := m_LastLineTimeStr p; m_Stats := m_Stats p;
     m_UserDataTmpStr := m_UserDataTmpStr p; trace := trace p |}.

Definition set_AllocateForBufferImageWarningIssued (v : bool) (p : Player) : Player :=
  {| m_WarningCount := m_WarningCount p;
     m_AllocateForBufferImageWarningIssued := v;
     m_VmaFrameIndex := m_VmaFrameIndex p; m_Pools := m_Pools p;
     m_Allocations := m_Allocations p; m_Threads := m_Threads p;
     m_LastLineTimeStr := m_LastLineTimeStr p; m_Stats := m_Stats p;
     m_UserDataTmpStr := m_UserDataTmpStr p; trace := trace p |}.

Definition set_VmaFrameIndex (v : Z) (p : Player) : Player :=
  {| m_WarningCount := m_WarningCount p;
     m_AllocateForBufferImageWarningIssued := m_AllocateForBufferImageWarningIssued p;
     m_VmaFrameIndex := v; m_Pools := m_Pools p;
     m_Allocations := m_Allocations p; m_Threads := m_Threads p;
     m_LastLineTimeStr := m_LastLineTimeStr p; m_Stats := m_Stats p;
     m_UserDataTmpStr := m_UserDataTmpStr p; trace := trace p |}.

Definition set_Pools (v : gmap Z Pool) (p : Player) : Player :=
  {| m_WarningCount := m_WarningCount p;
     m_AllocateForBufferImageWarningIssued := m_AllocateForBufferImageWarningIssued p;
     m_VmaFrameIndex := m_VmaFrameIndex p; m_Pools := v;
     m_Allocations := m_Allocations p; m_Threads := m_Threads p;
     m_LastLineTimeStr := m_LastLineTimeStr p; m_Stats := m_Stats p;
     m_UserDataTmpStr := m_UserDataTmpStr p; trace := trace p |}.

Definition set_Allocations (v : gmap Z Allocation) (p : Player) : Player :=
  {| m_WarningCount := m_WarningCount p;
     m_AllocateForBufferImageWarningIssued := m_AllocateForBufferImageWarningIssued p;
     m_VmaFrameIndex := m_VmaFrameIndex p; m_Pools := m_Pools p;
     m_Allocations := v; m_Threads := m_Threads p;
     m_LastLineTimeStr := m_LastLineTimeStr p; m_Stats := m_Stats p;
     m_UserDataTmpStr := m_UserDataTmpStr p; trace := trace p |}.

Definition set_Threads (v : gmap Z Thread) (p : Player) : Player :=
  {| m_WarningCount := m_WarningCount p;
     m_AllocateForBufferImageWarningIssued := m_AllocateForBufferImageWarningIssued p;
     m_VmaFrameIndex := m_VmaFrameIndex p; m_Pools := m_Pools p;
     m_Allocations := m_Allocations p; m_Threads := v;
     m_LastLineTimeStr := m_LastLineTimeStr p; m_Stats := m_Stats p;
     m_UserDataTmpStr := m_UserDataTmpStr p; trace := trace p |}.

Definition set_LastLineTimeStr (v : string) (p : Player) : Player :=
  {| m_WarningCount := m_WarningCount p;
     m_AllocateForBufferImageWarningIssued := m_AllocateForBufferImageWarningIssued p;
     m_VmaFrameIndex := m_VmaFrameIndex p; m_Pools := m_Pools p;
     m_Allocations := m_Allocations p; m_Threads := m_Threads p;
     m_LastLineTimeStr := v; m_Stats := m_Stats p;
     m_UserDataTmpStr := m_UserDataTmpStr p; trace := trace p |}.

Definition set_Stats (v : Statistics) (p : Player) : Player :=
  {| m_WarningCount := m_WarningCount p;
     m_AllocateForBufferImageWarningIssued := m_AllocateForBufferImageWarningIssued p;
     m_VmaFrameIndex := m_VmaFrameIndex p; m_Pools := m_Pools p;
     m_Allocations := m_Allocations p; m_Threads := m_Threads p;
     m_LastLineTimeStr := m_LastLineTimeStr p; m_Stats := v;
     m_UserDataTmpStr := m_UserDataTmpStr p; trace := trace p |}.

Definition set_UserDataTmpStr (v : string) (p : Player) : Player :=
  {| m_WarningCount := m_WarningCount p;
     m_AllocateForBufferImageWarningIssued := m_AllocateForBufferImageWarningIssued p;
     m_VmaFrameIndex := m_VmaFrameIndex p; m_Pools := m_Pools p;
     m_Allocations := m_Allocations p; m_Threads := m_Threads p;
     m_LastLineTimeStr := m_LastLineTimeStr p; m_Stats := m_Stats p;
     m_UserDataTmpStr := v; trace := trace p |}.

Definition set_trace (v : list Event) (p : Player) : Player :=
  {| m_WarningCount := m_WarningCount p;
     m_AllocateForBufferImageWarningIssued := m_AllocateForBufferImageWarningIssued p;
     m_VmaFrameIndex := m_VmaFrameIndex p; m_Pools := m_Pools p;
     m_Allocations := m_Allocations p; m_Threads := m_Threads p;
     m_LastLineTimeStr := m_LastLineTimeStr p; m_Stats := m_Stats p;
     m_UserDataTmpStr := m_UserDataTmpStr p; trace := v |}.

(** The allocator calls made so far, oldest first. *)
Definition calls_of (evs : list Event) : list VmaCall :=
  omap (fun e => match e with EvCall c => Some c | _ => None end) evs.

Definition calls (p : Player) : list VmaCall := calls_of (trace p).

(** ** The state monad of the member functions *)

Definition M (A : Type) : Type := Player -> A * Player.

#[global] Instance M_ret : MRet M := fun A a p => (a, p).
#[global] Instance M_bind : MBind M :=
  fun A B f c p => let '(a, p') := c p in f a p'.

Definition gets {A} (f : Player -> A) : M A := fun p => (f p, p).
Definition modify (f : Player -> Player) : M unit := fun p => (tt, f p).

(** The player after [c]. *)
Definition exec {A} (c : M A) (p : Player) : Player := (c p).2.

Definition emit (e : Event) : M unit :=
  modify (fun p => set_trace (trace p ++ [e]) p).

Definition printf (msg : Message) : M unit := emit (EvPrintf msg).

(** ** class Statistics *)

Definition test_bits (usage mask : Z) : bool := negb (Z.land usage mask =? 0).

Definition BufferUsageToClass (usage : Z) : nat :=
  if test_bits usage
       (Z.lor VK_BUFFER_USAGE_INDIRECT_BUFFER_BIT
          (Z.lor VK_BUFFER_USAGE_VERTEX_BUFFER_BIT VK_BUFFER_USAGE_INDEX_BUFFER_BIT))
  then 0%nat
  else if test_bits usage
       (Z.lor VK_BUFFER_USAGE_STORAGE_BUFFER_BIT VK_BUFFER_USAGE_STORAGE_TEXEL_BUFFER_BIT)
  then 1%nat
  else if test_bits usage
       (Z.lor VK_BUFFER_USAGE_UNIFORM_BUFFER_BIT VK_BUFFER_USAGE_UNIFORM_TEXEL_BUFFER_BIT)
  then 2%nat
  else 3%nat.

Definition ImageUsageToClass (usage : Z) : nat :=
  if test_bits usage VK_IMAGE_USAGE_DEPTH_STENCIL_ATTACHMENT_BIT then 0%nat
  else if test_bits usage
       (Z.lor VK_IMAGE_USAGE_INPUT_ATTACHMENT_BIT
          (Z.lor VK_IMAGE_USAGE_TRANSIENT_ATTACHMENT_BIT VK_IMAGE_USAGE_COLOR_ATTACHMENT_BIT))
  then 1%nat
  else if test_bits usage VK_IMAGE_USAGE_SAMPLED_BIT then 2%nat
  else 3%nat.

Definition GetFunctionCallCount (s : Statistics) (func : VMA_FUNCTION) : Z :=
  m_FunctionCallCount s func.

Definition Statistics_RegisterFunctionCall (func : VMA_FUNCTION) (s : Statistics) : Statistics :=
  {| m_FunctionCallCount :=
       fun f => if decide (f = func)
                then size_t_inc (m_FunctionCallCount s f)
                else m_FunctionCallCount s f;
     m_ImageCreationCount := m_ImageCreationCount s;
     m_LinearImageCreationCount := m_LinearImageCreationCount s;
     m_BufferCreationCount := m_BufferCreationCount s;
     m_AllocationCreationCount := m_AllocationCreationCount s;
     m_PoolCreationCount := m_PoolCreationCount s |}.

Definition Statistics_RegisterCreateImage (usage tiling : Z) (s : Statistics) : Statistics :=
  {| m_FunctionCallCount := m_FunctionCallCount s;
     m_ImageCreationCount :=
       if tiling =? VK_IMAGE_TILING_LINEAR then m_ImageCreationCount s
       else alter size_t_inc (ImageUsageToClass usage) (m_ImageCreationCount s);
     m_LinearImageCreationCount :=
       if tiling =? VK_IMAGE_TILING_LINEAR
       then size_t_inc (m_LinearImageCreationCount s)
       else m_LinearImageCreationCount s;
     m_BufferCreationCount := m_BufferCreationCount s;
     m_AllocationCreationCount := size_t_inc (m_AllocationCreationCount s);
     m_PoolCreationCount := m_PoolCreationCount s |}.

Definition Statistics_RegisterCreateBuffer (usage : Z) (s : Statistics) : Statistics :=
  {| m_FunctionCallCount := m_FunctionCallCount s;
     m_ImageCreationCount := m_ImageCreationCount s;
     m_LinearImageCreationCount := m_LinearImageCreationCount s;
     m_BufferCreationCount :=
       alter size_t_inc (BufferUsageToClass usage) (m_BufferCreationCount s);
     m_AllocationCreationCount := size_t_inc (m_AllocationCreationCount s);
     m_PoolCreationCount := m_PoolCreationCount s |}.

Definition Statistics_RegisterCreatePool (s : Statistics) : Statistics :=
  {| m_FunctionCallCount := m_FunctionCallCount s;
     m_ImageCreationCount := m_ImageCreationCount s;
     m_LinearImageCreationCount := m_LinearImageCreationCount s;
     m_BufferCreationCount := m_BufferCreationCount s;
     m_AllocationCreationCount := m_AllocationCreationCount s;
     m_PoolCreationCount := size_t_inc (m_PoolCreationCount s) |}.

Definition Statistics_RegisterCreateAllocation (s : Statistics) : Statistics :=
  {| m_FunctionCallCount := m_FunctionCallCount s;
     m_ImageCreationCount := m_ImageCreationCount s;
     m_LinearImageCreationCount := m_LinearImageCreationCount s;
     m_BufferCreationCount := m_BufferCreationCount s;
     m_AllocationCreationCount := size_t_inc (m_AllocationCreationCount s);
     m_PoolCreationCount := m_PoolCreationCount s |}.

(** ** class Player *)

(** A range-based [for] over a [std::unordered_map] visits every entry of
    the map once, in an order that the library chooses: [unordered_walk]
    is that order, of which nothing else is known. *)
Class UnorderedMap := {
  unordered_walk : forall {V : Type}, gmap Z V -> list (Z * V);
  unordered_walk_perm :
    forall (V : Type) (m : gmap Z V), unordered_walk m ≡ₚ map_to_list m
}.

Section PlayerMembers.
Context `{CommonH} `{TargetAllocator} `{UnorderedMap} (g : Globals).

(** [m_Stats.f(...)] *)
Definition on_Stats (f : Statistics -> Statistics) : M unit :=
  modify (fun p => set_Stats (f (m_Stats p)) p).

Definition RegisterFunctionCall (func : VMA_FUNCTION) : M unit :=
  on_Stats (Statistics_RegisterFunctionCall func).

(** Invoking an entry point of the target allocator. *)
Definition invoke (c : VmaCall) : M VmaReply :=
  fun p => (vma_reply (calls p) c, set_trace (trace p ++ [EvCall c]) p).

Definition IssueWarning : M bool :=
  fun p =>
    if below_MAXIMUM (g_Verbosity g)
    then (m_WarningCount p <? MAX_WARNINGS_TO_SHOW,
          set_WarningCount (size_t_inc (m_WarningCount p)) p)
    else (true, set_WarningCount (size_t_inc (m_WarningCount p)) p).

(** [if(IssueWarning()) printf(msg);] *)
Definition warn (msg : Message) : M unit :=
  shown ← IssueWarning; emit (EvWarning shown msg).

Definition Destroy (alloc : Allocation) : M unit :=
  if negb (buffer alloc =? VK_NULL_HANDLE) then
    invoke (vmaDestroyBuffer (buffer alloc) (allocation alloc));; mret tt
  else if negb (image alloc =? VK_NULL_HANDLE) then
    invoke (vmaDestroyImage (image alloc) (allocation alloc));; mret tt
  else
    invoke (vmaFreeMemory (allocation alloc));; mret tt.

(** Returns the value returned and [outPool]. *)
Definition FindPool (lineNumber origPool : Z) : M (bool * Z) :=
  if negb (origPool =? 0) then
    poolIt ← gets (fun p => m_Pools p !! origPool);
    match poolIt with
    | Some poolDesc => mret (true, pool poolDesc)
    | None => warn (MsgPoolNotFound lineNumber origPool);; mret (true, VK_NULL_HANDLE)
    end
  else mret (true, VK_NULL_HANDLE).

Definition AddAllocation (lineNumber origPtr res : Z) (functionName : string)
    (allocDesc : Allocation) : M unit :=
  if negb (origPtr =? 0) then
    (if res =? VK_SUCCESS then mret tt
     else warn (MsgFailedOriginallySucceeded lineNumber functionName res));;
    existingIt ← gets (fun p => m_Allocations p !! origPtr);
    (match existingIt with
     | Some _ => warn (MsgAllocationAlreadyExists lineNumber origPtr)
     | None => mret tt
     end);;
    modify (fun p => set_Allocations (<[origPtr := allocDesc]> (m_Allocations p)) p)
  else
    if res =? VK_SUCCESS then
      warn (MsgSucceededOriginallyFailed lineNumber functionName);;
      Destroy allocDesc
    else
      warn (MsgFailedOriginallyAlsoFailed lineNumber functionName res).

Definition ValidateFunctionParameterCount (lineNumber : Z) (csvSplit : CsvSplit)
    (expectedParamCount : nat) (lastUnbound : bool) : M bool :=
  let ok :=
    if lastUnbound
    then bool_decide (FIRST_PARAM_INDEX + expectedParamCount - 1 ≤ GetCount csvSplit)%nat
    else bool_decide (GetCount csvSplit = FIRST_PARAM_INDEX + expectedParamCount)%nat in
  (if negb ok then warn (MsgIncorrectParameterCount lineNumber) else mret tt);;
  mret ok.

(** Returns the value returned and [outUserData]. *)
Definition PrepareUserData (lineNumber allocCreateFlags : Z)
    (userDataColumn wholeLine : StrRange) : M (bool * UserData) :=
  if negb (g_UserDataEnabled g) then mret (true, nullptr)
  else if test_bits allocCreateFlags VMA_ALLOCATION_CREATE_USER_DATA_COPY_STRING_BIT then
    let len := (sr_end wholeLine - sr_beg userDataColumn)%nat in
    let str := String.substring (sr_beg userDataColumn) len (sr_buf userDataColumn) in
    modify (set_UserDataTmpStr str);;
    mret (true, UdStr str)
  else
    match StrRangeToPtr (to_str userDataColumn) with
    | Some pUserData => mret (true, UdPtr pUserData)
    | None => warn (MsgInvalidUserData lineNumber);; mret (false, nullptr)
    end.

(** Column [FIRST_PARAM_INDEX + i]. *)
Definition param (csvSplit : CsvSplit) (i : nat) : string :=
  to_str (GetRange csvSplit (FIRST_PARAM_INDEX + i)).

(** [pUserData] after the optional call of [PrepareUserData] on column
    [FIRST_PARAM_INDEX + i]; it starts as a null pointer. *)
Definition UserDataOfColumn (lineNumber allocCreateFlags : Z)
    (csvSplit : CsvSplit) (i : nat) : M UserData :=
  if bool_decide (FIRST_PARAM_INDEX + i < GetCount csvSplit)%nat then
    r ← PrepareUserData lineNumber allocCreateFlags
          (GetRange csvSplit (FIRST_PARAM_INDEX + i)) (GetLine csvSplit);
    mret r.2
  else mret nullptr.

Definition with_pool_userdata (a : VmaAllocationCreateInfo) (pool_ : Z)
    (pUserData : UserData) : VmaAllocationCreateInfo :=
  {| aci_flags := aci_flags a; aci_usage := aci_usage a;
     aci_requiredFlags := aci_requiredFlags a;
     aci_preferredFlags := aci_preferredFlags a;
     aci_memoryTypeBits := aci_memoryTypeBits a;
     aci_pool := pool_; aci_pUserData := pUserData |}.

Definition with_flags (a : VmaAllocationCreateInfo) (flags : Z) : VmaAllocationCreateInfo :=
  {| aci_flags := flags; aci_usage := aci_usage a;
     aci_requiredFlags := aci_requiredFlags a;
     aci_preferredFlags := aci_preferredFlags a;
     aci_memoryTypeBits := aci_memoryTypeBits a;
     aci_pool := aci_pool a; aci_pUserData := aci_pUserData a |}.

(** The conjunction of conversions that guards the body of
    [ExecuteCreatePool]: the pool description and [origPtr]. *)
Definition CreatePool_params (csvSplit : CsvSplit) : option (VmaPoolCreateInfo * Z) :=
  memoryTypeIndex ← StrRangeToUint32 (param csvSplit 0);
  flags ← StrRangeToUint32 (param csvSplit 1);
  blockSize ← StrRangeToUint64 (param csvSplit 2);
  minBlockCount ← StrRangeToUint64 (param csvSplit 3);
  maxBlockCount ← StrRangeToUint64 (param csvSplit 4);
  frameInUseCount ← StrRangeToUint32 (param csvSplit 5);
  origPtr ← StrRangeToPtr (param csvSplit 6);
  Some ({| pool_memoryTypeIndex := memoryTypeIndex; pool_flags := flags;
           pool_blockSize := blockSize; pool_minBlockCount := minBlockCount;
           pool_maxBlockCount := maxBlockCount;
           pool_frameInUseCount := frameInUseCount |}, origPtr).

(** Lines 1162-1211 of [ExecuteCreatePool]: what becomes of the pool that
    [vmaCreatePool] gave, by [origPtr] and [res]. *)
Definition AddPool (lineNumber origPtr res : Z) (poolDesc : Pool) : M unit :=
  if negb (origPtr =? 0) then
    (if res =? VK_SUCCESS then mret tt
     else warn (MsgFailedOriginallySucceeded lineNumber "vmaCreatePool" res));;
    existingIt ← gets (fun p => m_Pools p !! origPtr);
    (match existingIt with
     | Some _ => warn (MsgPoolAlreadyExists lineNumber origPtr)
     | None => mret tt
     end);;
    modify (fun p => set_Pools (<[origPtr := poolDesc]> (m_Pools p)) p)
  else
    if res =? VK_SUCCESS then
      warn (MsgSucceededOriginallyFailed lineNumber "vmaCreatePool");;
      invoke (vmaDestroyPool (pool poolDesc));; mret tt
    else
      warn (MsgFailedOriginallyAlsoFailed lineNumber "vmaCreatePool" res).

Definition ExecuteCreatePool (lineNumber : Z) (csvSplit : CsvSplit) : M unit :=
  RegisterFunctionCall CreatePool;;
  ok ← ValidateFunctionParameterCount lineNumber csvSplit 7 false;
  if (ok : bool) then
    match CreatePool_params csvSplit with
    | Some (poolCreateInfo, origPtr) =>
        on_Stats Statistics_RegisterCreatePool;;
        r ← invoke (vmaCreatePool poolCreateInfo);
        AddPool lineNumber origPtr (reply_res r) {| pool := reply_handle r |}
    | None => warn (MsgInvalidParameters lineNumber "vmaCreatePool")
    end
  else mret tt.

Definition ExecuteDestroyPool (lineNumber : Z) (csvSplit : CsvSplit) : M unit :=
  RegisterFunctionCall DestroyPool;;
  ok ← ValidateFunctionParameterCount lineNumber csvSplit 1 false;
  if (ok : bool) then
    match StrRangeToPtr (param csvSplit 0) with
    | Some origPtr =>
        if negb (origPtr =? 0) then
          it ← gets (fun p => m_Pools p !! origPtr);
          match it with
          | Some poolDesc =>
              invoke (vmaDestroyPool (pool poolDesc));;
              modify (fun p => set_Pools (delete origPtr (m_Pools p)) p)
          | None => warn (MsgPoolNotFound lineNumber origPtr)
          end
        else mret tt
    | None => warn (MsgInvalidParameters lineNumber "vmaDestroyPool")
    end
  else mret tt.

Definition ExecuteSetAllocationUserData (lineNumber : Z) (csvSplit : CsvSplit) : M unit :=
  RegisterFunctionCall SetAllocationUserData;;
  if negb (g_UserDataEnabled g) then mret tt
  else
    ok ← ValidateFunctionParameterCount lineNumber csvSplit 2 true;
    if (ok : bool) then
      match StrRangeToPtr (param csvSplit 0) with
      | Some origPtr =>
          it ← gets (fun p => m_Allocations p !! origPtr);
          match it with
          | Some allocDesc =>
              pUserData ← UserDataOfColumn lineNumber (allocationFlags allocDesc) csvSplit 1;
              invoke (vmaSetAllocationUserData (allocation allocDesc) pUserData);;
              mret tt
          | None => warn (MsgAllocationNotFound lineNumber origPtr)
          end
      | None => warn (MsgInvalidParameters lineNumber "vmaSetAllocationUserData")
      end
    else mret tt.

(** The conversions of [ExecuteCreateBuffer]: the buffer description, the
    allocation description (pool and user data not yet set), [origPool]
    and [origPtr]. *)
Definition CreateBuffer_params (csvSplit : CsvSplit)
    : option (VkBufferCreateInfo * VmaAllocationCreateInfo * Z * Z) :=
  flags ← StrRangeToUint32 (param csvSplit 0);
  size ← StrRangeToUint64 (param csvSplit 1);
  usage ← StrRangeToUint32 (param csvSplit 2);
  sharingMode ← StrRangeToUint32 (param csvSplit 3);
  allocFlags ← StrRangeToUint32 (param csvSplit 4);
  allocUsage ← StrRangeToUint32 (param csvSplit 5);
  requiredFlags ← StrRangeToUint32 (param csvSplit 6);
  preferredFlags ← StrRangeToUint32 (param csvSplit 7);
  memoryTypeBits ← StrRangeToUint32 (param csvSplit 8);
  origPool ← StrRangeToPtr (param csvSplit 9);
  origPtr ← StrRangeToPtr (param csvSplit 10);
  Some ({| buf_flags := flags; buf_size := size; buf_usage := usage;
           buf_sharingMode := sharingMode |},
        {| aci_flags := allocFlags; aci_usage := allocUsage;
           aci_requiredFlags := requiredFlags; aci_preferredFlags := preferredFlags;
           aci_memoryTypeBits := memoryTypeBits; aci_pool := VK_NULL_HANDLE;
           aci_pUserData := nullptr |}, origPool, origPtr).

Definition ExecuteCreateBuffer (lineNumber : Z) (csvSplit : CsvSplit) : M unit :=
  RegisterFunctionCall CreateBuffer;;
  ok ← ValidateFunctionParameterCount lineNumber csvSplit 12 true;
  if (ok : bool) then
    match CreateBuffer_params csvSplit with
    | Some (bufCreateInfo, allocCreateInfo, origPool, origPtr) =>
        found ← FindPool lineNumber origPool;
        pUserData ← UserDataOfColumn lineNumber (aci_flags allocCreateInfo) csvSplit 11;
        on_Stats (Statistics_RegisterCreateBuffer (buf_usage bufCreateInfo));;
        r ← invoke (vmaCreateBuffer bufCreateInfo
                      (with_pool_userdata allocCreateInfo found.2 pUserData));
        AddAllocation lineNumber origPtr (reply_res r) "vmaCreateBuffer"
          {| allocationFlags := aci_flags allocCreateInfo;
             allocation := reply_allocation r;
             buffer := reply_handle r;
             image := VK_NULL_HANDLE |}
    | None => warn (MsgInvalidParameters lineNumber "vmaCreateBuffer")
    end
  else mret tt.

Definition DestroyAllocation (lineNumber : Z) (csvSplit : CsvSplit) : M unit :=
  ok ← ValidateFunctionParameterCount lineNumber csvSplit 1 false;
  if (ok : bool) then
    match StrRangeToPtr (param csvSplit 0) with
    | Some origAllocPtr =>
        if negb (origAllocPtr =? 0) then
          it ← gets (fun p => m_Allocations p !! origAllocPtr);
          match it with
          | Some allocDesc =>
              Destroy allocDesc;;
              modify (fun p => set_Allocations (delete origAllocPtr (m_Allocations p)) p)
          | None => warn (MsgAllocationNotFound lineNumber origAllocPtr)
          end
        else mret tt
    | None => warn (MsgInvalidParameters lineNumber "vmaDestroyBuffer")
    end
  else mret tt.

Definition ExecuteDestroyBuffer (lineNumber : Z) (csvSplit : CsvSplit) : M unit :=
  RegisterFunctionCall DestroyBuffer;; DestroyAllocation lineNumber csvSplit.

Definition ExecuteDestroyImage (lineNumber : Z) (csvSplit : CsvSplit) : M unit :=
  RegisterFunctionCall DestroyImage;; DestroyAllocation lineNumber csvSplit.

Definition ExecuteFreeMemory (lineNumber : Z) (csvSplit : CsvSplit) : M unit :=
  RegisterFunctionCall FreeMemory;; DestroyAllocation lineNumber csvSplit.

Definition CreateImage_params (csvSplit : CsvSplit)
    : option (VkImageCreateInfo * VmaAllocationCreateInfo * Z * Z) :=
  flags ← StrRangeToUint32 (param csvSplit 0);
  imageType ← StrRangeToUint32 (param csvSplit 1);
  format ← StrRangeToUint32 (param csvSplit 2);
  width ← StrRangeToUint32 (param csvSplit 3);
  height ← StrRangeToUint32 (param csvSplit 4);
  depth ← StrRangeToUint32 (param csvSplit 5);
  mipLevels ← StrRangeToUint32 (param csvSplit 6);
  arrayLayers ← StrRangeToUint32 (param csvSplit 7);
  samples ← StrRangeToUint32 (param csvSplit 8);
  tiling ← StrRangeToUint32 (param csvSplit 9);
  usage ← StrRangeToUint32 (param csvSplit 10);
  sharingMode ← StrRangeToUint32 (param csvSplit 11);
  initialLayout ← StrRangeToUint32 (param csvSplit 12);
  allocFlags ← StrRangeToUint32 (param csvSplit 13);
  allocUsage ← StrRangeToUint32 (param csvSplit 14);
  requiredFlags ← StrRangeToUint32 (param csvSplit 15);
  preferredFlags ← StrRangeToUint32 (param csvSplit 16);
  memoryTypeBits ← StrRangeToUint32 (param csvSplit 17);
  origPool ← StrRangeToPtr (param csvSplit 18);
  origPtr ← StrRangeToPtr (param csvSplit 19);
  Some ({| img_flags := flags; img_imageType := imageType; img_format := format;
           img_extent_width := width; img_extent_height := height;
           img_extent_depth := depth; img_mipLevels := mipLevels;
           img_arrayLayers := arrayLayers; img_samples := samples;
           img_tiling := tiling; img_usage := usage;
           img_sharingMode := sharingMode; img_initialLayout := initialLayout |},
        {| aci_flags := allocFlags; aci_usage := allocUsage;
           aci_requiredFlags := requiredFlags; aci_preferredFlags := preferredFlags;
           aci_memoryTypeBits := memoryTypeBits; aci_pool := VK_NULL_HANDLE;
           aci_pUserData := nullptr |}, origPool, origPtr).

Definition ExecuteCreateImage (lineNumber : Z) (csvSplit : CsvSplit) : M unit :=
  RegisterFunctionCall CreateImage;;
  ok ← ValidateFunctionParameterCount lineNumber csvSplit 21 true;
  if (ok : bool) then
    match CreateImage_params csvSplit with
    | Some (imageCreateInfo, allocCreateInfo, origPool, origPtr) =>
        found ← FindPool lineNumber origPool;
        pUserData ← UserDataOfColumn lineNumber (aci_flags allocCreateInfo) csvSplit 20;
        on_Stats (Statistics_RegisterCreateImage
                    (img_usage imageCreateInfo) (img_tiling imageCreateInfo));;
        r ← invoke (vmaCreateImage imageCreateInfo
                      (with_pool_userdata allocCreateInfo found.2 pUserData));
        AddAllocation lineNumber origPtr (reply_res r) "vmaCreateImage"
          {| allocationFlags := aci_flags allocCreateInfo;
             allocation := reply_allocation r;
             buffer := VK_NULL_HANDLE;
             image := reply_handle r |}
    | None => warn (MsgInvalidParameters lineNumber "vmaCreateImage")
    end
  else mret tt.

Definition ExecuteCreateLostAllocation (lineNumber : Z) (csvSplit : CsvSplit) : M unit :=
  RegisterFunctionCall CreateLostAllocation;;
  ok ← ValidateFunctionParameterCount lineNumber csvSplit 1 false;
  if (ok : bool) then
    match StrRangeToPtr (param csvSplit 0) with
    | Some origPtr =>
        r ← invoke vmaCreateLostAllocation;
        on_Stats Statistics_RegisterCreateAllocation;;
        AddAllocation lineNumber origPtr VK_SUCCESS "vmaCreateLostAllocation"
          {| allocationFlags := 0; allocation := reply_allocation r;
             buffer := VK_NULL_HANDLE; image := VK_NULL_HANDLE |}
    | None => warn (MsgInvalidParameters lineNumber "vmaCreateLostAllocation")
    end
  else mret tt.

Definition AllocateMemory_params (csvSplit : CsvSplit)
    : option (VkMemoryRequirements * VmaAllocationCreateInfo * Z * Z) :=
  size ← StrRangeToUint64 (param csvSplit 0);
  alignment ← StrRangeToUint64 (param csvSplit 1);
  memReqTypeBits ← StrRangeToUint32 (param csvSplit 2);
  allocFlags ← StrRangeToUint32 (param csvSplit 3);
  allocUsage ← StrRangeToUint32 (param csvSplit 4);
  requiredFlags ← StrRangeToUint32 (param csvSplit 5);
  preferredFlags ← StrRangeToUint32 (param csvSplit 6);
  memoryTypeBits ← StrRangeToUint32 (param csvSplit 7);
  origPool ← StrRangeToPtr (param csvSplit 8);
  origPtr ← StrRangeToPtr (param csvSplit 9);
  Some ({| mr_size := size; mr_alignment := alignment;
           mr_memoryTypeBits := memReqTypeBits |},
        {| aci_flags := allocFlags; aci_usage := allocUsage;
           aci_requiredFlags := requiredFlags; aci_preferredFlags := preferredFlags;
           aci_memoryTypeBits := memoryTypeBits; aci_pool := VK_NULL_HANDLE;
           aci_pUserData := nullptr |}, origPool, origPtr).

Definition ExecuteAllocateMemory (lineNumber : Z) (csvSplit : CsvSplit) : M unit :=
  RegisterFunctionCall AllocateMemory;;
  ok ← ValidateFunctionParameterCount lineNumber csvSplit 11 true;
  if (ok : bool) then
    match AllocateMemory_params csvSplit with
    | Some (memReq, allocCreateInfo, origPool, origPtr) =>
        found ← FindPool lineNumber origPool;
        pUserData ← UserDataOfColumn lineNumber (aci_flags allocCreateInfo) csvSplit 10;
        on_Stats Statistics_RegisterCreateAllocation;;
        r ← invoke (vmaAllocateMemory memReq
                      (with_pool_userdata allocCreateInfo found.2 pUserData));
        AddAllocation lineNumber origPtr (reply_res r) "vmaAllocateMemory"
          {| allocationFlags := aci_flags allocCreateInfo;
             allocation := reply_allocation r;
             buffer := VK_NULL_HANDLE; image := VK_NULL_HANDLE |}
    | None => warn (MsgInvalidParameters lineNumber "vmaAllocateMemory")
    end
  else mret tt.

(** The conversions of [ExecuteAllocateMemoryForBufferOrImage]; the two
    booleans are [requiresDedicatedAllocation] and
    [prefersDedicatedAllocation]. *)
Definition AllocateMemoryFor_params (csvSplit : CsvSplit)
    : option (VkMemoryRequirements * VmaAllocationCreateInfo * bool * bool * Z * Z) :=
  size ← StrRangeToUint64 (param csvSplit 0);
  alignment ← StrRangeToUint64 (param csvSplit 1);
  memReqTypeBits ← StrRangeToUint32 (param csvSplit 2);
  allocFlags ← StrRangeToUint32 (param csvSplit 3);
  requiresDedicatedAllocation ← StrRangeToBool (param csvSplit 4);
  prefersDedicatedAllocation ← StrRangeToBool (param csvSplit 5);
  allocUsage ← StrRangeToUint32 (param csvSplit 6);
  requiredFlags ← StrRangeToUint32 (param csvSplit 7);
  preferredFlags ← StrRangeToUint32 (param csvSplit 8);
  memoryTypeBits ← StrRangeToUint32 (param csvSplit 9);
  origPool ← StrRangeToPtr (param csvSplit 10);
  origPtr ← StrRangeToPtr (param csvSplit 11);
  Some ({| mr_size := size; mr_alignment := alignment;
           mr_memoryTypeBits := memReqTypeBits |},
        {| aci_flags := allocFlags; aci_usage := allocUsage;
           aci_requiredFlags := requiredFlags; aci_preferredFlags := preferredFlags;
           aci_memoryTypeBits := memoryTypeBits; aci_pool := VK_NULL_HANDLE;
           aci_pUserData := nullptr |},
        requiresDedicatedAllocation, prefersDedicatedAllocation, origPool, origPtr).

Definition AllocateMemoryFor_name : string :=
  "vmaAllocateMemory (called as vmaAllocateMemoryForBuffer or vmaAllocateMemoryForImage)".

Definition ExecuteAllocateMemoryForBufferOrImage (lineNumber : Z)
    (csvSplit : CsvSplit) (objType : OBJECT_TYPE) : M unit :=
  match objType with
  | BUFFER => RegisterFunctionCall AllocateMemoryForBuffer
  | IMAGE => RegisterFunctionCall AllocateMemoryForImage
  end;;
  ok ← ValidateFunctionParameterCount lineNumber csvSplit 13 true;
  if (ok : bool) then
    match AllocateMemoryFor_params csvSplit with
    | Some (memReq, allocCreateInfo, requiresDedicatedAllocation,
            prefersDedicatedAllocation, origPool, origPtr) =>
        found ← FindPool lineNumber origPool;
        pUserData ← UserDataOfColumn lineNumber (aci_flags allocCreateInfo) csvSplit 12;
        let flags :=
          if requiresDedicatedAllocation || prefersDedicatedAllocation
          then Z.lor (aci_flags allocCreateInfo) VMA_ALLOCATION_CREATE_DEDICATED_MEMORY_BIT
          else aci_flags allocCreateInfo in
        issued ← gets m_AllocateForBufferImageWarningIssued;
        (if negb issued then
           warn (MsgCannotReplayAccurately lineNumber);;
           modify (set_AllocateForBufferImageWarningIssued true)
         else mret tt);;
        on_Stats Statistics_RegisterCreateAllocation;;
        r ← invoke (vmaAllocateMemory memReq
                      (with_flags (with_pool_userdata allocCreateInfo found.2 pUserData)
                         flags));
        AddAllocation lineNumber origPtr (reply_res r) AllocateMemoryFor_name
          {| allocationFlags := flags;
             allocation := reply_allocation r;
             buffer := VK_NULL_HANDLE; image := VK_NULL_HANDLE |}
    | None => warn (MsgInvalidParameters lineNumber
                      "vmaAllocateMemoryForBuffer or vmaAllocateMemoryForImage")
    end
  else mret tt.

Definition ExecuteMapMemory (lineNumber : Z) (csvSplit : CsvSplit) : M unit :=
  RegisterFunctionCall MapMemory;;
  ok ← ValidateFunctionParameterCount lineNumber csvSplit 1 false;
  if (ok : bool) then
    match StrRangeToPtr (param csvSplit 0) with
    | Some origPtr =>
        if negb (origPtr =? 0) then
          it ← gets (fun p => m_Allocations p !! origPtr);
          match it with
          | Some allocDesc =>
              if negb (allocation allocDesc =? VK_NULL_HANDLE) then
                r ← invoke (vmaMapMemory (allocation allocDesc));
                if negb (reply_res r =? VK_SUCCESS)
                then printf (MsgMapMemoryFailed lineNumber (reply_res r))
                else mret tt
              else warn (MsgAllocationIsNull lineNumber "vmaMapMemory")
          | None => warn (MsgAllocationNotFound lineNumber origPtr)
          end
        else mret tt
    | None => warn (MsgInvalidParameters lineNumber "vmaMapMemory")
    end
  else mret tt.

Definition ExecuteUnmapMemory (lineNumber : Z) (csvSplit : CsvSplit) : M unit :=
  RegisterFunctionCall UnmapMemory;;
  ok ← ValidateFunctionParameterCount lineNumber csvSplit 1 false;
  if (ok : bool) then
    match StrRangeToPtr (param csvSplit 0) with
    | Some origPtr =>
        if negb (origPtr =? 0) then
          it ← gets (fun p => m_Allocations p !! origPtr);
          match it with
          | Some allocDesc =>
              if negb (allocation allocDesc =? VK_NULL_HANDLE) then
                invoke (vmaUnmapMemory (allocation allocDesc));; mret tt
              else warn (MsgAllocationIsNull lineNumber "vmaUnmapMemory")
          | None => warn (MsgAllocationNotFound lineNumber origPtr)
          end
        else mret tt
    | None => warn (MsgInvalidParameters lineNumber "vmaMapMemory")
    end
  else mret tt.

(** The conversions of [ExecuteFlushAllocation] and
    [ExecuteInvalidateAllocation]: [origPtr], [offset], [size]. *)
Definition FlushAllocation_params (csvSplit : CsvSplit) : option (Z * Z * Z) :=
  origPtr ← StrRangeToPtr (param csvSplit 0);
  offset ← StrRangeToUint64 (param csvSplit 1);
  size ← StrRangeToUint64 (param csvSplit 2);
  Some (origPtr, offset, size).

Definition ExecuteFlushAllocation (lineNumber : Z) (csvSplit : CsvSplit) : M unit :=
  RegisterFunctionCall FlushAllocation;;
  ok ← ValidateFunctionParameterCount lineNumber csvSplit 3 false;
  if (ok : bool) then
    match FlushAllocation_params csvSplit with
    | Some (origPtr, offset, size) =>
        if negb (origPtr =? 0) then
          it ← gets (fun p => m_Allocations p !! origPtr);
          match it with
          | Some allocDesc =>
              if negb (allocation allocDesc =? VK_NULL_HANDLE) then
                invoke (vmaFlushAllocation (allocation allocDesc) offset size);; mret tt
              else warn (MsgAllocationIsNull lineNumber "vmaFlushAllocation")
          | None => warn (MsgAllocationNotFound lineNumber origPtr)
          end
        else mret tt
    | None => warn (MsgInvalidParameters lineNumber "vmaFlushAllocation")
    end
  else mret tt.

Definition ExecuteInvalidateAllocation (lineNumber : Z) (csvSplit : CsvSplit) : M unit :=
  RegisterFunctionCall InvalidateAllocation;;
  ok ← ValidateFunctionParameterCount lineNumber csvSplit 3 false;
  if (ok : bool) then
    match FlushAllocation_params csvSplit with
    | Some (origPtr, offset, size) =>
        if negb (origPtr =? 0) then
          it ← gets (fun p => m_Allocations p !! origPtr);
          match it with
          | Some allocDesc =>
              if negb (allocation allocDesc =? VK_NULL_HANDLE) then
                invoke (vmaInvalidateAllocation (allocation allocDesc) offset size);;
                mret tt
              else warn (MsgAllocationIsNull lineNumber "vmaInvalidateAllocation")
          | None => warn (MsgAllocationNotFound lineNumber origPtr)
          end
        else mret tt
    | None => warn (MsgInvalidParameters lineNumber "vmaInvalidateAllocation")
    end
  else mret tt.

Definition ExecuteTouchAllocation (lineNumber : Z) (csvSplit : CsvSplit) : M unit :=
  RegisterFunctionCall TouchAllocation;;
  ok ← ValidateFunctionParameterCount lineNumber csvSplit 1 false;
  if (ok : bool) then
    match StrRangeToPtr (param csvSplit 0) with
    | Some origPtr =>
        it ← gets (fun p => m_Allocations p !! origPtr);
        match it with
        | Some allocDesc =>
            if negb (allocation allocDesc =? VK_NULL_HANDLE) then
              invoke (vmaTouchAllocation (allocation allocDesc));; mret tt
            else warn (MsgAllocationIsNull lineNumber "vmaTouchAllocation")
        | None => warn (MsgAllocationNotFound lineNumber origPtr)
        end
    | None => warn (MsgInvalidParameters lineNumber "vmaTouchAllocation")
    end
  else mret tt.

Definition ExecuteGetAllocationInfo (lineNumber : Z) (csvSplit : CsvSplit) : M unit :=
  RegisterFunctionCall GetAllocationInfo;;
  ok ← ValidateFunctionParameterCount lineNumber csvSplit 1 false;
  if (ok : bool) then
    match StrRangeToPtr (param csvSplit 0) with
    | Some origPtr =>
        it ← gets (fun p => m_Allocations p !! origPtr);
        match it with
        | Some allocDesc =>
            if negb (allocation allocDesc =? VK_NULL_HANDLE) then
              invoke (vmaGetAllocationInfo (allocation allocDesc));; mret tt
            else warn (MsgAllocationIsNull lineNumber "vmaGetAllocationInfo")
        | None => warn (MsgAllocationNotFound lineNumber origPtr)
        end
    | None => warn (MsgInvalidParameters lineNumber "vmaGetAllocationInfo")
    end
  else mret tt.

Definition ExecuteMakePoolAllocationsLost (lineNumber : Z) (csvSplit : CsvSplit) : M unit :=
  RegisterFunctionCall MakePoolAllocationsLost;;
  ok ← ValidateFunctionParameterCount lineNumber csvSplit 1 false;
  if (ok : bool) then
    match StrRangeToPtr (param csvSplit 0) with
    | Some origPtr =>
        if negb (origPtr =? 0) then
          it ← gets (fun p => m_Pools p !! origPtr);
          match it with
          | Some poolDesc =>
              invoke (vmaMakePoolAllocationsLost (pool poolDesc));; mret tt
          | None => warn (MsgPoolNotFound lineNumber origPtr)
          end
        else mret tt
    | None => warn (MsgInvalidParameters lineNumber "vmaMakePoolAllocationsLost")
    end
  else mret tt.

(** Lines 481-525 of [ExecuteLine]: the thread, the time and the frame
    index of the line. *)
Definition ExecuteLine_header (lineNumber : Z) (csvSplit : CsvSplit) : M unit :=
  match StrRangeToUint32 (to_str (GetRange csvSplit 0)) with
  | Some threadId =>
      it ← gets (fun p => m_Threads p !! threadId);
      match it with
      | Some threadInfo =>
          modify (fun p => set_Threads
            (<[threadId := {| callCount := uint32_inc (callCount threadInfo) |}]>
               (m_Threads p)) p)
      | None =>
          modify (fun p => set_Threads
            (<[threadId := {| callCount := 1 |}]> (m_Threads p)) p)
      end
  | None => warn (MsgIncorrectThreadId lineNumber)
  end;;
  modify (set_LastLineTimeStr (to_str (GetRange csvSplit 1)));;
  match StrRangeToUint32 (to_str (GetRange csvSplit 2)) with
  | Some frameIndex =>
      current ← gets m_VmaFrameIndex;
      if negb (frameIndex =? current) then
        invoke (vmaSetCurrentFrameIndex frameIndex);;
        modify (set_VmaFrameIndex frameIndex)
      else mret tt
  | None => warn (MsgIncorrectFrameIndex lineNumber)
  end.

(** Lines 527-587 of [ExecuteLine]: the handler of the function named in
    column 3. *)
Definition ExecuteLine_dispatch (lineNumber : Z) (csvSplit : CsvSplit) : M unit :=
  let functionName := GetRange csvSplit 3 in
  if StrRangeEq functionName "vmaCreateAllocator" then
    ValidateFunctionParameterCount lineNumber csvSplit 0 false;; mret tt
  else if StrRangeEq functionName "vmaDestroyAllocator" then
    ValidateFunctionParameterCount lineNumber csvSplit 0 false;; mret tt
  else if StrRangeEq functionName "vmaCreatePool" then
    ExecuteCreatePool lineNumber csvSplit
  else if StrRangeEq functionName "vmaDestroyPool" then
    ExecuteDestroyPool lineNumber csvSplit
  else if StrRangeEq functionName "vmaSetAllocationUserData" then
    ExecuteSetAllocationUserData lineNumber csvSplit
  else if StrRangeEq functionName "vmaCreateBuffer" then
    ExecuteCreateBuffer lineNumber csvSplit
  else if StrRangeEq functionName "vmaDestroyBuffer" then
    ExecuteDestroyBuffer lineNumber csvSplit
  else if StrRangeEq functionName "vmaCreateImage" then
    ExecuteCreateImage lineNumber csvSplit
  else if StrRangeEq functionName "vmaDestroyImage" then
    ExecuteDestroyImage lineNumber csvSplit
  else if StrRangeEq functionName "vmaFreeMemory" then
    ExecuteFreeMemory lineNumber csvSplit
  else if StrRangeEq functionName "vmaCreateLostAllocation" then
    ExecuteCreateLostAllocation lineNumber csvSplit
  else if StrRangeEq functionName "vmaAllocateMemory" then
    ExecuteAllocateMemory lineNumber csvSplit
  else if StrRangeEq functionName "vmaAllocateMemoryForBuffer" then
    ExecuteAllocateMemoryForBufferOrImage lineNumber csvSplit BUFFER
  else if StrRangeEq functionName "vmaAllocateMemoryForImage" then
    ExecuteAllocateMemoryForBufferOrImage lineNumber csvSplit IMAGE
  else if StrRangeEq functionName "vmaMapMemory" then
    ExecuteMapMemory lineNumber csvSplit
  else if StrRangeEq functionName "vmaUnmapMemory" then
    ExecuteUnmapMemory lineNumber csvSplit
  else if StrRangeEq functionName "vmaFlushAllocation" then
    ExecuteFlushAllocation lineNumber csvSplit
  else if StrRangeEq functionName "vmaInvalidateAllocation" then
    ExecuteInvalidateAllocation lineNumber csvSplit
  else if StrRangeEq functionName "vmaTouchAllocation" then
    ExecuteTouchAllocation lineNumber csvSplit
  else if StrRangeEq functionName "vmaGetAllocationInfo" then
    ExecuteGetAllocationInfo lineNumber csvSplit
  else if StrRangeEq functionName "vmaMakePoolAllocationsLost" then
    ExecuteMakePoolAllocationsLost lineNumber csvSplit
  else warn (MsgUnknownFunction lineNumber).

(** [ExecuteLine] once the line is split. *)
Definition ExecuteSplitLine (lineNumber : Z) (csvSplit : CsvSplit) : M unit :=
  if bool_decide (FIRST_PARAM_INDEX ≤ GetCount csvSplit)%nat then
    ExecuteLine_header lineNumber csvSplit;;
    ExecuteLine_dispatch lineNumber csvSplit
  else warn (MsgTooFewColumns lineNumber).

Definition ExecuteLine (lineNumber : Z) (line : string) : M unit :=
  ExecuteSplitLine lineNumber (CsvSplit_Set line None).

(** The playback loop of [ProcessFile] over the lines it executes, each
    with its line number. *)
Fixpoint ExecuteLines (lines : list (Z * string)) : M unit :=
  match lines with
  | [] => mret tt
  | (lineNumber, line) :: rest =>
      ExecuteLine lineNumber line;; ExecuteLines rest
  end.

Fixpoint DestroyAll (allocs : list Allocation) : M unit :=
  match allocs with
  | [] => mret tt
  | a :: rest => Destroy a;; DestroyAll rest
  end.

Fixpoint DestroyAllPools (pools : list Pool) : M unit :=
  match pools with
  | [] => mret tt
  | p :: rest => invoke (vmaDestroyPool (pool p));; DestroyAllPools rest
  end.

(** The part of [FinalizeVulkan] that concerns the player's maps
    ([CLEANUP_LEAKED_OBJECTS] is [true]).  The two loops walk an
    [unordered_map], in the order of [unordered_walk].  The teardown of
    the Vulkan device that follows is outside the engine. *)
Definition FinalizeVulkan : M unit :=
  allocs ← gets m_Allocations;
  (if bool_decide (allocs = ∅) then mret tt
   else
     printf (MsgAllocationsNotDestroyed (Z.of_nat (size allocs)));;
     DestroyAll (unordered_walk allocs).*2;;
     modify (set_Allocations ∅));;
  pools ← gets m_Pools;
  (if bool_decide (pools = ∅) then mret tt
   else
     printf (MsgPoolsNotDestroyed (Z.of_nat (size pools)));;
     DestroyAllPools (unordered_walk pools).*2;;
     modify (set_Pools ∅)).

(** [Player::~Player] *)
Definition Player_destructor : M unit :=
  FinalizeVulkan;;
  count ← gets m_WarningCount;
  if below_MAXIMUM (g_Verbosity g) && (MAX_WARNINGS_TO_SHOW <? count)
  then printf (MsgMoreWarningsNotShown (count - MAX_WARNINGS_TO_SHOW))
  else mret tt.

(** One playback: a fresh player executes the lines and is destroyed. *)
Definition Playback (lines : list (Z * string)) : Player :=
  exec (ExecuteLines lines;; Player_destructor) Player_new.

End PlayerMembers.

Arguments ExecuteLine {_ _} g lineNumber line.
Arguments ExecuteLines {_ _} g lines.
Arguments Playback {_ _ _} g lines.

(** ** A reading of [Common.h] and two target allocators

    Concrete implementations of the two interfaces, to run the player on
    actual lines. *)

Module CommonSpec.

Definition digit_of (base : Z) (c : Ascii.ascii) : option Z :=
  let n := Z.of_N (Ascii.N_of_ascii c) in
  let v :=
    if (48 <=? n) && (n <=? 57) then Some (n - 48)
    else if (65 <=? n) && (n <=? 70) then Some (n - 55)
    else if (97 <=? n) && (n <=? 102) then Some (n - 87)
    else None in
  d ← v; if d <? base then Some d else None.

Fixpoint digits_value (base acc : Z) (s : string) : option Z :=
  match s with
  | EmptyString => Some acc
  | String c rest => d ← digit_of base c; digits_value base (acc * base + d) rest
  end.

(** Modelled from the spec: [StrRangeToUint] of [Common.h] is not under
    src/.  "accepts decimal text; fails on any non-digit, overflow, or
    empty field". *)
Definition decimal_StrRangeToUint (bits : Z) (s : string) : option Z :=
  match s with
  | EmptyString => None
  | _ => v ← digits_value 10 0 s; if v <? 2 ^ bits then Some v else None
  end.

(** Modelled from the spec: [StrRangeToPtr] of [Common.h] is not under
    src/.  "accepts hexadecimal text (no 0x prefix assumed); fails
    otherwise; the value 0 is legal". *)
Definition hex_StrRangeToPtr (s : string) : option Z :=
  match s with
  | EmptyString => None
  | _ => v ← digits_value 16 0 s; if v <? 2 ^ 64 then Some v else None
  end.

(** Modelled from the spec: [StrRangeToBool] of [Common.h] is not under
    src/.  "accepts exactly 0/1; fails otherwise". *)
Definition bit_StrRangeToBool (s : string) : option bool :=
  if String.eqb s "0" then Some false
  else if String.eqb s "1" then Some true
  else None.

(** The columns of [s], which starts at offset [pos] of its line; the
    column being read began at [beg].  With [limit = Some n] at most [n]
    more columns are made, the last one taking the rest of the line. *)
Fixpoint columns (s : string) (pos beg : nat) (limit : option nat) : list (nat * nat) :=
  match s with
  | EmptyString => [(beg, pos)]
  | String c rest =>
      if (Z.of_N (Ascii.N_of_ascii c) =? 44) && negb (bool_decide (limit = Some 1%nat)) then
        (beg, pos) :: columns rest (S pos) (S pos) (Nat.pred <$> limit)
      else columns rest (S pos) beg limit
  end.

(** Modelled from the spec: [CsvSplit::Set] of [Common.h] is not under
    src/.  "splits on a single-character delimiter into an ordered
    sequence of sub-ranges, preserving an unbounded final field
    verbatim". *)
Definition comma_CsvSplit_Set (line : string) (maxCount : option nat) : CsvSplit :=
  {| m_Line := line; m_Ranges := columns line 0 0 maxCount |}.

#[export] Instance common : CommonH :=
  {| StrRangeToUint32 := decimal_StrRangeToUint 32;
     StrRangeToUint64 := decimal_StrRangeToUint 64;
     StrRangeToPtr := hex_StrRangeToPtr;
     StrRangeToBool := bit_StrRangeToBool;
     CsvSplit_Set := comma_CsvSplit_Set |}.

End CommonSpec.

(** An allocator that grants every request: the handles it gives count
    the calls made so far. *)
Definition granting_allocator : TargetAllocator :=
  fun history _ =>
    {| reply_res := VK_SUCCESS;
       reply_handle := 1000 + Z.of_nat (length history);
       reply_allocation := 2000 + Z.of_nat (length history) |}.

(** An allocator that refuses every request with
    [VK_ERROR_OUT_OF_DEVICE_MEMORY] and stores null handles. *)
Definition refusing_allocator : TargetAllocator :=
  fun _ _ =>
    {| reply_res := -2;
       reply_handle := VK_NULL_HANDLE;
       reply_allocation := VK_NULL_HANDLE |}.

Definition default_globals : Globals :=
  {| g_Verbosity := DEFAULT; g_UserDataEnabled := true |}.

(** Two libraries: one walks an [unordered_map] in the order of
    [map_to_list], the other in the opposite order. *)
Definition walk_by_key : UnorderedMap :=
  {| unordered_walk := fun V m => map_to_list m;
     unordered_walk_perm := fun V m => reflexivity (map_to_list m) |}.

Definition walk_by_key_reversed : UnorderedMap :=
  {| unordered_walk := fun V m => reverse (map_to_list m);
     unordered_walk_perm := fun V m => reverse_Permutation (map_to_list m) |}.

(** ** What a trace shows *)

(** The frame indices passed to [vmaSetCurrentFrameIndex], oldest first. *)
Definition frame_calls (evs : list Event) : list Z :=
  omap (fun e => match e with
                 | EvCall (vmaSetCurrentFrameIndex f) => Some f
                 | _ => None
                 end) evs.

(** The warnings raised (each a call of [IssueWarning]), with whether the
    message was printed. *)
Definition warnings (evs : list Event) : list (bool * Message) :=
  omap (fun e => match e with
                 | EvWarning shown msg => Some (shown, msg)
                 | _ => None
                 end) evs.

(** The messages printed without asking [IssueWarning]. *)
Definition unguarded (evs : list Event) : list Message :=
  omap (fun e => match e with EvPrintf msg => Some msg | _ => None end) evs.

(** What [IssueWarning] returns when [m_WarningCount] is [count]. *)
Definition shows (g : Globals) (count : Z) : bool :=
  negb (below_MAXIMUM (g_Verbosity g)) || (count <? MAX_WARNINGS_TO_SHOW).

(** ** Reasoning about computations *)

(** [c] keeps [P]. *)
Definition preserves {A} (P : Player -> Prop) (c : M A) : Prop :=
  forall p, P p -> P (c p).2.


(** ** The specification's reading of the frame index *)

Section FrameIndex.
Context `{CommonH}.

(** The frame index the player parses from a line, if it parses one. *)
Definition parsed_frame_index (line : string) : option Z :=
  let csvSplit := CsvSplit_Set line None in
  if bool_decide (FIRST_PARAM_INDEX ≤ GetCount csvSplit)%nat
  then StrRangeToUint32 (to_str (GetRange csvSplit 2))
  else None.

(** From the specification: the allocator is notified of a frame index
    exactly when the one parsed differs from the current one, which it
    then becomes.  The notifications over a run, and the current frame
    index at its end. *)
Fixpoint frame_notifications (current : Z) (lines : list (Z * string)) : list Z :=
  match lines with
  | [] => []
  | (_, line) :: rest =>
      match parsed_frame_index line with
      | Some frameIndex =>
          if frameIndex =? current then frame_notifications current rest
          else frameIndex :: frame_notifications frameIndex rest
      | None => frame_notifications current rest
      end
  end.

Fixpoint final_frame_index (current : Z) (lines : list (Z * string)) : Z :=
  match lines with
  | [] => current
  | (_, line) :: rest =>
      match parsed_frame_index line with
      | Some frameIndex =>
          if frameIndex =? current then final_frame_index current rest
          else final_frame_index frameIndex rest
      | None => final_frame_index current rest
      end
  end.

End FrameIndex.

(** The current frame index is [f] and the notifications so far are [l]. *)
Definition frame_state (f : Z) (l : list Z) (p : Player) : Prop :=
  m_VmaFrameIndex p = f /\ frame_calls (trace p) = l.

(** ** The warning counter against the trace *)

(** The counts printed by the destructor's "more warnings not shown". *)
Definition suppressed_reports (evs : list Event) : list Z :=
  omap (fun e => match e with
                 | EvPrintf (MsgMoreWarningsNotShown n) => Some n
                 | _ => None
                 end) evs.

(** [m_WarningCount] counts the warnings raised so far, on a [size_t];
    the warning raised with the counter at [c] was printed exactly when
    [shows g c]; nothing reported suppressed warnings yet. *)
Definition counted (g : Globals) (p : Player) : Prop :=
  m_WarningCount p = wrap64 (Z.of_nat (length (warnings (trace p)))) /\
  (forall (i : nat) shown msg,
     warnings (trace p) !! i = Some (shown, msg) ->
     shown = shows g (wrap64 (Z.of_nat i))) /\
  suppressed_reports (trace p) = [].

(** ** Tables read off [ExecuteLine] and the handlers *)

Section Handlers.
Context `{CommonH} `{TargetAllocator} (g : Globals).

(** The member function that [ExecuteLine] runs for the name of [func]. *)
Definition handler (func : VMA_FUNCTION) : Z -> CsvSplit -> M unit :=
  match func with
  | CreatePool => ExecuteCreatePool g
  | DestroyPool => ExecuteDestroyPool g
  | SetAllocationUserData => ExecuteSetAllocationUserData g
  | CreateBuffer => ExecuteCreateBuffer g
  | DestroyBuffer => ExecuteDestroyBuffer g
  | CreateImage => ExecuteCreateImage g
  | DestroyImage => ExecuteDestroyImage g
  | FreeMemory => ExecuteFreeMemory g
  | CreateLostAllocation => ExecuteCreateLostAllocation g
  | AllocateMemory => ExecuteAllocateMemory g
  | AllocateMemoryForBuffer =>
      fun lineNumber csvSplit =>
        ExecuteAllocateMemoryForBufferOrImage g lineNumber csvSplit BUFFER
  | AllocateMemoryForImage =>
      fun lineNumber csvSplit =>
        ExecuteAllocateMemoryForBufferOrImage g lineNumber csvSplit IMAGE
  | MapMemory => ExecuteMapMemory g
  | UnmapMemory => ExecuteUnmapMemory g
  | FlushAllocation => ExecuteFlushAllocation g
  | InvalidateAllocation => ExecuteInvalidateAllocation g
  | TouchAllocation => ExecuteTouchAllocation g
  | GetAllocationInfo => ExecuteGetAllocationInfo g
  | MakePoolAllocationsLost => ExecuteMakePoolAllocationsLost g
  end.

End Handlers.

(** [expectedParamCount] and [lastUnbound], as each handler passes them to
    [ValidateFunctionParameterCount]. *)
Definition VMA_FUNCTION_arity (func : VMA_FUNCTION) : nat * bool :=
  match func with
  | CreatePool => (7, false)
  | DestroyPool => (1, false)
  | SetAllocationUserData => (2, true)
  | CreateBuffer => (12, true)
  | DestroyBuffer => (1, false)
  | CreateImage => (21, true)
  | DestroyImage => (1, false)
  | FreeMemory => (1, false)
  | CreateLostAllocation => (1, false)
  | AllocateMemory => (11, true)
  | AllocateMemoryForBuffer => (13, true)
  | AllocateMemoryForImage => (13, true)
  | MapMemory => (1, false)
  | UnmapMemory => (1, false)
  | FlushAllocation => (3, false)
  | InvalidateAllocation => (3, false)
  | TouchAllocation => (1, false)
  | GetAllocationInfo => (1, false)
  | MakePoolAllocationsLost => (1, false)
  end%nat.

(** The test [ok] of [ValidateFunctionParameterCount]. *)
Definition parameter_count_ok (csvSplit : CsvSplit) (expectedParamCount : nat)
    (lastUnbound : bool) : bool :=
  if lastUnbound
  then bool_decide (FIRST_PARAM_INDEX + expectedParamCount - 1 ≤ GetCount csvSplit)%nat
  else bool_decide (GetCount csvSplit = FIRST_PARAM_INDEX + expectedParamCount)%nat.

Definition arity_ok (func : VMA_FUNCTION) (csvSplit : CsvSplit) : bool :=
  parameter_count_ok csvSplit (VMA_FUNCTION_arity func).1 (VMA_FUNCTION_arity func).2.

Definition ALL_VMA_FUNCTIONS : list VMA_FUNCTION :=
  [CreatePool; DestroyPool; SetAllocationUserData; CreateBuffer; DestroyBuffer;
   CreateImage; DestroyImage; FreeMemory; CreateLostAllocation; AllocateMemory;
   AllocateMemoryForBuffer; AllocateMemoryForImage; MapMemory; UnmapMemory;
   FlushAllocation; InvalidateAllocation; TouchAllocation; GetAllocationInfo;
   MakePoolAllocationsLost].

(** The names [ExecuteLine] compares column 3 with. *)
Definition KNOWN_FUNCTIONS : list string :=
  "vmaCreateAllocator" :: "vmaDestroyAllocator" ::
  (VMA_FUNCTION_NAMES <$> ALL_VMA_FUNCTIONS).

(** ** More of what a trace shows *)

(** The duplicate-handle warnings raised: line and original id. *)
Definition duplicate_warnings (evs : list Event) : list (Z * Z) :=
  omap (fun e => match e with
                 | EvWarning _ (MsgAllocationAlreadyExists l o) => Some (l, o)
                 | EvWarning _ (MsgPoolAlreadyExists l o) => Some (l, o)
                 | _ => None
                 end) evs.

(** The user data of a call that carries user data. *)
Definition call_user_data (c : VmaCall) : option UserData :=
  match c with
  | vmaCreateBuffer _ a | vmaCreateImage _ a | vmaAllocateMemory _ a =>
      Some (aci_pUserData a)
  | vmaSetAllocationUserData _ u => Some u
  | _ => None
  end.

(** The user data passed to the allocator, oldest first. *)
Definition user_data_passed (evs : list Event) : list UserData :=
  omap call_user_data (calls_of evs).

(** No allocation is registered under the original id zero. *)
Definition zero_free (p : Player) : Prop := m_Allocations p !! 0 = None.

(** An allocator that grants every request except [vmaMapMemory], which
    it refuses with [VK_ERROR_MEMORY_MAP_FAILED]. *)
Definition unmappable_allocator : TargetAllocator :=
  fun history c =>
    match c with
    | vmaMapMemory _ =>
        {| reply_res := -5; reply_handle := VK_NULL_HANDLE;
           reply_allocation := VK_NULL_HANDLE |}
    | _ => granting_allocator history c
    end.

Definition without_user_data : Globals :=
  {| g_Verbosity := DEFAULT; g_UserDataEnabled := false |}.

Section HeaderEffects.
Context `{CommonH}.

(** [m_Threads] after the header of a line: the thread named in column 0
    has made one more call. *)
Definition header_threads (csvSplit : CsvSplit) (threads : gmap Z Thread) : gmap Z Thread :=
  match StrRangeToUint32 (to_str (GetRange csvSplit 0)) with
  | Some threadId =>
      <[threadId :=
          {| callCount :=
               match threads !! threadId with
               | Some threadInfo => uint32_inc (callCount threadInfo)
               | None => 1
               end |}]> threads
  | None => threads
  end.

(** The warnings the header raises: a thread id or a frame index that
    does not parse. *)
Definition header_messages (lineNumber : Z) (csvSplit : CsvSplit) : list Message :=
  match StrRangeToUint32 (to_str (GetRange csvSplit 0)) with
  | Some _ => []
  | None => [MsgIncorrectThreadId lineNumber]
  end ++
  match StrRangeToUint32 (to_str (GetRange csvSplit 2)) with
  | Some _ => []
  | None => [MsgIncorrectFrameIndex lineNumber]
  end.

(** The allocator calls the header makes: the frame index, when the one
    parsed is not the current one. *)
Definition header_calls (csvSplit : CsvSplit) (current : Z) : list VmaCall :=
  match StrRangeToUint32 (to_str (GetRange csvSplit 2)) with
  | Some frameIndex =>
      if frameIndex =? current then [] else [vmaSetCurrentFrameIndex frameIndex]
  | None => []
  end.

End HeaderEffects.

(** ** The reconciliation of a creation *)

(** The events of raising [msgs] one after the other, the counter being
    [count] at the first. *)
Fixpoint warn_events (g : Globals) (count : Z) (msgs : list Message) : list Event :=
  match msgs with
  | [] => []
  | msg :: rest =>
      EvWarning (shows g count) msg :: warn_events g (size_t_inc count) rest
  end.

(** The entry point that [Destroy] invokes for an allocation. *)
Definition Destroy_call (alloc : Allocation) : VmaCall :=
  if negb (buffer alloc =? VK_NULL_HANDLE)
  then vmaDestroyBuffer (buffer alloc) (allocation alloc)
  else if negb (image alloc =? VK_NULL_HANDLE)
  then vmaDestroyImage (image alloc) (allocation alloc)
  else vmaFreeMemory (allocation alloc).

(** From the specification (the table of section 4.6, and the duplicate
    warning of section 4.4): the warnings of a creation whose recorded id
    is [origPtr] and whose live call returned [res]; [existing] tells
    whether [origPtr] is registered already, [duplicate] is the warning
    for that. *)
Definition reconcile_messages (lineNumber origPtr res : Z) (functionName : string)
    (existing : bool) (duplicate : Message) : list Message :=
  if negb (origPtr =? 0) then
    (if res =? VK_SUCCESS then []
     else [MsgFailedOriginallySucceeded lineNumber functionName res]) ++
    (if existing then [duplicate] else [])
  else if res =? VK_SUCCESS then [MsgSucceededOriginallyFailed lineNumber functionName]
  else [MsgFailedOriginallyAlsoFailed lineNumber functionName res].

(** The live object is destroyed at once: recorded id zero, live call
    succeeded. *)
Definition discarded (origPtr res : Z) : bool := (origPtr =? 0) && (res =? VK_SUCCESS).

(** The registries and the allocator calls are these. *)
Definition quiet (allocs : gmap Z Allocation) (pools : gmap Z Pool)
    (cs : list VmaCall) (p : Player) : Prop :=
  m_Allocations p = allocs /\ m_Pools p = pools /\ calls p = cs.

(** The pool that [FindPool] gives for [origPool]: the null handle for
    zero and for an id that is not registered. *)
Definition find_pool (pools : gmap Z Pool) (origPool : Z) : Z :=
  if negb (origPool =? 0) then
    match pools !! origPool with
    | Some poolDesc => pool poolDesc
    | None => VK_NULL_HANDLE
    end
  else VK_NULL_HANDLE.

Section UserDataValue.
Context `{CommonH} (g : Globals).

(** From the specification: the user data passed for parameter column [i]
    of a line.  Null when user data is disabled or the column is absent;
    the rest of the line when the flags ask for a string; otherwise the
    column read as a hexadecimal pointer, null when that fails. *)
Definition user_data_value (allocCreateFlags : Z) (csvSplit : CsvSplit) (i : nat)
    : UserData :=
  if bool_decide (FIRST_PARAM_INDEX + i < GetCount csvSplit)%nat then
    if negb (g_UserDataEnabled g) then nullptr
    else if test_bits allocCreateFlags VMA_ALLOCATION_CREATE_USER_DATA_COPY_STRING_BIT
    then
      let column := GetRange csvSplit (FIRST_PARAM_INDEX + i) in
      UdStr (String.substring (sr_beg column)
               (sr_end (GetLine csvSplit) - sr_beg column) (sr_buf column))
    else
      match StrRangeToPtr (to_str (GetRange csvSplit (FIRST_PARAM_INDEX + i))) with
      | Some pUserData => UdPtr pUserData
      | None => nullptr
      end
  else nullptr.

End UserDataValue.

Section Reconciled.
Context `{TargetAllocator}.

(** [final] is reached from [p] by one live call [c] that [is_live]
    accepts, made with the registries of [p] untouched and no other call
    in between, followed by [reconcile] on what the allocator replied. *)
Definition reconciled_from (p final : Player) (is_live : VmaCall -> Prop)
    (reconcile : VmaReply -> M unit) : Prop :=
  exists p1 c,
    is_live c /\
    m_Allocations p1 = m_Allocations p /\
    m_Pools p1 = m_Pools p /\
    calls p1 = calls p ++ [c] /\
    final = exec (reconcile (vma_reply (calls p) c)) p1.

End Reconciled.

(** Every message printed so far without asking [IssueWarning] is a
    failure of [vmaMapMemory]. *)
Definition bypasses_only_on_map_failure (p : Player) : Prop :=
  Forall (fun msg => exists lineNumber res, msg = MsgMapMemoryFailed lineNumber res)
    (unguarded (trace p)).

(** ** The usage classes of [Statistics] *)

(** The transfer bits of Vulkan, which the comments of
    [BufferUsageToClass] and [ImageUsageToClass] name as ignored. *)
Definition VK_BUFFER_USAGE_TRANSFER_SRC_BIT : Z := 0x1.
Definition VK_BUFFER_USAGE_TRANSFER_DST_BIT : Z := 0x2.
Definition VK_IMAGE_USAGE_TRANSFER_SRC_BIT : Z := 0x1.
Definition VK_IMAGE_USAGE_TRANSFER_DST_BIT : Z := 0x2.

(** The bits that [BufferUsageToClass] tests, all together. *)
Definition BUFFER_CLASS_BITS : Z :=
  Z.lor (Z.lor VK_BUFFER_USAGE_INDIRECT_BUFFER_BIT
           (Z.lor VK_BUFFER_USAGE_VERTEX_BUFFER_BIT VK_BUFFER_USAGE_INDEX_BUFFER_BIT))
    (Z.lor (Z.lor VK_BUFFER_USAGE_STORAGE_BUFFER_BIT VK_BUFFER_USAGE_STORAGE_TEXEL_BUFFER_BIT)
       (Z.lor VK_BUFFER_USAGE_UNIFORM_BUFFER_BIT VK_BUFFER_USAGE_UNIFORM_TEXEL_BUFFER_BIT)).

(** The bits that [ImageUsageToClass] tests, all together. *)
Definition IMAGE_CLASS_BITS : Z :=
  Z.lor VK_IMAGE_USAGE_DEPTH_STENCIL_ATTACHMENT_BIT
    (Z.lor (Z.lor VK_IMAGE_USAGE_INPUT_ATTACHMENT_BIT
              (Z.lor VK_IMAGE_USAGE_TRANSIENT_ATTACHMENT_BIT
                 VK_IMAGE_USAGE_COLOR_ATTACHMENT_BIT))
       VK_IMAGE_USAGE_SAMPLED_BIT).

(** ** The getters of [Statistics] and the totals of [PrintStats] *)

Definition GetImageCreationCount (s : Statistics) (imgClass : nat) : Z :=
  default 0 (m_ImageCreationCount s !! imgClass).

Definition GetLinearImageCreationCount (s : Statistics) : Z :=
  m_LinearImageCreationCount s.

Definition GetBufferCreationCount (s : Statistics) (bufClass : nat) : Z :=
  default 0 (m_BufferCreationCount s !! bufClass).

Definition GetAllocationCreationCount (s : Statistics) : Z :=
  m_AllocationCreationCount s.

Definition GetPoolCreationCount (s : Statistics) : Z := m_PoolCreationCount s.

(** [bufferCreationCount] of [PrintStats], a sum on [size_t]. *)
Definition bufferCreationCount (s : Statistics) : Z :=
  wrap64 (GetBufferCreationCount s 0 + GetBufferCreationCount s 1 +
          GetBufferCreationCount s 2 + GetBufferCreationCount s 3).

(** [imageCreationCount] of [PrintStats], a sum on [size_t]. *)
Definition imageCreationCount (s : Statistics) : Z :=
  wrap64 (GetImageCreationCount s 0 + GetImageCreationCount s 1 +
          GetImageCreationCount s 2 + GetImageCreationCount s 3 +
          GetLinearImageCreationCount s).

(** ** Counting the calls of a trace *)

Definition is_vmaCreatePool (c : VmaCall) : bool :=
  match c with vmaCreatePool _ => true | _ => false end.

Definition is_vmaCreateBuffer (c : VmaCall) : bool :=
  match c with vmaCreateBuffer _ _ => true | _ => false end.

Definition is_vmaCreateImage (c : VmaCall) : bool :=
  match c with vmaCreateImage _ _ => true | _ => false end.

(** The entry points that give an allocation. *)
Definition is_allocation_creation (c : VmaCall) : bool :=
  match c with
  | vmaCreateBuffer _ _ | vmaCreateImage _ _ | vmaAllocateMemory _ _
  | vmaCreateLostAllocation => true
  | _ => false
  end.

(** How many of the calls [cs] satisfy [f]. *)
Definition count_calls (f : VmaCall -> bool) (cs : list VmaCall) : Z :=
  Z.of_nat (length (List.filter f cs)).

(** The creation counters of [m_Stats] are, on [size_t], the numbers of
    creation calls made so far. *)
Definition stats_agree (p : Player) : Prop :=
  length (m_BufferCreationCount (m_Stats p)) = 4%nat /\
  length (m_ImageCreationCount (m_Stats p)) = 4%nat /\
  GetPoolCreationCount (m_Stats p) = wrap64 (count_calls is_vmaCreatePool (calls p)) /\
  bufferCreationCount (m_Stats p) = wrap64 (count_calls is_vmaCreateBuffer (calls p)) /\
  imageCreationCount (m_Stats p) = wrap64 (count_calls is_vmaCreateImage (calls p)) /\
  GetAllocationCreationCount (m_Stats p) =
    wrap64 (count_calls is_allocation_creation (calls p)).

(** ** The lines of a run, by what they name *)

Section LinesOfARun.
Context `{CommonH}.

(** [ExecuteLine] finds the columns of a call in [line] and the name of
    [func] in column 3. *)
Definition names_function (func : VMA_FUNCTION) (line : string) : bool :=
  let csvSplit := CsvSplit_Set line None in
  bool_decide (FIRST_PARAM_INDEX ≤ GetCount csvSplit)%nat &&
  StrRangeEq (GetRange csvSplit 3) (VMA_FUNCTION_NAMES func).

(** The thread id that [ExecuteLine] reads in column 0, when the line has
    the columns of a call and the id parses. *)
Definition thread_of_line (line : string) : option Z :=
  let csvSplit := CsvSplit_Set line None in
  if bool_decide (FIRST_PARAM_INDEX ≤ GetCount csvSplit)%nat
  then StrRangeToUint32 (to_str (GetRange csvSplit 0))
  else None.

(** The conversions that guard the body of the handler of [func] all
    succeed. *)
Definition decodes (func : VMA_FUNCTION) (csvSplit : CsvSplit) : bool :=
  match func with
  | CreatePool => bool_decide (is_Some (CreatePool_params csvSplit))
  | CreateBuffer => bool_decide (is_Some (CreateBuffer_params csvSplit))
  | CreateImage => bool_decide (is_Some (CreateImage_params csvSplit))
  | AllocateMemory => bool_decide (is_Some (AllocateMemory_params csvSplit))
  | AllocateMemoryForBuffer | AllocateMemoryForImage =>
      bool_decide (is_Some (AllocateMemoryFor_params csvSplit))
  | FlushAllocation | InvalidateAllocation =>
      bool_decide (is_Some (FlushAllocation_params csvSplit))
  | _ => bool_decide (is_Some (StrRangeToPtr (param csvSplit 0)))
  end.

(** What the handlers that refer to an allocation convert: [origPtr], and
    for flush and invalidate [offset] and [size]. *)
Definition reference_params (func : VMA_FUNCTION) (csvSplit : CsvSplit)
    : option (Z * Z * Z) :=
  match func with
  | FlushAllocation | InvalidateAllocation => FlushAllocation_params csvSplit
  | _ => origPtr ← StrRangeToPtr (param csvSplit 0); Some (origPtr, 0, 0)
  end.

End LinesOfARun.

(** The function that each handler names in its "Invalid parameters"
    warning. *)
Definition invalid_parameters_name (func : VMA_FUNCTION) : string :=
  match func with
  | DestroyBuffer | DestroyImage | FreeMemory => "vmaDestroyBuffer"
  | AllocateMemoryForBuffer | AllocateMemoryForImage =>
      "vmaAllocateMemoryForBuffer or vmaAllocateMemoryForImage"
  | UnmapMemory => "vmaMapMemory"
  | _ => VMA_FUNCTION_NAMES func
  end.

(** The three handlers that end in [DestroyAllocation]. *)
Definition DESTROY_FUNCTIONS : list VMA_FUNCTION :=
  [DestroyBuffer; DestroyImage; FreeMemory].

(** The handlers that pass a registered allocation to one entry point. *)
Definition REFERENCE_FUNCTIONS : list VMA_FUNCTION :=
  [MapMemory; UnmapMemory; FlushAllocation; InvalidateAllocation;
   TouchAllocation; GetAllocationInfo].

(** The entry point that the handler of [func] invokes on an allocation. *)
Definition reference_call (func : VMA_FUNCTION) (allocation offset size : Z) : VmaCall :=
  match func with
  | MapMemory => vmaMapMemory allocation
  | UnmapMemory => vmaUnmapMemory allocation
  | FlushAllocation => vmaFlushAllocation allocation offset size
  | InvalidateAllocation => vmaInvalidateAllocation allocation offset size
  | TouchAllocation => vmaTouchAllocation allocation
  | _ => vmaGetAllocationInfo allocation
  end.

(** The two handlers that pass a registered pool to one entry point. *)
Definition POOL_FUNCTIONS : list VMA_FUNCTION := [DestroyPool; MakePoolAllocationsLost].

Definition pool_call (func : VMA_FUNCTION) (pool_ : Z) : VmaCall :=
  match func with
  | DestroyPool => vmaDestroyPool pool_
  | _ => vmaMakePoolAllocationsLost pool_
  end.

(** The functions whose handlers write to [m_Pools], and those whose
    handlers write to [m_Allocations]. *)
Definition POOL_REGISTRY_WRITERS : list VMA_FUNCTION := [CreatePool; DestroyPool].

Definition ALLOCATION_REGISTRY_WRITERS : list VMA_FUNCTION :=
  [CreateBuffer; DestroyBuffer; CreateImage; DestroyImage; FreeMemory;
   CreateLostAllocation; AllocateMemory; AllocateMemoryForBuffer;
   AllocateMemoryForImage].

(** The entry of a thread in [m_Threads] after [n] more lines of that
    thread: the first line of a thread sets its counter to one, each other
    line increments it on [uint32_t]. *)
Definition thread_after (init : option Thread) (n : nat) : option Thread :=
  Nat.iter n
    (fun o => Some {| callCount :=
                        match o with
                        | Some threadInfo => uint32_inc (callCount threadInfo)
                        | None => 1
                        end |}) init.

(** The registries are well formed: the original id zero is registered in
    neither, and no allocation holds both a buffer and an image (what
    [Destroy] asserts of what it is given). *)
Definition registry_wf (p : Player) : Prop :=
  m_Allocations p !! 0 = None /\
  m_Pools p !! 0 = None /\
  forall origPtr alloc,
    m_Allocations p !! origPtr = Some alloc ->
    buffer alloc = VK_NULL_HANDLE \/ image alloc = VK_NULL_HANDLE.

(** The lines at which the warning of
    [ExecuteAllocateMemoryForBufferOrImage] about inaccurate replay was
    raised. *)
Definition advisories (evs : list Event) : list Z :=
  omap (fun e => match e with
                 | EvWarning _ (MsgCannotReplayAccurately l) => Some l
                 | _ => None
                 end) evs.

(** [m_AllocateForBufferImageWarningIssued] tells whether the advisory
    was raised, and it was raised at most once. *)
Definition advisory_state (p : Player) : Prop :=
  (m_AllocateForBufferImageWarningIssued p = false /\ advisories (trace p) = []) \/
  (m_AllocateForBufferImageWarningIssued p = true /\
   exists lineNumber, advisories (trace p) = [lineNumber]).

(** The counter of [f] in [m_Stats] is [v]. *)
Definition function_count_is (f : VMA_FUNCTION) (v : Z) (p : Player) : Prop :=
  m_FunctionCallCount (m_Stats p) f = v.

(** [m_Threads] is [threads]. *)
Definition threads_are (threads : gmap Z Thread) (p : Player) : Prop :=
  m_Threads p = threads.

Section ThreadLines.
Context `{CommonH}.

(** How many of the lines are calls of the thread [threadId]. *)
Definition thread_calls (threadId : Z) (lines : list (Z * string)) : nat :=
  length (List.filter (fun line => bool_decide (thread_of_line line = Some threadId))
            lines.*2).

End ThreadLines.

(** [m_Pools] is [pools]; [m_Allocations] is [allocs]. *)
Definition pools_are (pools : gmap Z Pool) (p : Player) : Prop := m_Pools p = pools.

Definition allocations_are (allocs : gmap Z Allocation) (p : Player) : Prop :=
  m_Allocations p = allocs.

(** ** [InitVulkan] against the Vulkan driver

    The loader, the driver and the allocator library are outside the
    translation unit: what they answer is a record here.  The two
    enumerations are asserted to succeed in the source; the record holds
    what they list. *)

Definition RESULT_ERROR_COMMAND_LINE : Z := -1.
Definition RESULT_ERROR_SOURCE_FILE : Z := -2.
Definition RESULT_ERROR_VULKAN : Z := -4.
Definition UINT_MAX : Z := 2 ^ 32 - 1.
Definition VK_QUEUE_GRAPHICS_BIT : Z := 0x1.
Definition VMA_ALLOCATOR_CREATE_KHR_DEDICATED_ALLOCATION_BIT : Z := 0x2.
Definition VALIDATION_LAYER_NAME : string := "VK_LAYER_LUNARG_standard_validation".
Definition VK_KHR_GET_MEMORY_REQUIREMENTS_2_EXTENSION_NAME : string :=
  "VK_KHR_get_memory_requirements2".
Definition VK_KHR_DEDICATED_ALLOCATION_EXTENSION_NAME : string :=
  "VK_KHR_dedicated_allocation".

Record VkQueueFamilyProperties := {
  queueFlags : Z;
  queueCount : Z
}.

Record VulkanDriver := {
  (** the [layerName] of each instance layer *)
  vkEnumerateInstanceLayerProperties : list string;
  (** from the enabled layers and extensions to the [VkResult] *)
  vkCreateInstance : list string -> list string -> Z;
  (** the handles of the physical devices *)
  vkEnumeratePhysicalDevices : list Z;
  vkGetPhysicalDeviceQueueFamilyProperties : Z -> list VkQueueFamilyProperties;
  (** the [extensionName] of each extension of a physical device *)
  vkEnumerateDeviceExtensionProperties : Z -> list string;
  (** from the physical device, the queue family index and the enabled
      extensions to the [VkResult] *)
  vkCreateDevice : Z -> Z -> list string -> Z;
  (** from the physical device and the allocator flags to the [VkResult] *)
  vmaCreateAllocator : Z -> Z -> Z
}.

(** The static variables that [InitVulkan] writes; they are never reset. *)
Record VulkanStatics := {
  g_EnableValidationLayer : bool;
  VK_KHR_get_memory_requirements2_enabled : bool;
  VK_KHR_dedicated_allocation_enabled : bool
}.

Definition VulkanStatics_initial : VulkanStatics :=
  {| g_EnableValidationLayer := true;
     VK_KHR_get_memory_requirements2_enabled := false;
     VK_KHR_dedicated_allocation_enabled := false |}.

Inductive InitMessage :=
| MsgInitializingVulkan
| MsgLayerNotSupported (layerName : string)
| MsgCreateInstanceFailed (res : Z)
| MsgNoPhysicalDevices
| MsgIncorrectPhysicalDeviceIndex (index count : Z)
| MsgNoGraphicsQueue
| MsgCreateDeviceFailed (res : Z)
| MsgCreateAllocatorFailed (res : Z).

(** What [InitVulkan] returns and leaves behind: the statics, the members
    it has set ([m_GraphicsQueueFamilyIndex] starts as [UINT_MAX], the
    handles as null), whether [RegisterDebugCallbacks] was called, the
    extensions and the allocator flags it asked for, and what it
    printed. *)
Record InitOutcome := {
  init_result : Z;
  init_statics : VulkanStatics;
  init_debugCallbacks : bool;
  init_PhysicalDevice : Z;
  init_GraphicsQueueFamilyIndex : Z;
  init_enabledDeviceExtensions : list string;
  init_allocatorFlags : Z;
  init_messages : list InitMessage
}.

Definition IsLayerSupported (pProps : list string) (pLayerName : string) : bool :=
  existsb (String.eqb pLayerName) pProps.

(** The search of lines 799-807: [i] is the index of the head of
    [queueFamilies], [current] is [m_GraphicsQueueFamilyIndex]. *)
Fixpoint FindGraphicsQueueFamily (queueFamilies : list VkQueueFamilyProperties)
    (i current : Z) : Z :=
  match queueFamilies with
  | [] => current
  | family :: rest =>
      if (0 <? queueCount family) &&
         negb (Z.land (queueFlags family) VK_QUEUE_GRAPHICS_BIT =? 0)
      then i
      else FindGraphicsQueueFamily rest (uint32_inc i) current
  end.

(** The loop of lines 845-857 over the extensions of the device: the
    extensions enabled so far and the two statics. *)
Fixpoint EnableDeviceExtensions (properties : list string)
    (acc : list string * bool * bool) : list string * bool * bool :=
  match properties with
  | [] => acc
  | extensionName :: rest =>
      let '(enabled, requirements2, dedicated) := acc in
      if String.eqb extensionName VK_KHR_GET_MEMORY_REQUIREMENTS_2_EXTENSION_NAME then
        EnableDeviceExtensions rest
          (enabled ++ [VK_KHR_GET_MEMORY_REQUIREMENTS_2_EXTENSION_NAME], true, dedicated)
      else if String.eqb extensionName VK_KHR_DEDICATED_ALLOCATION_EXTENSION_NAME then
        EnableDeviceExtensions rest
          (enabled ++ [VK_KHR_DEDICATED_ALLOCATION_EXTENSION_NAME], requirements2, true)
      else EnableDeviceExtensions rest acc
  end.

Definition InitVulkan (drv : VulkanDriver) (g : Globals) (g_PhysicalDeviceIndex : Z)
    (statics : VulkanStatics) : InitOutcome :=
  let msgs0 :=
    match g_Verbosity g with MAXIMUM => [MsgInitializingVulkan] | _ => [] end in
  let instanceLayerProps := vkEnumerateInstanceLayerProperties drv in
  let unsupported :=
    g_EnableValidationLayer statics &&
    negb (IsLayerSupported instanceLayerProps VALIDATION_LAYER_NAME) in
  let msgs1 :=
    msgs0 ++ (if unsupported then [MsgLayerNotSupported VALIDATION_LAYER_NAME] else []) in
  let validation := g_EnableValidationLayer statics && negb unsupported in
  let statics1 :=
    {| g_EnableValidationLayer := validation;
       VK_KHR_get_memory_requirements2_enabled :=
         VK_KHR_get_memory_requirements2_enabled statics;
       VK_KHR_dedicated_allocation_enabled := VK_KHR_dedicated_allocation_enabled statics |} in
  let instanceLayers := if validation then [VALIDATION_LAYER_NAME] else [] in
  let instanceExtensions := if validation then ["VK_EXT_debug_report"] else [] in
  let res := vkCreateInstance drv instanceLayers instanceExtensions in
  if negb (res =? VK_SUCCESS) then
    {| init_result := RESULT_ERROR_VULKAN; init_statics := statics1;
       init_debugCallbacks := false; init_PhysicalDevice := VK_NULL_HANDLE;
       init_GraphicsQueueFamilyIndex := UINT_MAX; init_enabledDeviceExtensions := [];
       init_allocatorFlags := 0;
       init_messages := msgs1 ++ [MsgCreateInstanceFailed res] |}
  else
    let physicalDevices := vkEnumeratePhysicalDevices drv in
    let physicalDeviceCount := Z.of_nat (length physicalDevices) in
    if physicalDeviceCount =? 0 then
      {| init_result := RESULT_ERROR_VULKAN; init_statics := statics1;
         init_debugCallbacks := validation; init_PhysicalDevice := VK_NULL_HANDLE;
         init_GraphicsQueueFamilyIndex := UINT_MAX; init_enabledDeviceExtensions := [];
         init_allocatorFlags := 0;
         init_messages := msgs1 ++ [MsgNoPhysicalDevices] |}
    else if physicalDeviceCount <=? g_PhysicalDeviceIndex then
      {| init_result := RESULT_ERROR_VULKAN; init_statics := statics1;
         init_debugCallbacks := validation; init_PhysicalDevice := VK_NULL_HANDLE;
         init_GraphicsQueueFamilyIndex := UINT_MAX; init_enabledDeviceExtensions := [];
         init_allocatorFlags := 0;
         init_messages :=
           msgs1 ++ [MsgIncorrectPhysicalDeviceIndex g_PhysicalDeviceIndex
                       physicalDeviceCount] |}
    else
      let m_PhysicalDevice := default VK_NULL_HANDLE (physicalDevices !! 0%nat) in
      let m_GraphicsQueueFamilyIndex :=
        FindGraphicsQueueFamily
          (vkGetPhysicalDeviceQueueFamilyProperties drv m_PhysicalDevice) 0 UINT_MAX in
      if m_GraphicsQueueFamilyIndex =? UINT_MAX then
        {| init_result := RESULT_ERROR_VULKAN; init_statics := statics1;
           init_debugCallbacks := validation; init_PhysicalDevice := m_PhysicalDevice;
           init_GraphicsQueueFamilyIndex := m_GraphicsQueueFamilyIndex;
           init_enabledDeviceExtensions := []; init_allocatorFlags := 0;
           init_messages := msgs1 ++ [MsgNoGraphicsQueue] |}
      else
        let '(enabledDeviceExtensions, requirements2, dedicated) :=
          EnableDeviceExtensions
            (vkEnumerateDeviceExtensionProperties drv m_PhysicalDevice)
            ([], VK_KHR_get_memory_requirements2_enabled statics,
             VK_KHR_dedicated_allocation_enabled statics) in
        let statics2 :=
          {| g_EnableValidationLayer := validation;
             VK_KHR_get_memory_requirements2_enabled := requirements2;
             VK_KHR_dedicated_allocation_enabled := dedicated |} in
        let res :=
          vkCreateDevice drv m_PhysicalDevice m_GraphicsQueueFamilyIndex
            enabledDeviceExtensions in
        if negb (res =? VK_SUCCESS) then
          {| init_result := RESULT_ERROR_VULKAN; init_statics := statics2;
             init_debugCallbacks := validation; init_PhysicalDevice := m_PhysicalDevice;
             init_GraphicsQueueFamilyIndex := m_GraphicsQueueFamilyIndex;
             init_enabledDeviceExtensions := enabledDeviceExtensions;
             init_allocatorFlags := 0;
             init_messages := msgs1 ++ [MsgCreateDeviceFailed res] |}
        else
          let flags :=
            if dedicated then VMA_ALLOCATOR_CREATE_KHR_DEDICATED_ALLOCATION_BIT else 0 in
          let res := vmaCreateAllocator drv m_PhysicalDevice flags in
          if negb (res =? VK_SUCCESS) then
            {| init_result := RESULT_ERROR_VULKAN; init_statics := statics2;
               init_debugCallbacks := validation; init_PhysicalDevice := m_PhysicalDevice;
               init_GraphicsQueueFamilyIndex := m_GraphicsQueueFamilyIndex;
               init_enabledDeviceExtensions := enabledDeviceExtensions;
               init_allocatorFlags := flags;
               init_messages := msgs1 ++ [MsgCreateAllocatorFailed res] |}
          else
            {| init_result := 0; init_statics := statics2;
               init_debugCallbacks := validation; init_PhysicalDevice := m_PhysicalDevice;
               init_GraphicsQueueFamilyIndex := m_GraphicsQueueFamilyIndex;
               init_enabledDeviceExtensions := enabledDeviceExtensions;
               init_allocatorFlags := flags;
               init_messages := msgs1 |}.

(** The family is one that [InitVulkan] looks for: it has queues and
    does graphics. *)
Definition is_graphics_family (family : VkQueueFamilyProperties) : bool :=
  (0 <? queueCount family) &&
  negb (Z.land (queueFlags family) VK_QUEUE_GRAPHICS_BIT =? 0).

(** A driver with two devices: the first has a transfer-only family and
    then a graphics family, the second has none. *)
Definition two_device_driver : VulkanDriver :=
  {| vkEnumerateInstanceLayerProperties := [];
     vkCreateInstance := fun _ _ => VK_SUCCESS;
     vkEnumeratePhysicalDevices := [501; 502];
     vkGetPhysicalDeviceQueueFamilyProperties :=
       fun device =>
         if device =? 501
         then [{| queueFlags := 0x4; queueCount := 2 |};
               {| queueFlags := 0x7; queueCount := 16 |}]
         else [];
     vkEnumerateDeviceExtensionProperties :=
       fun _ => ["VK_KHR_swapchain"; "VK_KHR_dedicated_allocation"];
     vkCreateDevice := fun _ _ _ => VK_SUCCESS;
     vmaCreateAllocator := fun _ _ => VK_SUCCESS |}.

(** ** [PrintStats] *)

(** The lines of [PrintStats], by format string.  The two numbers that
    are printed through a [float] are kept as what they are computed
    from: the recording time as the text of [m_LastLineTimeStr], the
    share of the most active thread as the two counts it divides. *)
Inductive StatsLine :=
| StatsHeading
| StatsTotalAllocations (count : Z)
| StatsTotalBuffers (count : Z)
| StatsBufferClass (bufClass : nat) (count : Z)
| StatsTotalImages (count : Z)
| StatsImageClass (imgClass : nat) (count : Z)
| StatsLinearTiling (count : Z)
| StatsTotalPools (count : Z)
| StatsOriginalRecordingTime (lastLineTimeStr : string)
| StatsThreads (threadCount : Z)
| StatsMostActiveThread (threadCallCountMax threadCallCountSum : Z)
| StatsOneThread
| StatsFunctionCallCountHeading
| StatsFunctionCallCount (func : VMA_FUNCTION) (count : Z).

(** More of [Common.h], the C library and the command line parser: what
    the program reads from them. *)
Record RangeSequence := {
  IsEmpty : bool;
  Includes : Z -> bool
}.

Class Platform := {
  (** whether [StrRangeToFloat] converts the text *)
  StrRangeToFloat : string -> bool;
  (** [RangeSequence::Parse]: the ranges, or failure *)
  RangeSequence_Parse : string -> option RangeSequence;
  (** the lines that [LineSplit::GetNextLine] yields for a buffer, in
      order *)
  LineSplit : string -> list string;
  (** [fopen_s] and [fread]: the error code, and the contents of the
      file when it is zero *)
  fopen_s : string -> Z * string
}.

Definition is_MAXIMUM (v : VERBOSITY) : bool :=
  match v with MAXIMUM => true | _ => false end.

Definition above_MINIMUM (v : VERBOSITY) : bool :=
  match v with MINIMUM => false | _ => true end.

Section PrintStats.
Context `{Platform} (g : Globals).

(** The loop of lines 1055-1059 over [m_Threads], on [uint32_t]; the
    maximum and the sum do not depend on the order of the walk. *)
Definition threadCallCountMax (threads : gmap Z Thread) : Z :=
  foldr (fun t acc => Z.max acc (callCount t)) 0 (map_to_list threads).*2.

Definition threadCallCountSum (threads : gmap Z Thread) : Z :=
  foldr (fun t acc => wrap32 (acc + callCount t)) 0 (map_to_list threads).*2.

Definition PrintStats (p : Player) : list StatsLine :=
  if negb (above_MINIMUM (g_Verbosity g)) then []
  else
    let s := m_Stats p in
    [StatsHeading] ++
    (if 0 <? GetAllocationCreationCount s
     then [StatsTotalAllocations (GetAllocationCreationCount s)] else []) ++
    (if 0 <? bufferCreationCount s
     then StatsTotalBuffers (bufferCreationCount s) ::
          (if is_MAXIMUM (g_Verbosity g)
           then [StatsBufferClass 0 (GetBufferCreationCount s 0);
                 StatsBufferClass 1 (GetBufferCreationCount s 1);
                 StatsBufferClass 2 (GetBufferCreationCount s 2);
                 StatsBufferClass 3 (GetBufferCreationCount s 3)]
           else [])
     else []) ++
    (if 0 <? imageCreationCount s
     then StatsTotalImages (imageCreationCount s) ::
          (if is_MAXIMUM (g_Verbosity g)
           then [StatsImageClass 0 (GetImageCreationCount s 0);
                 StatsImageClass 1 (GetImageCreationCount s 1);
                 StatsImageClass 2 (GetImageCreationCount s 2);
                 StatsImageClass 3 (GetImageCreationCount s 3)] ++
                (if 0 <? GetLinearImageCreationCount s
                 then [StatsLinearTiling (GetLinearImageCreationCount s)] else [])
           else [])
     else []) ++
    (if 0 <? GetPoolCreationCount s
     then [StatsTotalPools (GetPoolCreationCount s)] else []) ++
    (if negb (String.eqb (m_LastLineTimeStr p) EmptyString) &&
        StrRangeToFloat (m_LastLineTimeStr p)
     then [StatsOriginalRecordingTime (m_LastLineTimeStr p)] else []) ++
    (let threadCount := Z.of_nat (size (m_Threads p)) in
     if 1 <? threadCount
     then [StatsThreads threadCount;
           StatsMostActiveThread (threadCallCountMax (m_Threads p))
             (threadCallCountSum (m_Threads p))]
     else [StatsOneThread]) ++
    (if is_MAXIMUM (g_Verbosity g)
     then StatsFunctionCallCountHeading ::
          omap (fun func =>
                  if 0 <? GetFunctionCallCount s func
                  then Some (StatsFunctionCallCount func (GetFunctionCallCount s func))
                  else None) ALL_VMA_FUNCTIONS
     else []).

End PrintStats.

(** ** [ProcessFile] *)

Definition FILE_HEADER : string := "Vulkan Memory Allocator,Calls recording".

Inductive FileMessage :=
| MsgIncorrectFileFormat
| MsgIncorrectFileFormatVersion
| MsgFormatVersion (major minor : Z)
| MsgPlaying (iteration : Z) (limitedRangeOfLines : bool)
| MsgDone
| MsgPlaybackTook
| MsgFileLines (count : Z)
| MsgExecutedFileLines (executedLineCount : Z).

(** One call of [ProcessFile(iterationIndex, ...)]: what it returns, the
    statics after it, what it printed before the player was made, what
    [player.Init()] did and the player after its destructor (when a
    player was made), the lines counted as executed, what was printed
    after the playback, and [PrintStats]. *)
Record IterationOutcome := {
  it_result : Z;
  it_statics : VulkanStatics;
  it_before : list FileMessage;
  it_init : option InitOutcome;
  it_player : option Player;
  it_executedLineCount : Z;
  it_after : list FileMessage;
  it_stats : list StatsLine
}.

Section ProcessFile.
Context `{CommonH} `{TargetAllocator} `{UnorderedMap} `{Platform} (drv : VulkanDriver).
Context (g : Globals) (g_LineRanges : RangeSequence) (g_PhysicalDeviceIndex : Z).

(** The loop of lines 1998-2011.  [nextLineIndex] is
    [lineSplit.GetNextLineIndex()] before the line is read: the number of
    lines read so far.  Returns [executedLineCount]. *)
Fixpoint PlayLines (lines : list string) (nextLineIndex executedLineCount : Z) : M Z :=
  match lines with
  | [] => mret executedLineCount
  | line :: rest =>
      let lineIndex := size_t_inc nextLineIndex in
      let execute :=
        if negb (IsEmpty g_LineRanges) then Includes g_LineRanges lineIndex else true in
      if execute then
        ExecuteLine g lineIndex line;;
        PlayLines rest lineIndex (size_t_inc executedLineCount)
      else PlayLines rest lineIndex executedLineCount
  end.

Definition format_error (statics : VulkanStatics) (msg : FileMessage) : IterationOutcome :=
  {| it_result := RESULT_ERROR_FORMAT; it_statics := statics; it_before := [msg];
     it_init := None; it_player := None; it_executedLineCount := 0;
     it_after := []; it_stats := [] |}.

(** [ProcessFile(iterationIndex, data, numBytes, outDuration)] on the
    lines of the buffer; the durations are left out. *)
Definition ProcessFile_iteration (iterationIndex : Z) (lines : list string)
    (statics : VulkanStatics) : IterationOutcome :=
  let useLineRanges := negb (IsEmpty g_LineRanges) in
  match lines with
  | [] => format_error statics MsgIncorrectFileFormat
  | header :: afterHeader =>
      if negb (String.eqb header FILE_HEADER)
      then format_error statics MsgIncorrectFileFormat
      else
        match afterHeader with
        | [] => format_error statics MsgIncorrectFileFormatVersion
        | version :: records =>
            match ParseFileVersion version with
            | None => format_error statics MsgIncorrectFileFormatVersion
            | Some g_FileVersion =>
                if negb (ValidateFileVersion g_FileVersion)
                then format_error statics MsgIncorrectFileFormatVersion
                else
                  let before :=
                    if is_MAXIMUM (g_Verbosity g)
                    then [MsgFormatVersion (Z.shiftr g_FileVersion 16)
                            (Z.land g_FileVersion 0xFFFF)]
                    else [] in
                  let init := InitVulkan drv g g_PhysicalDeviceIndex statics in
                  if init_result init =? 0 then
                    let played := PlayLines records 2 0 Player_new in
                    {| it_result := init_result init;
                       it_statics := init_statics init;
                       it_before :=
                         before ++
                         (if above_MINIMUM (g_Verbosity g)
                          then [MsgPlaying (size_t_inc iterationIndex) useLineRanges]
                          else []);
                       it_init := Some init;
                       it_player := Some (exec (Player_destructor g) played.2);
                       it_executedLineCount := played.1;
                       it_after :=
                         (if above_MINIMUM (g_Verbosity g)
                          then [MsgDone; MsgPlaybackTook] else []) ++
                         (if is_MAXIMUM (g_Verbosity g)
                          then [MsgFileLines
                                  (Nat.iter (length records) size_t_inc 2);
                                MsgExecutedFileLines played.1]
                          else []);
                       it_stats := PrintStats g played.2 |}
                  else
                    {| it_result := init_result init;
                       it_statics := init_statics init;
                       it_before := before;
                       it_init := Some init;
                       it_player := Some (exec (Player_destructor g) Player_new);
                       it_executedLineCount := 0;
                       it_after := []; it_stats := [] |}
            end
        end
  end.

Inductive LoadMessage :=
| MsgLoadingFile (filePath : string)
| MsgFileSize (fileSize : Z)
| MsgAveragePlaybackTime (iterationCount : Z)
| MsgSourceFileEmpty
| MsgCouldntOpenFile (err : Z).

(** The loop of lines 2065-2070: [count] iterations are left, [i] is the
    next index.  What each call returns is dropped by the source; it is
    kept here in the outcome of the call. *)
Fixpoint ProcessFile_iterations (count : nat) (i : Z) (lines : list string)
    (statics : VulkanStatics) : list IterationOutcome :=
  match count with
  | O => []
  | S count' =>
      let outcome := ProcessFile_iteration i lines statics in
      outcome :: ProcessFile_iterations count' (size_t_inc i) lines (it_statics outcome)
  end.

(** What [ProcessFile()] returns, what it printed itself, before and
    after the iterations, and the iterations. *)
Record ProcessOutcome := {
  pf_result : Z;
  pf_before : list LoadMessage;
  pf_iterations : list IterationOutcome;
  pf_after : list LoadMessage
}.

Definition ProcessFile (g_FilePath : string) (g_IterationCount : Z)
    (statics : VulkanStatics) : ProcessOutcome :=
  let loading :=
    if above_MINIMUM (g_Verbosity g) then [MsgLoadingFile g_FilePath] else [] in
  let '(err, fileContents) := fopen_s g_FilePath in
  if err =? 0 then
    let fileSize := Z.of_nat (String.length fileContents) in
    if 0 <? fileSize then
      {| pf_result := 0;
         pf_before :=
           loading ++ (if is_MAXIMUM (g_Verbosity g) then [MsgFileSize fileSize] else []);
         pf_iterations :=
           ProcessFile_iterations (Z.to_nat g_IterationCount) 0
             (LineSplit fileContents) statics;
         pf_after :=
           if 1 <? g_IterationCount then [MsgAveragePlaybackTime g_IterationCount]
           else [] |}
    else
      {| pf_result := RESULT_ERROR_SOURCE_FILE;
         pf_before := loading ++ [MsgSourceFileEmpty];
         pf_iterations := []; pf_after := [] |}
  else
    {| pf_result := RESULT_ERROR_SOURCE_FILE;
       pf_before := loading ++ [MsgCouldntOpenFile err];
       pf_iterations := []; pf_after := [] |}.

(** The lines of the file after the first two, each with the number
    that [GetNextLineIndex] gives once it is read. *)
Fixpoint number_lines (nextLineIndex : Z) (lines : list string) : list (Z * string) :=
  match lines with
  | [] => []
  | line :: rest =>
      (size_t_inc nextLineIndex, line) :: number_lines (size_t_inc nextLineIndex) rest
  end.

(** The numbered lines that [ProcessFile] executes. *)
Definition selected_lines (records : list string) : list (Z * string) :=
  List.filter
    (fun numbered =>
       if negb (IsEmpty g_LineRanges) then Includes g_LineRanges numbered.1 else true)
    (number_lines 2 records).

End ProcessFile.

(** Modelled from the spec: [LineSplit] of [Common.h] is not under src/.
    "a cursor that yields successive newline-delimited ranges".  The
    lines of [s]; [line] holds, in reverse, what was read of the line
    being read. *)
Fixpoint split_lines (s : string) (line : string) : list string :=
  match s with
  | EmptyString =>
      match line with EmptyString => [] | _ => [String.rev line] end
  | String c rest =>
      if Z.of_N (Ascii.N_of_ascii c) =? 10
      then String.rev line :: split_lines rest EmptyString
      else split_lines rest (String c line)
  end.

(** A platform to run the program on: one file, whatever its path; every
    time converts; no range expression parses. *)
Definition one_file_platform (fileContents : string) : Platform :=
  {| StrRangeToFloat := fun _ => true;
     RangeSequence_Parse := fun _ => None;
     LineSplit := fun s => split_lines s EmptyString;
     fopen_s := fun _ => (0, fileContents) |}.

(** No line filter was given. *)
Definition every_line : RangeSequence :=
  {| IsEmpty := true; Includes := fun _ => true |}.

(** ** [main2] *)

Inductive CMD_LINE_OPT :=
| CMD_LINE_OPT_VERBOSITY
| CMD_LINE_OPT_ITERATIONS
| CMD_LINE_OPT_LINES
| CMD_LINE_OPT_PHYSICAL_DEVICE
| CMD_LINE_OPT_USER_DATA.

#[global] Instance CMD_LINE_OPT_eq_dec : EqDecision CMD_LINE_OPT.
Proof. solve_decision. Defined.

(** What [CmdLineParser::ReadNext] returns before [RESULT_END], with what
    [GetOptId] and [GetParameter] give then.  The parser is declared in
    [Common.h]; the program sees the command line as this sequence. *)
Inductive CmdLineParser_RESULT :=
| RESULT_OPT (optId : CMD_LINE_OPT) (parameter : string)
| RESULT_PARAMETER (parameter : string)
| RESULT_ERROR.

(** The statics that [main2] sets from the command line. *)
Record CommandLine := {
  cl_Verbosity : VERBOSITY;
  cl_IterationCount : Z;
  cl_LineRanges : RangeSequence;
  cl_PhysicalDeviceIndex : Z;
  cl_UserDataEnabled : bool;
  cl_FilePath : string
}.

(** Their initializers. *)
Definition CommandLine_initial : CommandLine :=
  {| cl_Verbosity := DEFAULT; cl_IterationCount := 1; cl_LineRanges := every_line;
     cl_PhysicalDeviceIndex := 0; cl_UserDataEnabled := true;
     cl_FilePath := EmptyString |}.

(** [(VERBOSITY)verbosityVal] for a value below [VERBOSITY::COUNT]. *)
Definition VERBOSITY_of (verbosityVal : Z) : VERBOSITY :=
  if verbosityVal =? 0 then MINIMUM
  else if verbosityVal =? 1 then DEFAULT
  else MAXIMUM.

Definition VERBOSITY_COUNT : Z := 3.

Section Main.
Context `{CommonH} `{TargetAllocator} `{UnorderedMap} `{Platform} (drv : VulkanDriver).

(** The loop of lines 2107-2179: the statics after the command line, or
    [None] where [main2] prints the syntax and returns
    [RESULT_ERROR_COMMAND_LINE]. *)
Fixpoint ReadCommandLine (results : list CmdLineParser_RESULT) (cl : CommandLine)
    : option CommandLine :=
  match results with
  | [] => Some cl
  | RESULT_OPT CMD_LINE_OPT_VERBOSITY parameter :: rest =>
      match StrRangeToUint32 parameter with
      | Some verbosityVal =>
          if verbosityVal <? VERBOSITY_COUNT then
            ReadCommandLine rest
              {| cl_Verbosity := VERBOSITY_of verbosityVal;
                 cl_IterationCount := cl_IterationCount cl;
                 cl_LineRanges := cl_LineRanges cl;
                 cl_PhysicalDeviceIndex := cl_PhysicalDeviceIndex cl;
                 cl_UserDataEnabled := cl_UserDataEnabled cl;
                 cl_FilePath := cl_FilePath cl |}
          else None
      | None => None
      end
  | RESULT_OPT CMD_LINE_OPT_ITERATIONS parameter :: rest =>
      match StrRangeToUint64 parameter with
      | Some iterationCount =>
          ReadCommandLine rest
            {| cl_Verbosity := cl_Verbosity cl;
               cl_IterationCount := iterationCount;
               cl_LineRanges := cl_LineRanges cl;
               cl_PhysicalDeviceIndex := cl_PhysicalDeviceIndex cl;
               cl_UserDataEnabled := cl_UserDataEnabled cl;
               cl_FilePath := cl_FilePath cl |}
      | None => None
      end
  | RESULT_OPT CMD_LINE_OPT_LINES parameter :: rest =>
      match RangeSequence_Parse parameter with
      | Some lineRanges =>
          ReadCommandLine rest
            {| cl_Verbosity := cl_Verbosity cl;
               cl_IterationCount := cl_IterationCount cl;
               cl_LineRanges := lineRanges;
               cl_PhysicalDeviceIndex := cl_PhysicalDeviceIndex cl;
               cl_UserDataEnabled := cl_UserDataEnabled cl;
               cl_FilePath := cl_FilePath cl |}
      | None => None
      end
  | RESULT_OPT CMD_LINE_OPT_PHYSICAL_DEVICE parameter :: rest =>
      match StrRangeToUint32 parameter with
      | Some physicalDeviceIndex =>
          ReadCommandLine rest
            {| cl_Verbosity := cl_Verbosity cl;
               cl_IterationCount := cl_IterationCount cl;
               cl_LineRanges := cl_LineRanges cl;
               cl_PhysicalDeviceIndex := physicalDeviceIndex;
               cl_UserDataEnabled := cl_UserDataEnabled cl;
               cl_FilePath := cl_FilePath cl |}
      | None => None
      end
  | RESULT_OPT CMD_LINE_OPT_USER_DATA parameter :: rest =>
      match StrRangeToBool parameter with
      | Some userDataEnabled =>
          ReadCommandLine rest
            {| cl_Verbosity := cl_Verbosity cl;
               cl_IterationCount := cl_IterationCount cl;
               cl_LineRanges := cl_LineRanges cl;
               cl_PhysicalDeviceIndex := cl_PhysicalDeviceIndex cl;
               cl_UserDataEnabled := userDataEnabled;
               cl_FilePath := cl_FilePath cl |}
      | None => None
      end
  | RESULT_PARAMETER parameter :: rest =>
      if String.eqb (cl_FilePath cl) EmptyString then
        ReadCommandLine rest
          {| cl_Verbosity := cl_Verbosity cl;
             cl_IterationCount := cl_IterationCount cl;
             cl_LineRanges := cl_LineRanges cl;
             cl_PhysicalDeviceIndex := cl_PhysicalDeviceIndex cl;
             cl_UserDataEnabled := cl_UserDataEnabled cl;
             cl_FilePath := parameter |}
      else None
  | RESULT_ERROR :: _ => None
  end.

(** What [main2] returns, whether it printed the command line syntax,
    and what [ProcessFile()] did when it was reached. *)
Record MainOutcome := {
  main_result : Z;
  main_syntax : bool;
  main_process : option ProcessOutcome
}.

Definition main2 (results : list CmdLineParser_RESULT) : MainOutcome :=
  match ReadCommandLine results CommandLine_initial with
  | None =>
      {| main_result := RESULT_ERROR_COMMAND_LINE; main_syntax := true;
         main_process := None |}
  | Some cl =>
      if String.eqb (cl_FilePath cl) EmptyString then
        {| main_result := RESULT_ERROR_COMMAND_LINE; main_syntax := true;
           main_process := None |}
      else
        let outcome :=
          ProcessFile drv
            {| g_Verbosity := cl_Verbosity cl;
               g_UserDataEnabled := cl_UserDataEnabled cl |}
            (cl_LineRanges cl) (cl_PhysicalDeviceIndex cl) (cl_FilePath cl)
            (cl_IterationCount cl) VulkanStatics_initial in
        {| main_result := pf_result outcome; main_syntax := false;
           main_process := Some outcome |}
  end.

(** [main2] accepts what the parser returned: an option whose parameter
    converts (a verbosity below [VERBOSITY::COUNT]), or a parameter. *)
Definition accepted_result (result : CmdLineParser_RESULT) : bool :=
  match result with
  | RESULT_OPT CMD_LINE_OPT_VERBOSITY parameter =>
      match StrRangeToUint32 parameter with
      | Some verbosityVal => verbosityVal <? VERBOSITY_COUNT
      | None => false
      end
  | RESULT_OPT CMD_LINE_OPT_ITERATIONS parameter =>
      bool_decide (is_Some (StrRangeToUint64 parameter))
  | RESULT_OPT CMD_LINE_OPT_LINES parameter =>
      bool_decide (is_Some (RangeSequence_Parse parameter))
  | RESULT_OPT CMD_LINE_OPT_PHYSICAL_DEVICE parameter =>
      bool_decide (is_Some (StrRangeToUint32 parameter))
  | RESULT_OPT CMD_LINE_OPT_USER_DATA parameter =>
      bool_decide (is_Some (StrRangeToBool parameter))
  | RESULT_PARAMETER _ => true
  | RESULT_ERROR => false
  end.

End Main.

(** The parameters that are not options, in order. *)
Definition positional_parameters (results : list CmdLineParser_RESULT) : list string :=
  omap (fun result =>
          match result with RESULT_PARAMETER parameter => Some parameter | _ => None end)
    results.

(** The parameter of the last occurrence of an option. *)
Definition last_option (optId : CMD_LINE_OPT) (results : list CmdLineParser_RESULT)
    : option string :=
  last (omap (fun result =>
                match result with
                | RESULT_OPT optId' parameter =>
                    if decide (optId' = optId) then Some parameter else None
                | _ => None
                end) results).

(** The file path being [path], the parameters [parameters] are taken one
    after the other: each is taken only while the path is still empty. *)
Fixpoint paths_taken (path : string) (parameters : list string) : Prop :=
  match parameters with
  | [] => True
  | parameter :: rest => path = EmptyString /\ paths_taken parameter rest
  end.



Section CallsOfThreads.
Context `{CommonH}.


End CallsOfThreads.


(** ** What a creation record does before and after its live call *)

(** The handlers that end in [AddAllocation], those that pass user data
    to their live call. *)
Definition ALLOCATION_CREATORS : list VMA_FUNCTION :=
  [CreateBuffer; CreateImage; CreateLostAllocation; AllocateMemory;
   AllocateMemoryForBuffer; AllocateMemoryForImage].

(** The warning of [FindPool], for an id that is neither zero nor
    registered. *)
Definition FindPool_messages (lineNumber origPool : Z) (pools : gmap Z Pool)
    : list Message :=
  if negb (origPool =? 0) && bool_decide (pools !! origPool = None)
  then [MsgPoolNotFound lineNumber origPool] else [].

(** The warning of [ExecuteAllocateMemoryForBufferOrImage], raised while
    [m_AllocateForBufferImageWarningIssued] is not set. *)
Definition advisory_messages (lineNumber : Z) (issued : bool) : list Message :=
  if negb issued then [MsgCannotReplayAccurately lineNumber] else [].

Section CreationRecords.
Context `{CommonH} `{TargetAllocator} (g : Globals).

(** [PrepareUserData] is called on column [FIRST_PARAM_INDEX + i] and
    reaches its last lines, 1132-1137: the line has the column, user data
    is enabled, the flags do not ask for a string and the column does not
    convert to a pointer. *)
Definition user_data_refused (allocCreateFlags : Z) (csvSplit : CsvSplit) (i : nat)
    : bool :=
  bool_decide (FIRST_PARAM_INDEX + i < GetCount csvSplit)%nat &&
  g_UserDataEnabled g &&
  negb (test_bits allocCreateFlags VMA_ALLOCATION_CREATE_USER_DATA_COPY_STRING_BIT) &&
  bool_decide (StrRangeToPtr (param csvSplit i) = None).

(** The warning it raises there. *)
Definition UserData_messages (lineNumber allocCreateFlags : Z) (csvSplit : CsvSplit)
    (i : nat) : list Message :=
  if user_data_refused allocCreateFlags csvSplit i
  then [MsgInvalidUserData lineNumber] else [].

(** [q] is [p] after the warnings [msgs] were raised and nothing else was
    printed or called: the registries are those of [p]. *)
Definition warned (p : Player) (msgs : list Message) (q : Player) : Prop :=
  m_Allocations q = m_Allocations p /\
  m_Pools q = m_Pools p /\
  m_AllocateForBufferImageWarningIssued q = m_AllocateForBufferImageWarningIssued p /\
  trace q = trace p ++ warn_events g (m_WarningCount p) msgs /\
  m_WarningCount q = Nat.iter (length msgs) size_t_inc (m_WarningCount p).

(** [final] is reached from [p] by raising the warnings [pre], making the
    live call [c] and doing [reconcile] on what the allocator replied:
    nothing else is printed or called, and the registries are untouched
    until [reconcile]. *)
Definition created_from (p final : Player) (pre : list Message) (c : VmaCall)
    (reconcile : VmaReply -> M unit) : Prop :=
  exists q,
    m_Allocations q = m_Allocations p /\
    m_Pools q = m_Pools p /\
    trace q = trace p ++ warn_events g (m_WarningCount p) pre ++ [EvCall c] /\
    m_WarningCount q = Nat.iter (length pre) size_t_inc (m_WarningCount p) /\
    final = exec (reconcile (vma_reply (calls p) c)) q.

(** The original id under which the handler of [func] registers what it
    creates, on a line whose parameters it decodes. *)
Definition created_id (func : VMA_FUNCTION) (csvSplit : CsvSplit) : option Z :=
  match func with
  | CreatePool => snd <$> CreatePool_params csvSplit
  | CreateBuffer => snd <$> CreateBuffer_params csvSplit
  | CreateImage => snd <$> CreateImage_params csvSplit
  | CreateLostAllocation => StrRangeToPtr (param csvSplit 0)
  | AllocateMemory => snd <$> AllocateMemory_params csvSplit
  | AllocateMemoryForBuffer | AllocateMemoryForImage =>
      snd <$> AllocateMemoryFor_params csvSplit
  | _ => None
  end.

End CreationRecords.

(** [c] is a call of the entry point that the handler of [func] creates
    with. *)
Definition live_call (func : VMA_FUNCTION) (c : VmaCall) : bool :=
  match func, c with
  | CreatePool, vmaCreatePool _ => true
  | CreateBuffer, vmaCreateBuffer _ _ => true
  | CreateImage, vmaCreateImage _ _ => true
  | CreateLostAllocation, vmaCreateLostAllocation => true
  | (AllocateMemory | AllocateMemoryForBuffer | AllocateMemoryForImage),
    vmaAllocateMemory _ _ => true
  | _, _ => false
  end.

(** The entry holds the handles that the live call of [func] stored: the
    allocation, and the buffer or the image for the two handlers that
    create one. *)
Definition stored_handles (func : VMA_FUNCTION) (r : VmaReply) (alloc : Allocation)
    : Prop :=
  allocation alloc = reply_allocation r /\
  buffer alloc =
    (if bool_decide (func = CreateBuffer) then reply_handle r else VK_NULL_HANDLE) /\
  image alloc =
    (if bool_decide (func = CreateImage) then reply_handle r else VK_NULL_HANDLE).

(** The "Invalid pUserData" warnings raised: their lines. *)
Definition invalid_user_data_warnings (evs : list Event) : list Z :=
  omap (fun e => match e with
                 | EvWarning _ (MsgInvalidUserData l) => Some l
                 | _ => None
                 end) evs.
(** ** Laws of the monad and of [preserves] *)

Lemma exec_bind {A B} (c : M A) (k : A -> M B) p :
  exec (c ≫= k) p = exec (k (c p).1) (c p).2.
Proof. unfold exec, mbind, M_bind. by destruct (c p). Qed.

Lemma run_bind {A B} (c : M A) (k : A -> M B) p :
  (c ≫= k) p = k (c p).1 (c p).2.
Proof. unfold mbind, M_bind. by destruct (c p). Qed.

Lemma preserves_ret {A} P (a : A) : preserves P (mret a).
Proof. by intros p. Qed.

Lemma preserves_bind {A B} P (c : M A) (k : A -> M B) :
  preserves P c -> (forall a, preserves P (k a)) -> preserves P (c ≫= k).
Proof.
  intros Hc Hk p HP. rewrite run_bind. apply Hk, Hc, HP.
Qed.

Lemma preserves_gets {A} P (f : Player -> A) : preserves P (gets f).
Proof. by intros p. Qed.

Lemma preserves_modify P (f : Player -> Player) :
  (forall p, P p -> P (f p)) -> preserves P (modify f).
Proof. intros Hf p HP. by apply Hf. Qed.

Lemma preserves_then {A B} (P Q : Player -> Prop) (c : M A) (k : A -> M B) p :
  preserves P c -> P p -> (forall a q, P q -> Q (exec (k a) q)) ->
  Q (exec (c ≫= k) p).
Proof. intros Hc HP Hk. rewrite exec_bind. apply Hk, Hc, HP. Qed.


(** ** The file version *)

Lemma small_testbit_high (a n : Z) :
  0 <= a < 2 ^ 16 -> 0 <= n -> Z.testbit a (n + 16) = false.
Proof.
  intros Ha Hn. destruct (decide (a = 0)) as [->|Hne].
  - apply Z.bits_0.
  - apply Z.bits_above_log2; [lia|].
    assert (Z.log2 a < 16) by (apply Z.log2_lt_pow2; lia). lia.
Qed.

(** Within 16 bits the packed word gives back both components. *)
Lemma PackFileVersion_unpack (major minor : Z) :
  0 <= major < 2 ^ 16 -> 0 <= minor < 2 ^ 16 ->
  Z.shiftr (PackFileVersion major minor) 16 = major /\
  Z.land (PackFileVersion major minor) 0xFFFF = minor.
Proof.
  intros Hmaj Hmin. unfold PackFileVersion, wrap32.
  rewrite Z.shiftl_mul_pow2 by lia.
  rewrite Z.mod_small by lia.
  rewrite <- Z.shiftl_mul_pow2 by lia.
  split.
  - apply Z.bits_inj'. intros n Hn.
    rewrite Z.shiftr_spec, Z.lor_spec by lia.
    rewrite Z.shiftl_spec by lia.
    rewrite small_testbit_high by lia.
    rewrite orb_false_r. f_equal. lia.
  - change 0xFFFF with (Z.ones 16). rewrite Z.land_ones by lia.
    apply Z.bits_inj'. intros n Hn.
    destruct (decide (n < 16)) as [Hlt|Hge].
    + rewrite Z.mod_pow2_bits_low by lia.
      rewrite Z.lor_spec, Z.shiftl_spec_low by lia. done.
    + rewrite Z.mod_pow2_bits_high by lia.
      replace n with ((n - 16) + 16) by lia.
      symmetry. apply small_testbit_high; lia.
Qed.

(** For components that fit in 16 bits the gate is the one of the
    specification. *)
Lemma ValidateFileVersion_16bit (major minor : Z) :
  0 <= major < 2 ^ 16 -> 0 <= minor < 2 ^ 16 ->
  ValidateFileVersion (PackFileVersion major minor) = true <->
  major = 1 /\ minor <= 2.
Proof.
  intros Hmaj Hmin. unfold ValidateFileVersion.
  destruct (PackFileVersion_unpack major minor Hmaj Hmin) as [-> ->].
  rewrite andb_true_iff, Z.eqb_eq, Z.leb_le. done.
Qed.

Lemma ValidateFileVersion_16bit_witness :
  ValidateFileVersion (PackFileVersion 1 2) = true <-> 1 = 1 /\ 2 <= 2.
Proof. apply ValidateFileVersion_16bit; lia. Defined.

(** C1 (the code departs from the claim).  The gate looks at the packed
    32-bit word, not at the pair that was parsed: a major version whose low
    16 bits are zero is shifted out, and a minor version of 16 bits or more
    runs into the major half.  The version lines "65537,0", "1,65536" and
    "0,65536" are parsed as unsigned pairs with major <> 1 or minor > 2, and
    the load proceeds. *)
Theorem version_gate_accepts_wide_components :
  @CheckFileVersion CommonSpec.common (Some "65537,0") = 0 /\
  @CheckFileVersion CommonSpec.common (Some "1,65536") = 0 /\
  @CheckFileVersion CommonSpec.common (Some "0,65536") = 0 /\
  ValidateFileVersion (PackFileVersion 65537 0) = true /\
  ValidateFileVersion (PackFileVersion 1 65536) = true /\
  ValidateFileVersion (PackFileVersion 0 65536) = true.
Proof. repeat split; vm_compute; reflexivity. Qed.

(** ** What a trace shows, event by event *)

Arguments size_t_inc _ : simpl never.
Arguments uint32_inc _ : simpl never.
Arguments shows _ _ : simpl never.
Arguments warn : simpl never.

Lemma frame_calls_snoc evs e :
  frame_calls (evs ++ [e]) =
  frame_calls evs ++
    match e with EvCall (vmaSetCurrentFrameIndex f) => [f] | _ => [] end.
Proof.
  unfold frame_calls. rewrite omap_app. f_equal.
  destruct e as [| |[]]; reflexivity.
Qed.

Lemma warnings_snoc evs e :
  warnings (evs ++ [e]) =
  warnings evs ++ match e with EvWarning s m => [(s, m)] | _ => [] end.
Proof.
  unfold warnings. rewrite omap_app. f_equal. destruct e; reflexivity.
Qed.

Lemma suppressed_reports_snoc evs e :
  suppressed_reports (evs ++ [e]) =
  suppressed_reports evs ++
    match e with EvPrintf (MsgMoreWarningsNotShown n) => [n] | _ => [] end.
Proof.
  unfold suppressed_reports. rewrite omap_app. f_equal.
  destruct e as [|[]|]; reflexivity.
Qed.

Lemma size_t_inc_wrap64 n : size_t_inc (wrap64 n) = wrap64 (n + 1).
Proof. unfold size_t_inc, wrap64. by rewrite Zplus_mod_idemp_l. Qed.

Lemma calls_snoc (evs : list Event) e :
  calls_of (evs ++ [e]) =
  calls_of evs ++ match e with EvCall c => [c] | _ => [] end.
Proof. unfold calls_of. rewrite omap_app. f_equal. destruct e; reflexivity. Qed.

Lemma duplicate_warnings_snoc evs e :
  duplicate_warnings (evs ++ [e]) =
  duplicate_warnings evs ++
    match e with
    | EvWarning _ (MsgAllocationAlreadyExists l o) => [(l, o)]
    | EvWarning _ (MsgPoolAlreadyExists l o) => [(l, o)]
    | _ => []
    end.
Proof.
  unfold duplicate_warnings. rewrite omap_app. f_equal.
  destruct e as [? []| |]; reflexivity.
Qed.

Lemma warn_run (g : Globals) msg p :
  warn g msg p =
  (tt, set_trace (trace p ++ [EvWarning (shows g (m_WarningCount p)) msg])
         (set_WarningCount (size_t_inc (m_WarningCount p)) p)).
Proof.
  unfold warn, IssueWarning, shows, emit, modify, mbind, M_bind.
  destruct (below_MAXIMUM (g_Verbosity g)); reflexivity.
Qed.

(** Running a computation symbolically, and normalising what a trace
    shows. *)
Ltac run :=
  repeat first
    [ rewrite run_bind
    | rewrite warn_run
    | progress unfold exec
    | progress cbn [gets modify invoke printf emit mret M_ret fst snd negb]
    | progress cbn ].

Ltac trace_simpl :=
  repeat first
    [ rewrite calls_snoc
    | rewrite warnings_snoc
    | rewrite duplicate_warnings_snoc
    | rewrite frame_calls_snoc
    | rewrite suppressed_reports_snoc
    | rewrite fmap_app
    | rewrite app_nil_r
    | rewrite <- app_assoc
    | progress cbn ].

(** ** Stepping through a member function *)

Ltac unfold_members :=
  unfold ExecuteCreatePool, ExecuteDestroyPool, ExecuteSetAllocationUserData,
    ExecuteCreateBuffer, ExecuteDestroyBuffer, ExecuteCreateImage,
    ExecuteDestroyImage, ExecuteFreeMemory, ExecuteCreateLostAllocation,
    ExecuteAllocateMemory, ExecuteAllocateMemoryForBufferOrImage,
    ExecuteMapMemory, ExecuteUnmapMemory, ExecuteFlushAllocation,
    ExecuteInvalidateAllocation, ExecuteTouchAllocation,
    ExecuteGetAllocationInfo, ExecuteMakePoolAllocationsLost,
    DestroyAllocation, AddAllocation, AddPool, Destroy, FindPool,
    ValidateFunctionParameterCount, UserDataOfColumn, PrepareUserData,
    RegisterFunctionCall, on_Stats.

(** One syntactic step; [prim] proves the goals about [modify], [invoke],
    [warn] and [printf]. *)
Ltac preserves_step prim :=
  lazymatch goal with
  | |- preserves _ (mret _) => apply preserves_ret
  | |- preserves _ (_ ≫= _) => apply preserves_bind; [ | intros ?; cbv beta ]
  | |- preserves _ (gets _) => apply preserves_gets
  | |- preserves _ (modify _) => apply preserves_modify; prim
  | |- preserves _ (invoke _) => prim
  | |- preserves _ (warn _ _) => prim
  | |- preserves _ (printf _) => prim
  | |- preserves _ (if ?b then _ else _) => destruct b eqn:?
  | |- preserves _ (match ?x with _ => _ end) => destruct x eqn:?
  | |- preserves _ (let _ := _ in _) => cbv zeta
  end.

Ltac preserves_go prim := unfold_members; repeat preserves_step prim.

Section Frames.
Context `{CommonH} `{TargetAllocator} `{UnorderedMap} (g : Globals).

Lemma frame_state_warn f l msg : preserves (frame_state f l) (warn g msg).
Proof.
  intros p [Hf Hl]. rewrite warn_run. split; cbn; [done|].
  by rewrite frame_calls_snoc, app_nil_r.
Qed.

Lemma frame_state_printf f l msg : preserves (frame_state f l) (printf msg).
Proof.
  intros p [Hf Hl]. split; cbn; [done|].
  by rewrite frame_calls_snoc, app_nil_r.
Qed.

Lemma frame_state_invoke f l c :
  match c with vmaSetCurrentFrameIndex _ => False | _ => True end ->
  preserves (frame_state f l) (invoke c).
Proof.
  intros Hc p [Hf Hl]. split; cbn; [done|].
  rewrite frame_calls_snoc. destruct c; try done; by rewrite app_nil_r.
Qed.

Ltac frame_prim :=
  first
    [ apply frame_state_warn
    | apply frame_state_printf
    | apply frame_state_invoke; exact I
    | intros ? [? ?]; split; assumption ].

Lemma frame_state_dispatch f l lineNumber csvSplit :
  preserves (frame_state f l) (ExecuteLine_dispatch g lineNumber csvSplit).
Proof.
  unfold ExecuteLine_dispatch. cbv zeta.
  repeat (lazymatch goal with
          | |- preserves _ (if StrRangeEq _ _ then _ else _) =>
              destruct (StrRangeEq _ _)
          end);
  preserves_go frame_prim.
Qed.

Lemma frame_state_header f l lineNumber csvSplit p :
  frame_state f l p ->
  match StrRangeToUint32 (to_str (GetRange csvSplit 2)) with
  | Some frameIndex =>
      if frameIndex =? f
      then frame_state f l (exec (ExecuteLine_header g lineNumber csvSplit) p)
      else frame_state frameIndex (l ++ [frameIndex])
             (exec (ExecuteLine_header g lineNumber csvSplit) p)
  | None => frame_state f l (exec (ExecuteLine_header g lineNumber csvSplit) p)
  end.
Proof.
  intros Hp. unfold ExecuteLine_header.
  destruct (StrRangeToUint32 (to_str (GetRange csvSplit 2))) as [frameIndex|];
    [destruct (frameIndex =? f) eqn:E|].
  - apply (preserves_then (frame_state f l) (frame_state f l));
      [preserves_go frame_prim | exact Hp | intros _ q Hq].
    apply (preserves_then (frame_state f l) (frame_state f l));
      [preserves_go frame_prim | exact Hq | intros _ r [Hf Hl]].
    rewrite exec_bind. cbn [gets fst snd]. rewrite Hf, E. done.
  - apply (preserves_then (frame_state f l) (frame_state frameIndex (l ++ [frameIndex])));
      [preserves_go frame_prim | exact Hp | intros _ q Hq].
    apply (preserves_then (frame_state f l) (frame_state frameIndex (l ++ [frameIndex])));
      [preserves_go frame_prim | exact Hq | intros _ r [Hf Hl]].
    rewrite exec_bind. cbn [gets fst snd]. rewrite Hf, E.
    unfold exec, mbind, M_bind, invoke, modify, frame_state. cbn.
    split; [done|]. by rewrite frame_calls_snoc, Hl.
  - apply (preserves_then (frame_state f l) (frame_state f l));
      [preserves_go frame_prim | exact Hp | intros _ q Hq].
    apply (preserves_then (frame_state f l) (frame_state f l));
      [preserves_go frame_prim | exact Hq | intros _ r Hr].
    by apply frame_state_warn.
Qed.

Lemma frame_state_ExecuteLine lineNumber line p :
  frame_state
    (final_frame_index (m_VmaFrameIndex p) [(lineNumber, line)])
    (frame_calls (trace p) ++
       frame_notifications (m_VmaFrameIndex p) [(lineNumber, line)])
    (exec (ExecuteLine g lineNumber line) p).
Proof.
  assert (frame_state (m_VmaFrameIndex p) (frame_calls (trace p)) p) as Hp by done.
  cbn [final_frame_index frame_notifications].
  unfold parsed_frame_index, ExecuteLine, ExecuteSplitLine. cbv zeta.
  destruct (bool_decide _).
  - rewrite exec_bind.
    pose proof (frame_state_header _ _ lineNumber (CsvSplit_Set line None) p Hp) as Hh.
    destruct (StrRangeToUint32 _) as [frameIndex|];
      [destruct (frameIndex =? m_VmaFrameIndex p)|];
      rewrite ?app_nil_r; by apply frame_state_dispatch.
  - rewrite app_nil_r. by apply frame_state_warn.
Qed.

Lemma frame_state_ExecuteLines lines p :
  frame_state
    (final_frame_index (m_VmaFrameIndex p) lines)
    (frame_calls (trace p) ++ frame_notifications (m_VmaFrameIndex p) lines)
    (exec (ExecuteLines g lines) p).
Proof.
  revert p. induction lines as [|[lineNumber line] rest IH]; intros p.
  - cbn. by rewrite app_nil_r.
  - cbn [ExecuteLines]. rewrite exec_bind.
    destruct (frame_state_ExecuteLine lineNumber line p) as [Hf Hl].
    fold (exec (ExecuteLine g lineNumber line) p).
    specialize (IH (exec (ExecuteLine g lineNumber line) p)).
    rewrite Hf, Hl in IH. cbn [final_frame_index frame_notifications] in *.
    destruct (parsed_frame_index line) as [frameIndex|];
      [destruct (frameIndex =? m_VmaFrameIndex p)|];
      rewrite ?app_nil_r, <- ?app_assoc in IH; exact IH.
Qed.

Lemma frame_state_destructor f l : preserves (frame_state f l) (Player_destructor g).
Proof.
  assert (forall allocs, preserves (frame_state f l) (DestroyAll allocs)) as Hall.
  { induction allocs as [|a rest IH]; cbn [DestroyAll].
    - apply preserves_ret.
    - apply preserves_bind; [preserves_go frame_prim | intros _; apply IH]. }
  assert (forall pools, preserves (frame_state f l) (DestroyAllPools pools)) as Hpools.
  { induction pools as [|a rest IH]; cbn [DestroyAllPools].
    - apply preserves_ret.
    - apply preserves_bind; [preserves_go frame_prim | intros _; apply IH]. }
  unfold Player_destructor, FinalizeVulkan.
  repeat first [ apply Hall | apply Hpools | preserves_step frame_prim ].
Qed.

(** C6.  Over every list of lines, from every state of the player: the
    frame indices passed to [vmaSetCurrentFrameIndex] are exactly, in
    order, the parsed frame indices that differ from the current frame
    index at their line, the current frame index being the last value
    passed; a line whose parsed frame index equals the current one, or
    whose frame index is not parsed, causes no such call.  The first
    conjunct is the statement for one line, the second for a run, the
    third for a whole playback, the destructor included. *)
Theorem frame_index_notified_exactly_on_change :
  (forall lineNumber line p,
     let p' := exec (ExecuteLine g lineNumber line) p in
     match parsed_frame_index line with
     | Some frameIndex =>
         if frameIndex =? m_VmaFrameIndex p
         then frame_calls (trace p') = frame_calls (trace p) /\
              m_VmaFrameIndex p' = m_VmaFrameIndex p
         else frame_calls (trace p') = frame_calls (trace p) ++ [frameIndex] /\
              m_VmaFrameIndex p' = frameIndex
     | None =>
         frame_calls (trace p') = frame_calls (trace p) /\
         m_VmaFrameIndex p' = m_VmaFrameIndex p
     end) /\
  (forall lines p,
     let p' := exec (ExecuteLines g lines) p in
     frame_calls (trace p') =
       frame_calls (trace p) ++ frame_notifications (m_VmaFrameIndex p) lines /\
     m_VmaFrameIndex p' = final_frame_index (m_VmaFrameIndex p) lines) /\
  (forall lines,
     frame_calls (trace (Playback g lines)) = frame_notifications 0 lines).
Proof.
  split_and!.
  - intros lineNumber line p p'.
    destruct (frame_state_ExecuteLine lineNumber line p) as [Hf Hl].
    fold p' in Hf, Hl. cbn [final_frame_index frame_notifications] in *.
    destruct (parsed_frame_index line) as [frameIndex|];
      [destruct (frameIndex =? m_VmaFrameIndex p)|];
      rewrite ?app_nil_r in Hl; done.
  - intros lines p p'.
    destruct (frame_state_ExecuteLines lines p) as [Hf Hl]. done.
  - intros lines. unfold Playback. rewrite exec_bind.
    eapply frame_state_destructor. apply (frame_state_ExecuteLines lines Player_new).
Qed.

End Frames.

(** ** The warning counter *)

Section WarningCounter.
Context `{CommonH} `{TargetAllocator} `{UnorderedMap} (g : Globals).

Lemma counted_warn msg : preserves (counted g) (warn g msg).
Proof.
  intros p (Hc & Hs & Hr). rewrite warn_run. unfold counted. cbn.
  rewrite warnings_snoc, suppressed_reports_snoc, app_nil_r.
  split_and!; [| |done].
  - rewrite length_app, Hc, size_t_inc_wrap64. cbn. f_equal. lia.
  - intros i shown msg' Hi.
    destruct (decide (i < length (warnings (trace p)))%nat) as [Hlt|Hge].
    + rewrite lookup_app_l in Hi by done. eauto.
    + rewrite lookup_app_r in Hi by lia.
      destruct (i - length (warnings (trace p)))%nat as [|k] eqn:E; [|done].
      injection Hi as <- <-. rewrite Hc. do 2 f_equal. lia.
Qed.

Lemma counted_printf msg :
  match msg with MsgMoreWarningsNotShown _ => False | _ => True end ->
  preserves (counted g) (printf msg).
Proof.
  intros Hm p (Hc & Hs & Hr). unfold counted. cbn.
  rewrite warnings_snoc, suppressed_reports_snoc, app_nil_r.
  split_and!; [done|done|]. destruct msg; try done; by rewrite app_nil_r.
Qed.

Lemma counted_invoke c : preserves (counted g) (invoke c).
Proof.
  intros p (Hc & Hs & Hr). unfold counted. cbn.
  rewrite warnings_snoc, suppressed_reports_snoc, !app_nil_r. done.
Qed.

Ltac counted_prim :=
  first
    [ apply counted_warn
    | apply counted_printf; exact I
    | apply counted_invoke
    | intros ? Hcounted; exact Hcounted ].

Lemma counted_dispatch lineNumber csvSplit :
  preserves (counted g) (ExecuteLine_dispatch g lineNumber csvSplit).
Proof.
  unfold ExecuteLine_dispatch. cbv zeta.
  repeat (lazymatch goal with
          | |- preserves _ (if StrRangeEq _ _ then _ else _) =>
              destruct (StrRangeEq _ _)
          end);
  preserves_go counted_prim.
Qed.

Lemma counted_header lineNumber csvSplit :
  preserves (counted g) (ExecuteLine_header g lineNumber csvSplit).
Proof. unfold ExecuteLine_header. preserves_go counted_prim. Qed.

Lemma counted_ExecuteLine lineNumber line :
  preserves (counted g) (ExecuteLine g lineNumber line).
Proof.
  unfold ExecuteLine, ExecuteSplitLine.
  destruct (bool_decide _).
  - apply preserves_bind; [apply counted_header | intros _; apply counted_dispatch].
  - apply counted_warn.
Qed.

Lemma counted_ExecuteLines lines : preserves (counted g) (ExecuteLines g lines).
Proof.
  induction lines as [|[lineNumber line] rest IH]; cbn [ExecuteLines].
  - apply preserves_ret.
  - apply preserves_bind; [apply counted_ExecuteLine | intros _; apply IH].
Qed.

Lemma counted_DestroyAll allocs : preserves (counted g) (DestroyAll allocs).
Proof.
  induction allocs as [|a rest IH]; cbn [DestroyAll].
  - apply preserves_ret.
  - apply preserves_bind; [preserves_go counted_prim | intros _; apply IH].
Qed.

Lemma counted_DestroyAllPools pools : preserves (counted g) (DestroyAllPools pools).
Proof.
  induction pools as [|a rest IH]; cbn [DestroyAllPools].
  - apply preserves_ret.
  - apply preserves_bind; [preserves_go counted_prim | intros _; apply IH].
Qed.

Lemma counted_FinalizeVulkan : preserves (counted g) FinalizeVulkan.
Proof.
  unfold FinalizeVulkan.
  repeat first
    [ apply counted_DestroyAll
    | apply counted_DestroyAllPools
    | preserves_step counted_prim ].
Qed.

Lemma counted_new : counted g Player_new.
Proof. split_and!; [done| |done]. intros i shown msg Hi. done. Qed.

Lemma shown_flags_capped (ws : list (bool * Message)) :
  (forall (i : nat) shown msg,
     ws !! i = Some (shown, msg) -> shown = (Z.of_nat i <? MAX_WARNINGS_TO_SHOW)) ->
  (64 <= length ws)%nat ->
  ws.*1 = replicate 64 true ++ replicate (length ws - 64) false.
Proof.
  intros Hs Hlen.
  apply (list_eq_same_length _ _ (length ws)).
  - rewrite length_app, !length_replicate. lia.
  - by rewrite length_fmap.
  - intros i x y Hi Hx Hy.
    rewrite list_lookup_fmap in Hx.
    destruct (ws !! i) as [[shown msg]|] eqn:E; [|done].
    injection Hx as <-. rewrite (Hs i shown msg E).
    destruct (decide (i < 64)%nat) as [Hlt|Hge].
    + rewrite lookup_app_l in Hy by (rewrite length_replicate; lia).
      apply lookup_replicate in Hy as [-> _].
      apply Z.ltb_lt. unfold MAX_WARNINGS_TO_SHOW. lia.
    + rewrite lookup_app_r in Hy by (rewrite length_replicate; lia).
      apply lookup_replicate in Hy as [-> _].
      apply Z.ltb_ge. unfold MAX_WARNINGS_TO_SHOW. lia.
Qed.

Lemma shown_flags_all (ws : list (bool * Message)) :
  (forall (i : nat) shown msg, ws !! i = Some (shown, msg) -> shown = true) ->
  ws.*1 = replicate (length ws) true.
Proof.
  intros Hs. apply (list_eq_same_length _ _ (length ws)).
  - by rewrite length_replicate.
  - by rewrite length_fmap.
  - intros i x y Hi Hx Hy.
    rewrite list_lookup_fmap in Hx.
    destruct (ws !! i) as [[shown msg]|] eqn:E; [|done].
    injection Hx as <-. rewrite (Hs i shown msg E).
    by apply lookup_replicate in Hy as [-> _].
Qed.

(** C5.  In every playback that raises [W] warnings, [W] above the cap of
    64 and within [size_t]: below maximum verbosity the warnings printed
    are exactly the first 64 raised, and "more warnings not shown" is
    printed once, by the destructor, with [W - 64]; at maximum verbosity
    every warning is printed and nothing is reported as suppressed. *)
Theorem warning_cap (lines : list (Z * string)) :
  let t := trace (Playback g lines) in
  let W := Z.of_nat (length (warnings t)) in
  MAX_WARNINGS_TO_SHOW < W ->
  W < 2 ^ 64 ->
  if below_MAXIMUM (g_Verbosity g)
  then (warnings t).*1 =
         replicate 64 true ++ replicate (length (warnings t) - 64) false /\
       suppressed_reports t = [W - MAX_WARNINGS_TO_SHOW]
  else (warnings t).*1 = replicate (length (warnings t)) true /\
       suppressed_reports t = [].
Proof.
  unfold Playback. rewrite exec_bind.
  set (q := (ExecuteLines g lines Player_new).2).
  assert (counted g q) as Hq by (apply counted_ExecuteLines, counted_new).
  unfold Player_destructor. rewrite exec_bind.
  set (r := (FinalizeVulkan q).2).
  assert (counted g r) as (Hc & Hs & Hr) by (by apply counted_FinalizeVulkan).
  clearbody r. clear q Hq.
  rewrite exec_bind. cbn [gets fst snd].
  unfold shows in Hs.
  destruct (below_MAXIMUM (g_Verbosity g)) eqn:Hv; cbn [andb negb orb] in *.
  - destruct (MAX_WARNINGS_TO_SHOW <? m_WarningCount r) eqn:Hlt; cbn zeta.
    + unfold exec, printf, emit, modify. cbn.
      rewrite warnings_snoc, suppressed_reports_snoc, app_nil_r, Hr.
      intros HW Hbound.
      assert (m_WarningCount r = Z.of_nat (length (warnings (trace r)))) as Hcount.
      { rewrite Hc. unfold wrap64. apply Z.mod_small. lia. }
      split; [|by rewrite Hcount].
      apply shown_flags_capped.
      * intros i shown msg Hi. rewrite (Hs i shown msg Hi).
        apply lookup_lt_Some in Hi. unfold wrap64.
        rewrite Z.mod_small by lia. done.
      * unfold MAX_WARNINGS_TO_SHOW in HW. lia.
    + cbn. intros HW Hbound. exfalso.
      apply Z.ltb_ge in Hlt. rewrite Hc in Hlt. unfold wrap64 in Hlt.
      rewrite Z.mod_small in Hlt by lia. lia.
  - cbn. intros _ _. split; [|done].
    apply shown_flags_all. intros i shown msg Hi. exact (Hs i shown msg Hi).
Qed.

End WarningCounter.

Lemma warning_cap_witness :
  let t := trace (@Playback CommonSpec.common granting_allocator walk_by_key default_globals
                    (replicate 65 (3, "x"))) in
  let W := Z.of_nat (length (warnings t)) in
  if below_MAXIMUM (g_Verbosity default_globals)
  then (warnings t).*1 =
         replicate 64 true ++ replicate (length (warnings t) - 64) false /\
       suppressed_reports t = [W - MAX_WARNINGS_TO_SHOW]
  else (warnings t).*1 = replicate (length (warnings t)) true /\
       suppressed_reports t = [].
Proof. apply warning_cap; vm_compute; reflexivity. Defined.

(** ** The dispatch on the function name *)


Section Dispatch.
Context `{CommonH} `{TargetAllocator} `{UnorderedMap} (g : Globals).

Lemma dispatch_handler func lineNumber csvSplit :
  to_str (GetRange csvSplit 3) = VMA_FUNCTION_NAMES func ->
  ExecuteLine_dispatch g lineNumber csvSplit = handler g func lineNumber csvSplit.
Proof.
  intros Hname. unfold ExecuteLine_dispatch, StrRangeEq. cbv zeta.
  rewrite Hname. destruct func; reflexivity.
Qed.

Lemma dispatch_unknown lineNumber csvSplit :
  to_str (GetRange csvSplit 3) ∉ KNOWN_FUNCTIONS ->
  ExecuteLine_dispatch g lineNumber csvSplit = warn g (MsgUnknownFunction lineNumber).
Proof.
  intros Hname.
  assert (forall s, s ∈ KNOWN_FUNCTIONS ->
            String.eqb (to_str (GetRange csvSplit 3)) s = false) as Hne.
  { intros s Hs. apply String.eqb_neq. intros Heq. apply Hname. by rewrite Heq. }
  unfold ExecuteLine_dispatch, StrRangeEq. cbv zeta.
  rewrite !Hne by (apply list_elem_of_In; cbn; tauto).
  reflexivity.
Qed.

(** What the header of a line does, field by field. *)
Lemma header_effects lineNumber csvSplit p :
  let h := exec (ExecuteLine_header g lineNumber csvSplit) p in
  m_Threads h = header_threads csvSplit (m_Threads p) /\
  m_LastLineTimeStr h = to_str (GetRange csvSplit 1) /\
  calls h = calls p ++ header_calls csvSplit (m_VmaFrameIndex p) /\
  (warnings (trace h)).*2 = (warnings (trace p)).*2 ++ header_messages lineNumber csvSplit /\
  m_VmaFrameIndex h =
    default (m_VmaFrameIndex p) (StrRangeToUint32 (to_str (GetRange csvSplit 2))) /\
  m_WarningCount h =
    Nat.iter (length (header_messages lineNumber csvSplit)) size_t_inc (m_WarningCount p) /\
  m_Allocations h = m_Allocations p /\
  m_Pools h = m_Pools p /\
  m_Stats h = m_Stats p /\
  m_AllocateForBufferImageWarningIssued h = m_AllocateForBufferImageWarningIssued p /\
  m_UserDataTmpStr h = m_UserDataTmpStr p.
Proof.
  unfold ExecuteLine_header, header_threads, header_calls, header_messages, calls.
  destruct (StrRangeToUint32 (to_str (GetRange csvSplit 0))) as [threadId|];
    destruct (StrRangeToUint32 (to_str (GetRange csvSplit 2))) as [frameIndex|];
    run;
    try destruct (m_Threads p !! threadId) as [threadInfo|];
    run; cbn;
    try (destruct (frameIndex =? m_VmaFrameIndex p) eqn:E;
         [apply Z.eqb_eq in E|]);
    run; trace_simpl; split_and!; done.
Qed.

Lemma ExecuteLine_split lineNumber line p :
  (FIRST_PARAM_INDEX ≤ GetCount (CsvSplit_Set line None))%nat ->
  exec (ExecuteLine g lineNumber line) p =
  exec (ExecuteLine_dispatch g lineNumber (CsvSplit_Set line None))
    (exec (ExecuteLine_header g lineNumber (CsvSplit_Set line None)) p).
Proof.
  intros Hcount. unfold ExecuteLine, ExecuteSplitLine.
  rewrite bool_decide_eq_true_2 by done. by rewrite exec_bind.
Qed.

(** C7 (amended).  A line with at least four columns whose function name
    is none of the known ones: after the header of the line has had its
    effect, the player raises the unknown-function warning and does
    nothing else.  The registries and the statistics are as before the
    line, and no handler runs; the header has counted the call for the
    thread of column 0, stored the time, and, where the frame index of
    column 2 is not the current one, notified the allocator and made it
    the current one. *)
Theorem unknown_function_warns_after_header lineNumber line p :
  let csvSplit := CsvSplit_Set line None in
  (FIRST_PARAM_INDEX ≤ GetCount csvSplit)%nat ->
  to_str (GetRange csvSplit 3) ∉ KNOWN_FUNCTIONS ->
  let p' := exec (ExecuteLine g lineNumber line) p in
  (warnings (trace p')).*2 =
    (warnings (trace p)).*2 ++ header_messages lineNumber csvSplit ++
    [MsgUnknownFunction lineNumber] /\
  m_WarningCount p' =
    Nat.iter (length (header_messages lineNumber csvSplit) + 1) size_t_inc
      (m_WarningCount p) /\
  m_Allocations p' = m_Allocations p /\
  m_Pools p' = m_Pools p /\
  m_Stats p' = m_Stats p /\
  m_Threads p' = header_threads csvSplit (m_Threads p) /\
  m_LastLineTimeStr p' = to_str (GetRange csvSplit 1) /\
  calls p' = calls p ++ header_calls csvSplit (m_VmaFrameIndex p) /\
  m_VmaFrameIndex p' =
    default (m_VmaFrameIndex p) (StrRangeToUint32 (to_str (GetRange csvSplit 2))).
Proof.
  intros csvSplit Hcount Hname p'. unfold p'.
  rewrite ExecuteLine_split by done. fold csvSplit.
  rewrite dispatch_unknown by done.
  destruct (header_effects lineNumber csvSplit p)
    as (Hth & Htime & Hcalls & Hwarn & Hframe & Hcnt & Ha & Hp & Hs & _).
  set (h := exec (ExecuteLine_header g lineNumber csvSplit) p) in *.
  unfold exec at 1 2 3 4 5 6 7 8 9. rewrite warn_run. unfold calls in *. cbn.
  rewrite warnings_snoc, calls_snoc, fmap_app, app_nil_r, Hwarn, Hcnt, Hcalls.
  rewrite Nat.add_1_r, <- app_assoc. cbn. split_and!; done.
Qed.

(** The handler of [func] on a line whose number of columns it refuses:
    it counts the call and raises the warning of
    [ValidateFunctionParameterCount] -- except
    [ExecuteSetAllocationUserData] with user data disabled, which returns
    before it validates. *)
Lemma handler_arity_mismatch func lineNumber csvSplit h :
  arity_ok func csvSplit = false ->
  exec (handler g func lineNumber csvSplit) h =
  let counted_call := set_Stats (Statistics_RegisterFunctionCall func (m_Stats h)) h in
  if bool_decide (func = SetAllocationUserData) && negb (g_UserDataEnabled g)
  then counted_call
  else exec (warn g (MsgIncorrectParameterCount lineNumber)) counted_call.
Proof.
  unfold arity_ok, parameter_count_ok. intros Harity.
  destruct func; cbn in Harity |- *;
    unfold_members; try destruct (g_UserDataEnabled g); run;
    rewrite ?Harity; run; reflexivity.
Qed.

(** C3 (amended).  A line with at least four columns that names one of
    the nineteen counted functions and whose number of columns the
    function's handler refuses.  The handler invokes no entry point of the
    allocator (the calls of the line are those of its header: the frame
    index, when it changed) and leaves the registries alone; the counter
    of the function goes up by one (on [size_t]) and no other statistic
    changes; the parameter-count warning is raised, after those of the
    header -- except for [vmaSetAllocationUserData] while user data is
    disabled, where the handler returns before it validates and raises no
    warning. *)
Theorem arity_mismatch_counts_and_skips func lineNumber line p :
  let csvSplit := CsvSplit_Set line None in
  (FIRST_PARAM_INDEX ≤ GetCount csvSplit)%nat ->
  to_str (GetRange csvSplit 3) = VMA_FUNCTION_NAMES func ->
  arity_ok func csvSplit = false ->
  let p' := exec (ExecuteLine g lineNumber line) p in
  let returns_early :=
    bool_decide (func = SetAllocationUserData) && negb (g_UserDataEnabled g) in
  m_Stats p' = Statistics_RegisterFunctionCall func (m_Stats p) /\
  GetFunctionCallCount (m_Stats p') func =
    size_t_inc (GetFunctionCallCount (m_Stats p) func) /\
  (forall other, other <> func ->
     GetFunctionCallCount (m_Stats p') other = GetFunctionCallCount (m_Stats p) other) /\
  calls p' = calls p ++ header_calls csvSplit (m_VmaFrameIndex p) /\
  (warnings (trace p')).*2 =
    (warnings (trace p)).*2 ++ header_messages lineNumber csvSplit ++
    (if returns_early then [] else [MsgIncorrectParameterCount lineNumber]) /\
  m_Allocations p' = m_Allocations p /\
  m_Pools p' = m_Pools p.
Proof.
  intros csvSplit Hcount Hname Harity p' returns_early. unfold p'.
  rewrite ExecuteLine_split by done. fold csvSplit.
  rewrite (dispatch_handler func) by done.
  rewrite handler_arity_mismatch by done. cbv zeta. fold returns_early.
  destruct (header_effects lineNumber csvSplit p)
    as (Hth & Htime & Hcalls & Hwarn & Hframe & Hcnt & Ha & Hp & Hs & _).
  set (h := exec (ExecuteLine_header g lineNumber csvSplit) p) in *.
  assert (forall s, GetFunctionCallCount (Statistics_RegisterFunctionCall func s) func =
                    size_t_inc (GetFunctionCallCount s func)) as Hinc.
  { intros s. unfold GetFunctionCallCount. cbn. by rewrite decide_True. }
  assert (forall s other, other <> func ->
            GetFunctionCallCount (Statistics_RegisterFunctionCall func s) other =
            GetFunctionCallCount s other) as Hother.
  { intros s other Hne. unfold GetFunctionCallCount. cbn. by rewrite decide_False. }
  destruct returns_early.
  - cbn. rewrite Hs, app_nil_r. unfold calls in *. cbn.
    split_and!; first [done | exact (Hinc _) | exact (Hother _)].
  - unfold exec. rewrite warn_run. unfold calls in *. cbn.
    rewrite warnings_snoc, calls_snoc, fmap_app, app_nil_r, Hwarn, Hcalls, Hs.
    rewrite <- app_assoc. cbn.
    split_and!; first [done | exact (Hinc _) | exact (Hother _)].
Qed.

End Dispatch.

Lemma unknown_function_warns_after_header_witness :
  let line := "7,0.0,5,vmaBogus" in
  let csvSplit := CommonSpec.comma_CsvSplit_Set line None in
  let p' := exec (@ExecuteLine CommonSpec.common granting_allocator default_globals 3 line)
              Player_new in
  (warnings (trace p')).*2 =
    (warnings (trace Player_new)).*2 ++
    @header_messages CommonSpec.common 3 csvSplit ++ [MsgUnknownFunction 3] /\
  m_WarningCount p' =
    Nat.iter (length (@header_messages CommonSpec.common 3 csvSplit) + 1) size_t_inc
      (m_WarningCount Player_new) /\
  m_Allocations p' = m_Allocations Player_new /\
  m_Pools p' = m_Pools Player_new /\
  m_Stats p' = m_Stats Player_new /\
  m_Threads p' = @header_threads CommonSpec.common csvSplit (m_Threads Player_new) /\
  m_LastLineTimeStr p' = to_str (GetRange csvSplit 1) /\
  calls p' = calls Player_new ++
             @header_calls CommonSpec.common csvSplit (m_VmaFrameIndex Player_new) /\
  m_VmaFrameIndex p' =
    default (m_VmaFrameIndex Player_new)
      (@StrRangeToUint32 CommonSpec.common (to_str (GetRange csvSplit 2))).
Proof.
  apply (@unknown_function_warns_after_header CommonSpec.common granting_allocator
           default_globals 3 "7,0.0,5,vmaBogus" Player_new).
  - vm_compute. lia.
  - rewrite list_elem_of_In. vm_compute. intuition discriminate.
Defined.

(** C7 (as stated it fails).  The line "7,0.0,5,vmaBogus" has four columns
    and an unknown function name; processing it from the fresh player
    changes the per-thread call counters and the current frame index, and
    calls the allocator. *)
Lemma unknown_function_counterexample :
  let line := "7,0.0,5,vmaBogus" in
  let csvSplit := CommonSpec.comma_CsvSplit_Set line None in
  let p' := exec (@ExecuteLine CommonSpec.common granting_allocator default_globals 3 line)
              Player_new in
  GetCount csvSplit = 4%nat /\
  (to_str (GetRange csvSplit 3) ∉ KNOWN_FUNCTIONS) /\
  warnings (trace p') = [(true, MsgUnknownFunction 3)] /\
  m_Threads Player_new !! 7 = None /\
  m_Threads p' !! 7 = Some {| callCount := 1 |} /\
  m_VmaFrameIndex Player_new = 0 /\
  m_VmaFrameIndex p' = 5 /\
  calls Player_new = [] /\
  calls p' = [vmaSetCurrentFrameIndex 5].
Proof.
  split_and!; try (vm_compute; reflexivity).
  rewrite list_elem_of_In. vm_compute. intuition discriminate.
Qed.

Lemma arity_mismatch_counts_and_skips_witness :
  let line := "0,0.0,0,vmaCreatePool,1,2" in
  let csvSplit := CommonSpec.comma_CsvSplit_Set line None in
  let p' := exec (@ExecuteLine CommonSpec.common granting_allocator default_globals 3 line)
              Player_new in
  let returns_early :=
    bool_decide (CreatePool = SetAllocationUserData) &&
    negb (g_UserDataEnabled default_globals) in
  m_Stats p' = Statistics_RegisterFunctionCall CreatePool (m_Stats Player_new) /\
  GetFunctionCallCount (m_Stats p') CreatePool =
    size_t_inc (GetFunctionCallCount (m_Stats Player_new) CreatePool) /\
  (forall other, other <> CreatePool ->
     GetFunctionCallCount (m_Stats p') other =
     GetFunctionCallCount (m_Stats Player_new) other) /\
  calls p' = calls Player_new ++
             @header_calls CommonSpec.common csvSplit (m_VmaFrameIndex Player_new) /\
  (warnings (trace p')).*2 =
    (warnings (trace Player_new)).*2 ++ @header_messages CommonSpec.common 3 csvSplit ++
    (if returns_early then [] else [MsgIncorrectParameterCount 3]) /\
  m_Allocations p' = m_Allocations Player_new /\
  m_Pools p' = m_Pools Player_new.
Proof.
  apply (@arity_mismatch_counts_and_skips CommonSpec.common granting_allocator
           default_globals CreatePool 3 "0,0.0,0,vmaCreatePool,1,2" Player_new).
  - vm_compute. lia.
  - vm_compute. reflexivity.
  - vm_compute. reflexivity.
Defined.

(** C3 (as stated it fails).  With user data disabled, the line
    "0,0.0,5,vmaSetAllocationUserData" names a known function and has no
    parameter columns where at least one is required; the call is counted,
    but no warning is raised, and the allocator is called (with the new
    frame index). *)
Lemma arity_mismatch_counterexample :
  let line := "0,0.0,5,vmaSetAllocationUserData" in
  let csvSplit := CommonSpec.comma_CsvSplit_Set line None in
  let p' := exec (@ExecuteLine CommonSpec.common granting_allocator without_user_data 3 line)
              Player_new in
  to_str (GetRange csvSplit 3) = VMA_FUNCTION_NAMES SetAllocationUserData /\
  GetCount csvSplit = 4%nat /\
  arity_ok SetAllocationUserData csvSplit = false /\
  GetFunctionCallCount (m_Stats p') SetAllocationUserData = 1 /\
  m_WarningCount p' = 0 /\
  warnings (trace p') = [] /\
  calls p' = [vmaSetCurrentFrameIndex 5].
Proof. split_and!; vm_compute; reflexivity. Qed.

(** ** The reconciliation of a creation *)

Section Reconciliation.
Context `{CommonH} `{TargetAllocator} `{UnorderedMap} (g : Globals).

Lemma AddAllocation_effects lineNumber origPtr res functionName allocDesc p :
  let p' := exec (AddAllocation g lineNumber origPtr res functionName allocDesc) p in
  let msgs :=
    reconcile_messages lineNumber origPtr res functionName
      (bool_decide (is_Some (m_Allocations p !! origPtr)))
      (MsgAllocationAlreadyExists lineNumber origPtr) in
  trace p' =
    trace p ++ warn_events g (m_WarningCount p) msgs ++
    (if discarded origPtr res then [EvCall (Destroy_call allocDesc)] else []) /\
  m_WarningCount p' = Nat.iter (length msgs) size_t_inc (m_WarningCount p) /\
  m_Allocations p' =
    (if negb (origPtr =? 0) then <[origPtr := allocDesc]> (m_Allocations p)
     else m_Allocations p) /\
  m_Pools p' = m_Pools p /\
  m_Stats p' = m_Stats p.
Proof.
  unfold AddAllocation, Destroy, Destroy_call, reconcile_messages, discarded.
  destruct (origPtr =? 0); destruct (res =? VK_SUCCESS); cbn [negb andb];
    run;
    try destruct (m_Allocations p !! origPtr) eqn:E;
    try destruct (negb (buffer allocDesc =? VK_NULL_HANDLE));
    try destruct (negb (image allocDesc =? VK_NULL_HANDLE));
    run; rewrite <- ?app_assoc, ?app_nil_r; cbn; split_and!; done.
Qed.

Lemma AddPool_effects lineNumber origPtr res poolDesc p :
  let p' := exec (AddPool g lineNumber origPtr res poolDesc) p in
  let msgs :=
    reconcile_messages lineNumber origPtr res "vmaCreatePool"
      (bool_decide (is_Some (m_Pools p !! origPtr)))
      (MsgPoolAlreadyExists lineNumber origPtr) in
  trace p' =
    trace p ++ warn_events g (m_WarningCount p) msgs ++
    (if discarded origPtr res then [EvCall (vmaDestroyPool (pool poolDesc))] else []) /\
  m_WarningCount p' = Nat.iter (length msgs) size_t_inc (m_WarningCount p) /\
  m_Pools p' =
    (if negb (origPtr =? 0) then <[origPtr := poolDesc]> (m_Pools p)
     else m_Pools p) /\
  m_Allocations p' = m_Allocations p /\
  m_Stats p' = m_Stats p.
Proof.
  unfold AddPool, reconcile_messages, discarded.
  destruct (origPtr =? 0); destruct (res =? VK_SUCCESS); cbn [negb andb];
    run;
    try destruct (m_Pools p !! origPtr) eqn:E;
    run; rewrite <- ?app_assoc, ?app_nil_r; cbn; split_and!; done.
Qed.

Lemma quiet_warn allocs pools cs msg : preserves (quiet allocs pools cs) (warn g msg).
Proof.
  intros p (Ha & Hp & Hc). rewrite warn_run. unfold quiet, calls in *. cbn.
  by rewrite calls_snoc, app_nil_r.
Qed.

Ltac quiet_prim := first [ apply quiet_warn | intros ? Hquiet; exact Hquiet ].

Lemma Validate_run lineNumber csvSplit expectedParamCount lastUnbound p :
  parameter_count_ok csvSplit expectedParamCount lastUnbound = true ->
  ValidateFunctionParameterCount g lineNumber csvSplit expectedParamCount lastUnbound p
  = (true, p).
Proof.
  unfold ValidateFunctionParameterCount, parameter_count_ok. intros ->. reflexivity.
Qed.

Lemma reconciled_step {A} (c : M A) (k : A -> M unit) p q is_live reconcile :
  preserves (quiet (m_Allocations p) (m_Pools p) (calls p)) c ->
  quiet (m_Allocations p) (m_Pools p) (calls p) q ->
  (forall a q', quiet (m_Allocations p) (m_Pools p) (calls p) q' ->
     reconciled_from p (exec (k a) q') is_live reconcile) ->
  reconciled_from p (exec (c ≫= k) q) is_live reconcile.
Proof. intros Hc Hq Hk. rewrite exec_bind. apply Hk, Hc, Hq. Qed.

Lemma reconciled_invoke c p q (is_live : VmaCall -> Prop) reconcile :
  quiet (m_Allocations p) (m_Pools p) (calls p) q ->
  is_live c ->
  reconciled_from p (exec (invoke c ≫= reconcile) q) is_live reconcile.
Proof.
  intros (Ha & Hp & Hc) Hlive. exists (invoke c q).2, c.
  rewrite exec_bind. unfold calls in *. cbn. rewrite calls_snoc, Ha, Hp, Hc.
  split_and!; try done. fold (calls q). unfold calls. by rewrite Hc.
Qed.

Lemma reconciled_step_val {A} (c : M A) (k : A -> M unit) v p q is_live reconcile :
  (forall q', quiet (m_Allocations p) (m_Pools p) (calls p) q' -> (c q').1 = v) ->
  preserves (quiet (m_Allocations p) (m_Pools p) (calls p)) c ->
  quiet (m_Allocations p) (m_Pools p) (calls p) q ->
  (forall q', quiet (m_Allocations p) (m_Pools p) (calls p) q' ->
     reconciled_from p (exec (k v) q') is_live reconcile) ->
  reconciled_from p (exec (c ≫= k) q) is_live reconcile.
Proof. intros Hv Hc Hq Hk. rewrite exec_bind, (Hv q Hq). apply Hk, Hc, Hq. Qed.

Lemma FindPool_value allocs pools cs lineNumber origPool q :
  quiet allocs pools cs q ->
  (FindPool g lineNumber origPool q).1 = (true, find_pool pools origPool).
Proof.
  intros (Ha & Hp & Hc). unfold FindPool, find_pool.
  destruct (negb (origPool =? 0)); [|reflexivity].
  rewrite run_bind. cbn [gets fst snd]. rewrite Hp.
  destruct (pools !! origPool); [reflexivity|].
  rewrite run_bind, warn_run. reflexivity.
Qed.

Lemma UserDataOfColumn_value lineNumber flags csvSplit i q :
  (UserDataOfColumn g lineNumber flags csvSplit i q).1 =
  user_data_value g flags csvSplit i.
Proof.
  unfold UserDataOfColumn, user_data_value, PrepareUserData.
  destruct (bool_decide _); [|reflexivity].
  rewrite run_bind.
  destruct (negb (g_UserDataEnabled g)); [reflexivity|].
  destruct (test_bits _ _); [reflexivity|].
  destruct (StrRangeToPtr _); [reflexivity|].
  rewrite run_bind, warn_run. reflexivity.
Qed.

Ltac reconciled_go :=
  repeat first
    [ apply reconciled_invoke; [assumption | reflexivity]
    | eapply reconciled_step_val;
        [ intros ? ?; first [ eapply FindPool_value; eassumption
                            | apply UserDataOfColumn_value ]
        | preserves_go quiet_prim | assumption | intros ? ? ]
    | apply reconciled_step; [preserves_go quiet_prim | assumption | intros ? ? ?]
    | progress cbv zeta ].

(** Each handler that creates something, on a line whose parameters it
    decodes: the live call, then the reconciliation. *)
Lemma ExecuteCreatePool_reconciled lineNumber csvSplit p info origPtr :
  arity_ok CreatePool csvSplit = true ->
  CreatePool_params csvSplit = Some (info, origPtr) ->
  reconciled_from p (exec (ExecuteCreatePool g lineNumber csvSplit) p)
    (fun c => c = vmaCreatePool info)
    (fun r => AddPool g lineNumber origPtr (reply_res r) {| pool := reply_handle r |}).
Proof.
  intros Harity Hparams.
  assert (quiet (m_Allocations p) (m_Pools p) (calls p) p) as Hq by done.
  unfold ExecuteCreatePool.
  apply reconciled_step; [preserves_go quiet_prim | assumption | intros _ q Hq'].
  rewrite exec_bind, Validate_run by exact Harity. cbn [fst snd]. rewrite Hparams.
  reconciled_go.
Qed.

Lemma ExecuteCreateBuffer_reconciled lineNumber csvSplit p info allocInfo origPool origPtr :
  arity_ok CreateBuffer csvSplit = true ->
  CreateBuffer_params csvSplit = Some (info, allocInfo, origPool, origPtr) ->
  reconciled_from p (exec (ExecuteCreateBuffer g lineNumber csvSplit) p)
    (fun c =>
       c = vmaCreateBuffer info
             (with_pool_userdata allocInfo (find_pool (m_Pools p) origPool)
                (user_data_value g (aci_flags allocInfo) csvSplit 11)))
    (fun r => AddAllocation g lineNumber origPtr (reply_res r) "vmaCreateBuffer"
       {| allocationFlags := aci_flags allocInfo; allocation := reply_allocation r;
          buffer := reply_handle r; image := VK_NULL_HANDLE |}).
Proof.
  intros Harity Hparams.
  assert (quiet (m_Allocations p) (m_Pools p) (calls p) p) as Hq by done.
  unfold ExecuteCreateBuffer.
  apply reconciled_step; [preserves_go quiet_prim | assumption | intros _ q Hq'].
  rewrite exec_bind, Validate_run by exact Harity. cbn [fst snd]. rewrite Hparams.
  reconciled_go.
Qed.

Lemma ExecuteCreateImage_reconciled lineNumber csvSplit p info allocInfo origPool origPtr :
  arity_ok CreateImage csvSplit = true ->
  CreateImage_params csvSplit = Some (info, allocInfo, origPool, origPtr) ->
  reconciled_from p (exec (ExecuteCreateImage g lineNumber csvSplit) p)
    (fun c =>
       c = vmaCreateImage info
             (with_pool_userdata allocInfo (find_pool (m_Pools p) origPool)
                (user_data_value g (aci_flags allocInfo) csvSplit 20)))
    (fun r => AddAllocation g lineNumber origPtr (reply_res r) "vmaCreateImage"
       {| allocationFlags := aci_flags allocInfo; allocation := reply_allocation r;
          buffer := VK_NULL_HANDLE; image := reply_handle r |}).
Proof.
  intros Harity Hparams.
  assert (quiet (m_Allocations p) (m_Pools p) (calls p) p) as Hq by done.
  unfold ExecuteCreateImage.
  apply reconciled_step; [preserves_go quiet_prim | assumption | intros _ q Hq'].
  rewrite exec_bind, Validate_run by exact Harity. cbn [fst snd]. rewrite Hparams.
  reconciled_go.
Qed.

Lemma ExecuteAllocateMemory_reconciled lineNumber csvSplit p memReq allocInfo origPool origPtr :
  arity_ok AllocateMemory csvSplit = true ->
  AllocateMemory_params csvSplit = Some (memReq, allocInfo, origPool, origPtr) ->
  reconciled_from p (exec (ExecuteAllocateMemory g lineNumber csvSplit) p)
    (fun c =>
       c = vmaAllocateMemory memReq
             (with_pool_userdata allocInfo (find_pool (m_Pools p) origPool)
                (user_data_value g (aci_flags allocInfo) csvSplit 10)))
    (fun r => AddAllocation g lineNumber origPtr (reply_res r) "vmaAllocateMemory"
       {| allocationFlags := aci_flags allocInfo; allocation := reply_allocation r;
          buffer := VK_NULL_HANDLE; image := VK_NULL_HANDLE |}).
Proof.
  intros Harity Hparams.
  assert (quiet (m_Allocations p) (m_Pools p) (calls p) p) as Hq by done.
  unfold ExecuteAllocateMemory.
  apply reconciled_step; [preserves_go quiet_prim | assumption | intros _ q Hq'].
  rewrite exec_bind, Validate_run by exact Harity. cbn [fst snd]. rewrite Hparams.
  reconciled_go.
Qed.

Lemma ExecuteAllocateMemoryFor_reconciled lineNumber csvSplit objType p
    memReq allocInfo requires prefers origPool origPtr :
  parameter_count_ok csvSplit 13 true = true ->
  AllocateMemoryFor_params csvSplit =
    Some (memReq, allocInfo, requires, prefers, origPool, origPtr) ->
  let flags :=
    if requires || prefers
    then Z.lor (aci_flags allocInfo) VMA_ALLOCATION_CREATE_DEDICATED_MEMORY_BIT
    else aci_flags allocInfo in
  reconciled_from p
    (exec (ExecuteAllocateMemoryForBufferOrImage g lineNumber csvSplit objType) p)
    (fun c =>
       c = vmaAllocateMemory memReq
             (with_flags
                (with_pool_userdata allocInfo (find_pool (m_Pools p) origPool)
                   (user_data_value g (aci_flags allocInfo) csvSplit 12)) flags))
    (fun r => AddAllocation g lineNumber origPtr (reply_res r) AllocateMemoryFor_name
       {| allocationFlags := flags; allocation := reply_allocation r;
          buffer := VK_NULL_HANDLE; image := VK_NULL_HANDLE |}).
Proof.
  intros Harity Hparams flags.
  assert (quiet (m_Allocations p) (m_Pools p) (calls p) p) as Hq by done.
  unfold ExecuteAllocateMemoryForBufferOrImage.
  apply reconciled_step;
    [destruct objType; preserves_go quiet_prim | assumption | intros _ q Hq'].
  rewrite exec_bind, Validate_run by exact Harity. cbn [fst snd]. rewrite Hparams.
  reconciled_go.
Qed.

(** [vmaCreateLostAllocation] returns nothing: the reconciliation is
    always the one of a live call that succeeded. *)
Lemma ExecuteCreateLostAllocation_reconciled lineNumber csvSplit p origPtr :
  arity_ok CreateLostAllocation csvSplit = true ->
  StrRangeToPtr (param csvSplit 0) = Some origPtr ->
  reconciled_from p (exec (ExecuteCreateLostAllocation g lineNumber csvSplit) p)
    (fun c => c = vmaCreateLostAllocation)
    (fun r => AddAllocation g lineNumber origPtr VK_SUCCESS "vmaCreateLostAllocation"
       {| allocationFlags := 0; allocation := reply_allocation r;
          buffer := VK_NULL_HANDLE; image := VK_NULL_HANDLE |}).
Proof.
  intros Harity Hparams.
  assert (quiet (m_Allocations p) (m_Pools p) (calls p) p) as Hq by done.
  unfold ExecuteCreateLostAllocation.
  apply reconciled_step; [preserves_go quiet_prim | assumption | intros _ q Hq'].
  rewrite exec_bind, Validate_run by exact Harity. cbn [fst snd]. rewrite Hparams.
  destruct Hq' as (Ha & Hp & Hc).
  exists (exec (on_Stats Statistics_RegisterCreateAllocation) (invoke vmaCreateLostAllocation q).2),
    vmaCreateLostAllocation.
  rewrite !exec_bind. unfold calls in *. cbn. rewrite calls_snoc, Ha, Hp, Hc.
  split_and!; try done. fold (calls q). unfold calls. by rewrite Hc.
Qed.

(** C2 (amended).  The reconciliation of a creation, by whether the
    recorded id [origPtr] is nonzero and whether the live call returned
    [VK_SUCCESS]; [reconcile_messages] is the table:
    - nonzero, succeeded: the entry is registered under [origPtr], no
      divergence warning;
    - nonzero, failed: "failed, while originally succeeded" is raised and
      the entry, as the failed call left it, is registered under [origPtr];
    - in both, when [origPtr] is registered already, the "already exists"
      warning is raised as well, before the entry is replaced;
    - zero, succeeded: "succeeded, originally failed" is raised and the
      live object is destroyed at once, nothing is registered;
    - zero, failed: "failed, originally also failed" is raised, nothing is
      registered, nothing is called.
    The first two conjuncts are [AddAllocation] and the pool's part of
    [ExecuteCreatePool]; the third says that every handler that creates
    something, on a line whose parameters decode, makes its live call
    with the registries untouched and then does that reconciliation with
    the id it parsed and the result of the call (for
    [vmaCreateLostAllocation], which returns nothing, with [VK_SUCCESS]),
    the entry holding the handles the call stored. *)
Theorem reconciliation_matrix :
  (forall lineNumber origPtr res functionName allocDesc p,
     let p' := exec (AddAllocation g lineNumber origPtr res functionName allocDesc) p in
     let msgs :=
       reconcile_messages lineNumber origPtr res functionName
         (bool_decide (is_Some (m_Allocations p !! origPtr)))
         (MsgAllocationAlreadyExists lineNumber origPtr) in
     trace p' =
       trace p ++ warn_events g (m_WarningCount p) msgs ++
       (if discarded origPtr res then [EvCall (Destroy_call allocDesc)] else []) /\
     m_WarningCount p' = Nat.iter (length msgs) size_t_inc (m_WarningCount p) /\
     m_Allocations p' =
       (if negb (origPtr =? 0) then <[origPtr := allocDesc]> (m_Allocations p)
        else m_Allocations p) /\
     m_Pools p' = m_Pools p /\
     m_Stats p' = m_Stats p) /\
  (forall lineNumber origPtr res poolDesc p,
     let p' := exec (AddPool g lineNumber origPtr res poolDesc) p in
     let msgs :=
       reconcile_messages lineNumber origPtr res "vmaCreatePool"
         (bool_decide (is_Some (m_Pools p !! origPtr)))
         (MsgPoolAlreadyExists lineNumber origPtr) in
     trace p' =
       trace p ++ warn_events g (m_WarningCount p) msgs ++
       (if discarded origPtr res then [EvCall (vmaDestroyPool (pool poolDesc))] else []) /\
     m_WarningCount p' = Nat.iter (length msgs) size_t_inc (m_WarningCount p) /\
     m_Pools p' =
       (if negb (origPtr =? 0) then <[origPtr := poolDesc]> (m_Pools p)
        else m_Pools p) /\
     m_Allocations p' = m_Allocations p /\
     m_Stats p' = m_Stats p) /\
  (forall lineNumber csvSplit p,
     (forall info origPtr,
        arity_ok CreatePool csvSplit = true ->
        CreatePool_params csvSplit = Some (info, origPtr) ->
        reconciled_from p (exec (ExecuteCreatePool g lineNumber csvSplit) p)
          (fun c => c = vmaCreatePool info)
          (fun r => AddPool g lineNumber origPtr (reply_res r)
                      {| pool := reply_handle r |})) /\
     (forall info allocInfo origPool origPtr,
        arity_ok CreateBuffer csvSplit = true ->
        CreateBuffer_params csvSplit = Some (info, allocInfo, origPool, origPtr) ->
        reconciled_from p (exec (ExecuteCreateBuffer g lineNumber csvSplit) p)
          (fun c =>
             c = vmaCreateBuffer info
                   (with_pool_userdata allocInfo (find_pool (m_Pools p) origPool)
                      (user_data_value g (aci_flags allocInfo) csvSplit 11)))
          (fun r => AddAllocation g lineNumber origPtr (reply_res r) "vmaCreateBuffer"
             {| allocationFlags := aci_flags allocInfo;
                allocation := reply_allocation r;
                buffer := reply_handle r; image := VK_NULL_HANDLE |})) /\
     (forall info allocInfo origPool origPtr,
        arity_ok CreateImage csvSplit = true ->
        CreateImage_params csvSplit = Some (info, allocInfo, origPool, origPtr) ->
        reconciled_from p (exec (ExecuteCreateImage g lineNumber csvSplit) p)
          (fun c =>
             c = vmaCreateImage info
                   (with_pool_userdata allocInfo (find_pool (m_Pools p) origPool)
                      (user_data_value g (aci_flags allocInfo) csvSplit 20)))
          (fun r => AddAllocation g lineNumber origPtr (reply_res r) "vmaCreateImage"
             {| allocationFlags := aci_flags allocInfo;
                allocation := reply_allocation r;
                buffer := VK_NULL_HANDLE; image := reply_handle r |})) /\
     (forall memReq allocInfo origPool origPtr,
        arity_ok AllocateMemory csvSplit = true ->
        AllocateMemory_params csvSplit = Some (memReq, allocInfo, origPool, origPtr) ->
        reconciled_from p (exec (ExecuteAllocateMemory g lineNumber csvSplit) p)
          (fun c =>
             c = vmaAllocateMemory memReq
                   (with_pool_userdata allocInfo (find_pool (m_Pools p) origPool)
                      (user_data_value g (aci_flags allocInfo) csvSplit 10)))
          (fun r => AddAllocation g lineNumber origPtr (reply_res r) "vmaAllocateMemory"
             {| allocationFlags := aci_flags allocInfo;
                allocation := reply_allocation r;
                buffer := VK_NULL_HANDLE; image := VK_NULL_HANDLE |})) /\
     (forall objType memReq allocInfo requires prefers origPool origPtr,
        parameter_count_ok csvSplit 13 true = true ->
        AllocateMemoryFor_params csvSplit =
          Some (memReq, allocInfo, requires, prefers, origPool, origPtr) ->
        let flags :=
          if requires || prefers
          then Z.lor (aci_flags allocInfo) VMA_ALLOCATION_CREATE_DEDICATED_MEMORY_BIT
          else aci_flags allocInfo in
        reconciled_from p
          (exec (ExecuteAllocateMemoryForBufferOrImage g lineNumber csvSplit objType) p)
          (fun c =>
             c = vmaAllocateMemory memReq
                   (with_flags
                      (with_pool_userdata allocInfo (find_pool (m_Pools p) origPool)
                         (user_data_value g (aci_flags allocInfo) csvSplit 12)) flags))
          (fun r => AddAllocation g lineNumber origPtr (reply_res r)
                      AllocateMemoryFor_name
             {| allocationFlags := flags; allocation := reply_allocation r;
                buffer := VK_NULL_HANDLE; image := VK_NULL_HANDLE |})) /\
     (forall origPtr,
        arity_ok CreateLostAllocation csvSplit = true ->
        StrRangeToPtr (param csvSplit 0) = Some origPtr ->
        reconciled_from p (exec (ExecuteCreateLostAllocation g lineNumber csvSplit) p)
          (fun c => c = vmaCreateLostAllocation)
          (fun r => AddAllocation g lineNumber origPtr VK_SUCCESS
                      "vmaCreateLostAllocation"
             {| allocationFlags := 0; allocation := reply_allocation r;
                buffer := VK_NULL_HANDLE; image := VK_NULL_HANDLE |}))).
Proof.
  split_and!.
  - apply AddAllocation_effects.
  - apply AddPool_effects.
  - intros lineNumber csvSplit p. split_and!; intros.
    + by apply ExecuteCreatePool_reconciled.
    + by eapply ExecuteCreateBuffer_reconciled.
    + by eapply ExecuteCreateImage_reconciled.
    + by eapply ExecuteAllocateMemory_reconciled.
    + by eapply ExecuteAllocateMemoryFor_reconciled.
    + by apply ExecuteCreateLostAllocation_reconciled.
Qed.


End Reconciliation.

Lemma reconciliation_matrix_witness :
  let csvSplit :=
    CommonSpec.comma_CsvSplit_Set
      "0,0.0,0,vmaCreateBuffer,0,1024,128,0,0,1,0,0,0,0,1A2B" None in
  let info :=
    {| buf_flags := 0; buf_size := 1024; buf_usage := 128; buf_sharingMode := 0 |} in
  let allocInfo :=
    {| aci_flags := 0; aci_usage := 1; aci_requiredFlags := 0;
       aci_preferredFlags := 0; aci_memoryTypeBits := 0;
       aci_pool := VK_NULL_HANDLE; aci_pUserData := nullptr |} in
  @reconciled_from granting_allocator Player_new
    (exec (@ExecuteCreateBuffer CommonSpec.common granting_allocator default_globals
             3 csvSplit) Player_new)
    (fun c =>
       c = vmaCreateBuffer info
             (with_pool_userdata allocInfo (find_pool (m_Pools Player_new) 0)
                (@user_data_value CommonSpec.common default_globals
                   (aci_flags allocInfo) csvSplit 11)))
    (fun r => @AddAllocation granting_allocator default_globals 3 6699 (reply_res r)
                "vmaCreateBuffer"
       {| allocationFlags := aci_flags allocInfo;
          allocation := reply_allocation r;
          buffer := reply_handle r; image := VK_NULL_HANDLE |}).
Proof.
  intros csvSplit info allocInfo.
  apply (proj1 (proj2 (proj2 (proj2
           (@reconciliation_matrix CommonSpec.common granting_allocator default_globals))
           3 csvSplit Player_new)) info allocInfo 0 6699).
  - vm_compute. reflexivity.
  - vm_compute. reflexivity.
Defined.

(** C2 (as stated it fails).  Two lines create a buffer under the same
    recorded id 1A2B, and the allocator grants both.  The second is a
    creation whose parameters decode, with a nonzero recorded id and a
    live call that succeeded: it is registered, and a warning is raised. *)
Lemma reconciliation_matrix_counterexample :
  let line := "0,0.0,0,vmaCreateBuffer,0,1024,128,0,0,1,0,0,0,0,1A2B" in
  let run lineNumber :=
    exec (@ExecuteLine CommonSpec.common granting_allocator default_globals lineNumber line) in
  let p1 := run 3 Player_new in
  let p2 := run 4 p1 in
  (exists info allocInfo origPool,
     @CreateBuffer_params CommonSpec.common (CommonSpec.comma_CsvSplit_Set line None)
     = Some (info, allocInfo, origPool, 6699)) /\
  (forall history c, reply_res (granting_allocator history c) = VK_SUCCESS) /\
  m_Allocations p2 !! 6699 =
    Some {| allocationFlags := 0; allocation := 2001; buffer := 1001;
            image := VK_NULL_HANDLE |} /\
  warnings (trace p1) = [] /\
  warnings (trace p2) = [(true, MsgAllocationAlreadyExists 4 6699)] /\
  m_WarningCount p2 = 1.
Proof.
  split_and!;
    first [ vm_compute; reflexivity
          | do 3 eexists; vm_compute; reflexivity
          | intros history c; reflexivity ].
Qed.


(** ** Records that name the allocation zero *)

Section ZeroId.
Context `{CommonH} `{TargetAllocator} `{UnorderedMap} (g : Globals).

Lemma zero_free_warn msg : preserves zero_free (warn g msg).
Proof. intros p Hp. rewrite warn_run. exact Hp. Qed.

(** Where the source tests [origPtr != 0], the model has
    [negb (origPtr =? 0) = true] among the hypotheses. *)
Ltac zero_free_prim :=
  first
    [ apply zero_free_warn
    | intros ? Hzero; exact Hzero
    | intros ? Hzero; unfold zero_free in *; cbn;
      match goal with
      | Hnz : negb (?o =? 0) = true |- _ =>
          apply negb_true_iff, Z.eqb_neq in Hnz;
          first [ by rewrite lookup_insert_ne
                | by rewrite lookup_delete_ne ]
      end ].

Lemma zero_free_dispatch lineNumber csvSplit :
  preserves zero_free (ExecuteLine_dispatch g lineNumber csvSplit).
Proof.
  unfold ExecuteLine_dispatch. cbv zeta.
  repeat (lazymatch goal with
          | |- preserves _ (if StrRangeEq _ _ then _ else _) =>
              destruct (StrRangeEq _ _)
          end);
  preserves_go zero_free_prim.
Qed.

Lemma zero_free_header lineNumber csvSplit :
  preserves zero_free (ExecuteLine_header g lineNumber csvSplit).
Proof. unfold ExecuteLine_header. preserves_go zero_free_prim. Qed.

Lemma zero_free_ExecuteLines lines : preserves zero_free (ExecuteLines g lines).
Proof.
  induction lines as [|[lineNumber line] rest IH]; cbn [ExecuteLines].
  - apply preserves_ret.
  - apply preserves_bind; [|intros _; apply IH].
    unfold ExecuteLine, ExecuteSplitLine. destruct (bool_decide _).
    + apply preserves_bind; [apply zero_free_header | intros _; apply zero_free_dispatch].
    + apply zero_free_warn.
Qed.

(** The original id zero is never registered. *)
Lemma zero_never_registered lines :
  m_Allocations (exec (ExecuteLines g lines) Player_new) !! 0 = None.
Proof. by apply zero_free_ExecuteLines. Qed.

(** C10 (amended).  On a line whose number of columns the handler accepts:
    - destroy-buffer, destroy-image, free-memory, map and unmap, when the
      allocation id parses to zero, and flush and invalidate, when the id
      parses to zero and offset and size parse too, only count the call:
      the player is otherwise unchanged, so no entry point is invoked and
      no warning raised;
    - touch-allocation and get-allocation-info, when the id parses to
      zero, count the call and raise "Allocation 0 not found", in every
      state that a playback reaches: they look the id up without testing
      it, and zero is never registered. *)
Theorem zero_allocation_id lineNumber csvSplit :
  (forall func p,
     func ∈ [DestroyBuffer; DestroyImage; FreeMemory; MapMemory; UnmapMemory] ->
     arity_ok func csvSplit = true ->
     StrRangeToPtr (param csvSplit 0) = Some 0 ->
     exec (handler g func lineNumber csvSplit) p =
     set_Stats (Statistics_RegisterFunctionCall func (m_Stats p)) p) /\
  (forall func p offset size,
     func ∈ [FlushAllocation; InvalidateAllocation] ->
     arity_ok func csvSplit = true ->
     FlushAllocation_params csvSplit = Some (0, offset, size) ->
     exec (handler g func lineNumber csvSplit) p =
     set_Stats (Statistics_RegisterFunctionCall func (m_Stats p)) p) /\
  (forall func lines,
     func ∈ [TouchAllocation; GetAllocationInfo] ->
     arity_ok func csvSplit = true ->
     StrRangeToPtr (param csvSplit 0) = Some 0 ->
     let p := exec (ExecuteLines g lines) Player_new in
     exec (handler g func lineNumber csvSplit) p =
     exec (warn g (MsgAllocationNotFound lineNumber 0))
       (set_Stats (Statistics_RegisterFunctionCall func (m_Stats p)) p)).
Proof.
  split_and!.
  - intros func p Hfunc Harity Hid.
    repeat (apply elem_of_cons in Hfunc as [->|Hfunc]);
      [| | | | |by apply elem_of_nil in Hfunc];
      unfold arity_ok in Harity; cbn in Harity;
      unfold handler, ExecuteDestroyBuffer, ExecuteDestroyImage, ExecuteFreeMemory,
        DestroyAllocation, ExecuteMapMemory, ExecuteUnmapMemory, RegisterFunctionCall,
        on_Stats;
      rewrite !exec_bind; cbn [modify fst snd];
      rewrite Validate_run by exact Harity; cbn [fst snd];
      rewrite Hid; reflexivity.
  - intros func p offset size Hfunc Harity Hparams.
    repeat (apply elem_of_cons in Hfunc as [->|Hfunc]);
      [| |by apply elem_of_nil in Hfunc];
      unfold arity_ok in Harity; cbn in Harity;
      unfold handler, ExecuteFlushAllocation, ExecuteInvalidateAllocation,
        RegisterFunctionCall, on_Stats;
      rewrite !exec_bind; cbn [modify fst snd];
      rewrite Validate_run by exact Harity; cbn [fst snd];
      rewrite Hparams; reflexivity.
  - intros func lines Hfunc Harity Hid p.
    pose proof (zero_never_registered lines) as Hzero. fold p in Hzero.
    repeat (apply elem_of_cons in Hfunc as [->|Hfunc]);
      [| |by apply elem_of_nil in Hfunc];
      unfold arity_ok in Harity; cbn in Harity;
      unfold handler, ExecuteTouchAllocation, ExecuteGetAllocationInfo,
        RegisterFunctionCall, on_Stats;
      rewrite !exec_bind; cbn [modify fst snd];
      rewrite Validate_run by exact Harity; cbn [fst snd];
      rewrite Hid, exec_bind; cbn [gets set_Stats m_Allocations fst snd];
      rewrite Hzero; reflexivity.
Qed.

End ZeroId.

Lemma zero_allocation_id_witness :
  let csvSplit := CommonSpec.comma_CsvSplit_Set "0,0.0,0,vmaDestroyBuffer,0" None in
  exec (@handler CommonSpec.common granting_allocator default_globals DestroyBuffer
          3 csvSplit) Player_new =
  set_Stats (Statistics_RegisterFunctionCall DestroyBuffer (m_Stats Player_new)) Player_new.
Proof.
  intros csvSplit.
  apply (proj1 (@zero_allocation_id CommonSpec.common granting_allocator default_globals
                  3 csvSplit) DestroyBuffer Player_new).
  - apply list_elem_of_In. simpl. tauto.
  - vm_compute. reflexivity.
  - vm_compute. reflexivity.
Defined.

(** C10 (as stated it fails).  In the line
    "0,0.0,0,vmaFlushAllocation,0,zz,4" the allocation id parses to zero
    and the number of columns is right, but the offset does not parse: the
    record is not silent, "Invalid parameters for vmaFlushAllocation" is
    raised.  In "0,0.0,0,vmaDestroyBuffer,0,1" the id column reads zero,
    and the record has a column too many: the parameter-count warning is
    raised. *)
Lemma zero_allocation_id_counterexample :
  let flush := "0,0.0,0,vmaFlushAllocation,0,zz,4" in
  let destroy := "0,0.0,0,vmaDestroyBuffer,0,1" in
  let split line := CommonSpec.comma_CsvSplit_Set line None in
  let run line :=
    exec (@ExecuteLine CommonSpec.common granting_allocator default_globals 3 line)
      Player_new in
  to_str (GetRange (split flush) 3) = VMA_FUNCTION_NAMES FlushAllocation /\
  @StrRangeToPtr CommonSpec.common (param (split flush) 0) = Some 0 /\
  arity_ok FlushAllocation (split flush) = true /\
  warnings (trace (run flush)) = [(true, MsgInvalidParameters 3 "vmaFlushAllocation")] /\
  m_WarningCount (run flush) = 1 /\
  to_str (GetRange (split destroy) 3) = VMA_FUNCTION_NAMES DestroyBuffer /\
  @StrRangeToPtr CommonSpec.common (param (split destroy) 0) = Some 0 /\
  warnings (trace (run destroy)) = [(true, MsgIncorrectParameterCount 3)].
Proof. split_and!; vm_compute; reflexivity. Qed.

(** ** User data *)

Section UserData.
Context `{CommonH} `{TargetAllocator} `{UnorderedMap} (g : Globals).

Lemma user_data_passed_snoc evs e :
  user_data_passed (evs ++ [e]) =
  user_data_passed evs ++
    match e with
    | EvCall c => match call_user_data c with Some u => [u] | None => [] end
    | _ => []
    end.
Proof.
  unfold user_data_passed. rewrite calls_snoc, omap_app. f_equal.
  destruct e as [| |c]; try reflexivity; cbn; by destruct (call_user_data c).
Qed.

Lemma user_data_passed_warn_events evs count msgs :
  user_data_passed (evs ++ warn_events g count msgs) = user_data_passed evs.
Proof.
  revert evs count. induction msgs as [|msg rest IH]; intros evs count; cbn.
  - by rewrite app_nil_r.
  - rewrite cons_middle, (assoc_L (++)), IH, user_data_passed_snoc. by rewrite app_nil_r.
Qed.

Lemma Destroy_call_user_data alloc : call_user_data (Destroy_call alloc) = None.
Proof.
  unfold Destroy_call.
  destruct (negb (buffer alloc =? VK_NULL_HANDLE)); [reflexivity|].
  destruct (negb (image alloc =? VK_NULL_HANDLE)); reflexivity.
Qed.

End UserData.


(** C9 (as stated it fails).  With user data disabled, a buffer is
    created under the id 1A2B and a later line sets its user data: the
    line has the right number of columns and the allocation is
    registered, but no entry point is invoked for it, so nothing, null or
    not, is passed.  With user data enabled the same line calls
    [vmaSetAllocationUserData]. *)
Lemma user_data_disabled_counterexample :
  let create := "0,0.0,0,vmaCreateBuffer,0,1024,128,0,0,1,0,0,0,0,1A2B" in
  let set_user_data := "0,0.1,0,vmaSetAllocationUserData,1A2B,DEAD" in
  let run g lineNumber line :=
    exec (@ExecuteLine CommonSpec.common granting_allocator g lineNumber line) in
  let p1 := run without_user_data 3 create Player_new in
  let p2 := run without_user_data 4 set_user_data p1 in
  let q1 := run default_globals 3 create Player_new in
  let q2 := run default_globals 4 set_user_data q1 in
  m_Allocations p1 !! 6699 =
    Some {| allocationFlags := 0; allocation := 2000; buffer := 1000;
            image := VK_NULL_HANDLE |} /\
  arity_ok SetAllocationUserData (CommonSpec.comma_CsvSplit_Set set_user_data None) = true /\
  calls p2 = calls p1 /\
  GetFunctionCallCount (m_Stats p2) SetAllocationUserData = 1 /\
  calls q2 = calls q1 ++ [vmaSetAllocationUserData 2000 (UdPtr 57005)].
Proof. split_and!; vm_compute; reflexivity. Qed.

(** ** Messages that bypass the warning counter *)

Section Bypass.
Context `{CommonH} `{TargetAllocator} `{UnorderedMap} (g : Globals).

Lemma unguarded_snoc evs e :
  unguarded (evs ++ [e]) =
  unguarded evs ++ match e with EvPrintf msg => [msg] | _ => [] end.
Proof. unfold unguarded. rewrite omap_app. f_equal. destruct e; reflexivity. Qed.

(** [vmaMapMemory] fails on a registered allocation: the failure is
    printed, and the warning counter is not touched. *)
Lemma ExecuteMapMemory_failure lineNumber csvSplit p origPtr allocDesc :
  arity_ok MapMemory csvSplit = true ->
  StrRangeToPtr (param csvSplit 0) = Some origPtr ->
  origPtr <> 0 ->
  m_Allocations p !! origPtr = Some allocDesc ->
  allocation allocDesc <> VK_NULL_HANDLE ->
  let r := vma_reply (calls p) (vmaMapMemory (allocation allocDesc)) in
  reply_res r <> VK_SUCCESS ->
  let p' := exec (ExecuteMapMemory g lineNumber csvSplit) p in
  trace p' =
    trace p ++ [EvCall (vmaMapMemory (allocation allocDesc));
                EvPrintf (MsgMapMemoryFailed lineNumber (reply_res r))] /\
  m_WarningCount p' = m_WarningCount p.
Proof.
  intros Harity Hid Hnz Hreg Hnn r Hfail p'. unfold p', ExecuteMapMemory,
    RegisterFunctionCall, on_Stats.
  apply Z.eqb_neq in Hnz, Hnn, Hfail.
  rewrite exec_bind. cbn [modify fst snd].
  rewrite exec_bind, Validate_run by exact Harity. cbn [fst snd].
  rewrite Hid, Hnz. cbn [negb]. rewrite exec_bind. cbn [gets set_Stats m_Allocations fst snd].
  rewrite Hreg, Hnn. cbn [negb]. rewrite exec_bind.
  match goal with
  | |- context [(invoke ?c ?q).1] => change ((invoke c q).1) with r
  end.
  rewrite Hfail. cbn [negb]. unfold exec. cbn. by rewrite <- app_assoc.
Qed.

Lemma bypass_warn msg : preserves bypasses_only_on_map_failure (warn g msg).
Proof.
  intros p Hp. rewrite warn_run. unfold bypasses_only_on_map_failure in *. cbn.
  by rewrite unguarded_snoc, app_nil_r.
Qed.

Lemma bypass_invoke c : preserves bypasses_only_on_map_failure (invoke c).
Proof.
  intros p Hp. unfold bypasses_only_on_map_failure in *. cbn.
  by rewrite unguarded_snoc, app_nil_r.
Qed.

Lemma bypass_printf lineNumber res :
  preserves bypasses_only_on_map_failure (printf (MsgMapMemoryFailed lineNumber res)).
Proof.
  intros p Hp. unfold bypasses_only_on_map_failure in *. cbn.
  rewrite unguarded_snoc. apply Forall_app. split; [done|].
  apply Forall_singleton. eauto.
Qed.

Ltac bypass_prim :=
  first
    [ apply bypass_warn
    | apply bypass_invoke
    | apply bypass_printf
    | intros ? Hbypass; exact Hbypass ].

(** While lines are executed, the failure of [vmaMapMemory] is the only
    message that does not go through [IssueWarning]. *)
Lemma bypass_ExecuteLines lines :
  preserves bypasses_only_on_map_failure (ExecuteLines g lines).
Proof.
  induction lines as [|[lineNumber line] rest IH]; cbn [ExecuteLines].
  - apply preserves_ret.
  - apply preserves_bind; [|intros _; apply IH].
    unfold ExecuteLine, ExecuteSplitLine. destruct (bool_decide _).
    + apply preserves_bind; [|intros _].
      * unfold ExecuteLine_header. preserves_go bypass_prim.
      * unfold ExecuteLine_dispatch. cbv zeta.
        repeat (lazymatch goal with
                | |- preserves _ (if StrRangeEq _ _ then _ else _) =>
                    destruct (StrRangeEq _ _)
                end);
        preserves_go bypass_prim.
    + apply bypass_warn.
Qed.

End Bypass.

(** C8 (the code departs from the claim).  A buffer is created under the
    id 1A2B and then mapped; the allocator refuses the mapping.  The
    failure is printed by a [printf] that no [IssueWarning] guards: the
    message is shown, the warning counter stays at zero and no warning is
    recorded.  Every handler next to it, and this one for its other
    anomalies, goes through [IssueWarning]. *)
Theorem map_failure_bypasses_warning_counter :
  let create := "0,0.0,0,vmaCreateBuffer,0,1024,128,0,0,1,0,0,0,0,1A2B" in
  let map := "0,0.1,0,vmaMapMemory,1A2B" in
  let run lineNumber line :=
    exec (@ExecuteLine CommonSpec.common unmappable_allocator default_globals
            lineNumber line) in
  let p1 := run 3 create Player_new in
  let p2 := run 4 map p1 in
  trace p2 = trace p1 ++ [EvCall (vmaMapMemory 2000); EvPrintf (MsgMapMemoryFailed 4 (-5))] /\
  unguarded (trace p2) = [MsgMapMemoryFailed 4 (-5)] /\
  warnings (trace p2) = [] /\
  m_WarningCount p1 = 0 /\
  m_WarningCount p2 = 0.
Proof. split_and!; vm_compute; reflexivity. Qed.

(** ** The player on actual lines *)

(** The scenario of the specification: a buffer is created and destroyed
    under the same id.  One buffer is counted, the registry is empty at
    the end, no warning is raised and nothing is left to sweep. *)
Example create_then_destroy :
  let p :=
    exec (@ExecuteLines CommonSpec.common granting_allocator default_globals
            [(3, "0,0.0,0,vmaCreateBuffer,0,1024,128,0,0,1,0,0,0,0,1A2B");
             (4, "0,0.1,0,vmaDestroyBuffer,1A2B")]) Player_new in
  m_BufferCreationCount (m_Stats p) = [1; 0; 0; 0] /\
  GetFunctionCallCount (m_Stats p) CreateBuffer = 1 /\
  GetFunctionCallCount (m_Stats p) DestroyBuffer = 1 /\
  m_Allocations p = ∅ /\
  m_WarningCount p = 0 /\
  calls p =
    [vmaCreateBuffer
       {| buf_flags := 0; buf_size := 1024; buf_usage := 128; buf_sharingMode := 0 |}
       {| aci_flags := 0; aci_usage := 1; aci_requiredFlags := 0;
          aci_preferredFlags := 0; aci_memoryTypeBits := 0;
          aci_pool := VK_NULL_HANDLE; aci_pUserData := nullptr |};
     vmaDestroyBuffer 1000 2000].
Proof. split_and!; vm_compute; reflexivity. Qed.

(** The rows of the reconciliation with a live call that fails: under a
    nonzero id an entry without handles is registered, under the id zero
    nothing is; each raises its warning. *)
Example failed_creation :
  let run line :=
    exec (@ExecuteLine CommonSpec.common refusing_allocator default_globals 3 line)
      Player_new in
  let p := run "0,0.0,0,vmaCreateBuffer,0,1024,128,0,0,1,0,0,0,0,1A2B" in
  let q := run "0,0.0,0,vmaCreateBuffer,0,1024,128,0,0,1,0,0,0,0,0" in
  m_Allocations p !! 6699 =
    Some {| allocationFlags := 0; allocation := VK_NULL_HANDLE;
            buffer := VK_NULL_HANDLE; image := VK_NULL_HANDLE |} /\
  warnings (trace p) =
    [(true, MsgFailedOriginallySucceeded 3 "vmaCreateBuffer" (-2))] /\
  m_Allocations q = ∅ /\
  warnings (trace q) =
    [(true, MsgFailedOriginallyAlsoFailed 3 "vmaCreateBuffer" (-2))].
Proof. split_and!; vm_compute; reflexivity. Qed.

(** The row of a live call that succeeds where the recording has no id:
    the buffer is destroyed at once and not registered. *)
Example unrecorded_creation :
  let p :=
    exec (@ExecuteLine CommonSpec.common granting_allocator default_globals 3
            "0,0.0,0,vmaCreateBuffer,0,1024,128,0,0,1,0,0,0,0,0") Player_new in
  m_Allocations p = ∅ /\
  warnings (trace p) = [(true, MsgSucceededOriginallyFailed 3 "vmaCreateBuffer")] /\
  calls_of (drop 1 (trace p)) = [vmaDestroyBuffer 1000 2000].
Proof. split_and!; vm_compute; reflexivity. Qed.

(** * Further properties of the player *)

(** ** The usage classes of [Statistics] *)

Lemma test_bits_masked usage mask sub :
  Z.land mask sub = sub ->
  test_bits (Z.land usage mask) sub = test_bits usage sub.
Proof. intros Hsub. unfold test_bits. by rewrite <- Z.land_assoc, Hsub. Qed.

Lemma test_bits_lor usage a b :
  test_bits usage (Z.lor a b) = test_bits usage a || test_bits usage b.
Proof.
  unfold test_bits. rewrite Z.land_lor_distr_r, <- negb_andb. f_equal.
  apply eq_true_iff_eq. rewrite andb_true_iff, !Z.eqb_eq. apply Z.lor_eq_0_iff.
Qed.

Lemma BufferUsageToClass_masked usage :
  BufferUsageToClass (Z.land usage BUFFER_CLASS_BITS) = BufferUsageToClass usage.
Proof. unfold BufferUsageToClass. by rewrite !test_bits_masked. Qed.

Lemma ImageUsageToClass_masked usage :
  ImageUsageToClass (Z.land usage IMAGE_CLASS_BITS) = ImageUsageToClass usage.
Proof. unfold ImageUsageToClass. by rewrite !test_bits_masked. Qed.

Lemma BufferUsageToClass_lt usage : (BufferUsageToClass usage < 4)%nat.
Proof. unfold BufferUsageToClass. repeat case_match; lia. Qed.

Lemma ImageUsageToClass_lt usage : (ImageUsageToClass usage < 4)%nat.
Proof. unfold ImageUsageToClass. repeat case_match; lia. Qed.

(** X1.  The class of a buffer usage depends only on the seven bits that
    [BufferUsageToClass] tests, and the class of an image usage only on
    the five that [ImageUsageToClass] tests: two usage words that agree
    on those bits are counted in the same class. *)
Theorem usage_class_ignores_other_bits (a b : Z) :
  (Z.land a BUFFER_CLASS_BITS = Z.land b BUFFER_CLASS_BITS ->
   BufferUsageToClass a = BufferUsageToClass b) /\
  (Z.land a IMAGE_CLASS_BITS = Z.land b IMAGE_CLASS_BITS ->
   ImageUsageToClass a = ImageUsageToClass b).
Proof.
  split; intros Hab.
  - by rewrite <- (BufferUsageToClass_masked a), Hab, BufferUsageToClass_masked.
  - by rewrite <- (ImageUsageToClass_masked a), Hab, ImageUsageToClass_masked.
Qed.

Lemma usage_class_ignores_other_bits_witness :
  BufferUsageToClass 0x80 = BufferUsageToClass 0x83 /\
  ImageUsageToClass 0x4 = ImageUsageToClass 0x7.
Proof.
  split.
  - apply (proj1 (usage_class_ignores_other_bits 0x80 0x83)). reflexivity.
  - apply (proj2 (usage_class_ignores_other_bits 0x4 0x7)). reflexivity.
Defined.

(** X2.  The transfer-source and transfer-destination bits never change
    the class of a buffer or of an image, alone or together, whatever the
    other bits are. *)
Theorem usage_class_ignores_transfer_bits (usage : Z) :
  BufferUsageToClass (Z.lor usage VK_BUFFER_USAGE_TRANSFER_SRC_BIT) =
    BufferUsageToClass usage /\
  BufferUsageToClass (Z.lor usage VK_BUFFER_USAGE_TRANSFER_DST_BIT) =
    BufferUsageToClass usage /\
  BufferUsageToClass
    (Z.lor usage (Z.lor VK_BUFFER_USAGE_TRANSFER_SRC_BIT VK_BUFFER_USAGE_TRANSFER_DST_BIT)) =
    BufferUsageToClass usage /\
  ImageUsageToClass (Z.lor usage VK_IMAGE_USAGE_TRANSFER_SRC_BIT) =
    ImageUsageToClass usage /\
  ImageUsageToClass (Z.lor usage VK_IMAGE_USAGE_TRANSFER_DST_BIT) =
    ImageUsageToClass usage /\
  ImageUsageToClass
    (Z.lor usage (Z.lor VK_IMAGE_USAGE_TRANSFER_SRC_BIT VK_IMAGE_USAGE_TRANSFER_DST_BIT)) =
    ImageUsageToClass usage.
Proof.
  split_and!;
    first [ rewrite <- (BufferUsageToClass_masked (Z.lor _ _)),
              <- (BufferUsageToClass_masked usage)
          | rewrite <- (ImageUsageToClass_masked (Z.lor _ _)),
              <- (ImageUsageToClass_masked usage) ];
    rewrite Z.land_lor_distr_l; f_equal;
    match goal with |- Z.lor ?x ?t = ?x => change t with 0 end;
    apply Z.lor_0_r.
Qed.

(** X3.  Both classifiers return a class below four, the length of the
    counter arrays they index; and the class is three, "other", exactly
    when none of the tested bits is set. *)
Theorem usage_class_other (usage : Z) :
  (BufferUsageToClass usage < 4)%nat /\
  (ImageUsageToClass usage < 4)%nat /\
  (BufferUsageToClass usage = 3%nat <-> Z.land usage BUFFER_CLASS_BITS = 0) /\
  (ImageUsageToClass usage = 3%nat <-> Z.land usage IMAGE_CLASS_BITS = 0).
Proof.
  split_and!.
  - apply BufferUsageToClass_lt.
  - apply ImageUsageToClass_lt.
  - transitivity (test_bits usage BUFFER_CLASS_BITS = false).
    + unfold BUFFER_CLASS_BITS, BufferUsageToClass.
      rewrite (test_bits_lor usage (Z.lor _ (Z.lor _ _)) (Z.lor (Z.lor _ _) (Z.lor _ _))).
      rewrite (test_bits_lor usage (Z.lor VK_BUFFER_USAGE_STORAGE_BUFFER_BIT _)
                 (Z.lor VK_BUFFER_USAGE_UNIFORM_BUFFER_BIT _)).
      repeat case_match; cbn; split; congruence.
    + unfold test_bits. rewrite negb_false_iff. apply Z.eqb_eq.
  - transitivity (test_bits usage IMAGE_CLASS_BITS = false).
    + unfold IMAGE_CLASS_BITS, ImageUsageToClass.
      rewrite (test_bits_lor usage VK_IMAGE_USAGE_DEPTH_STENCIL_ATTACHMENT_BIT).
      rewrite (test_bits_lor usage (Z.lor VK_IMAGE_USAGE_INPUT_ATTACHMENT_BIT _)
                 VK_IMAGE_USAGE_SAMPLED_BIT).
      repeat case_match; cbn; split; congruence.
    + unfold test_bits. rewrite negb_false_iff. apply Z.eqb_eq.
Qed.

(** ** The creation counters against the calls made *)

Lemma preserves_exec {A} (P : Player -> Prop) (c : M A) p :
  preserves P c -> P p -> P (exec c p).
Proof. intros Hc HP. by apply Hc. Qed.

(** Two steps that keep [P] together, though not one by one. *)
Lemma preserves_pair {A B C} (P : Player -> Prop) (c1 : M A) (c2 : M B) (k : B -> M C) :
  (forall p, P p -> P (exec c2 (exec c1 p))) ->
  (forall b, preserves P (k b)) ->
  preserves P (c1 ≫= fun _ => c2 ≫= k).
Proof.
  intros H12 Hk p HP. rewrite !run_bind. apply Hk. by apply H12.
Qed.

Lemma preserves_pair_val {A B C} (P : Player -> Prop) (c1 : M A) (c2 : M B)
    (k : A -> M C) :
  (forall p, P p -> P (exec c2 (exec c1 p))) ->
  (forall a, preserves P (k a)) ->
  preserves P (c1 ≫= fun a => c2 ≫= fun _ => k a).
Proof.
  intros H12 Hk p HP. rewrite !run_bind. apply Hk. by apply H12.
Qed.

Lemma count_calls_snoc f cs c :
  count_calls f (cs ++ [c]) = count_calls f cs + (if f c then 1 else 0).
Proof.
  unfold count_calls. rewrite List.filter_app, length_app. cbn.
  destruct (f c); cbn; lia.
Qed.

Lemma wrap64_succ a n : a = wrap64 n -> size_t_inc a = wrap64 (n + 1).
Proof. intros ->. apply size_t_inc_wrap64. Qed.

Lemma wrap64_inc_l a x : wrap64 (size_t_inc a + x) = wrap64 (a + x + 1).
Proof.
  unfold size_t_inc, wrap64. rewrite Zplus_mod_idemp_l. f_equal. lia.
Qed.

Lemma wrap64_succ_sum s n : wrap64 s = wrap64 n -> wrap64 (s + 1) = wrap64 (n + 1).
Proof.
  unfold wrap64. intros Heq.
  rewrite <- (Zplus_mod_idemp_l s), Heq, Zplus_mod_idemp_l. done.
Qed.

(** The handlers with [RegisterFunctionCall] and [on_Stats] left folded. *)
Ltac unfold_handlers :=
  unfold ExecuteCreatePool, ExecuteDestroyPool, ExecuteSetAllocationUserData,
    ExecuteCreateBuffer, ExecuteDestroyBuffer, ExecuteCreateImage,
    ExecuteDestroyImage, ExecuteFreeMemory, ExecuteCreateLostAllocation,
    ExecuteAllocateMemory, ExecuteAllocateMemoryForBufferOrImage,
    ExecuteMapMemory, ExecuteUnmapMemory, ExecuteFlushAllocation,
    ExecuteInvalidateAllocation, ExecuteTouchAllocation,
    ExecuteGetAllocationInfo, ExecuteMakePoolAllocationsLost,
    DestroyAllocation, AddAllocation, AddPool, Destroy, FindPool,
    ValidateFunctionParameterCount, UserDataOfColumn, PrepareUserData.

(** The chain of comparisons of [ExecuteLine_dispatch], branch by branch. *)
Ltac dispatch_cases :=
  unfold ExecuteLine_dispatch; cbv zeta;
  repeat (lazymatch goal with
          | |- preserves _ (if StrRangeEq _ _ then _ else _) =>
              destruct (StrRangeEq _ _)
          end).

Section StatisticsAgree.
Context `{CommonH} `{TargetAllocator} `{UnorderedMap} (g : Globals).

Lemma stats_agree_warn msg : preserves stats_agree (warn g msg).
Proof.
  intros p Hp. rewrite warn_run. unfold stats_agree, calls in *. cbn.
  by rewrite calls_snoc, app_nil_r.
Qed.

Lemma stats_agree_printf msg : preserves stats_agree (printf msg).
Proof.
  intros p Hp. unfold stats_agree, calls in *. cbn.
  by rewrite calls_snoc, app_nil_r.
Qed.

Lemma stats_agree_invoke c :
  is_vmaCreatePool c = false -> is_allocation_creation c = false ->
  preserves stats_agree (invoke c).
Proof.
  intros Hpool Halloc p (Hb & Hi & Hp & Hbuf & Himg & Hal).
  unfold stats_agree, calls in *. cbn.
  rewrite calls_snoc. cbn. rewrite !count_calls_snoc, Hpool, Halloc.
  replace (is_vmaCreateBuffer c) with false by (by destruct c).
  replace (is_vmaCreateImage c) with false by (by destruct c).
  rewrite !Z.add_0_r. done.
Qed.

Lemma stats_agree_RegisterFunctionCall func :
  preserves stats_agree (RegisterFunctionCall func).
Proof. intros p Hp. exact Hp. Qed.

Lemma stats_agree_create_pool info p :
  stats_agree p ->
  stats_agree (exec (invoke (vmaCreatePool info))
                 (exec (on_Stats Statistics_RegisterCreatePool) p)).
Proof.
  intros (Hb & Hi & Hp & Hbuf & Himg & Hal).
  unfold stats_agree, calls, GetPoolCreationCount in *. cbn.
  rewrite calls_snoc. cbn. rewrite !count_calls_snoc. cbn.
  rewrite !Z.add_0_r. split_and!; try done. by apply wrap64_succ.
Qed.

Lemma stats_agree_allocate memReq info p :
  stats_agree p ->
  stats_agree (exec (invoke (vmaAllocateMemory memReq info))
                 (exec (on_Stats Statistics_RegisterCreateAllocation) p)).
Proof.
  intros (Hb & Hi & Hp & Hbuf & Himg & Hal).
  unfold stats_agree, calls, GetAllocationCreationCount in *. cbn.
  rewrite calls_snoc. cbn. rewrite !count_calls_snoc. cbn.
  rewrite !Z.add_0_r. split_and!; try done. by apply wrap64_succ.
Qed.

Lemma stats_agree_lost p :
  stats_agree p ->
  stats_agree (exec (on_Stats Statistics_RegisterCreateAllocation)
                 (exec (invoke vmaCreateLostAllocation) p)).
Proof.
  intros (Hb & Hi & Hp & Hbuf & Himg & Hal).
  unfold stats_agree, calls, GetAllocationCreationCount in *. cbn.
  rewrite calls_snoc. cbn. rewrite !count_calls_snoc. cbn.
  rewrite !Z.add_0_r. split_and!; try done. by apply wrap64_succ.
Qed.

Lemma stats_agree_create_buffer usage info allocInfo p :
  stats_agree p ->
  stats_agree (exec (invoke (vmaCreateBuffer info allocInfo))
                 (exec (on_Stats (Statistics_RegisterCreateBuffer usage)) p)).
Proof.
  intros (Hb & Hi & Hp & Hbuf & Himg & Hal).
  unfold stats_agree, calls, GetAllocationCreationCount, bufferCreationCount,
    GetBufferCreationCount in *. cbn.
  rewrite calls_snoc. cbn. rewrite !count_calls_snoc. cbn.
  rewrite !Z.add_0_r.
  pose proof (BufferUsageToClass_lt usage) as Hlt.
  destruct (m_BufferCreationCount (m_Stats p)) as [|a [|b [|c [|d [|? ?]]]]];
    try discriminate Hb.
  cbn in Hbuf.
  split_and!; try done; [| |by apply wrap64_succ].
  - by destruct (BufferUsageToClass usage) as [|[|[|[|?]]]].
  - destruct (BufferUsageToClass usage) as [|[|[|[|?]]]]; [| | | |lia]; cbn;
      rewrite <- (wrap64_succ_sum _ _ Hbuf).
    + rewrite <- !Z.add_assoc, wrap64_inc_l. f_equal. lia.
    + replace (a + size_t_inc b + c + d) with (size_t_inc b + (a + c + d)) by lia.
      rewrite wrap64_inc_l. f_equal. lia.
    + replace (a + b + size_t_inc c + d) with (size_t_inc c + (a + b + d)) by lia.
      rewrite wrap64_inc_l. f_equal. lia.
    + replace (a + b + c + size_t_inc d) with (size_t_inc d + (a + b + c)) by lia.
      rewrite wrap64_inc_l. f_equal. lia.
Qed.

Lemma stats_agree_create_image usage tiling info allocInfo p :
  stats_agree p ->
  stats_agree (exec (invoke (vmaCreateImage info allocInfo))
                 (exec (on_Stats (Statistics_RegisterCreateImage usage tiling)) p)).
Proof.
  intros (Hb & Hi & Hp & Hbuf & Himg & Hal).
  unfold stats_agree, calls, GetAllocationCreationCount, imageCreationCount,
    GetImageCreationCount, GetLinearImageCreationCount in *. cbn.
  rewrite calls_snoc. cbn. rewrite !count_calls_snoc. cbn.
  rewrite !Z.add_0_r.
  pose proof (ImageUsageToClass_lt usage) as Hlt.
  destruct (m_ImageCreationCount (m_Stats p)) as [|a [|b [|c [|d [|? ?]]]]];
    try discriminate Hi.
  cbn in Himg. set (l := m_LinearImageCreationCount (m_Stats p)) in *.
  destruct (tiling =? VK_IMAGE_TILING_LINEAR).
  - split_and!; try done; [|by apply wrap64_succ].
    cbn. rewrite <- (wrap64_succ_sum _ _ Himg).
    replace (a + b + c + d + size_t_inc l) with (size_t_inc l + (a + b + c + d)) by lia.
    rewrite wrap64_inc_l. f_equal. lia.
  - split_and!; try done; [| |by apply wrap64_succ].
    + by destruct (ImageUsageToClass usage) as [|[|[|[|?]]]].
    + destruct (ImageUsageToClass usage) as [|[|[|[|?]]]]; [| | | |lia]; cbn;
        rewrite <- (wrap64_succ_sum _ _ Himg).
      * rewrite <- !Z.add_assoc, wrap64_inc_l. f_equal. lia.
      * replace (a + size_t_inc b + c + d + l) with (size_t_inc b + (a + c + d + l)) by lia.
        rewrite wrap64_inc_l. f_equal. lia.
      * replace (a + b + size_t_inc c + d + l) with (size_t_inc c + (a + b + d + l)) by lia.
        rewrite wrap64_inc_l. f_equal. lia.
      * replace (a + b + c + size_t_inc d + l) with (size_t_inc d + (a + b + c + l)) by lia.
        rewrite wrap64_inc_l. f_equal. lia.
Qed.

Ltac stats_prim :=
  first
    [ apply stats_agree_warn
    | apply stats_agree_printf
    | apply stats_agree_invoke; reflexivity
    | apply stats_agree_RegisterFunctionCall
    | intros ? Hagree; exact Hagree ].

Ltac stats_step :=
  lazymatch goal with
  | |- preserves _ (RegisterFunctionCall _) => apply stats_agree_RegisterFunctionCall
  | |- preserves _ (on_Stats _ ≫= _) =>
      apply preserves_pair;
      [ intros ? ?;
        first [ by apply stats_agree_create_pool
              | by apply stats_agree_create_buffer
              | by apply stats_agree_create_image
              | by apply stats_agree_allocate ]
      | intros ?; cbv beta ]
  | |- preserves _ (invoke vmaCreateLostAllocation ≫= _) =>
      apply preserves_pair_val;
      [ intros ? ?; by apply stats_agree_lost | intros ?; cbv beta ]
  | |- _ => preserves_step stats_prim
  end.

Lemma stats_agree_dispatch lineNumber csvSplit :
  preserves stats_agree (ExecuteLine_dispatch g lineNumber csvSplit).
Proof. dispatch_cases; unfold_handlers; repeat stats_step. Qed.

Lemma stats_agree_ExecuteLines lines : preserves stats_agree (ExecuteLines g lines).
Proof.
  induction lines as [|[lineNumber line] rest IH]; cbn [ExecuteLines].
  - apply preserves_ret.
  - apply preserves_bind; [|intros _; apply IH].
    unfold ExecuteLine, ExecuteSplitLine. destruct (bool_decide _).
    + apply preserves_bind; [|intros _; apply stats_agree_dispatch].
      unfold ExecuteLine_header. repeat stats_step.
    + apply stats_agree_warn.
Qed.

(** X4.  After any lines have been executed by a fresh player, the
    creation counters of its statistics are the numbers of creation calls
    it made to the allocator, on [size_t]: the pool counter counts the
    calls of [vmaCreatePool]; the four buffer classes sum to the calls of
    [vmaCreateBuffer]; the four image classes and the linear-tiling
    counter sum to the calls of [vmaCreateImage]; and the allocation
    counter counts the calls of [vmaCreateBuffer], [vmaCreateImage],
    [vmaAllocateMemory] and [vmaCreateLostAllocation] together.  The
    counters count attempts: a call is counted whether or not it
    succeeds. *)
Theorem statistics_count_creation_calls (lines : list (Z * string)) :
  let p := exec (ExecuteLines g lines) Player_new in
  GetPoolCreationCount (m_Stats p) = wrap64 (count_calls is_vmaCreatePool (calls p)) /\
  bufferCreationCount (m_Stats p) = wrap64 (count_calls is_vmaCreateBuffer (calls p)) /\
  imageCreationCount (m_Stats p) = wrap64 (count_calls is_vmaCreateImage (calls p)) /\
  GetAllocationCreationCount (m_Stats p) =
    wrap64 (count_calls is_allocation_creation (calls p)).
Proof.
  intros p.
  assert (stats_agree p) as (_ & _ & Hrest).
  { apply stats_agree_ExecuteLines. by split_and!. }
  exact Hrest.
Qed.

End StatisticsAgree.

(** ** The function-call counters *)

Lemma exec_then {A B} (c : M A) (k : M B) p :
  exec (c ≫= fun _ => k) p = exec k (exec c p).
Proof. by rewrite exec_bind. Qed.

Section FunctionCallCount.
Context `{CommonH} `{TargetAllocator} `{UnorderedMap} (g : Globals).

Lemma function_count_warn f v msg : preserves (function_count_is f v) (warn g msg).
Proof. intros p Hp. rewrite warn_run. exact Hp. Qed.

Ltac function_count_prim := first [ apply function_count_warn | intros ? Hcount; exact Hcount ].

(** Each handler counts the call of its function, once, whatever the
    line holds, and touches no other counter. *)
Lemma handler_function_counts func lineNumber csvSplit p f :
  GetFunctionCallCount (m_Stats (exec (handler g func lineNumber csvSplit) p)) f =
  if decide (f = func) then size_t_inc (GetFunctionCallCount (m_Stats p) f)
  else GetFunctionCallCount (m_Stats p) f.
Proof.
  unfold GetFunctionCallCount.
  destruct func; cbn [handler];
    unfold ExecuteCreatePool, ExecuteDestroyPool, ExecuteSetAllocationUserData,
      ExecuteCreateBuffer, ExecuteDestroyBuffer, ExecuteCreateImage,
      ExecuteDestroyImage, ExecuteFreeMemory, ExecuteCreateLostAllocation,
      ExecuteAllocateMemory, ExecuteAllocateMemoryForBufferOrImage,
      ExecuteMapMemory, ExecuteUnmapMemory, ExecuteFlushAllocation,
      ExecuteInvalidateAllocation, ExecuteTouchAllocation,
      ExecuteGetAllocationInfo, ExecuteMakePoolAllocationsLost;
    rewrite exec_bind;
    (apply (preserves_exec (function_count_is f _)); [preserves_go function_count_prim | reflexivity]).
Qed.


Lemma names_eqb (f0 f : VMA_FUNCTION) :
  String.eqb (VMA_FUNCTION_NAMES f0) (VMA_FUNCTION_NAMES f) = bool_decide (f = f0).
Proof.
  destruct (decide (f = f0)) as [->|Hne].
  - rewrite bool_decide_eq_true_2 by done. apply String.eqb_refl.
  - rewrite bool_decide_eq_false_2 by done. by destruct f0, f.
Qed.

(** The two names that [ExecuteLine] accepts and counts for no function. *)
Lemma dispatch_allocator lineNumber csvSplit :
  to_str (GetRange csvSplit 3) ∈ ["vmaCreateAllocator"; "vmaDestroyAllocator"] ->
  ExecuteLine_dispatch g lineNumber csvSplit =
  (ValidateFunctionParameterCount g lineNumber csvSplit 0 false;; mret tt).
Proof.
  intros Hname. unfold ExecuteLine_dispatch, StrRangeEq. cbv zeta.
  repeat (apply elem_of_cons in Hname as [->|Hname]); try reflexivity.
  by apply elem_of_nil in Hname.
Qed.

(** A line names a counted function, or one of the two allocator
    functions, or nothing that [ExecuteLine] knows. *)
Lemma function_name_cases (name : string) :
  (exists func, name = VMA_FUNCTION_NAMES func) \/
  name ∈ ["vmaCreateAllocator"; "vmaDestroyAllocator"] \/
  name ∉ KNOWN_FUNCTIONS.
Proof.
  destruct (decide (name ∈ KNOWN_FUNCTIONS)) as [Hin|Hout]; [|by right; right].
  unfold KNOWN_FUNCTIONS in Hin.
  apply elem_of_cons in Hin as [->|Hin]; [right; left; set_solver|].
  apply elem_of_cons in Hin as [->|Hin]; [right; left; set_solver|].
  apply list_elem_of_fmap in Hin as (func & -> & _). left. by exists func.
Qed.

Lemma dispatch_function_counts lineNumber csvSplit p f :
  GetFunctionCallCount (m_Stats (exec (ExecuteLine_dispatch g lineNumber csvSplit) p)) f =
  if StrRangeEq (GetRange csvSplit 3) (VMA_FUNCTION_NAMES f)
  then size_t_inc (GetFunctionCallCount (m_Stats p) f)
  else GetFunctionCallCount (m_Stats p) f.
Proof.
  destruct (function_name_cases (to_str (GetRange csvSplit 3)))
    as [[func Hname]|[Hname|Hname]].
  - rewrite (dispatch_handler g func) by done.
    rewrite handler_function_counts. unfold StrRangeEq. rewrite Hname, names_eqb.
    case_bool_decide; [by rewrite decide_True|by rewrite decide_False].
  - rewrite dispatch_allocator by done.
    replace (StrRangeEq (GetRange csvSplit 3) (VMA_FUNCTION_NAMES f)) with false.
    + apply (preserves_exec (function_count_is f _)); [|reflexivity].
      preserves_go function_count_prim.
    + unfold StrRangeEq.
      repeat (apply elem_of_cons in Hname as [->|Hname]);
        [by destruct f|by destruct f|by apply elem_of_nil in Hname].
  - rewrite dispatch_unknown by done.
    replace (StrRangeEq (GetRange csvSplit 3) (VMA_FUNCTION_NAMES f)) with false.
    + unfold exec. by rewrite warn_run.
    + symmetry. apply String.eqb_neq. intros Heq. apply Hname. rewrite Heq.
      unfold KNOWN_FUNCTIONS. do 2 (apply elem_of_cons; right).
      apply list_elem_of_fmap. exists f. split; [done|].
      apply list_elem_of_In. destruct f; cbn; tauto.
Qed.

Lemma ExecuteLine_function_counts lineNumber line p f :
  GetFunctionCallCount (m_Stats (exec (ExecuteLine g lineNumber line) p)) f =
  if names_function f line
  then size_t_inc (GetFunctionCallCount (m_Stats p) f)
  else GetFunctionCallCount (m_Stats p) f.
Proof.
  unfold names_function. cbv zeta.
  destruct (bool_decide (FIRST_PARAM_INDEX ≤ GetCount (CsvSplit_Set line None))%nat) eqn:E.
  - apply bool_decide_eq_true in E. rewrite ExecuteLine_split by done.
    rewrite dispatch_function_counts. cbn [andb].
    destruct (header_effects g lineNumber (CsvSplit_Set line None) p)
      as (_ & _ & _ & _ & _ & _ & _ & _ & -> & _).
    done.
  - unfold ExecuteLine, ExecuteSplitLine. rewrite E. unfold exec. by rewrite warn_run.
Qed.

(** X5.  After any lines have been executed by a fresh player, the
    counter of each function is, on [size_t], the number of those lines
    that have at least four columns and name the function in column 3.
    A line is counted whether or not its parameters are accepted; lines
    that name [vmaCreateAllocator], [vmaDestroyAllocator] or an unknown
    function are counted for no function. *)
Theorem function_calls_counted (lines : list (Z * string)) (func : VMA_FUNCTION) :
  GetFunctionCallCount (m_Stats (exec (ExecuteLines g lines) Player_new)) func =
  wrap64 (Z.of_nat (length (List.filter (names_function func) lines.*2))).
Proof.
  assert (forall p,
    GetFunctionCallCount (m_Stats (exec (ExecuteLines g lines) p)) func =
    Nat.iter (length (List.filter (names_function func) lines.*2)) size_t_inc
      (GetFunctionCallCount (m_Stats p) func)) as Hgen.
  { induction lines as [|[lineNumber line] rest IH]; intros p; [reflexivity|].
    cbn [ExecuteLines]. rewrite exec_then, IH.
    rewrite ExecuteLine_function_counts. cbn [fmap list_fmap snd List.filter].
    destruct (names_function func line); [|reflexivity].
    cbn [length]. by rewrite Nat.iter_succ_r. }
  rewrite Hgen. cbn.
  generalize (length (List.filter (names_function func) lines.*2)).
  intros n. induction n as [|n IH]; [reflexivity|].
  rewrite Nat.iter_succ, IH, size_t_inc_wrap64. f_equal. lia.
Qed.

End FunctionCallCount.

(** ** The per-thread call counters *)

Section ThreadCounters.
Context `{CommonH} `{TargetAllocator} `{UnorderedMap} (g : Globals).

Lemma threads_are_warn threads msg : preserves (threads_are threads) (warn g msg).
Proof. intros p Hp. rewrite warn_run. exact Hp. Qed.

Ltac threads_prim := first [ apply threads_are_warn | intros ? Hthreads; exact Hthreads ].

Lemma threads_are_dispatch threads lineNumber csvSplit :
  preserves (threads_are threads) (ExecuteLine_dispatch g lineNumber csvSplit).
Proof. dispatch_cases; preserves_go threads_prim. Qed.

Lemma ExecuteLine_threads lineNumber line p threadId :
  m_Threads (exec (ExecuteLine g lineNumber line) p) !! threadId =
  if bool_decide (thread_of_line line = Some threadId)
  then thread_after (m_Threads p !! threadId) 1
  else m_Threads p !! threadId.
Proof.
  unfold thread_of_line. cbv zeta.
  destruct (bool_decide (FIRST_PARAM_INDEX ≤ GetCount (CsvSplit_Set line None))%nat) eqn:E.
  - apply bool_decide_eq_true in E. rewrite ExecuteLine_split by done.
    pose proof (preserves_exec _ _ _
                  (threads_are_dispatch _ lineNumber (CsvSplit_Set line None))
                  (eq_refl : threads_are _
                     (exec (ExecuteLine_header g lineNumber (CsvSplit_Set line None)) p)))
      as Hdispatch.
    unfold threads_are in Hdispatch. rewrite Hdispatch.
    destruct (header_effects g lineNumber (CsvSplit_Set line None) p) as (-> & _).
    unfold header_threads.
    destruct (StrRangeToUint32 (to_str (GetRange (CsvSplit_Set line None) 0)))
      as [t|]; [|by rewrite bool_decide_eq_false_2].
    case_bool_decide as Ht.
    + injection Ht as ->. rewrite lookup_insert_eq. cbn.
      by destruct (m_Threads p !! threadId).
    + rewrite lookup_insert_ne; [done|]. intros ->. by apply Ht.
  - rewrite bool_decide_eq_false_2 by done.
    unfold ExecuteLine, ExecuteSplitLine. rewrite E. unfold exec. by rewrite warn_run.
Qed.

Lemma ExecuteLines_threads lines p threadId :
  m_Threads (exec (ExecuteLines g lines) p) !! threadId =
  thread_after (m_Threads p !! threadId) (thread_calls threadId lines).
Proof.
  revert p. induction lines as [|[lineNumber line] rest IH]; intros p; [reflexivity|].
  cbn [ExecuteLines]. rewrite exec_then, IH, ExecuteLine_threads.
  unfold thread_calls. cbn [fmap list_fmap snd List.filter].
  destruct (bool_decide (thread_of_line line = Some threadId)); [|reflexivity].
  cbn [length]. unfold thread_after. symmetry. by rewrite Nat.iter_succ_r.
Qed.

Lemma thread_after_None n :
  thread_after None (S n) = Some {| callCount := wrap32 (Z.of_nat (S n)) |}.
Proof.
  induction n as [|n IH]; [reflexivity|].
  unfold thread_after in *. rewrite Nat.iter_succ, IH. cbn [callCount].
  f_equal. f_equal. unfold uint32_inc, wrap32.
  rewrite Zplus_mod_idemp_l. f_equal. lia.
Qed.

(** X6.  After any lines have been executed by a fresh player, a thread
    has an entry in [m_Threads] exactly when some line with at least four
    columns carries its id in column 0, and its counter is the number of
    those lines on [uint32_t]; so below 2^32 lines it is that number.
    Every such line counts, whatever function it names and whether or not
    its handler accepts it. *)
Theorem thread_call_counts (lines : list (Z * string)) (threadId : Z) :
  let p := exec (ExecuteLines g lines) Player_new in
  let n := thread_calls threadId lines in
  (m_Threads p !! threadId =
     match n with
     | O => None
     | S _ => Some {| callCount := wrap32 (Z.of_nat n) |}
     end) /\
  (0 < Z.of_nat n < 2 ^ 32 ->
   m_Threads p !! threadId = Some {| callCount := Z.of_nat n |}).
Proof.
  intros p n.
  assert (m_Threads p !! threadId =
            match n with
            | O => None
            | S _ => Some {| callCount := wrap32 (Z.of_nat n) |}
            end) as Hcount.
  { unfold p. rewrite ExecuteLines_threads. fold n. cbn.
    destruct n as [|n']; [reflexivity|apply thread_after_None]. }
  split; [exact Hcount|].
  intros Hn. rewrite Hcount. destruct n as [|n']; [lia|].
  unfold wrap32. by rewrite Z.mod_small by lia.
Qed.

End ThreadCounters.

Lemma thread_call_counts_witness :
  let lines := [(3, "7,0.0,0,vmaBogus"); (4, "8,0.1,0,vmaCreateLostAllocation,0");
                (5, "7,0.2,0,vmaMapMemory")] in
  let p := exec (@ExecuteLines CommonSpec.common granting_allocator default_globals lines)
             Player_new in
  m_Threads p !! 7 = Some {| callCount := 2 |}.
Proof.
  intros lines p.
  apply (proj2 (@thread_call_counts CommonSpec.common granting_allocator default_globals
                  lines 7)).
  vm_compute. split; reflexivity.
Defined.

(** ** Records whose parameters do not convert *)

Section DecodeFailure.
Context `{CommonH} `{TargetAllocator} `{UnorderedMap} (g : Globals).

Lemma not_is_Some_None {A} (o : option A) : bool_decide (is_Some o) = false -> o = None.
Proof.
  intros Hdec. apply bool_decide_eq_false in Hdec.
  destruct o; [|done]. exfalso. apply Hdec. by eexists.
Qed.

Lemma handler_decode_failure func lineNumber csvSplit p :
  arity_ok func csvSplit = true ->
  decodes func csvSplit = false ->
  (func = SetAllocationUserData -> g_UserDataEnabled g = true) ->
  exec (handler g func lineNumber csvSplit) p =
  exec (warn g (MsgInvalidParameters lineNumber (invalid_parameters_name func)))
    (set_Stats (Statistics_RegisterFunctionCall func (m_Stats p)) p).
Proof.
  unfold arity_ok. intros Harity Hdec Hon.
  destruct func; unfold decodes in Hdec; apply not_is_Some_None in Hdec;
    cbn in Harity; cbn [handler];
    unfold ExecuteCreatePool, ExecuteDestroyPool, ExecuteSetAllocationUserData,
      ExecuteCreateBuffer, ExecuteDestroyBuffer, ExecuteCreateImage,
      ExecuteDestroyImage, ExecuteFreeMemory, ExecuteCreateLostAllocation,
      ExecuteAllocateMemory, ExecuteAllocateMemoryForBufferOrImage,
      ExecuteMapMemory, ExecuteUnmapMemory, ExecuteFlushAllocation,
      ExecuteInvalidateAllocation, ExecuteTouchAllocation,
      ExecuteGetAllocationInfo, ExecuteMakePoolAllocationsLost, DestroyAllocation,
      RegisterFunctionCall, on_Stats;
    rewrite !exec_bind; cbn [modify fst snd];
    try (rewrite (Hon eq_refl); cbn [negb]; rewrite exec_bind);
    rewrite Validate_run by exact Harity; cbn [fst snd];
    rewrite Hdec; reflexivity.
Qed.

(** X7.  A record is decoded as a whole.  On a line whose number of
    columns the handler of [func] accepts but where one of the
    conversions that guard its body fails, the handler counts the call,
    raises "Invalid parameters for ..." once, and does nothing else: no
    entry point of the allocator is invoked, and the registries are as
    before.  ([vmaSetAllocationUserData] converts only while user data is
    enabled.)  The name in the warning is the handler's own: the three
    destroy functions all say [vmaDestroyBuffer], and [vmaUnmapMemory]
    says [vmaMapMemory]. *)
Theorem decode_failure_skips_record func lineNumber csvSplit p :
  arity_ok func csvSplit = true ->
  decodes func csvSplit = false ->
  (func = SetAllocationUserData -> g_UserDataEnabled g = true) ->
  let p' := exec (handler g func lineNumber csvSplit) p in
  trace p' =
    trace p ++ [EvWarning (shows g (m_WarningCount p))
                  (MsgInvalidParameters lineNumber (invalid_parameters_name func))] /\
  calls p' = calls p /\
  m_WarningCount p' = size_t_inc (m_WarningCount p) /\
  m_Stats p' = Statistics_RegisterFunctionCall func (m_Stats p) /\
  m_Allocations p' = m_Allocations p /\
  m_Pools p' = m_Pools p.
Proof.
  intros Harity Hdec Hon p'. unfold p'.
  rewrite handler_decode_failure by done.
  unfold exec, calls. rewrite warn_run. cbn.
  rewrite calls_snoc, app_nil_r. by split_and!.
Qed.

End DecodeFailure.

Lemma decode_failure_skips_record_witness :
  let csvSplit := CommonSpec.comma_CsvSplit_Set "0,0.0,0,vmaUnmapMemory,xyz" None in
  let p' := exec (@handler CommonSpec.common granting_allocator default_globals
                    UnmapMemory 3 csvSplit) Player_new in
  trace p' = trace Player_new ++
    [EvWarning (shows default_globals (m_WarningCount Player_new))
       (MsgInvalidParameters 3 (invalid_parameters_name UnmapMemory))] /\
  calls p' = calls Player_new /\
  m_WarningCount p' = size_t_inc (m_WarningCount Player_new) /\
  m_Stats p' = Statistics_RegisterFunctionCall UnmapMemory (m_Stats Player_new) /\
  m_Allocations p' = m_Allocations Player_new /\
  m_Pools p' = m_Pools Player_new.
Proof.
  intros csvSplit.
  apply (@decode_failure_skips_record CommonSpec.common granting_allocator default_globals
           UnmapMemory 3 csvSplit Player_new).
  - vm_compute. reflexivity.
  - vm_compute. reflexivity.
  - discriminate.
Defined.

(** ** Records that refer to a registered allocation or pool *)

Section RegisteredObjects.
Context `{CommonH} `{TargetAllocator} `{UnorderedMap} (g : Globals).

Lemma Destroy_run alloc p :
  Destroy alloc p = (tt, set_trace (trace p ++ [EvCall (Destroy_call alloc)]) p).
Proof.
  unfold Destroy, Destroy_call.
  destruct (negb (buffer alloc =? VK_NULL_HANDLE)); [reflexivity|].
  destruct (negb (image alloc =? VK_NULL_HANDLE)); reflexivity.
Qed.

(** [DestroyAllocation] on a line it accepts, with a nonzero id. *)
Lemma DestroyAllocation_run lineNumber csvSplit p origPtr :
  parameter_count_ok csvSplit 1 false = true ->
  StrRangeToPtr (param csvSplit 0) = Some origPtr ->
  origPtr <> 0 ->
  exec (DestroyAllocation g lineNumber csvSplit) p =
  match m_Allocations p !! origPtr with
  | Some allocDesc =>
      set_Allocations (delete origPtr (m_Allocations p))
        (set_trace (trace p ++ [EvCall (Destroy_call allocDesc)]) p)
  | None => exec (warn g (MsgAllocationNotFound lineNumber origPtr)) p
  end.
Proof.
  intros Harity Hid Hnz. apply Z.eqb_neq in Hnz.
  unfold DestroyAllocation.
  rewrite exec_bind, Validate_run by exact Harity. cbn [fst snd].
  rewrite Hid, Hnz. cbn [negb]. rewrite exec_bind. cbn [gets fst snd].
  destruct (m_Allocations p !! origPtr) as [allocDesc|]; [|reflexivity].
  rewrite exec_bind, Destroy_run. reflexivity.
Qed.

Lemma destroy_handler_run func lineNumber csvSplit p origPtr :
  func ∈ DESTROY_FUNCTIONS ->
  arity_ok func csvSplit = true ->
  StrRangeToPtr (param csvSplit 0) = Some origPtr ->
  origPtr <> 0 ->
  exec (handler g func lineNumber csvSplit) p =
  let q := set_Stats (Statistics_RegisterFunctionCall func (m_Stats p)) p in
  match m_Allocations p !! origPtr with
  | Some allocDesc =>
      set_Allocations (delete origPtr (m_Allocations p))
        (set_trace (trace p ++ [EvCall (Destroy_call allocDesc)]) q)
  | None => exec (warn g (MsgAllocationNotFound lineNumber origPtr)) q
  end.
Proof.
  intros Hfunc Harity Hid Hnz.
  assert (exec (handler g func lineNumber csvSplit) p =
          exec (DestroyAllocation g lineNumber csvSplit)
            (set_Stats (Statistics_RegisterFunctionCall func (m_Stats p)) p)) as ->.
  { repeat (apply elem_of_cons in Hfunc as [->|Hfunc]);
      [| | |by apply elem_of_nil in Hfunc]; reflexivity. }
  assert (parameter_count_ok csvSplit 1 false = true) as Hcount.
  { repeat (apply elem_of_cons in Hfunc as [->|Hfunc]);
      [| | |by apply elem_of_nil in Hfunc]; exact Harity. }
  by rewrite (DestroyAllocation_run lineNumber csvSplit _ origPtr).
Qed.

(** What a destroy record does to the trace, the registry and the
    warning counter. *)
Lemma destroy_releases_entry_aux func lineNumber csvSplit p origPtr :
  func ∈ DESTROY_FUNCTIONS ->
  arity_ok func csvSplit = true ->
  StrRangeToPtr (param csvSplit 0) = Some origPtr ->
  origPtr <> 0 ->
  let p' := exec (handler g func lineNumber csvSplit) p in
  match m_Allocations p !! origPtr with
  | Some allocDesc =>
      trace p' = trace p ++ [EvCall (Destroy_call allocDesc)]
  | None =>
      trace p' =
        trace p ++ [EvWarning (shows g (m_WarningCount p))
                      (MsgAllocationNotFound lineNumber origPtr)]
  end /\
  match m_Allocations p !! origPtr with
  | Some _ => m_Allocations p' = delete origPtr (m_Allocations p)
  | None => m_Allocations p' = m_Allocations p
  end /\
  match m_Allocations p !! origPtr with
  | Some _ => m_WarningCount p' = m_WarningCount p
  | None => m_WarningCount p' = size_t_inc (m_WarningCount p)
  end.
Proof.
  intros Hfunc Harity Hid Hnz p'. unfold p'.
  rewrite (destroy_handler_run func lineNumber csvSplit p origPtr) by done. cbv zeta.
  destruct (m_Allocations p !! origPtr) as [allocDesc|]; [done|].
  unfold exec. rewrite warn_run. by cbn.
Qed.

(** X8.  The three destroy functions share one path.  On a line that the
    handler accepts, with an id that converts and is not zero: when the
    id is registered, exactly one entry point is invoked, chosen by what
    the entry holds and not by the function named -- [vmaDestroyBuffer]
    for an entry with a buffer, else [vmaDestroyImage] for one with an
    image, else [vmaFreeMemory], also for an entry whose handles are all
    null -- the entry is erased, every other entry is kept, and no
    warning is raised; when the id is not registered, "Allocation not
    found" is raised, nothing is invoked and the registry is as before.
    The pools are never touched and only the counter of the named
    function goes up. *)
Theorem destroy_releases_entry func lineNumber csvSplit p origPtr :
  func ∈ DESTROY_FUNCTIONS ->
  arity_ok func csvSplit = true ->
  StrRangeToPtr (param csvSplit 0) = Some origPtr ->
  origPtr <> 0 ->
  let p' := exec (handler g func lineNumber csvSplit) p in
  m_Stats p' = Statistics_RegisterFunctionCall func (m_Stats p) /\
  m_Pools p' = m_Pools p /\
  match m_Allocations p !! origPtr with
  | Some allocDesc =>
      trace p' = trace p ++ [EvCall (Destroy_call allocDesc)] /\
      m_Allocations p' = delete origPtr (m_Allocations p) /\
      m_Allocations p' !! origPtr = None /\
      (forall other, other <> origPtr ->
         m_Allocations p' !! other = m_Allocations p !! other) /\
      m_WarningCount p' = m_WarningCount p
  | None =>
      trace p' =
        trace p ++ [EvWarning (shows g (m_WarningCount p))
                      (MsgAllocationNotFound lineNumber origPtr)] /\
      m_Allocations p' = m_Allocations p
  end.
Proof.
  intros Hfunc Harity Hid Hnz p'. unfold p'.
  rewrite (destroy_handler_run func lineNumber csvSplit p origPtr) by done. cbv zeta.
  destruct (m_Allocations p !! origPtr) as [allocDesc|].
  - cbn. split_and!; try done.
    + apply lookup_delete_eq.
    + intros other Hother. by apply lookup_delete_ne.
  - unfold exec. rewrite warn_run. cbn. by split_and!.
Qed.

(** The handlers of [REFERENCE_FUNCTIONS] on a line they accept, with a
    nonzero id. *)
Lemma reference_handler_run func lineNumber csvSplit p origPtr offset size :
  func ∈ REFERENCE_FUNCTIONS ->
  arity_ok func csvSplit = true ->
  reference_params func csvSplit = Some (origPtr, offset, size) ->
  origPtr <> 0 ->
  let q := set_Stats (Statistics_RegisterFunctionCall func (m_Stats p)) p in
  exec (handler g func lineNumber csvSplit) p =
  match m_Allocations p !! origPtr with
  | Some allocDesc =>
      if allocation allocDesc =? VK_NULL_HANDLE
      then exec (warn g (MsgAllocationIsNull lineNumber (VMA_FUNCTION_NAMES func))) q
      else
        let c := reference_call func (allocation allocDesc) offset size in
        let res := reply_res (vma_reply (calls p) c) in
        set_trace
          (trace p ++ EvCall c ::
             if bool_decide (func = MapMemory) && negb (res =? VK_SUCCESS)
             then [EvPrintf (MsgMapMemoryFailed lineNumber res)] else []) q
  | None => exec (warn g (MsgAllocationNotFound lineNumber origPtr)) q
  end.
Proof.
  intros Hfunc Harity Hparams Hnz q. apply Z.eqb_neq in Hnz.
  unfold arity_ok in Harity.
  repeat (apply elem_of_cons in Hfunc as [->|Hfunc]);
    [| | | | | |by apply elem_of_nil in Hfunc];
    cbn in Harity; cbn [handler];
    unfold reference_params in Hparams;
    try (destruct (StrRangeToPtr (param csvSplit 0)) as [origPtr'|] eqn:Hid;
         [|discriminate Hparams]; cbn in Hparams; injection Hparams as -> <- <-);
    unfold ExecuteMapMemory, ExecuteUnmapMemory, ExecuteFlushAllocation,
      ExecuteInvalidateAllocation, ExecuteTouchAllocation, ExecuteGetAllocationInfo,
      RegisterFunctionCall, on_Stats;
    rewrite !exec_bind; cbn [modify fst snd];
    rewrite Validate_run by exact Harity; cbn [fst snd];
    first [rewrite Hparams | rewrite Hid]; rewrite ?Hnz; cbn [negb];
    rewrite exec_bind; cbn [gets set_Stats m_Allocations fst snd];
    (destruct (m_Allocations p !! origPtr) as [allocDesc|]; [|reflexivity]);
    (destruct (allocation allocDesc =? VK_NULL_HANDLE); cbn [negb]; [reflexivity|]);
    rewrite exec_bind; cbn [bool_decide decide_rel andb];
    try reflexivity.
  unfold exec, calls. cbn.
  destruct (reply_res _ =? VK_SUCCESS); cbn; by rewrite <- ?app_assoc.
Qed.

(** X9.  The six functions that refer to an allocation (map, unmap,
    flush, invalidate, touch, get-info), on a line that the handler
    accepts, with an id that converts and is not zero.  The handler tells
    an id that is not registered ("Allocation not found") from one that
    is registered with a null allocation, as a failed creation leaves it
    ("Cannot call ... - allocation is null", with the name of the
    function); in both cases nothing is invoked.  For a registered
    allocation that is not null it invokes the entry point of the
    function, once, with the live handle (and offset and size for flush
    and invalidate) and raises no warning.  The registries are never
    changed and only the counter of the function goes up. *)
Theorem reference_to_allocation func lineNumber csvSplit p origPtr offset size :
  func ∈ REFERENCE_FUNCTIONS ->
  arity_ok func csvSplit = true ->
  reference_params func csvSplit = Some (origPtr, offset, size) ->
  origPtr <> 0 ->
  let p' := exec (handler g func lineNumber csvSplit) p in
  m_Stats p' = Statistics_RegisterFunctionCall func (m_Stats p) /\
  m_Allocations p' = m_Allocations p /\
  m_Pools p' = m_Pools p /\
  match m_Allocations p !! origPtr with
  | None =>
      trace p' =
        trace p ++ [EvWarning (shows g (m_WarningCount p))
                      (MsgAllocationNotFound lineNumber origPtr)]
  | Some allocDesc =>
      if allocation allocDesc =? VK_NULL_HANDLE
      then
        trace p' =
          trace p ++ [EvWarning (shows g (m_WarningCount p))
                        (MsgAllocationIsNull lineNumber (VMA_FUNCTION_NAMES func))]
      else
        calls p' =
          calls p ++ [reference_call func (allocation allocDesc) offset size] /\
        warnings (trace p') = warnings (trace p) /\
        m_WarningCount p' = m_WarningCount p
  end.
Proof.
  intros Hfunc Harity Hparams Hnz p'. unfold p'.
  rewrite (reference_handler_run func lineNumber csvSplit p origPtr offset size) by done.
  cbv zeta.
  destruct (m_Allocations p !! origPtr) as [allocDesc|].
  - destruct (allocation allocDesc =? VK_NULL_HANDLE).
    + unfold exec. rewrite warn_run. cbn. by split_and!.
    + unfold calls. cbn. rewrite cons_middle, (assoc_L (++)).
      destruct (bool_decide (func = MapMemory) && _).
      * rewrite calls_snoc, warnings_snoc, calls_snoc, warnings_snoc, !app_nil_r.
        by split_and!.
      * rewrite app_nil_r, calls_snoc, warnings_snoc, !app_nil_r. by split_and!.
  - unfold exec. rewrite warn_run. cbn. by split_and!.
Qed.

(** The handlers of [POOL_FUNCTIONS] on a line they accept. *)
Lemma pool_handler_run func lineNumber csvSplit p origPtr :
  func ∈ POOL_FUNCTIONS ->
  arity_ok func csvSplit = true ->
  StrRangeToPtr (param csvSplit 0) = Some origPtr ->
  let q := set_Stats (Statistics_RegisterFunctionCall func (m_Stats p)) p in
  exec (handler g func lineNumber csvSplit) p =
  if origPtr =? 0 then q
  else
    match m_Pools p !! origPtr with
    | Some poolDesc =>
        set_Pools (if bool_decide (func = DestroyPool)
                   then delete origPtr (m_Pools p) else m_Pools p)
          (set_trace (trace p ++ [EvCall (pool_call func (pool poolDesc))]) q)
    | None => exec (warn g (MsgPoolNotFound lineNumber origPtr)) q
    end.
Proof.
  intros Hfunc Harity Hid q. unfold arity_ok in Harity.
  repeat (apply elem_of_cons in Hfunc as [->|Hfunc]);
    [| |by apply elem_of_nil in Hfunc];
    cbn in Harity; cbn [handler];
    unfold ExecuteDestroyPool, ExecuteMakePoolAllocationsLost, RegisterFunctionCall,
      on_Stats;
    rewrite !exec_bind; cbn [modify fst snd];
    rewrite Validate_run by exact Harity; cbn [fst snd];
    rewrite Hid; (destruct (origPtr =? 0); cbn [negb]; [reflexivity|]);
    rewrite exec_bind; cbn [gets set_Stats m_Pools fst snd];
    (destruct (m_Pools p !! origPtr) as [poolDesc|]; [|reflexivity]);
    rewrite exec_bind; reflexivity.
Qed.

(** X10.  The two functions that refer to a pool, [vmaDestroyPool] and
    [vmaMakePoolAllocationsLost], on a line that the handler accepts with
    an id that converts.  The id zero is skipped in silence.  An id that
    is not registered raises "Pool not found" and nothing is invoked.  A
    registered id has the entry point invoked once with the live handle,
    whatever that handle is (there is no test for a null pool);
    [vmaDestroyPool] then erases the entry and keeps every other one,
    [vmaMakePoolAllocationsLost] keeps the registry.  The allocations
    registered are never touched, also those made in a pool that is
    destroyed. *)
Theorem reference_to_pool func lineNumber csvSplit p origPtr :
  func ∈ POOL_FUNCTIONS ->
  arity_ok func csvSplit = true ->
  StrRangeToPtr (param csvSplit 0) = Some origPtr ->
  let p' := exec (handler g func lineNumber csvSplit) p in
  m_Stats p' = Statistics_RegisterFunctionCall func (m_Stats p) /\
  m_Allocations p' = m_Allocations p /\
  if origPtr =? 0 then trace p' = trace p /\ m_Pools p' = m_Pools p
  else
    match m_Pools p !! origPtr with
    | Some poolDesc =>
        trace p' = trace p ++ [EvCall (pool_call func (pool poolDesc))] /\
        m_Pools p' =
          (if bool_decide (func = DestroyPool)
           then delete origPtr (m_Pools p) else m_Pools p) /\
        (forall other, other <> origPtr -> m_Pools p' !! other = m_Pools p !! other)
    | None =>
        trace p' =
          trace p ++ [EvWarning (shows g (m_WarningCount p))
                        (MsgPoolNotFound lineNumber origPtr)] /\
        m_Pools p' = m_Pools p
    end.
Proof.
  intros Hfunc Harity Hid p'. unfold p'.
  rewrite (pool_handler_run func lineNumber csvSplit p origPtr) by done. cbv zeta.
  destruct (origPtr =? 0); [by split_and!|].
  destruct (m_Pools p !! origPtr) as [poolDesc|].
  - cbn. split_and!; try done.
    intros other Hother. case_bool_decide; [by apply lookup_delete_ne|done].
  - unfold exec. rewrite warn_run. cbn. by split_and!.
Qed.

(** X11.  [FindPool] never reports failure: it returns [true] in every
    case, though its declaration promises [false] for an id it cannot
    find.  The pool it gives is the live handle registered under a
    nonzero id, and the null handle for the id zero and for an id that
    is not registered; only in the last case does it raise a warning,
    "Pool not found", and it never changes anything else.  So a creation
    that names an unknown pool goes on, in the default pool. *)
Theorem FindPool_never_fails lineNumber origPool p :
  (FindPool g lineNumber origPool p).1 = (true, find_pool (m_Pools p) origPool) /\
  exec (FindPool g lineNumber origPool) p =
    (if negb (origPool =? 0) && bool_decide (m_Pools p !! origPool = None)
     then exec (warn g (MsgPoolNotFound lineNumber origPool)) p
     else p).
Proof.
  unfold FindPool, find_pool, exec.
  destruct (origPool =? 0); cbn [negb andb]; [done|].
  rewrite run_bind. cbn [gets fst snd].
  destruct (m_Pools p !! origPool) as [poolDesc|].
  - by rewrite bool_decide_eq_false_2.
  - rewrite bool_decide_eq_true_2 by done. rewrite run_bind, warn_run. done.
Qed.

(** X12.  The life of a handle.  An allocation is registered under a
    nonzero id that was free, a destroy record for that id is executed,
    and then a record of one of the six functions that refer to an
    allocation names the id again.  The destroy record invokes the one
    entry point that releases the entry and leaves the registry as it was
    before the registration; the later record finds nothing, raises
    "Allocation not found", not the warning for a null allocation, and
    invokes nothing. *)
Theorem use_after_destroy destroy use lineNumber origPtr res functionName allocDesc
    destroyLine destroySplit useLine useSplit offset size p :
  origPtr <> 0 ->
  m_Allocations p !! origPtr = None ->
  res = VK_SUCCESS ->
  destroy ∈ DESTROY_FUNCTIONS ->
  arity_ok destroy destroySplit = true ->
  StrRangeToPtr (param destroySplit 0) = Some origPtr ->
  use ∈ REFERENCE_FUNCTIONS ->
  arity_ok use useSplit = true ->
  reference_params use useSplit = Some (origPtr, offset, size) ->
  let p1 := exec (AddAllocation g lineNumber origPtr res functionName allocDesc) p in
  let p2 := exec (handler g destroy destroyLine destroySplit) p1 in
  let p3 := exec (handler g use useLine useSplit) p2 in
  m_Allocations p1 !! origPtr = Some allocDesc /\
  trace p2 = trace p ++ [EvCall (Destroy_call allocDesc)] /\
  m_Allocations p2 = m_Allocations p /\
  trace p3 =
    trace p2 ++ [EvWarning (shows g (m_WarningCount p))
                   (MsgAllocationNotFound useLine origPtr)] /\
  m_Allocations p3 = m_Allocations p.
Proof.
  intros Hnz Hfree -> Hdestroy Hdarity Hdid Huse Huarity Huparams p1 p2 p3.
  destruct (AddAllocation_effects g lineNumber origPtr VK_SUCCESS functionName allocDesc p)
    as (Htrace1 & Hcount1 & Hallocs1 & _).
  fold p1 in Htrace1, Hcount1, Hallocs1.
  assert ((origPtr =? 0) = false) as Hnzb by (by apply Z.eqb_neq).
  unfold reconcile_messages, discarded in *. rewrite Hnzb in *. cbn in Htrace1, Hcount1, Hallocs1.
  rewrite Hfree in Htrace1, Hcount1.
  rewrite bool_decide_eq_false_2 in Htrace1, Hcount1 by (by intros [? ?]).
  cbn in Htrace1, Hcount1. rewrite app_nil_r in Htrace1.
  assert (m_Allocations p1 !! origPtr = Some allocDesc) as Hreg1.
  { rewrite Hallocs1. apply lookup_insert_eq. }
  destruct (destroy_releases_entry_aux destroy destroyLine destroySplit p1 origPtr)
    as (Htrace2 & Hallocs2 & Hcount2); try done.
  fold p2 in Htrace2, Hallocs2, Hcount2. rewrite Hreg1 in Htrace2, Hallocs2, Hcount2.
  assert (m_Allocations p2 = m_Allocations p) as Hback.
  { rewrite Hallocs2, Hallocs1. by apply delete_insert_id. }
  pose proof (reference_handler_run use useLine useSplit p2 origPtr offset size
                Huse Huarity Huparams Hnz) as Hrun3.
  fold p3 in Hrun3. cbv zeta in Hrun3. rewrite Hback, Hfree in Hrun3.
  split_and!; try done.
  - by rewrite Htrace2, Htrace1.
  - rewrite Hrun3. unfold exec. rewrite warn_run. cbn.
    by rewrite Hcount2, Hcount1.
  - rewrite Hrun3. unfold exec. rewrite warn_run. by cbn.
Qed.

End RegisteredObjects.

Lemma destroy_releases_entry_witness :
  let p :=
    exec (@ExecuteLine CommonSpec.common granting_allocator default_globals 3
            "0,0.0,0,vmaCreateBuffer,0,1024,128,0,0,1,0,0,0,0,1A2B") Player_new in
  let csvSplit := CommonSpec.comma_CsvSplit_Set "0,0.1,0,vmaDestroyImage,1A2B" None in
  let p' := exec (@handler CommonSpec.common granting_allocator default_globals
                    DestroyImage 4 csvSplit) p in
  trace p' = trace p ++ [EvCall (vmaDestroyBuffer 1000 2000)] /\
  m_Allocations p' !! 6699 = None.
Proof.
  intros p csvSplit p'.
  assert (m_Allocations p !! 6699 =
            Some {| allocationFlags := 0; allocation := 2000; buffer := 1000;
                    image := VK_NULL_HANDLE |}) as Hreg by (vm_compute; reflexivity).
  destruct (@destroy_releases_entry CommonSpec.common granting_allocator default_globals
              DestroyImage 4 csvSplit p 6699) as (_ & _ & W).
  - apply list_elem_of_In. simpl. tauto.
  - vm_compute. reflexivity.
  - vm_compute. reflexivity.
  - lia.
  - rewrite Hreg in W. destruct W as (Htrace & _ & Hnone & _).
    split; [exact Htrace | exact Hnone].
Defined.

Lemma reference_to_allocation_witness :
  let p :=
    exec (@ExecuteLine CommonSpec.common refusing_allocator default_globals 3
            "0,0.0,0,vmaCreateBuffer,0,1024,128,0,0,1,0,0,0,0,1A2B") Player_new in
  let csvSplit := CommonSpec.comma_CsvSplit_Set "0,0.1,0,vmaFlushAllocation,1A2B,0,64" None in
  let p' := exec (@handler CommonSpec.common refusing_allocator default_globals
                    FlushAllocation 4 csvSplit) p in
  trace p' =
    trace p ++ [EvWarning (shows default_globals (m_WarningCount p))
                  (MsgAllocationIsNull 4 "vmaFlushAllocation")].
Proof.
  intros p csvSplit p'.
  assert (m_Allocations p !! 6699 =
            Some {| allocationFlags := 0; allocation := VK_NULL_HANDLE;
                    buffer := VK_NULL_HANDLE; image := VK_NULL_HANDLE |})
    as Hreg by (vm_compute; reflexivity).
  destruct (@reference_to_allocation CommonSpec.common refusing_allocator default_globals
              FlushAllocation 4 csvSplit p 6699 0 64) as (_ & _ & _ & W).
  - apply list_elem_of_In. simpl. tauto.
  - vm_compute. reflexivity.
  - vm_compute. reflexivity.
  - lia.
  - rewrite Hreg in W. exact W.
Defined.

Lemma reference_to_pool_witness :
  let p :=
    exec (@ExecuteLine CommonSpec.common granting_allocator default_globals 3
            "0,0.0,0,vmaCreatePool,1,0,1048576,1,4,2,AB00") Player_new in
  let csvSplit := CommonSpec.comma_CsvSplit_Set "0,0.1,0,vmaDestroyPool,AB00" None in
  let p' := exec (@handler CommonSpec.common granting_allocator default_globals
                    DestroyPool 4 csvSplit) p in
  trace p' = trace p ++ [EvCall (vmaDestroyPool 1000)] /\
  m_Pools p' = delete 43776 (m_Pools p).
Proof.
  intros p csvSplit p'.
  assert (m_Pools p !! 43776 = Some {| pool := 1000 |}) as Hreg
    by (vm_compute; reflexivity).
  destruct (@reference_to_pool CommonSpec.common granting_allocator default_globals
              DestroyPool 4 csvSplit p 43776) as (_ & _ & W).
  - apply list_elem_of_In. simpl. tauto.
  - vm_compute. reflexivity.
  - vm_compute. reflexivity.
  - assert ((43776 =? 0) = false) as Hnz by reflexivity.
    rewrite Hnz, Hreg in W. destruct W as (Htrace & Hpools & _).
    rewrite bool_decide_eq_true_2 in Hpools by reflexivity.
    split; [exact Htrace | exact Hpools].
Defined.

Lemma use_after_destroy_witness :
  let allocDesc :=
    {| allocationFlags := 0; allocation := 2000; buffer := VK_NULL_HANDLE;
       image := 1000 |} in
  let destroySplit := CommonSpec.comma_CsvSplit_Set "0,0.1,0,vmaFreeMemory,1A2B" None in
  let useSplit := CommonSpec.comma_CsvSplit_Set "0,0.2,0,vmaTouchAllocation,1A2B" None in
  let p1 := exec (@AddAllocation granting_allocator default_globals 3 6699 VK_SUCCESS
                    "vmaCreateImage" allocDesc) Player_new in
  let p2 := exec (@handler CommonSpec.common granting_allocator default_globals
                    FreeMemory 4 destroySplit) p1 in
  let p3 := exec (@handler CommonSpec.common granting_allocator default_globals
                    TouchAllocation 5 useSplit) p2 in
  m_Allocations p1 !! 6699 = Some allocDesc /\
  trace p2 = trace Player_new ++ [EvCall (Destroy_call allocDesc)] /\
  m_Allocations p2 = m_Allocations Player_new /\
  trace p3 =
    trace p2 ++ [EvWarning (shows default_globals (m_WarningCount Player_new))
                   (MsgAllocationNotFound 5 6699)] /\
  m_Allocations p3 = m_Allocations Player_new.
Proof.
  intros allocDesc destroySplit useSplit.
  apply (@use_after_destroy CommonSpec.common granting_allocator default_globals
           FreeMemory TouchAllocation 3 6699 VK_SUCCESS "vmaCreateImage" allocDesc
           4 destroySplit 5 useSplit 0 0 Player_new).
  - lia.
  - reflexivity.
  - reflexivity.
  - apply list_elem_of_In. simpl. tauto.
  - vm_compute. reflexivity.
  - vm_compute. reflexivity.
  - apply list_elem_of_In. simpl. tauto.
  - vm_compute. reflexivity.
  - vm_compute. reflexivity.
Defined.

(** ** Who writes to the registries *)

Section RegistryWriters.
Context `{CommonH} `{TargetAllocator} `{UnorderedMap} (g : Globals).

Lemma pools_are_warn pools msg : preserves (pools_are pools) (warn g msg).
Proof. intros p Hp. rewrite warn_run. exact Hp. Qed.

Lemma allocations_are_warn allocs msg : preserves (allocations_are allocs) (warn g msg).
Proof. intros p Hp. rewrite warn_run. exact Hp. Qed.

Ltac registry_prim :=
  first [ apply pools_are_warn | apply allocations_are_warn
        | intros ? Hregistry; exact Hregistry ].

Lemma pools_are_handler pools func lineNumber csvSplit :
  func ∉ POOL_REGISTRY_WRITERS ->
  preserves (pools_are pools) (handler g func lineNumber csvSplit).
Proof.
  intros Hfunc.
  destruct func; cbn [handler];
    try (exfalso; apply Hfunc; apply list_elem_of_In; cbn; tauto);
    preserves_go registry_prim.
Qed.

Lemma allocations_are_handler allocs func lineNumber csvSplit :
  func ∉ ALLOCATION_REGISTRY_WRITERS ->
  preserves (allocations_are allocs) (handler g func lineNumber csvSplit).
Proof.
  intros Hfunc.
  destruct func; cbn [handler];
    try (exfalso; apply Hfunc; apply list_elem_of_In; cbn; tauto);
    preserves_go registry_prim.
Qed.

(** The dispatch keeps what the handlers of all functions but [writers]
    keep, on a line that names none of [writers]. *)
Lemma dispatch_keeps (P : Player -> Prop) (writers : list VMA_FUNCTION)
    lineNumber csvSplit :
  (forall msg, preserves P (warn g msg)) ->
  (forall func, func ∉ writers -> preserves P (handler g func lineNumber csvSplit)) ->
  (forall func, func ∈ writers ->
     StrRangeEq (GetRange csvSplit 3) (VMA_FUNCTION_NAMES func) = false) ->
  preserves P (ExecuteLine_dispatch g lineNumber csvSplit).
Proof.
  intros Hwarn Hhandler Hnames.
  destruct (function_name_cases (to_str (GetRange csvSplit 3)))
    as [[func Hname]|[Hname|Hname]].
  - rewrite (dispatch_handler g func) by done. apply Hhandler.
    intros Hin. apply Hnames in Hin. unfold StrRangeEq in Hin.
    rewrite Hname, String.eqb_refl in Hin. discriminate.
  - rewrite dispatch_allocator by done.
    unfold ValidateFunctionParameterCount.
    repeat preserves_step ltac:(apply Hwarn).
  - rewrite dispatch_unknown by done. apply Hwarn.
Qed.

(** X13.  Only the records of creation and destruction write to the
    registries.  A line that names neither [vmaCreatePool] nor
    [vmaDestroyPool] leaves [m_Pools] as it was, and a line that names
    none of the nine functions that create or destroy an allocation
    leaves [m_Allocations] as it was -- whatever else the line holds, and
    also when it has too few columns or names an unknown function. *)
Theorem registries_written_by_their_records lineNumber line p :
  ((forall func, func ∈ POOL_REGISTRY_WRITERS -> names_function func line = false) ->
   m_Pools (exec (ExecuteLine g lineNumber line) p) = m_Pools p) /\
  ((forall func, func ∈ ALLOCATION_REGISTRY_WRITERS -> names_function func line = false) ->
   m_Allocations (exec (ExecuteLine g lineNumber line) p) = m_Allocations p).
Proof.
  unfold names_function. cbv zeta.
  destruct (bool_decide (FIRST_PARAM_INDEX ≤ GetCount (CsvSplit_Set line None))%nat) eqn:E.
  - apply bool_decide_eq_true in E. rewrite ExecuteLine_split by done.
    destruct (header_effects g lineNumber (CsvSplit_Set line None) p)
      as (_ & _ & _ & _ & _ & _ & Hallocs & Hpools & _).
    split; intros Hnames.
    + rewrite <- Hpools.
      apply (preserves_exec (pools_are _)); [|reflexivity].
      apply (dispatch_keeps _ POOL_REGISTRY_WRITERS);
        [apply pools_are_warn | intros; by apply pools_are_handler | exact Hnames].
    + rewrite <- Hallocs.
      apply (preserves_exec (allocations_are _)); [|reflexivity].
      apply (dispatch_keeps _ ALLOCATION_REGISTRY_WRITERS);
        [apply allocations_are_warn | intros; by apply allocations_are_handler
        | exact Hnames].
  - unfold ExecuteLine, ExecuteSplitLine. rewrite E. unfold exec.
    rewrite warn_run. by split.
Qed.

End RegistryWriters.

Lemma registries_written_by_their_records_witness :
  let p :=
    exec (@ExecuteLine CommonSpec.common granting_allocator default_globals 3
            "0,0.0,0,vmaCreateBuffer,0,1024,128,0,0,1,0,0,0,0,1A2B") Player_new in
  m_Allocations
    (exec (@ExecuteLine CommonSpec.common granting_allocator default_globals 4
             "0,0.1,0,vmaMapMemory,1A2B") p) = m_Allocations p.
Proof.
  intros p.
  apply (proj2 (@registries_written_by_their_records CommonSpec.common granting_allocator
                  default_globals 4 "0,0.1,0,vmaMapMemory,1A2B" p)).
  intros func Hfunc. apply list_elem_of_In in Hfunc. simpl in Hfunc.
  repeat (destruct Hfunc as [<-|Hfunc]; [vm_compute; reflexivity|]).
  destruct Hfunc.
Defined.

(** ** What the registries hold *)

Section RegistryInvariant.
Context `{CommonH} `{TargetAllocator} `{UnorderedMap} (g : Globals).

Lemma registry_wf_warn msg : preserves registry_wf (warn g msg).
Proof. intros p Hp. rewrite warn_run. exact Hp. Qed.

Lemma registry_wf_insert_allocation origPtr allocDesc p :
  negb (origPtr =? 0) = true ->
  buffer allocDesc = VK_NULL_HANDLE \/ image allocDesc = VK_NULL_HANDLE ->
  registry_wf p ->
  registry_wf (set_Allocations (<[origPtr := allocDesc]> (m_Allocations p)) p).
Proof.
  intros Hnz Hkind (Hzero & Hpools & Hentries).
  apply negb_true_iff, Z.eqb_neq in Hnz.
  split_and!; cbn; [by rewrite lookup_insert_ne|done|].
  intros id alloc. destruct (decide (id = origPtr)) as [->|Hne].
  - rewrite lookup_insert_eq. by intros [= <-].
  - rewrite lookup_insert_ne by done. apply Hentries.
Qed.

Lemma registry_wf_delete_allocation origPtr p :
  registry_wf p ->
  registry_wf (set_Allocations (delete origPtr (m_Allocations p)) p).
Proof.
  intros (Hzero & Hpools & Hentries).
  split_and!; cbn; [|done|].
  - apply lookup_delete_None. by right.
  - intros id alloc [_ Hin]%lookup_delete_Some. by eapply Hentries.
Qed.

Lemma registry_wf_insert_pool origPtr poolDesc p :
  negb (origPtr =? 0) = true ->
  registry_wf p ->
  registry_wf (set_Pools (<[origPtr := poolDesc]> (m_Pools p)) p).
Proof.
  intros Hnz (Hzero & Hpools & Hentries).
  apply negb_true_iff, Z.eqb_neq in Hnz.
  split_and!; cbn; [done|by rewrite lookup_insert_ne|done].
Qed.

Lemma registry_wf_delete_pool origPtr p :
  registry_wf p ->
  registry_wf (set_Pools (delete origPtr (m_Pools p)) p).
Proof.
  intros (Hzero & Hpools & Hentries).
  split_and!; cbn; [done| |done].
  apply lookup_delete_None. by right.
Qed.

Ltac registry_wf_prim :=
  first
    [ apply registry_wf_warn
    | intros ? Hwf; exact Hwf
    | intros ? Hwf; apply registry_wf_insert_allocation;
        [assumption | cbn; first [by left | by right] | exact Hwf]
    | intros ? Hwf; by apply registry_wf_delete_allocation
    | intros ? Hwf; by apply registry_wf_insert_pool
    | intros ? Hwf; by apply registry_wf_delete_pool ].

Lemma registry_wf_dispatch lineNumber csvSplit :
  preserves registry_wf (ExecuteLine_dispatch g lineNumber csvSplit).
Proof. dispatch_cases; preserves_go registry_wf_prim. Qed.

Lemma registry_wf_ExecuteLines lines : preserves registry_wf (ExecuteLines g lines).
Proof.
  induction lines as [|[lineNumber line] rest IH]; cbn [ExecuteLines].
  - apply preserves_ret.
  - apply preserves_bind; [|intros _; apply IH].
    unfold ExecuteLine, ExecuteSplitLine. destruct (bool_decide _).
    + apply preserves_bind; [|intros _; apply registry_wf_dispatch].
      unfold ExecuteLine_header. preserves_go registry_wf_prim.
    + apply registry_wf_warn.
Qed.

(** X14.  In every state that a playback reaches, the original id zero
    is registered neither as an allocation nor as a pool, and no
    registered allocation holds both a buffer and an image; so what
    [Destroy] asserts of its argument, that an allocation with a buffer
    has no image, holds of every registered entry it is ever given, by a
    destroy record or by the sweep at the end. *)
Theorem registries_well_formed (lines : list (Z * string)) :
  let p := exec (ExecuteLines g lines) Player_new in
  m_Allocations p !! 0 = None /\
  m_Pools p !! 0 = None /\
  forall origPtr alloc,
    m_Allocations p !! origPtr = Some alloc ->
    buffer alloc = VK_NULL_HANDLE \/ image alloc = VK_NULL_HANDLE.
Proof.
  intros p. apply registry_wf_ExecuteLines.
  split_and!; [done|done|]. intros origPtr alloc Hin.
  cbn [Player_new m_Allocations] in Hin. by rewrite lookup_empty in Hin.
Qed.

End RegistryInvariant.

(** ** The sweep at the end of a playback *)

Section Teardown.
Context `{CommonH} `{TargetAllocator} `{UnorderedMap} (g : Globals).

Lemma set_trace_same p : set_trace (trace p ++ []) p = p.
Proof. destruct p. cbn. by rewrite app_nil_r. Qed.

Lemma DestroyAll_run allocs p :
  DestroyAll allocs p =
  (tt, set_trace (trace p ++ (EvCall ∘ Destroy_call <$> allocs)) p).
Proof.
  revert p. induction allocs as [|alloc rest IH]; intros p; cbn [DestroyAll].
  - cbn. by rewrite set_trace_same.
  - rewrite run_bind, Destroy_run. cbn [fst snd]. rewrite IH. cbn.
    by rewrite <- app_assoc.
Qed.

Lemma DestroyAllPools_run pools p :
  DestroyAllPools pools p =
  (tt, set_trace (trace p ++ (EvCall ∘ vmaDestroyPool ∘ pool <$> pools)) p).
Proof.
  revert p. induction pools as [|poolDesc rest IH]; intros p; cbn [DestroyAllPools].
  - cbn. by rewrite set_trace_same.
  - rewrite run_bind. cbn [invoke fst snd]. rewrite IH. cbn.
    by rewrite <- app_assoc.
Qed.

Lemma calls_of_app evs1 evs2 : calls_of (evs1 ++ evs2) = calls_of evs1 ++ calls_of evs2.
Proof. apply omap_app. Qed.

Lemma calls_of_calls {A} (f : A -> VmaCall) (l : list A) :
  calls_of (EvCall ∘ f <$> l) = f <$> l.
Proof. induction l as [|a l IH]; [done|]. cbn. by f_equal. Qed.

Lemma calls_of_printf_cons msg evs : calls_of (EvPrintf msg :: evs) = calls_of evs.
Proof. reflexivity. Qed.

Lemma unordered_walk_empty {V} (m : gmap Z V) : m = ∅ -> (unordered_walk m).*2 = [].
Proof.
  intros ->. pose proof (unordered_walk_perm V ∅) as Hperm.
  rewrite map_to_list_empty in Hperm. apply Permutation_nil_r in Hperm.
  by rewrite Hperm.
Qed.

Lemma unordered_walk_values {V} (m : gmap Z V) :
  (unordered_walk m).*2 ≡ₚ (map_to_list m).*2.
Proof. by rewrite (unordered_walk_perm V m). Qed.

(** The fields of the player after [FinalizeVulkan]. *)
Lemma FinalizeVulkan_run p :
  let allocs := m_Allocations p in
  let pools := m_Pools p in
  let p' := exec (FinalizeVulkan) p in
  m_Allocations p' = ∅ /\ m_Pools p' = ∅ /\
  trace p' =
    trace p ++
    (if bool_decide (allocs = ∅) then []
     else EvPrintf (MsgAllocationsNotDestroyed (Z.of_nat (size allocs))) ::
          (EvCall ∘ Destroy_call <$> (unordered_walk allocs).*2)) ++
    (if bool_decide (pools = ∅) then []
     else EvPrintf (MsgPoolsNotDestroyed (Z.of_nat (size pools))) ::
          (EvCall ∘ (vmaDestroyPool ∘ pool) <$> (unordered_walk pools).*2)) /\
  m_WarningCount p' = m_WarningCount p /\
  m_Stats p' = m_Stats p.
Proof.
  intros allocs pools p'.
  unfold p', FinalizeVulkan, exec.
  rewrite run_bind. cbn [gets fst snd]. fold allocs. rewrite run_bind.
  match goal with
  | |- context [(?c p).2] =>
      assert (m_Allocations (c p).2 = ∅ /\ m_Pools (c p).2 = pools /\
              trace (c p).2 =
                trace p ++
                (if bool_decide (allocs = ∅) then []
                 else EvPrintf (MsgAllocationsNotDestroyed (Z.of_nat (size allocs))) ::
                      (EvCall ∘ Destroy_call <$> (unordered_walk allocs).*2)) /\
              m_WarningCount (c p).2 = m_WarningCount p /\
              m_Stats (c p).2 = m_Stats p) as (Ha & Hp & Ht & Hw & Hs);
      [|generalize dependent (c p).2]
  end.
  { destruct (bool_decide (allocs = ∅)) eqn:Ea.
    - apply bool_decide_eq_true in Ea. cbn [mret M_ret fst snd].
      rewrite app_nil_r. split_and!; first [exact Ea | reflexivity].
    - rewrite !run_bind, DestroyAll_run. cbn [printf emit modify fst snd].
      cbn [set_Allocations set_trace m_Allocations m_Pools trace m_WarningCount
           m_Stats].
      rewrite <- (assoc_L (++)). split_and!; reflexivity. }
  intros q Ha Hp Ht Hw Hs. rewrite run_bind. cbn [gets fst snd]. rewrite Hp.
  destruct (bool_decide (pools = ∅)) eqn:Ep.
  - apply bool_decide_eq_true in Ep. cbn [mret M_ret fst snd].
    rewrite app_nil_r. split_and!; first [done | by rewrite Hp ].
  - rewrite !run_bind, DestroyAllPools_run. cbn [printf emit modify fst snd].
    cbn [set_Pools set_trace m_Allocations m_Pools trace m_WarningCount m_Stats].
    rewrite Ht, <- !(assoc_L (++)). split_and!; done.
Qed.

(** X15.  [FinalizeVulkan] empties both registries, from any state.  For
    the allocations still registered it prints their number and invokes,
    for each of them once, the entry point that releases it; then the
    same for the pools still registered, with [vmaDestroyPool] -- all
    allocations before any pool.  Among the allocations, and among the
    pools, the order is the one in which the library walks the
    [unordered_map], [released] and [destroyed] below: some order of the
    registered entries, whichever the library is.  With nothing
    registered it prints nothing and invokes nothing.  The two messages
    do not go through [IssueWarning]: the warning counter is as before. *)
Theorem FinalizeVulkan_sweeps p :
  let allocs := m_Allocations p in
  let pools := m_Pools p in
  let released := (unordered_walk allocs).*2 in
  let destroyed := (unordered_walk pools).*2 in
  let p' := exec (FinalizeVulkan) p in
  m_Allocations p' = ∅ /\
  m_Pools p' = ∅ /\
  released ≡ₚ (map_to_list allocs).*2 /\
  destroyed ≡ₚ (map_to_list pools).*2 /\
  trace p' =
    trace p ++
    (if bool_decide (allocs = ∅) then []
     else EvPrintf (MsgAllocationsNotDestroyed (Z.of_nat (size allocs))) ::
          (EvCall ∘ Destroy_call <$> released)) ++
    (if bool_decide (pools = ∅) then []
     else EvPrintf (MsgPoolsNotDestroyed (Z.of_nat (size pools))) ::
          (EvCall ∘ (vmaDestroyPool ∘ pool) <$> destroyed)) /\
  calls p' =
    calls p ++ (Destroy_call <$> released) ++ (vmaDestroyPool ∘ pool <$> destroyed) /\
  length (calls p') = (length (calls p) + size allocs + size pools)%nat /\
  m_WarningCount p' = m_WarningCount p /\
  m_Stats p' = m_Stats p.
Proof.
  intros allocs pools released destroyed p'.
  destruct (FinalizeVulkan_run p) as (Hallocs & Hpools & Htrace & Hcount & Hstats).
  fold allocs pools p' in Hallocs, Hpools, Htrace, Hcount, Hstats.
  fold released destroyed in Htrace.
  pose proof (unordered_walk_values allocs) as Hreleased.
  pose proof (unordered_walk_values pools) as Hdestroyed.
  fold released in Hreleased. fold destroyed in Hdestroyed.
  assert (calls p' =
            calls p ++ (Destroy_call <$> released) ++
            (vmaDestroyPool ∘ pool <$> destroyed)) as Hcalls.
  { unfold calls. rewrite Htrace, !calls_of_app. f_equal.
    f_equal.
    - destruct (bool_decide (allocs = ∅)) eqn:Ea;
        [apply bool_decide_eq_true in Ea; unfold released;
         by rewrite (unordered_walk_empty _ Ea)|].
      rewrite calls_of_printf_cons. apply calls_of_calls.
    - destruct (bool_decide (pools = ∅)) eqn:Ep;
        [apply bool_decide_eq_true in Ep; unfold destroyed;
         by rewrite (unordered_walk_empty _ Ep)|].
      rewrite calls_of_printf_cons. apply calls_of_calls. }
  split_and!; try done.
  rewrite Hcalls, !length_app, !length_fmap.
  rewrite (Permutation_length Hreleased), (Permutation_length Hdestroyed).
  rewrite !length_fmap, !length_map_to_list. lia.
Qed.

(** X16.  At the end of every playback both registries are empty: what
    the records left registered has been swept by the destructor. *)
Theorem playback_leaves_nothing_registered (lines : list (Z * string)) :
  m_Allocations (Playback g lines) = ∅ /\ m_Pools (Playback g lines) = ∅.
Proof.
  unfold Playback, Player_destructor.
  rewrite exec_then, exec_bind.
  destruct (FinalizeVulkan_run (exec (ExecuteLines g lines) Player_new))
    as (Hallocs & Hpools & _).
  cbv zeta in Hallocs, Hpools. unfold exec in *.
  set (q := (FinalizeVulkan (ExecuteLines g lines Player_new).2).2) in *.
  rewrite run_bind. cbn [gets fst snd].
  by destruct (below_MAXIMUM (g_Verbosity g) && (MAX_WARNINGS_TO_SHOW <? m_WarningCount q)).
Qed.

End Teardown.

(** The order in which [FinalizeVulkan] releases what is left is the
    library's: with a buffer registered under 1 and an image under 2, one
    library has the image destroyed first, the other the buffer. *)
Example FinalizeVulkan_order_varies :
  let p :=
    set_Allocations
      (<[1 := {| allocationFlags := 0; allocation := 2000; buffer := 1000;
                 image := VK_NULL_HANDLE |}]>
         (<[2 := {| allocationFlags := 0; allocation := 2001; buffer := VK_NULL_HANDLE;
                    image := 1001 |}]> ∅)) Player_new in
  calls (exec (@FinalizeVulkan granting_allocator walk_by_key) p) =
    [vmaDestroyImage 1001 2001; vmaDestroyBuffer 1000 2000] /\
  calls (exec (@FinalizeVulkan granting_allocator walk_by_key_reversed) p) =
    [vmaDestroyBuffer 1000 2000; vmaDestroyImage 1001 2001].
Proof. split; vm_compute; reflexivity. Qed.

(** ** The advisory of [ExecuteAllocateMemoryForBufferOrImage] *)

Lemma preserves_gets_then {A B C} (P : Player -> Prop) (f : Player -> A)
    (c : A -> M B) (k : A -> M C) :
  (forall p, P p -> P (exec (c (f p)) p)) ->
  (forall a, preserves P (k a)) ->
  preserves P (gets f ≫= fun a => c a ≫= fun _ => k a).
Proof.
  intros Hc Hk p HP. rewrite !run_bind. cbn [gets fst snd]. apply Hk. by apply Hc.
Qed.

Lemma advisories_snoc evs e :
  advisories (evs ++ [e]) =
  advisories evs ++
    match e with EvWarning _ (MsgCannotReplayAccurately l) => [l] | _ => [] end.
Proof.
  unfold advisories. rewrite omap_app. f_equal. destruct e as [? []| |]; reflexivity.
Qed.

Section Advisory.
Context `{CommonH} `{TargetAllocator} `{UnorderedMap} (g : Globals).

Lemma advisory_state_warn msg :
  match msg with MsgCannotReplayAccurately _ => False | _ => True end ->
  preserves advisory_state (warn g msg).
Proof.
  intros Hmsg p Hp. rewrite warn_run. unfold advisory_state in *. cbn.
  rewrite advisories_snoc. destruct msg; try done; by rewrite app_nil_r.
Qed.

Lemma advisory_state_printf msg : preserves advisory_state (printf msg).
Proof.
  intros p Hp. unfold advisory_state in *. cbn.
  by rewrite advisories_snoc, app_nil_r.
Qed.

Lemma advisory_state_invoke c : preserves advisory_state (invoke c).
Proof.
  intros p Hp. unfold advisory_state in *. cbn.
  by rewrite advisories_snoc, app_nil_r.
Qed.

(** The guarded warning: raised when the flag is down, which it then
    raises. *)
Lemma advisory_state_block lineNumber p :
  advisory_state p ->
  advisory_state
    (exec (if negb (m_AllocateForBufferImageWarningIssued p)
           then warn g (MsgCannotReplayAccurately lineNumber);;
                modify (set_AllocateForBufferImageWarningIssued true)
           else mret tt) p).
Proof.
  intros [[Hflag Hnone]|[Hflag Hone]]; rewrite Hflag; cbn [negb].
  - right. unfold exec. rewrite run_bind, warn_run. cbn.
    rewrite advisories_snoc, Hnone. split; [done|]. by exists lineNumber.
  - by right.
Qed.

Ltac advisory_prim :=
  first
    [ apply advisory_state_warn; exact I
    | apply advisory_state_printf
    | apply advisory_state_invoke
    | intros ? Hadvisory; exact Hadvisory ].

Ltac advisory_step :=
  lazymatch goal with
  | |- preserves _ (gets m_AllocateForBufferImageWarningIssued ≫= _) =>
      apply preserves_gets_then;
      [ intros ? ?; by apply advisory_state_block | intros ?; cbv beta ]
  | |- _ => preserves_step advisory_prim
  end.

Lemma advisory_state_dispatch lineNumber csvSplit :
  preserves advisory_state (ExecuteLine_dispatch g lineNumber csvSplit).
Proof. dispatch_cases; unfold_members; repeat advisory_step. Qed.

Lemma advisory_state_ExecuteLines lines :
  preserves advisory_state (ExecuteLines g lines).
Proof.
  induction lines as [|[lineNumber line] rest IH]; cbn [ExecuteLines].
  - apply preserves_ret.
  - apply preserves_bind; [|intros _; apply IH].
    unfold ExecuteLine, ExecuteSplitLine. destruct (bool_decide _).
    + apply preserves_bind; [|intros _; apply advisory_state_dispatch].
      unfold ExecuteLine_header. repeat advisory_step.
    + by apply advisory_state_warn.
Qed.

(** X17.  The warning that [vmaAllocateMemoryForBuffer] and
    [vmaAllocateMemoryForImage] cannot be replayed accurately is raised
    at most once in a playback, however many such records there are, and
    [m_AllocateForBufferImageWarningIssued] is set exactly when it has
    been raised. *)
Theorem advisory_raised_at_most_once (lines : list (Z * string)) :
  let p := exec (ExecuteLines g lines) Player_new in
  (length (advisories (trace p)) ≤ 1)%nat /\
  (m_AllocateForBufferImageWarningIssued p = true <-> advisories (trace p) <> []).
Proof.
  intros p.
  assert (advisory_state p) as [[Hflag Hnone]|[Hflag [lineNumber Hone]]].
  { apply advisory_state_ExecuteLines. by left. }
  - rewrite Hflag, Hnone. cbn. split; [lia|]. split; [discriminate|done].
  - rewrite Hflag, Hone. cbn. split; [lia|]. split; [discriminate|done].
Qed.

(** X18.  While the lines of a playback are executed, every message the
    player prints goes through [IssueWarning] and is counted, with one
    exception, the failure of [vmaMapMemory]: in the state after any
    lines, every message that was printed without asking [IssueWarning]
    is such a failure. *)
Theorem messages_are_counted_warnings (lines : list (Z * string)) :
  let p := exec (ExecuteLines g lines) Player_new in
  forall msg, msg ∈ unguarded (trace p) ->
    exists lineNumber res, msg = MsgMapMemoryFailed lineNumber res.
Proof.
  intros p msg Hmsg.
  assert (bypasses_only_on_map_failure p) as Hbypass.
  { apply bypass_ExecuteLines. apply Forall_nil_2. }
  unfold bypasses_only_on_map_failure in Hbypass.
  rewrite Forall_forall in Hbypass. by apply Hbypass.
Qed.

End Advisory.

Lemma messages_are_counted_warnings_witness :
  let create := "0,0.0,0,vmaCreateBuffer,0,1024,128,0,0,1,0,0,0,0,1A2B" in
  let map := "0,0.1,0,vmaMapMemory,1A2B" in
  exists lineNumber res, MsgMapMemoryFailed 4 (-5) = MsgMapMemoryFailed lineNumber res.
Proof.
  intros create map.
  apply (@messages_are_counted_warnings CommonSpec.common unmappable_allocator
           default_globals [(3, create); (4, map)] (MsgMapMemoryFailed 4 (-5))).
  vm_compute. apply list_elem_of_here.
Defined.

(** ** The version gate, exactly *)

Section VersionGate.
Context `{CommonH}.

Lemma ValidateFileVersion_iff (v : Z) :
  ValidateFileVersion v = true <-> 65536 <= v <= 65538.
Proof.
  unfold ValidateFileVersion. cbv zeta.
  rewrite andb_true_iff, Z.eqb_eq, Z.leb_le.
  rewrite Z.shiftr_div_pow2 by lia.
  change 0xFFFF with (Z.ones 16). rewrite Z.land_ones by lia.
  change (2 ^ 16) with 65536.
  split; intros Hv; Z.div_mod_to_equations; lia.
Qed.

(** X19.  The version gate looks at one number, the packed 32-bit word:
    [ValidateFileVersion] accepts exactly the three words 0x10000,
    0x10001 and 0x10002.  [CheckFileVersion] lets a load go on exactly
    when there is a version line, [ParseFileVersion] accepts it (it has
    two columns, both convert) and the word it packs is one of the three;
    in every other case the result is [RESULT_ERROR_FORMAT]. *)
Theorem version_gate_exact :
  (forall v, ValidateFileVersion v = true <-> 65536 <= v <= 65538) /\
  (forall line,
     CheckFileVersion line = 0 <->
     exists l v, line = Some l /\ ParseFileVersion l = Some v /\ 65536 <= v <= 65538) /\
  (forall line, CheckFileVersion line <> 0 -> CheckFileVersion line = RESULT_ERROR_FORMAT) /\
  (forall l, GetCount (CsvSplit_Set l (Some 2%nat)) <> 2%nat ->
     CheckFileVersion (Some l) = RESULT_ERROR_FORMAT).
Proof.
  split_and!.
  - apply ValidateFileVersion_iff.
  - intros [l|]; unfold CheckFileVersion.
    + destruct (ParseFileVersion l) as [v|] eqn:Hparse.
      * destruct (ValidateFileVersion v) eqn:Hvalid.
        -- split; [|done]. intros _. exists l, v.
           by apply ValidateFileVersion_iff in Hvalid.
        -- split; [discriminate|]. intros (l' & v' & [= <-] & Hp & Hv).
           rewrite Hparse in Hp. injection Hp as <-.
           apply ValidateFileVersion_iff in Hv. congruence.
      * split; [discriminate|]. intros (l' & v' & [= <-] & Hp & _). congruence.
    + split; [discriminate|]. by intros (l' & v' & Hl & _).
  - intros [l|]; unfold CheckFileVersion; [|done].
    destruct (ParseFileVersion l) as [v|]; [|done].
    by destruct (ValidateFileVersion v).
  - intros l Hcount. unfold CheckFileVersion, ParseFileVersion. cbv zeta.
    by rewrite decide_False.
Qed.

End VersionGate.

Lemma version_gate_exact_witness :
  @CheckFileVersion CommonSpec.common (Some "1") = RESULT_ERROR_FORMAT.
Proof.
  apply (proj2 (proj2 (proj2 (@version_gate_exact CommonSpec.common)))).
  vm_compute. lia.
Defined.

(** ** [InitVulkan] *)

(** X20.  The index of the physical device given on the command line is
    only validated: for any two indices below the number of devices,
    [InitVulkan] does the same, in every respect -- the device it uses is
    the first one the driver lists.  An index that is not below the
    number of devices makes it fail. *)
Theorem physical_device_index_only_validated (drv : VulkanDriver) (g : Globals)
    (statics : VulkanStatics) (i j : Z) :
  let count := Z.of_nat (length (vkEnumeratePhysicalDevices drv)) in
  (i < count -> j < count ->
   InitVulkan drv g i statics = InitVulkan drv g j statics) /\
  (i < count ->
   init_result (InitVulkan drv g i statics) = 0 ->
   Some (init_PhysicalDevice (InitVulkan drv g i statics)) =
   vkEnumeratePhysicalDevices drv !! 0%nat) /\
  (count <= i -> init_result (InitVulkan drv g i statics) = RESULT_ERROR_VULKAN).
Proof.
  intros count. split_and!.
  - intros Hi Hj. unfold InitVulkan. cbv zeta. fold count.
    destruct (negb _); [reflexivity|].
    destruct (count =? 0); [reflexivity|].
    by rewrite (proj2 (Z.leb_gt count i)), (proj2 (Z.leb_gt count j)).
  - intros Hi. unfold InitVulkan. cbv zeta. fold count.
    destruct (negb _); [discriminate|].
    destruct (count =? 0) eqn:Hcount; [discriminate|].
    rewrite (proj2 (Z.leb_gt count i)) by done.
    assert (exists d, vkEnumeratePhysicalDevices drv !! 0%nat = Some d) as [d Hd].
    { apply Z.eqb_neq in Hcount. unfold count in Hcount.
      destruct (vkEnumeratePhysicalDevices drv) as [|d ?]; [done|by exists d]. }
    rewrite Hd. cbn [default].
    destruct (_ =? UINT_MAX); [discriminate|].
    destruct (EnableDeviceExtensions _ _) as [[? ?] ?].
    destruct (negb _); [discriminate|]. by destruct (negb _).
  - intros Hi. unfold InitVulkan. cbv zeta. fold count.
    destruct (negb _); [reflexivity|].
    destruct (count =? 0); [reflexivity|].
    by rewrite (proj2 (Z.leb_le count i)).
Qed.

Lemma physical_device_index_only_validated_witness :
  InitVulkan two_device_driver default_globals 0 VulkanStatics_initial =
  InitVulkan two_device_driver default_globals 1 VulkanStatics_initial.
Proof.
  apply (proj1 (physical_device_index_only_validated two_device_driver default_globals
                  VulkanStatics_initial 0 1)).
  - vm_compute. reflexivity.
  - vm_compute. reflexivity.
Defined.

(** The search from index [k]. *)
Lemma FindGraphicsQueueFamily_spec queueFamilies (k : nat) current :
  Z.of_nat (k + length queueFamilies) < 2 ^ 32 ->
  (Forall (fun family => is_graphics_family family = false) queueFamilies /\
   FindGraphicsQueueFamily queueFamilies (Z.of_nat k) current = current) \/
  (exists (i : nat) family,
     queueFamilies !! i = Some family /\
     is_graphics_family family = true /\
     (forall (j : nat) other,
        (j < i)%nat -> queueFamilies !! j = Some other -> is_graphics_family other = false) /\
     FindGraphicsQueueFamily queueFamilies (Z.of_nat k) current = Z.of_nat (k + i)).
Proof.
  revert k. induction queueFamilies as [|family rest IH]; intros k Hlen.
  - left. by split.
  - cbn [FindGraphicsQueueFamily]. fold (is_graphics_family family).
    destruct (is_graphics_family family) eqn:Hfamily.
    + right. exists 0%nat, family. split_and!; [done|done| |f_equal; lia].
      intros j other Hj. lia.
    + cbn [length] in Hlen.
      assert (uint32_inc (Z.of_nat k) = Z.of_nat (S k)) as ->.
      { unfold uint32_inc, wrap32. rewrite Z.mod_small by lia. lia. }
      destruct (IH (S k)) as [[Hnone Hfind]|(i & found & Hi & Hfound & Hleast & Hfind)];
        [lia| |].
      * left. split; [by constructor|done].
      * right. exists (S i), found. split_and!; [done|done| |].
        -- intros [|j] other Hj Hother; [by injection Hother as <-|].
           apply (Hleast j); [lia|done].
        -- rewrite Hfind. f_equal. lia.
Qed.

(** X21.  The queue family that [InitVulkan] takes is the first one of
    the device that has queues and does graphics: with fewer than 2^32
    families (their number is a [uint32_t]), the index found is that of
    such a family and no family before it is one; and the index stays
    [UINT_MAX], which makes [InitVulkan] fail, exactly when the device
    has no such family. *)
Theorem graphics_queue_family_is_first (queueFamilies : list VkQueueFamilyProperties) :
  Z.of_nat (length queueFamilies) < 2 ^ 32 ->
  let found := FindGraphicsQueueFamily queueFamilies 0 UINT_MAX in
  (found = UINT_MAX <->
   Forall (fun family => is_graphics_family family = false) queueFamilies) /\
  (found <> UINT_MAX ->
   exists (i : nat) family,
     found = Z.of_nat i /\
     queueFamilies !! i = Some family /\
     is_graphics_family family = true /\
     forall (j : nat) other,
       (j < i)%nat -> queueFamilies !! j = Some other -> is_graphics_family other = false).
Proof.
  intros Hlen found.
  destruct (FindGraphicsQueueFamily_spec queueFamilies 0 UINT_MAX)
    as [[Hnone Hfind]|(i & family & Hi & Hfamily & Hleast & Hfind)]; [done| |].
  - change (Z.of_nat 0) with 0 in Hfind. fold found in Hfind. split; [done|].
    intros Hne. by rewrite Hfind in Hne.
  - change (Z.of_nat 0) with 0 in Hfind. fold found in Hfind. cbn in Hfind.
    assert (Z.of_nat i < 2 ^ 32 - 1) as Hbound.
    { apply lookup_lt_Some in Hi. lia. }
    split.
    + split.
      * intros Hmax. rewrite Hfind in Hmax. unfold UINT_MAX in Hmax. lia.
      * intros Hnone. rewrite Forall_lookup in Hnone.
        rewrite (Hnone i family Hi) in Hfamily. discriminate.
    + intros _. by exists i, family.
Qed.

Lemma graphics_queue_family_is_first_witness :
  FindGraphicsQueueFamily
    [{| queueFlags := 0x4; queueCount := 2 |}; {| queueFlags := 0x7; queueCount := 16 |}]
    0 UINT_MAX = UINT_MAX <->
  Forall (fun family => is_graphics_family family = false)
    [{| queueFlags := 0x4; queueCount := 2 |}; {| queueFlags := 0x7; queueCount := 16 |}].
Proof.
  apply (proj1 (graphics_queue_family_is_first
                  [{| queueFlags := 0x4; queueCount := 2 |};
                   {| queueFlags := 0x7; queueCount := 16 |}] ltac:(vm_compute; reflexivity))).
Defined.

(** ** [ProcessFile] *)

Section ProcessFileProperties.
Context `{CommonH} `{TargetAllocator} `{UnorderedMap} `{Platform} (drv : VulkanDriver).
Context (g : Globals) (g_LineRanges : RangeSequence) (g_PhysicalDeviceIndex : Z).

(** The loop of [ProcessFile] executes the lines that the filter lets
    through, with the numbers they have in the file. *)
Lemma PlayLines_run records nextLineIndex executedLineCount p :
  let selected :=
    List.filter
      (fun numbered =>
         if negb (IsEmpty g_LineRanges) then Includes g_LineRanges numbered.1 else true)
      (number_lines nextLineIndex records) in
  PlayLines g g_LineRanges records nextLineIndex executedLineCount p =
  (Nat.iter (length selected) size_t_inc executedLineCount,
   exec (ExecuteLines g selected) p).
Proof.
  revert nextLineIndex executedLineCount p.
  induction records as [|line rest IH]; intros nextLineIndex executedLineCount p;
    [reflexivity|].
  cbn [PlayLines number_lines List.filter fst]. cbv zeta.
  destruct (if negb (IsEmpty g_LineRanges)
            then Includes g_LineRanges (size_t_inc nextLineIndex) else true).
  - rewrite run_bind, IH. cbn [length ExecuteLines]. rewrite exec_then.
    by rewrite Nat.iter_succ_r.
  - apply IH.
Qed.

Lemma number_lines_lookup records nextLineIndex (i : nat) line :
  records !! i = Some line ->
  0 <= nextLineIndex ->
  nextLineIndex + Z.of_nat i + 1 < 2 ^ 64 ->
  number_lines nextLineIndex records !! i = Some (nextLineIndex + Z.of_nat i + 1, line).
Proof.
  revert nextLineIndex i.
  induction records as [|first rest IH]; intros nextLineIndex i Hi Hnext Hbound;
    [done|].
  assert (size_t_inc nextLineIndex = nextLineIndex + 1) as Hinc.
  { unfold size_t_inc, wrap64. apply Z.mod_small. lia. }
  destruct i as [|i]; cbn [number_lines].
  - injection Hi as ->. cbn. rewrite Hinc. do 2 f_equal. lia.
  - change (rest !! i = Some line) in Hi.
    change (number_lines (size_t_inc nextLineIndex) rest !! i =
            Some (nextLineIndex + Z.of_nat (S i) + 1, line)).
    rewrite (IH (size_t_inc nextLineIndex) i Hi); rewrite Hinc; [|lia|lia].
    do 2 f_equal. lia.
Qed.

(** X22.  A file whose first line is the header, whose second line
    passes the version gate, and for which [InitVulkan] succeeds:
    [ProcessFile] returns 0, and what it plays is one playback, by a
    fresh player that is then destroyed, of the lines after the first
    two that the line filter includes -- all of them when no filter was
    given -- in the order of the file and each under the number it has
    in the file, the third line of the file being line 3.  The count of
    executed lines is the number of those lines, on [size_t]. *)
Theorem ProcessFile_plays_selected_lines iterationIndex version records statics
    g_FileVersion :
  ParseFileVersion version = Some g_FileVersion ->
  ValidateFileVersion g_FileVersion = true ->
  init_result (InitVulkan drv g g_PhysicalDeviceIndex statics) = 0 ->
  let outcome :=
    ProcessFile_iteration drv g g_LineRanges g_PhysicalDeviceIndex iterationIndex
      (FILE_HEADER :: version :: records) statics in
  let selected := selected_lines g_LineRanges records in
  it_result outcome = 0 /\
  it_player outcome = Some (Playback g selected) /\
  it_executedLineCount outcome = wrap64 (Z.of_nat (length selected)) /\
  (IsEmpty g_LineRanges = true -> selected = number_lines 2 records) /\
  (forall (i : nat) line,
     records !! i = Some line -> Z.of_nat i + 3 < 2 ^ 64 ->
     number_lines 2 records !! i = Some (Z.of_nat i + 3, line)) /\
  (forall numbered, numbered ∈ selected -> numbered ∈ number_lines 2 records).
Proof.
  intros Hparse Hvalid Hinit outcome selected.
  assert (forall n, Nat.iter n size_t_inc 0 = wrap64 (Z.of_nat n)) as Hiter.
  { intros n. induction n as [|n IH]; [reflexivity|].
    rewrite Nat.iter_succ, IH, size_t_inc_wrap64. f_equal. lia. }
  unfold outcome, ProcessFile_iteration. cbv zeta.
  rewrite String.eqb_refl. cbn [negb]. rewrite Hparse, Hvalid. cbn [negb].
  rewrite Hinit. cbn [Z.eqb]. rewrite PlayLines_run. cbv zeta.
  cbn [it_result it_player it_executedLineCount fst snd].
  fold (selected_lines g_LineRanges records). fold selected.
  split_and!.
  - done.
  - unfold Playback. by rewrite exec_then.
  - apply Hiter.
  - intros Hempty. unfold selected, selected_lines. rewrite Hempty. cbn [negb].
    generalize (number_lines 2 records). intros l.
    induction l as [|x l IH]; [done|]. cbn. by rewrite IH.
  - intros i line Hi Hbound.
    rewrite (number_lines_lookup records 2 i line Hi) by lia. do 2 f_equal. lia.
  - intros numbered Hin. unfold selected, selected_lines in Hin.
    apply list_elem_of_In, List.filter_In in Hin as [Hin _]. by apply list_elem_of_In.
Qed.

Lemma InitVulkan_result_cases statics :
  init_result (InitVulkan drv g g_PhysicalDeviceIndex statics) = 0 \/
  init_result (InitVulkan drv g g_PhysicalDeviceIndex statics) = RESULT_ERROR_VULKAN.
Proof.
  unfold InitVulkan. cbv zeta.
  destruct (negb _); [by right|].
  destruct (_ =? 0); [by right|].
  destruct (_ <=? _); [by right|].
  destruct (_ =? UINT_MAX); [by right|].
  destruct (EnableDeviceExtensions _ _) as [[? ?] ?].
  destruct (negb _); [by right|]. destruct (negb _); [by right|by left].
Qed.

Lemma destructor_of_new_player : exec (Player_destructor g) Player_new = Player_new.
Proof.
  unfold Player_destructor. rewrite exec_then.
  assert (exec FinalizeVulkan Player_new = Player_new) as -> by reflexivity.
  unfold exec. rewrite run_bind. cbn [gets fst snd Player_new m_WarningCount].
  change (MAX_WARNINGS_TO_SHOW <? 0) with false. by rewrite andb_false_r.
Qed.

(** X23.  [ProcessFile] makes a player only for a file that begins with
    the header line and whose second line passes the version gate.  For
    every other buffer -- no line at all, another first line, no second
    line, a version that does not parse or is not accepted -- it returns
    [RESULT_ERROR_FORMAT] after one error message: Vulkan is not
    initialized and no line is executed.  When a player is made but
    [InitVulkan] fails, the result is that failure, no line is executed
    and the allocator is never called.  In all, the result is 0,
    [RESULT_ERROR_FORMAT] or [RESULT_ERROR_VULKAN]. *)
Theorem ProcessFile_rejects_before_playing iterationIndex lines statics :
  let outcome :=
    ProcessFile_iteration drv g g_LineRanges g_PhysicalDeviceIndex iterationIndex
      lines statics in
  (is_Some (it_player outcome) <->
   exists version records,
     lines = FILE_HEADER :: version :: records /\ CheckFileVersion (Some version) = 0) /\
  (it_player outcome = None ->
   it_result outcome = RESULT_ERROR_FORMAT /\
   it_init outcome = None /\
   it_statics outcome = statics /\
   it_executedLineCount outcome = 0 /\
   (it_before outcome = [MsgIncorrectFileFormat] \/
    it_before outcome = [MsgIncorrectFileFormatVersion])) /\
  (forall played,
     it_player outcome = Some played -> it_result outcome <> 0 ->
     it_result outcome = RESULT_ERROR_VULKAN /\
     played = Player_new /\ calls played = [] /\ it_executedLineCount outcome = 0) /\
  (it_result outcome = 0 \/ it_result outcome = RESULT_ERROR_FORMAT \/
   it_result outcome = RESULT_ERROR_VULKAN).
Proof.
  intros outcome. unfold outcome, ProcessFile_iteration, CheckFileVersion. cbv zeta.
  destruct lines as [|header [|version records]].
  - split_and!; [|by intros _; split_and!; try left| done |by right; left].
    split; [by intros [? ?]|]. by intros (? & ? & ? & _).
  - destruct (String.eqb header FILE_HEADER); cbn [negb].
    + split_and!; [|by intros _; split_and!; try right| done |by right; left].
      split; [by intros [? ?]|]. by intros (? & ? & ? & _).
    + split_and!; [|by intros _; split_and!; try left| done |by right; left].
      split; [by intros [? ?]|]. by intros (? & ? & ? & _).
  - destruct (String.eqb header FILE_HEADER) eqn:Hheader; cbn [negb].
    + apply String.eqb_eq in Hheader as ->.
      destruct (ParseFileVersion version) as [g_FileVersion|] eqn:Hparse.
      * destruct (ValidateFileVersion g_FileVersion) eqn:Hvalid; cbn [negb].
        -- destruct (InitVulkan_result_cases statics) as [Hinit|Hinit].
           ++ rewrite Hinit. cbn [Z.eqb].
              cbn [it_result it_player it_init it_statics it_executedLineCount it_before].
              split_and!; [|done|done|by left].
              split; [|by eexists]. intros _. exists version, records.
              by rewrite Hparse, Hvalid.
           ++ rewrite Hinit. change (RESULT_ERROR_VULKAN =? 0) with false.
              cbn [it_result it_player it_init it_statics it_executedLineCount it_before].
              split_and!; [|done| |by right; right].
              ** split; [|by eexists]. intros _. exists version, records.
                 by rewrite Hparse, Hvalid.
              ** intros played [= <-] _. rewrite destructor_of_new_player.
                 by split_and!.
        -- split_and!; [|by intros _; split_and!; try right| done |by right; left].
           split; [by intros [? ?]|]. intros (v & r & [= <- <-] & Hcheck).
           by rewrite Hparse, Hvalid in Hcheck.
      * split_and!; [|by intros _; split_and!; try right| done |by right; left].
        split; [by intros [? ?]|]. intros (v & r & [= <- <-] & Hcheck).
        by rewrite Hparse in Hcheck.
    + split_and!; [|by intros _; split_and!; try left| done |by right; left].
      split; [by intros [? ?]|]. intros (v & r & [= -> _ _] & _).
      by rewrite String.eqb_refl in Hheader.
Qed.

(** X24.  What [ProcessFile()] returns tells only whether the file was
    read: it is 0 exactly when the file opens and is not empty, and
    [RESULT_ERROR_SOURCE_FILE] otherwise.  The results of the iterations
    are dropped: the result is 0 also when every iteration fails with
    [RESULT_ERROR_FORMAT] or [RESULT_ERROR_VULKAN].  A file that is read
    is played [g_IterationCount] times. *)
Theorem ProcessFile_result_ignores_iterations g_FilePath g_IterationCount statics :
  let outcome :=
    ProcessFile drv g g_LineRanges g_PhysicalDeviceIndex g_FilePath g_IterationCount
      statics in
  (pf_result outcome = 0 <->
   (fopen_s g_FilePath).1 = 0 /\ (fopen_s g_FilePath).2 <> EmptyString) /\
  (pf_result outcome <> 0 ->
   pf_result outcome = RESULT_ERROR_SOURCE_FILE /\ pf_iterations outcome = []) /\
  (pf_result outcome = 0 ->
   length (pf_iterations outcome) = Z.to_nat g_IterationCount).
Proof.
  intros outcome. unfold outcome, ProcessFile.
  destruct (fopen_s g_FilePath) as [err fileContents]. cbn [fst snd].
  destruct (err =? 0) eqn:Herr.
  - apply Z.eqb_eq in Herr as ->.
    destruct fileContents as [|c rest].
    + cbn. split_and!; [|done|done]. split; [done|]. by intros [_ ?].
    + assert ((0 <? Z.of_nat (String.length (String c rest))) = true) as ->.
      { apply Z.ltb_lt. cbn [String.length]. lia. }
      cbn [pf_result pf_iterations]. split_and!; [done|done|]. intros _.
      generalize (LineSplit (String c rest)) 0 statics.
      induction (Z.to_nat g_IterationCount) as [|n IH]; intros lines i s; [done|].
      cbn [ProcessFile_iterations length]. by rewrite IH.
  - apply Z.eqb_neq in Herr. cbn. split_and!; [|done|done].
    split; [done|]. by intros [? _].
Qed.

End ProcessFileProperties.

Lemma ProcessFile_plays_selected_lines_witness :
  let outcome :=
    @ProcessFile_iteration CommonSpec.common granting_allocator walk_by_key
      (one_file_platform EmptyString) two_device_driver default_globals every_line 0 0
      (FILE_HEADER :: "1,2" :: ["7,0.0,0,vmaCreateLostAllocation,1A2B"])
      VulkanStatics_initial in
  it_result outcome = 0.
Proof.
  exact (proj1 (@ProcessFile_plays_selected_lines CommonSpec.common granting_allocator
                  walk_by_key (one_file_platform EmptyString) two_device_driver default_globals
                  every_line 0 0 "1,2" ["7,0.0,0,vmaCreateLostAllocation,1A2B"]
                  VulkanStatics_initial 65538
                  ltac:(vm_compute; reflexivity) ltac:(vm_compute; reflexivity)
                  ltac:(vm_compute; reflexivity))).
Defined.

(** ** The command line *)

Section CommandLineProperties.
Context `{CommonH} `{TargetAllocator} `{UnorderedMap} `{Platform} (drv : VulkanDriver).

Lemma last_option_same optId parameter results :
  last_option optId (RESULT_OPT optId parameter :: results) =
  Some (default parameter (last_option optId results)).
Proof.
  unfold last_option. cbn [omap list_omap]. rewrite decide_True by done.
  rewrite last_cons. by destruct (last _).
Qed.

Lemma last_option_other optId optId' parameter results :
  optId' <> optId ->
  last_option optId (RESULT_OPT optId' parameter :: results) = last_option optId results.
Proof. intros Hne. unfold last_option. cbn [omap list_omap]. by rewrite decide_False. Qed.

Lemma last_option_parameter optId parameter results :
  last_option optId (RESULT_PARAMETER parameter :: results) = last_option optId results.
Proof. reflexivity. Qed.

Lemma positional_parameters_parameter parameter results :
  positional_parameters (RESULT_PARAMETER parameter :: results) =
  parameter :: positional_parameters results.
Proof. reflexivity. Qed.

Lemma paths_taken_replicate path parameters :
  paths_taken path parameters <->
  parameters = [] \/
  (path = EmptyString /\
   exists (k : nat) last, parameters = replicate k EmptyString ++ [last]).
Proof.
  revert path. induction parameters as [|parameter rest IH]; intros path.
  - split; [by left|done].
  - cbn [paths_taken]. rewrite IH. split.
    + intros [-> [->|[-> (k & last & ->)]]]; right; split; try done.
      * by exists 0%nat, parameter.
      * by exists (S k), last.
    + intros [?|[-> (k & last & Heq)]]; [done|]. split; [done|].
      destruct k as [|k]; cbn in Heq.
      * injection Heq as -> <-. by left.
      * injection Heq as -> ->. right. split; [done|]. by exists k, last.
Qed.

(** What a command line that [main2] reads to its end has set. *)
Lemma ReadCommandLine_Some results cl cl' :
  ReadCommandLine results cl = Some cl' ->
  Forall (fun result => accepted_result result = true) results /\
  paths_taken (cl_FilePath cl) (positional_parameters results) /\
  cl_FilePath cl' = default (cl_FilePath cl) (last (positional_parameters results)) /\
  cl_Verbosity cl' =
    match last_option CMD_LINE_OPT_VERBOSITY results with
    | Some parameter => VERBOSITY_of (default 0 (StrRangeToUint32 parameter))
    | None => cl_Verbosity cl
    end /\
  cl_IterationCount cl' =
    match last_option CMD_LINE_OPT_ITERATIONS results with
    | Some parameter => default 0 (StrRangeToUint64 parameter)
    | None => cl_IterationCount cl
    end /\
  cl_LineRanges cl' =
    match last_option CMD_LINE_OPT_LINES results with
    | Some parameter => default every_line (RangeSequence_Parse parameter)
    | None => cl_LineRanges cl
    end /\
  cl_PhysicalDeviceIndex cl' =
    match last_option CMD_LINE_OPT_PHYSICAL_DEVICE results with
    | Some parameter => default 0 (StrRangeToUint32 parameter)
    | None => cl_PhysicalDeviceIndex cl
    end /\
  cl_UserDataEnabled cl' =
    match last_option CMD_LINE_OPT_USER_DATA results with
    | Some parameter => default true (StrRangeToBool parameter)
    | None => cl_UserDataEnabled cl
    end.
Proof.
  revert cl. induction results as [|result rest IH]; intros cl Hread.
  - injection Hread as <-. by split_and!.
  - destruct result as [[] parameter|parameter|]; cbn [ReadCommandLine] in Hread.
    + destruct (StrRangeToUint32 parameter) as [v|] eqn:Hparse; [|done].
      destruct (v <? VERBOSITY_COUNT) eqn:Hcount; [|done].
      apply IH in Hread as (Hall & Hpaths & Hfile & Hv & Hi & Hl & Hd & Hu).
      cbn [cl_FilePath cl_Verbosity cl_IterationCount cl_LineRanges
           cl_PhysicalDeviceIndex cl_UserDataEnabled] in *.
      rewrite last_option_same, !last_option_other by discriminate.
      split_and!; try done.
      * constructor; [|done]. cbn [accepted_result]. by rewrite Hparse.
      * rewrite Hv. destruct (last_option CMD_LINE_OPT_VERBOSITY rest); cbn [from_option id]; [done|].
        by rewrite Hparse.
    + destruct (StrRangeToUint64 parameter) as [v|] eqn:Hparse; [|done].
      apply IH in Hread as (Hall & Hpaths & Hfile & Hv & Hi & Hl & Hd & Hu).
      cbn [cl_FilePath cl_Verbosity cl_IterationCount cl_LineRanges
           cl_PhysicalDeviceIndex cl_UserDataEnabled] in *.
      rewrite last_option_same, !last_option_other by discriminate.
      split_and!; try done.
      * constructor; [|done]. cbn [accepted_result]. rewrite Hparse.
        by apply bool_decide_eq_true_2.
      * rewrite Hi. destruct (last_option CMD_LINE_OPT_ITERATIONS rest); cbn [from_option id]; [done|].
        by rewrite Hparse.
    + destruct (RangeSequence_Parse parameter) as [v|] eqn:Hparse; [|done].
      apply IH in Hread as (Hall & Hpaths & Hfile & Hv & Hi & Hl & Hd & Hu).
      cbn [cl_FilePath cl_Verbosity cl_IterationCount cl_LineRanges
           cl_PhysicalDeviceIndex cl_UserDataEnabled] in *.
      rewrite last_option_same, !last_option_other by discriminate.
      split_and!; try done.
      * constructor; [|done]. cbn [accepted_result]. rewrite Hparse.
        by apply bool_decide_eq_true_2.
      * rewrite Hl. destruct (last_option CMD_LINE_OPT_LINES rest); cbn [from_option id]; [done|].
        by rewrite Hparse.
    + destruct (StrRangeToUint32 parameter) as [v|] eqn:Hparse; [|done].
      apply IH in Hread as (Hall & Hpaths & Hfile & Hv & Hi & Hl & Hd & Hu).
      cbn [cl_FilePath cl_Verbosity cl_IterationCount cl_LineRanges
           cl_PhysicalDeviceIndex cl_UserDataEnabled] in *.
      rewrite last_option_same, !last_option_other by discriminate.
      split_and!; try done.
      * constructor; [|done]. cbn [accepted_result]. rewrite Hparse.
        by apply bool_decide_eq_true_2.
      * rewrite Hd. destruct (last_option CMD_LINE_OPT_PHYSICAL_DEVICE rest); cbn [from_option id]; [done|].
        by rewrite Hparse.
    + destruct (StrRangeToBool parameter) as [v|] eqn:Hparse; [|done].
      apply IH in Hread as (Hall & Hpaths & Hfile & Hv & Hi & Hl & Hd & Hu).
      cbn [cl_FilePath cl_Verbosity cl_IterationCount cl_LineRanges
           cl_PhysicalDeviceIndex cl_UserDataEnabled] in *.
      rewrite last_option_same, !last_option_other by discriminate.
      split_and!; try done.
      * constructor; [|done]. cbn [accepted_result]. rewrite Hparse.
        by apply bool_decide_eq_true_2.
      * rewrite Hu. destruct (last_option CMD_LINE_OPT_USER_DATA rest); cbn [from_option id]; [done|].
        by rewrite Hparse.
    + destruct (String.eqb (cl_FilePath cl) EmptyString) eqn:Hpath; [|done].
      apply String.eqb_eq in Hpath.
      apply IH in Hread as (Hall & Hpaths & Hfile & Hv & Hi & Hl & Hd & Hu).
      cbn [cl_FilePath cl_Verbosity cl_IterationCount cl_LineRanges
           cl_PhysicalDeviceIndex cl_UserDataEnabled] in *.
      rewrite !last_option_parameter, positional_parameters_parameter.
      split_and!; try done.
      * by constructor.
      * rewrite last_cons, Hfile. by destruct (last _).
    + done.
Qed.

Lemma ReadCommandLine_accepts results cl :
  Forall (fun result => accepted_result result = true) results ->
  paths_taken (cl_FilePath cl) (positional_parameters results) ->
  is_Some (ReadCommandLine results cl).
Proof.
  revert cl. induction results as [|result rest IH]; intros cl Hall Hpaths.
  - by eexists.
  - apply Forall_cons in Hall as [Hresult Hall].
    destruct result as [[] parameter|parameter|]; cbn [ReadCommandLine];
      cbn [accepted_result] in Hresult; try done.
    + destruct (StrRangeToUint32 parameter); [|done]. rewrite Hresult. by apply IH.
    + apply bool_decide_eq_true in Hresult as [v ->]. by apply IH.
    + apply bool_decide_eq_true in Hresult as [v ->]. by apply IH.
    + apply bool_decide_eq_true in Hresult as [v ->]. by apply IH.
    + apply bool_decide_eq_true in Hresult as [v ->]. by apply IH.
    + destruct Hpaths as [-> Hpaths]. cbn [String.eqb]. by apply IH.
Qed.

(** X25.  [main2] reaches [ProcessFile] exactly for a command line in
    which the parser reports no error, the parameter of every option
    converts (a verbosity must be 0, 1 or 2), and there is one file path:
    a last parameter that is not empty, before which only empty
    parameters may stand.  In every other case -- a second path, no path,
    an option that does not convert -- it prints the syntax and returns
    [RESULT_ERROR_COMMAND_LINE] without opening a file.  When a file is
    processed, what [main2] returns is what [ProcessFile] returned: 0 or
    [RESULT_ERROR_SOURCE_FILE]. *)
Theorem main2_command_line (results : list CmdLineParser_RESULT) :
  let outcome := main2 drv results in
  (is_Some (main_process outcome) <->
   Forall (fun result => accepted_result result = true) results /\
   exists (k : nat) path,
     positional_parameters results = replicate k EmptyString ++ [path] /\
     path <> EmptyString) /\
  (main_process outcome = None ->
   main_result outcome = RESULT_ERROR_COMMAND_LINE /\ main_syntax outcome = true) /\
  (forall processed,
     main_process outcome = Some processed ->
     main_syntax outcome = false /\
     main_result outcome = pf_result processed /\
     (main_result outcome = 0 \/ main_result outcome = RESULT_ERROR_SOURCE_FILE)).
Proof.
  intros outcome. unfold outcome, main2.
  destruct (ReadCommandLine results CommandLine_initial) as [cl|] eqn:Hread.
  - destruct (ReadCommandLine_Some _ _ _ Hread) as (Hall & Hpaths & Hfile & _).
    cbn [CommandLine_initial cl_FilePath] in Hpaths, Hfile.
    apply paths_taken_replicate in Hpaths.
    destruct (String.eqb (cl_FilePath cl) EmptyString) eqn:Hpath.
    + apply String.eqb_eq in Hpath. cbn [main_process main_result main_syntax].
      split_and!; [|done|done].
      split; [by intros [? ?]|]. intros (_ & k & path & Hpos & Hne).
      rewrite Hpos, last_snoc in Hfile. cbn in Hfile. congruence.
    + apply String.eqb_neq in Hpath. cbn [main_process main_result main_syntax].
      split_and!; [|done|].
      * split; [|by eexists]. intros _. split; [done|].
        destruct Hpaths as [Hnil|[_ (k & path & Hpos)]].
        -- rewrite Hnil in Hfile. by cbn in Hfile.
        -- exists k, path. split; [done|].
           rewrite Hpos, last_snoc in Hfile. cbn in Hfile. congruence.
      * intros processed [= <-]. split_and!; [done|done|].
        unfold ProcessFile. destruct (fopen_s (cl_FilePath cl)) as [err contents].
        destruct (err =? 0); [|by right].
        destruct (0 <? _); [by left|by right].
  - cbn [main_process main_result main_syntax]. split_and!; [|done|done].
    split; [by intros [? ?]|]. intros (Hall & k & path & Hpos & Hne).
    assert (is_Some (ReadCommandLine results CommandLine_initial)) as [cl Hcl].
    { apply ReadCommandLine_accepts; [done|].
      apply paths_taken_replicate. right. split; [done|]. by exists k, path. }
    congruence.
Qed.

(** X26.  Options may be repeated, and the last occurrence wins: on a
    command line that [main2] accepts, each of the five settings is what
    the parameter of the last occurrence of its option converts to, and
    its initial value when the option does not occur (default verbosity,
    one iteration, every line, device 0, user data enabled).  The file
    path is the last parameter that is not an option. *)
Theorem last_option_wins (results : list CmdLineParser_RESULT) (cl : CommandLine) :
  ReadCommandLine results CommandLine_initial = Some cl ->
  cl_Verbosity cl =
    match last_option CMD_LINE_OPT_VERBOSITY results with
    | Some parameter => VERBOSITY_of (default 0 (StrRangeToUint32 parameter))
    | None => DEFAULT
    end /\
  cl_IterationCount cl =
    match last_option CMD_LINE_OPT_ITERATIONS results with
    | Some parameter => default 0 (StrRangeToUint64 parameter)
    | None => 1
    end /\
  cl_LineRanges cl =
    match last_option CMD_LINE_OPT_LINES results with
    | Some parameter => default every_line (RangeSequence_Parse parameter)
    | None => every_line
    end /\
  cl_PhysicalDeviceIndex cl =
    match last_option CMD_LINE_OPT_PHYSICAL_DEVICE results with
    | Some parameter => default 0 (StrRangeToUint32 parameter)
    | None => 0
    end /\
  cl_UserDataEnabled cl =
    match last_option CMD_LINE_OPT_USER_DATA results with
    | Some parameter => default true (StrRangeToBool parameter)
    | None => true
    end /\
  cl_FilePath cl = default EmptyString (last (positional_parameters results)).
Proof.
  intros Hread.
  destruct (ReadCommandLine_Some _ _ _ Hread) as (_ & _ & Hfile & Hv & Hi & Hl & Hd & Hu).
  by split_and!.
Qed.

End CommandLineProperties.

Lemma last_option_wins_witness :
  let results :=
    [RESULT_OPT CMD_LINE_OPT_VERBOSITY "0"; RESULT_PARAMETER "trace.csv";
     RESULT_OPT CMD_LINE_OPT_VERBOSITY "2"; RESULT_OPT CMD_LINE_OPT_USER_DATA "0"] in
  let cl :=
    {| cl_Verbosity := MAXIMUM; cl_IterationCount := 1; cl_LineRanges := every_line;
       cl_PhysicalDeviceIndex := 0; cl_UserDataEnabled := false;
       cl_FilePath := "trace.csv" |} in
  cl_Verbosity cl =
    match last_option CMD_LINE_OPT_VERBOSITY results with
    | Some parameter =>
        VERBOSITY_of (default 0 (@StrRangeToUint32 CommonSpec.common parameter))
    | None => DEFAULT
    end.
Proof.
  intros results cl.
  exact (proj1 (@last_option_wins CommonSpec.common (one_file_platform EmptyString)
                  results cl ltac:(vm_compute; reflexivity))).
Defined.

(** ** The share of the most active thread *)







Section MostActiveThread.
Context `{CommonH} `{TargetAllocator} `{Platform} (g : Globals).







End MostActiveThread.


(** ** Creation records, event by event *)

Lemma warn_events_snoc g count msgs msg :
  warn_events g count (msgs ++ [msg]) =
  warn_events g count msgs ++
  [EvWarning (shows g (Nat.iter (length msgs) size_t_inc count)) msg].
Proof.
  revert count. induction msgs as [|m rest IH]; intros count; [reflexivity|].
  cbn [app warn_events length]. rewrite IH. cbn [app]. do 3 f_equal.
  by rewrite Nat.iter_succ_r.
Qed.

Lemma warn_events_app g count msgs1 msgs2 :
  warn_events g count (msgs1 ++ msgs2) =
  warn_events g count msgs1 ++
  warn_events g (Nat.iter (length msgs1) size_t_inc count) msgs2.
Proof.
  revert count. induction msgs1 as [|m rest IH]; intros count; [reflexivity|].
  cbn [app warn_events length]. rewrite IH. do 3 f_equal.
  by rewrite Nat.iter_succ_r.
Qed.

Lemma calls_of_warn_events g count msgs : calls_of (warn_events g count msgs) = [].
Proof. revert count. induction msgs as [|m rest IH]; intros count; [done|]. apply IH. Qed.

Lemma iter_length_app {A} (msgs1 msgs2 : list A) count :
  Nat.iter (length (msgs1 ++ msgs2)) size_t_inc count =
  Nat.iter (length msgs2) size_t_inc (Nat.iter (length msgs1) size_t_inc count).
Proof. by rewrite length_app, Nat.add_comm, Nat.iter_add. Qed.

Section CreationRecords.
Context `{CommonH} `{TargetAllocator} (g : Globals).

Lemma warned_refl p : warned g p [] p.
Proof. unfold warned. cbn. by rewrite app_nil_r. Qed.

Lemma warned_nil p msgs q : warned g p msgs q -> warned g p (msgs ++ []) q.
Proof. by rewrite app_nil_r. Qed.

Lemma warned_calls p msgs q : warned g p msgs q -> calls q = calls p.
Proof.
  intros (_ & _ & _ & Ht & _). unfold calls.
  by rewrite Ht, calls_of_app, calls_of_warn_events, app_nil_r.
Qed.

Lemma warned_warn p msgs msg q :
  warned g p msgs q -> warned g p (msgs ++ [msg]) (exec (warn g msg) q).
Proof.
  intros (Ha & Hp & Hi & Ht & Hc). unfold exec. rewrite warn_run.
  unfold warned. cbn [snd]. cbn.
  rewrite Ht, Hc, warn_events_snoc, <- (assoc_L (++)), iter_length_app.
  split_and!; done.
Qed.

(** Steps that touch neither the registries, the trace, the warning
    counter nor the advisory flag. *)
Ltac warned_prim := intros ? Hwarned; exact Hwarned.

Lemma FindPool_warned p msgs lineNumber origPool q :
  warned g p msgs q ->
  (FindPool g lineNumber origPool q).1 = (true, find_pool (m_Pools p) origPool) /\
  warned g p (msgs ++ FindPool_messages lineNumber origPool (m_Pools p))
    (FindPool g lineNumber origPool q).2.
Proof.
  intros Hq. pose proof Hq as (_ & Hp & _).
  unfold FindPool, find_pool, FindPool_messages.
  destruct (negb (origPool =? 0)); cbn [andb];
    [|split; [reflexivity|by apply warned_nil]].
  rewrite run_bind. cbn [gets fst snd]. rewrite Hp.
  destruct (m_Pools p !! origPool) as [poolDesc|] eqn:Hpool.
  - rewrite bool_decide_eq_false_2 by done.
    split; [reflexivity|by apply warned_nil].
  - rewrite bool_decide_eq_true_2 by done. rewrite run_bind.
    split; [by rewrite warn_run|].
    change ((warn g (MsgPoolNotFound lineNumber origPool) q).2)
      with (exec (warn g (MsgPoolNotFound lineNumber origPool)) q).
    cbn [mret M_ret snd]. by apply warned_warn.
Qed.

Lemma UserDataOfColumn_warned p msgs lineNumber flags csvSplit i q :
  warned g p msgs q ->
  (UserDataOfColumn g lineNumber flags csvSplit i q).1 =
    user_data_value g flags csvSplit i /\
  warned g p (msgs ++ UserData_messages g lineNumber flags csvSplit i)
    (UserDataOfColumn g lineNumber flags csvSplit i q).2.
Proof.
  intros Hq. split; [apply UserDataOfColumn_value|].
  unfold UserDataOfColumn, UserData_messages, user_data_refused, PrepareUserData, param.
  destruct (bool_decide (FIRST_PARAM_INDEX + i < GetCount csvSplit)%nat); cbn [andb];
    [|by apply warned_nil].
  rewrite run_bind.
  destruct (g_UserDataEnabled g); cbn [andb negb]; [|by apply warned_nil].
  destruct (test_bits _ _); cbn [andb negb]; [by apply warned_nil|].
  destruct (StrRangeToPtr _) eqn:Hparse.
  - rewrite bool_decide_eq_false_2 by done. by apply warned_nil.
  - rewrite bool_decide_eq_true_2 by done. rewrite run_bind.
    cbn [mret M_ret fst snd]. by apply (warned_warn p msgs _ q).
Qed.

Lemma created_invoke p pre c q (reconcile : VmaReply -> M unit) :
  m_Allocations q = m_Allocations p ->
  m_Pools q = m_Pools p ->
  trace q = trace p ++ warn_events g (m_WarningCount p) pre ->
  m_WarningCount q = Nat.iter (length pre) size_t_inc (m_WarningCount p) ->
  created_from g p (exec (invoke c ≫= reconcile) q) pre c reconcile.
Proof.
  intros Ha Hp Ht Hc. exists (invoke c q).2. rewrite exec_bind.
  assert (calls q = calls p) as Hcalls.
  { unfold calls. by rewrite Ht, calls_of_app, calls_of_warn_events, app_nil_r. }
  cbn [invoke fst snd]. cbn. rewrite Ht, Hcalls, <- (assoc_L (++)).
  split_and!; done.
Qed.

(** One step before the live call that returns [v] and raises [ms]. *)
Lemma created_step {A} (c : M A) (k : A -> M unit) v ms p q msgs pre call reconcile :
  warned g p msgs q ->
  (forall q', warned g p msgs q' ->
     (c q').1 = v /\ warned g p (msgs ++ ms) (c q').2) ->
  (forall q', warned g p (msgs ++ ms) q' ->
     created_from g p (exec (k v) q') pre call reconcile) ->
  created_from g p (exec (c ≫= k) q) pre call reconcile.
Proof.
  intros Hq Hc Hk. rewrite exec_bind. destruct (Hc q Hq) as [-> Hq']. by apply Hk.
Qed.

(** One step that raises nothing. *)
Lemma created_quiet_step {A} (c : M A) (k : A -> M unit) p q msgs pre call reconcile :
  warned g p msgs q ->
  preserves (warned g p msgs) c ->
  (forall a q', warned g p msgs q' ->
     created_from g p (exec (k a) q') pre call reconcile) ->
  created_from g p (exec (c ≫= k) q) pre call reconcile.
Proof. intros Hq Hc Hk. rewrite exec_bind. by apply Hk, Hc. Qed.

Lemma created_warned_invoke p pre c q (reconcile : VmaReply -> M unit) :
  warned g p pre q ->
  created_from g p (exec (invoke c ≫= reconcile) q) pre c reconcile.
Proof. intros (Ha & Hp & _ & Ht & Hc). by apply created_invoke. Qed.

Lemma RegisterFunctionCall_warned p msgs func :
  preserves (warned g p msgs) (RegisterFunctionCall func).
Proof. intros q Hq. exact Hq. Qed.

Lemma on_Stats_warned p msgs f : preserves (warned g p msgs) (on_Stats f).
Proof. intros q Hq. exact Hq. Qed.

Lemma ExecuteCreateBuffer_created lineNumber csvSplit p info allocInfo origPool origPtr :
  arity_ok CreateBuffer csvSplit = true ->
  CreateBuffer_params csvSplit = Some (info, allocInfo, origPool, origPtr) ->
  created_from g p (exec (ExecuteCreateBuffer g lineNumber csvSplit) p)
    (FindPool_messages lineNumber origPool (m_Pools p) ++
     UserData_messages g lineNumber (aci_flags allocInfo) csvSplit 11)
    (vmaCreateBuffer info
       (with_pool_userdata allocInfo (find_pool (m_Pools p) origPool)
          (user_data_value g (aci_flags allocInfo) csvSplit 11)))
    (fun r => AddAllocation g lineNumber origPtr (reply_res r) "vmaCreateBuffer"
       {| allocationFlags := aci_flags allocInfo; allocation := reply_allocation r;
          buffer := reply_handle r; image := VK_NULL_HANDLE |}).
Proof.
  intros Harity Hparams. unfold ExecuteCreateBuffer.
  eapply created_quiet_step;
    [apply warned_refl | apply RegisterFunctionCall_warned | intros _ q Hq].
  rewrite exec_bind, Validate_run by exact Harity. cbn [fst snd]. rewrite Hparams.
  eapply created_step; [exact Hq | intros q'; apply FindPool_warned | clear q Hq; intros q Hq].
  eapply created_step;
    [exact Hq | intros q'; apply UserDataOfColumn_warned | clear q Hq; intros q Hq].
  eapply created_quiet_step; [exact Hq | apply on_Stats_warned | clear q Hq; intros _ q Hq].
  cbn [app snd] in *. by apply created_warned_invoke.
Qed.

Lemma ExecuteCreateImage_created lineNumber csvSplit p info allocInfo origPool origPtr :
  arity_ok CreateImage csvSplit = true ->
  CreateImage_params csvSplit = Some (info, allocInfo, origPool, origPtr) ->
  created_from g p (exec (ExecuteCreateImage g lineNumber csvSplit) p)
    (FindPool_messages lineNumber origPool (m_Pools p) ++
     UserData_messages g lineNumber (aci_flags allocInfo) csvSplit 20)
    (vmaCreateImage info
       (with_pool_userdata allocInfo (find_pool (m_Pools p) origPool)
          (user_data_value g (aci_flags allocInfo) csvSplit 20)))
    (fun r => AddAllocation g lineNumber origPtr (reply_res r) "vmaCreateImage"
       {| allocationFlags := aci_flags allocInfo; allocation := reply_allocation r;
          buffer := VK_NULL_HANDLE; image := reply_handle r |}).
Proof.
  intros Harity Hparams. unfold ExecuteCreateImage.
  eapply created_quiet_step;
    [apply warned_refl | apply RegisterFunctionCall_warned | intros _ q Hq].
  rewrite exec_bind, Validate_run by exact Harity. cbn [fst snd]. rewrite Hparams.
  eapply created_step; [exact Hq | intros q'; apply FindPool_warned | clear q Hq; intros q Hq].
  eapply created_step;
    [exact Hq | intros q'; apply UserDataOfColumn_warned | clear q Hq; intros q Hq].
  eapply created_quiet_step; [exact Hq | apply on_Stats_warned | clear q Hq; intros _ q Hq].
  cbn [app snd] in *. by apply created_warned_invoke.
Qed.

Lemma ExecuteAllocateMemory_created lineNumber csvSplit p memReq allocInfo origPool origPtr :
  arity_ok AllocateMemory csvSplit = true ->
  AllocateMemory_params csvSplit = Some (memReq, allocInfo, origPool, origPtr) ->
  created_from g p (exec (ExecuteAllocateMemory g lineNumber csvSplit) p)
    (FindPool_messages lineNumber origPool (m_Pools p) ++
     UserData_messages g lineNumber (aci_flags allocInfo) csvSplit 10)
    (vmaAllocateMemory memReq
       (with_pool_userdata allocInfo (find_pool (m_Pools p) origPool)
          (user_data_value g (aci_flags allocInfo) csvSplit 10)))
    (fun r => AddAllocation g lineNumber origPtr (reply_res r) "vmaAllocateMemory"
       {| allocationFlags := aci_flags allocInfo; allocation := reply_allocation r;
          buffer := VK_NULL_HANDLE; image := VK_NULL_HANDLE |}).
Proof.
  intros Harity Hparams. unfold ExecuteAllocateMemory.
  eapply created_quiet_step;
    [apply warned_refl | apply RegisterFunctionCall_warned | intros _ q Hq].
  rewrite exec_bind, Validate_run by exact Harity. cbn [fst snd]. rewrite Hparams.
  eapply created_step; [exact Hq | intros q'; apply FindPool_warned | clear q Hq; intros q Hq].
  eapply created_step;
    [exact Hq | intros q'; apply UserDataOfColumn_warned | clear q Hq; intros q Hq].
  eapply created_quiet_step; [exact Hq | apply on_Stats_warned | clear q Hq; intros _ q Hq].
  cbn [app snd] in *. by apply created_warned_invoke.
Qed.

Lemma ExecuteAllocateMemoryFor_created lineNumber csvSplit objType p
    memReq allocInfo requires prefers origPool origPtr :
  parameter_count_ok csvSplit 13 true = true ->
  AllocateMemoryFor_params csvSplit =
    Some (memReq, allocInfo, requires, prefers, origPool, origPtr) ->
  let flags :=
    if requires || prefers
    then Z.lor (aci_flags allocInfo) VMA_ALLOCATION_CREATE_DEDICATED_MEMORY_BIT
    else aci_flags allocInfo in
  created_from g p
    (exec (ExecuteAllocateMemoryForBufferOrImage g lineNumber csvSplit objType) p)
    ((FindPool_messages lineNumber origPool (m_Pools p) ++
      UserData_messages g lineNumber (aci_flags allocInfo) csvSplit 12) ++
     advisory_messages lineNumber (m_AllocateForBufferImageWarningIssued p))
    (vmaAllocateMemory memReq
       (with_flags
          (with_pool_userdata allocInfo (find_pool (m_Pools p) origPool)
             (user_data_value g (aci_flags allocInfo) csvSplit 12)) flags))
    (fun r => AddAllocation g lineNumber origPtr (reply_res r) AllocateMemoryFor_name
       {| allocationFlags := flags; allocation := reply_allocation r;
          buffer := VK_NULL_HANDLE; image := VK_NULL_HANDLE |}).
Proof.
  intros Harity Hparams flags. unfold ExecuteAllocateMemoryForBufferOrImage.
  eapply created_quiet_step;
    [apply warned_refl
    | destruct objType; apply RegisterFunctionCall_warned
    | intros _ q Hq].
  rewrite exec_bind, Validate_run by exact Harity. cbn [fst snd]. rewrite Hparams.
  eapply created_step; [exact Hq | intros q'; apply FindPool_warned | clear q Hq; intros q Hq].
  eapply created_step;
    [exact Hq | intros q'; apply UserDataOfColumn_warned | clear q Hq; intros q Hq].
  cbn [app snd] in *. cbv zeta. fold flags.
  rewrite exec_bind. cbn [gets fst snd].
  pose proof Hq as (_ & _ & Hissued & _). rewrite Hissued. clear Hissued.
  unfold advisory_messages.
  destruct (m_AllocateForBufferImageWarningIssued p); cbn [negb].
  - rewrite exec_bind. cbn [mret M_ret fst snd].
    apply warned_nil in Hq.
    eapply created_quiet_step; [exact Hq | apply on_Stats_warned | clear q Hq; intros _ q Hq].
    by apply created_warned_invoke.
  - apply (warned_warn _ _ (MsgCannotReplayAccurately lineNumber)) in Hq.
    destruct Hq as (Ha & Hp & _ & Ht & Hc).
    rewrite exec_bind, run_bind. cbn [modify fst snd]. rewrite exec_bind.
    cbn [on_Stats modify fst snd].
    apply created_invoke; assumption.
Qed.

(** [vmaCreateLostAllocation] returns nothing: the reconciliation is
    always the one of a live call that succeeded. *)
Lemma ExecuteCreateLostAllocation_created lineNumber csvSplit p origPtr :
  arity_ok CreateLostAllocation csvSplit = true ->
  StrRangeToPtr (param csvSplit 0) = Some origPtr ->
  created_from g p (exec (ExecuteCreateLostAllocation g lineNumber csvSplit) p)
    [] vmaCreateLostAllocation
    (fun r => AddAllocation g lineNumber origPtr VK_SUCCESS "vmaCreateLostAllocation"
       {| allocationFlags := 0; allocation := reply_allocation r;
          buffer := VK_NULL_HANDLE; image := VK_NULL_HANDLE |}).
Proof.
  intros Harity Hparams. unfold ExecuteCreateLostAllocation.
  rewrite exec_bind. cbn [RegisterFunctionCall on_Stats modify fst snd].
  rewrite exec_bind, Validate_run by exact Harity. cbn [fst snd]. rewrite Hparams.
  rewrite exec_bind, exec_bind. cbn [invoke on_Stats modify fst snd].
  eexists. split_and!; [| | | |reflexivity]; cbn; by rewrite ?app_nil_r.
Qed.

Lemma ExecuteCreatePool_created lineNumber csvSplit p info origPtr :
  arity_ok CreatePool csvSplit = true ->
  CreatePool_params csvSplit = Some (info, origPtr) ->
  created_from g p (exec (ExecuteCreatePool g lineNumber csvSplit) p)
    [] (vmaCreatePool info)
    (fun r => AddPool g lineNumber origPtr (reply_res r) {| pool := reply_handle r |}).
Proof.
  intros Harity Hparams. unfold ExecuteCreatePool.
  eapply created_quiet_step;
    [apply warned_refl | apply RegisterFunctionCall_warned | intros _ q Hq].
  rewrite exec_bind, Validate_run by exact Harity. cbn [fst snd]. rewrite Hparams.
  eapply created_quiet_step; [exact Hq | apply on_Stats_warned | clear q Hq; intros _ q Hq].
  by apply created_warned_invoke.
Qed.

Lemma duplicate_warnings_app evs1 evs2 :
  duplicate_warnings (evs1 ++ evs2) = duplicate_warnings evs1 ++ duplicate_warnings evs2.
Proof. apply omap_app. Qed.

(** The warnings before a live call are not about duplicates. *)
Lemma duplicate_warnings_before lineNumber origPool pools flags csvSplit i issued count :
  duplicate_warnings
    (warn_events g count
       ((FindPool_messages lineNumber origPool pools ++
         UserData_messages g lineNumber flags csvSplit i) ++
        advisory_messages lineNumber issued)) = [].
Proof.
  unfold FindPool_messages, UserData_messages, advisory_messages.
  destruct (negb (origPool =? 0) && _); destruct (user_data_refused _ _ _ _);
    destruct (negb issued); reflexivity.
Qed.

(** A record that ends in [AddAllocation] with a nonzero id: one live
    call, the entry registered under the id, and the duplicate warning
    exactly when the id was registered. *)
Lemma created_allocation_effects p final pre c lineNumber origPtr functionName
    (res_of : VmaReply -> Z) (entry_of : VmaReply -> Allocation) :
  created_from g p final pre c
    (fun r => AddAllocation g lineNumber origPtr (res_of r) functionName (entry_of r)) ->
  (forall count, duplicate_warnings (warn_events g count pre) = []) ->
  origPtr <> 0 ->
  calls final = calls p ++ [c] /\
  m_Allocations final = <[origPtr := entry_of (vma_reply (calls p) c)]> (m_Allocations p) /\
  m_Pools final = m_Pools p /\
  duplicate_warnings (trace final) =
    duplicate_warnings (trace p) ++
    (if bool_decide (is_Some (m_Allocations p !! origPtr))
     then [(lineNumber, origPtr)] else []).
Proof.
  intros (q & Ha & Hp & Ht & Hc & ->) Hpre Hnz.
  apply Z.eqb_neq in Hnz.
  destruct (AddAllocation_effects g lineNumber origPtr
              (res_of (vma_reply (calls p) c)) functionName
              (entry_of (vma_reply (calls p) c)) q) as (Htrace & _ & Hallocs & Hpools & _).
  unfold discarded, reconcile_messages in Htrace. rewrite Hnz in Htrace, Hallocs.
  cbn [negb andb] in Htrace, Hallocs. rewrite app_nil_r in Htrace.
  rewrite Ha in Htrace, Hallocs. rewrite Hpools, Hp, Hallocs. clear Hpools Hallocs.
  generalize dependent (vma_reply (calls p) c). intros r Htrace.
  generalize dependent (exec (AddAllocation g lineNumber origPtr (res_of r) functionName
                                (entry_of r)) q).
  intros final Htrace.
  unfold calls. rewrite Htrace, Ht.
  rewrite !calls_of_app, !calls_of_warn_events, !duplicate_warnings_app, Hpre.
  cbn [calls_of omap duplicate_warnings app]. rewrite !app_nil_r.
  split_and!; try done. f_equal.
  destruct (res_of _ =? VK_SUCCESS);
    destruct (bool_decide (is_Some (m_Allocations p !! origPtr))); reflexivity.
Qed.

Lemma created_pool_effects p final pre c lineNumber origPtr
    (res_of : VmaReply -> Z) (entry_of : VmaReply -> Pool) :
  created_from g p final pre c
    (fun r => AddPool g lineNumber origPtr (res_of r) (entry_of r)) ->
  (forall count, duplicate_warnings (warn_events g count pre) = []) ->
  origPtr <> 0 ->
  calls final = calls p ++ [c] /\
  m_Pools final = <[origPtr := entry_of (vma_reply (calls p) c)]> (m_Pools p) /\
  m_Allocations final = m_Allocations p /\
  duplicate_warnings (trace final) =
    duplicate_warnings (trace p) ++
    (if bool_decide (is_Some (m_Pools p !! origPtr))
     then [(lineNumber, origPtr)] else []).
Proof.
  intros (q & Ha & Hp & Ht & Hc & ->) Hpre Hnz.
  apply Z.eqb_neq in Hnz.
  destruct (AddPool_effects g lineNumber origPtr
              (res_of (vma_reply (calls p) c))
              (entry_of (vma_reply (calls p) c)) q) as (Htrace & _ & Hpools & Hallocs & _).
  unfold discarded, reconcile_messages in Htrace. rewrite Hnz in Htrace, Hpools.
  cbn [negb andb] in Htrace, Hpools. rewrite app_nil_r in Htrace.
  rewrite Hp in Htrace, Hpools. rewrite Hpools, Hallocs, Ha. clear Hpools Hallocs.
  generalize dependent (vma_reply (calls p) c). intros r Htrace.
  generalize dependent (exec (AddPool g lineNumber origPtr (res_of r) (entry_of r)) q).
  intros final Htrace.
  unfold calls. rewrite Htrace, Ht.
  rewrite !calls_of_app, !calls_of_warn_events, !duplicate_warnings_app, Hpre.
  cbn [calls_of omap duplicate_warnings app]. rewrite !app_nil_r.
  split_and!; try done. f_equal.
  destruct (res_of _ =? VK_SUCCESS);
    destruct (bool_decide (is_Some (m_Pools p !! origPtr))); reflexivity.
Qed.

(** One record of a handler that ends in [AddAllocation], with a nonzero
    id, from any state. *)
Lemma allocation_record func lineNumber csvSplit origPtr p :
  func ∈ ALLOCATION_CREATORS ->
  arity_ok func csvSplit = true ->
  created_id func csvSplit = Some origPtr ->
  origPtr <> 0 ->
  let p' := exec (handler g func lineNumber csvSplit) p in
  exists c entry,
    calls p' = calls p ++ [c] /\
    live_call func c = true /\
    stored_handles func (vma_reply (calls p) c) entry /\
    m_Allocations p' = <[origPtr := entry]> (m_Allocations p) /\
    m_Pools p' = m_Pools p /\
    duplicate_warnings (trace p') =
      duplicate_warnings (trace p) ++
      (if bool_decide (is_Some (m_Allocations p !! origPtr))
       then [(lineNumber, origPtr)] else []).
Proof.
  intros Hfunc Harity Hid Hnz p'. unfold p'. clear p'.
  assert (forall lineNumber' origPool pools flags i count,
            duplicate_warnings
              (warn_events g count
                 (FindPool_messages lineNumber' origPool pools ++
                  UserData_messages g lineNumber' flags csvSplit i)) = []) as Hbefore.
  { intros l o ps f i count.
    pose proof (duplicate_warnings_before l o ps f csvSplit i true count) as Hb.
    unfold advisory_messages in Hb. cbn [negb] in Hb. by rewrite app_nil_r in Hb. }
  apply list_elem_of_In in Hfunc. cbn in Hfunc.
  destruct Hfunc as [<-|[<-|[<-|[<-|[<-|[<-|[]]]]]]]; cbn [handler created_id] in *.
  - destruct (CreateBuffer_params csvSplit) as [[[[info allocInfo] origPool] id]|] eqn:Hparams;
      [|done].
    injection Hid as ->.
    destruct (created_allocation_effects _ _ _ _ _ _ _ _ _
                (ExecuteCreateBuffer_created lineNumber csvSplit p _ _ _ _ Harity Hparams)
                ltac:(intros; apply Hbefore) Hnz) as (Hc & Ha & Hp & Hd).
    eexists _, _. split_and!; [exact Hc|reflexivity| |exact Ha|exact Hp|exact Hd].
    by split_and!.
  - destruct (CreateImage_params csvSplit) as [[[[info allocInfo] origPool] id]|] eqn:Hparams;
      [|done].
    injection Hid as ->.
    destruct (created_allocation_effects _ _ _ _ _ _ _ _ _
                (ExecuteCreateImage_created lineNumber csvSplit p _ _ _ _ Harity Hparams)
                ltac:(intros; apply Hbefore) Hnz) as (Hc & Ha & Hp & Hd).
    eexists _, _. split_and!; [exact Hc|reflexivity| |exact Ha|exact Hp|exact Hd].
    by split_and!.
  - destruct (created_allocation_effects _ _ _ _ _ _ _ (fun _ => VK_SUCCESS) _
                (ExecuteCreateLostAllocation_created lineNumber csvSplit p _ Harity Hid)
                ltac:(done) Hnz) as (Hc & Ha & Hp & Hd).
    eexists _, _. split_and!; [exact Hc|reflexivity| |exact Ha|exact Hp|exact Hd].
    by split_and!.
  - destruct (AllocateMemory_params csvSplit) as [[[[memReq allocInfo] origPool] id]|]
      eqn:Hparams; [|done].
    injection Hid as ->.
    destruct (created_allocation_effects _ _ _ _ _ _ _ _ _
                (ExecuteAllocateMemory_created lineNumber csvSplit p _ _ _ _ Harity Hparams)
                ltac:(intros; apply Hbefore) Hnz) as (Hc & Ha & Hp & Hd).
    eexists _, _. split_and!; [exact Hc|reflexivity| |exact Ha|exact Hp|exact Hd].
    by split_and!.
  - destruct (AllocateMemoryFor_params csvSplit)
      as [[[[[[memReq allocInfo] requires] prefers] origPool] id]|] eqn:Hparams; [|done].
    injection Hid as ->.
    pose proof (ExecuteAllocateMemoryFor_created lineNumber csvSplit BUFFER p
                  _ _ _ _ _ _ Harity Hparams) as Hcreated.
    cbv zeta in Hcreated.
    eapply created_allocation_effects in Hcreated as (Hc & Ha & Hp & Hd);
      [|intros; apply duplicate_warnings_before|exact Hnz].
    eexists _, _. split_and!; [exact Hc|reflexivity| |exact Ha|exact Hp|exact Hd].
    by split_and!.
  - destruct (AllocateMemoryFor_params csvSplit)
      as [[[[[[memReq allocInfo] requires] prefers] origPool] id]|] eqn:Hparams; [|done].
    injection Hid as ->.
    pose proof (ExecuteAllocateMemoryFor_created lineNumber csvSplit IMAGE p
                  _ _ _ _ _ _ Harity Hparams) as Hcreated.
    cbv zeta in Hcreated.
    eapply created_allocation_effects in Hcreated as (Hc & Ha & Hp & Hd);
      [|intros; apply duplicate_warnings_before|exact Hnz].
    eexists _, _. split_and!; [exact Hc|reflexivity| |exact Ha|exact Hp|exact Hd].
    by split_and!.
Qed.

(** One record of [vmaCreatePool] with a nonzero id, from any state. *)
Lemma pool_record lineNumber csvSplit origPtr p :
  arity_ok CreatePool csvSplit = true ->
  created_id CreatePool csvSplit = Some origPtr ->
  origPtr <> 0 ->
  let p' := exec (handler g CreatePool lineNumber csvSplit) p in
  exists c,
    calls p' = calls p ++ [c] /\
    live_call CreatePool c = true /\
    m_Pools p' =
      <[origPtr := {| pool := reply_handle (vma_reply (calls p) c) |}]> (m_Pools p) /\
    m_Allocations p' = m_Allocations p /\
    duplicate_warnings (trace p') =
      duplicate_warnings (trace p) ++
      (if bool_decide (is_Some (m_Pools p !! origPtr))
       then [(lineNumber, origPtr)] else []).
Proof.
  intros Harity Hid Hnz p'. unfold p'. clear p'. cbn [handler created_id] in *.
  destruct (CreatePool_params csvSplit) as [[info id]|] eqn:Hparams; [|done].
  injection Hid as ->.
  destruct (created_pool_effects _ _ _ _ _ _ _ (fun r => {| pool := reply_handle r |})
              (ExecuteCreatePool_created lineNumber csvSplit p _ _ Harity Hparams)
              ltac:(done) Hnz) as (Hc & Hp & Ha & Hd).
  eexists. split_and!; [exact Hc|reflexivity|exact Hp|exact Ha|exact Hd].
Qed.

(** C4.  Two creation records name the same nonzero original id: the
    first is executed in any state, the second in any state in which the
    id is still mapped to what the first registered (the state after the
    first record is one).  The first makes one live call and registers
    under the id an entry with the handles that call stored.  The second
    raises exactly one duplicate-handle warning and makes exactly one
    call, its own live call: no entry point that destroys is invoked, so
    the object of the first mapping is not destroyed.  Afterwards the
    registry maps the id to the entry of the second record, with the
    handles its call stored, and every other id as before, so it has as
    many entries as before.  This holds for every pair of the six
    functions whose handler ends in [AddAllocation], whether the live
    calls succeed or fail, and in the same way for two [vmaCreatePool]
    records and the registry of pools. *)
Theorem duplicate_id_replaces_mapping origPtr first line1 split1 second line2 split2
    p0 p :
  origPtr <> 0 ->
  arity_ok first split1 = true ->
  created_id first split1 = Some origPtr ->
  arity_ok second split2 = true ->
  created_id second split2 = Some origPtr ->
  let p1 := exec (handler g first line1 split1) p0 in
  let p2 := exec (handler g second line2 split2) p in
  (first ∈ ALLOCATION_CREATORS -> second ∈ ALLOCATION_CREATORS ->
   m_Allocations p !! origPtr = m_Allocations p1 !! origPtr ->
   exists c1 entry1 c2 entry2,
     calls p1 = calls p0 ++ [c1] /\
     live_call first c1 = true /\
     stored_handles first (vma_reply (calls p0) c1) entry1 /\
     m_Allocations p1 !! origPtr = Some entry1 /\
     duplicate_warnings (trace p2) = duplicate_warnings (trace p) ++ [(line2, origPtr)] /\
     calls p2 = calls p ++ [c2] /\
     live_call second c2 = true /\
     stored_handles second (vma_reply (calls p) c2) entry2 /\
     m_Allocations p2 !! origPtr = Some entry2 /\
     (forall other, other <> origPtr ->
        m_Allocations p2 !! other = m_Allocations p !! other) /\
     size (m_Allocations p2) = size (m_Allocations p) /\
     m_Pools p2 = m_Pools p) /\
  (first = CreatePool -> second = CreatePool ->
   m_Pools p !! origPtr = m_Pools p1 !! origPtr ->
   exists c1 c2,
     calls p1 = calls p0 ++ [c1] /\
     live_call CreatePool c1 = true /\
     m_Pools p1 !! origPtr = Some {| pool := reply_handle (vma_reply (calls p0) c1) |} /\
     duplicate_warnings (trace p2) = duplicate_warnings (trace p) ++ [(line2, origPtr)] /\
     calls p2 = calls p ++ [c2] /\
     live_call CreatePool c2 = true /\
     m_Pools p2 !! origPtr = Some {| pool := reply_handle (vma_reply (calls p) c2) |} /\
     (forall other, other <> origPtr -> m_Pools p2 !! other = m_Pools p !! other) /\
     size (m_Pools p2) = size (m_Pools p) /\
     m_Allocations p2 = m_Allocations p).
Proof.
  intros Hnz Harity1 Hid1 Harity2 Hid2 p1 p2. split.
  - intros Hfirst Hsecond Hlive.
    destruct (allocation_record first line1 split1 origPtr p0 Hfirst Harity1 Hid1 Hnz)
      as (c1 & entry1 & Hc1 & Hl1 & Hh1 & Ha1 & _).
    destruct (allocation_record second line2 split2 origPtr p Hsecond Harity2 Hid2 Hnz)
      as (c2 & entry2 & Hc2 & Hl2 & Hh2 & Ha2 & Hp2 & Hd2).
    fold p1 in Hc1, Ha1. fold p2 in Hc2, Ha2, Hp2, Hd2.
    assert (m_Allocations p1 !! origPtr = Some entry1) as Hreg1
      by (rewrite Ha1; apply lookup_insert_eq).
    rewrite Hreg1 in Hlive. rewrite Hlive in Hd2.
    rewrite bool_decide_eq_true_2 in Hd2 by by eexists.
    exists c1, entry1, c2, entry2. split_and!; try done.
    + rewrite Ha2. apply lookup_insert_eq.
    + intros other Hother. rewrite Ha2. by apply lookup_insert_ne.
    + rewrite Ha2. by eapply map_size_insert_Some.
  - intros -> -> Hlive.
    destruct (pool_record line1 split1 origPtr p0 Harity1 Hid1 Hnz)
      as (c1 & Hc1 & Hl1 & Hp1 & _).
    destruct (pool_record line2 split2 origPtr p Harity2 Hid2 Hnz)
      as (c2 & Hc2 & Hl2 & Hp2 & Ha2 & Hd2).
    fold p1 in Hc1, Hp1. fold p2 in Hc2, Hp2, Ha2, Hd2.
    assert (m_Pools p1 !! origPtr =
            Some {| pool := reply_handle (vma_reply (calls p0) c1) |}) as Hreg1
      by (rewrite Hp1; apply lookup_insert_eq).
    rewrite Hreg1 in Hlive. rewrite Hlive in Hd2.
    rewrite bool_decide_eq_true_2 in Hd2 by by eexists.
    exists c1, c2. split_and!; try done.
    + rewrite Hp2. apply lookup_insert_eq.
    + intros other Hother. rewrite Hp2. by apply lookup_insert_ne.
    + rewrite Hp2. by eapply map_size_insert_Some.
Qed.

End CreationRecords.

Lemma duplicate_id_replaces_mapping_witness :
  let split line := CommonSpec.comma_CsvSplit_Set line None in
  let first := split "0,0.0,0,vmaCreateBuffer,0,1024,128,0,0,1,0,0,0,0,1A2B" in
  let second := split "0,0.1,0,vmaCreateLostAllocation,1A2B" in
  let p1 :=
    exec (@handler CommonSpec.common granting_allocator default_globals CreateBuffer
            3 first) Player_new in
  let p2 :=
    exec (@handler CommonSpec.common granting_allocator default_globals
            CreateLostAllocation 4 second) p1 in
  exists c1 entry1 c2 entry2,
    calls p1 = calls Player_new ++ [c1] /\
    live_call CreateBuffer c1 = true /\
    stored_handles CreateBuffer (granting_allocator (calls Player_new) c1) entry1 /\
    m_Allocations p1 !! 6699 = Some entry1 /\
    duplicate_warnings (trace p2) = duplicate_warnings (trace p1) ++ [(4, 6699)] /\
    calls p2 = calls p1 ++ [c2] /\
    live_call CreateLostAllocation c2 = true /\
    stored_handles CreateLostAllocation (granting_allocator (calls p1) c2) entry2 /\
    m_Allocations p2 !! 6699 = Some entry2 /\
    (forall other, other <> 6699 ->
       m_Allocations p2 !! other = m_Allocations p1 !! other) /\
    size (m_Allocations p2) = size (m_Allocations p1) /\
    m_Pools p2 = m_Pools p1.
Proof.
  intros split first second p1 p2.
  apply (proj1 (@duplicate_id_replaces_mapping CommonSpec.common granting_allocator
                  default_globals 6699 CreateBuffer 3 first CreateLostAllocation 4 second
                  Player_new p1
                  ltac:(lia) ltac:(vm_compute; reflexivity) ltac:(vm_compute; reflexivity)
                  ltac:(vm_compute; reflexivity) ltac:(vm_compute; reflexivity))).
  - apply list_elem_of_In. simpl. tauto.
  - apply list_elem_of_In. simpl. tauto.
  - reflexivity.
Defined.

(** ** User data, record by record *)

Lemma invalid_user_data_warnings_app evs1 evs2 :
  invalid_user_data_warnings (evs1 ++ evs2) =
  invalid_user_data_warnings evs1 ++ invalid_user_data_warnings evs2.
Proof. apply omap_app. Qed.

Section UserDataRecords.
Context `{CommonH} `{TargetAllocator} (g : Globals).

(** Of the warnings before a live call, the one of [PrepareUserData]. *)
Lemma invalid_user_data_before lineNumber origPool pools flags csvSplit i issued count :
  invalid_user_data_warnings
    (warn_events g count
       ((FindPool_messages lineNumber origPool pools ++
         UserData_messages g lineNumber flags csvSplit i) ++
        advisory_messages lineNumber issued)) =
  (if user_data_refused g flags csvSplit i then [lineNumber] else []).
Proof.
  unfold FindPool_messages, UserData_messages, advisory_messages.
  destruct (negb (origPool =? 0) && _); destruct (user_data_refused _ _ _ _);
    destruct (negb issued); reflexivity.
Qed.

Lemma invalid_user_data_reconcile lineNumber origPtr res functionName existing count :
  invalid_user_data_warnings
    (warn_events g count
       (reconcile_messages lineNumber origPtr res functionName existing
          (MsgAllocationAlreadyExists lineNumber origPtr))) = [].
Proof.
  unfold reconcile_messages.
  destruct (negb (origPtr =? 0)); destruct (res =? VK_SUCCESS); destruct existing;
    reflexivity.
Qed.

(** A record that ends in [AddAllocation]: the user data its live call
    carries is passed once, and the "Invalid pUserData" warnings are
    those raised before the call. *)
Lemma created_user_data_effects p final pre c lineNumber origPtr functionName
    (res_of : VmaReply -> Z) (entry_of : VmaReply -> Allocation) u :
  created_from g p final pre c
    (fun r => AddAllocation g lineNumber origPtr (res_of r) functionName (entry_of r)) ->
  call_user_data c = Some u ->
  user_data_passed (trace final) = user_data_passed (trace p) ++ [u] /\
  invalid_user_data_warnings (trace final) =
    invalid_user_data_warnings (trace p) ++
    invalid_user_data_warnings (warn_events g (m_WarningCount p) pre).
Proof.
  intros (q & Ha & Hp & Ht & Hc & ->) Hu.
  destruct (AddAllocation_effects g lineNumber origPtr
              (res_of (vma_reply (calls p) c)) functionName
              (entry_of (vma_reply (calls p) c)) q) as (Htrace & _).
  generalize dependent (vma_reply (calls p) c). intros r Htrace.
  generalize dependent (exec (AddAllocation g lineNumber origPtr (res_of r) functionName
                                (entry_of r)) q).
  intros final Htrace. rewrite Htrace, Ht. split.
  - rewrite !(assoc_L (++)).
    destruct (discarded origPtr (res_of r));
      rewrite ?app_nil_r, ?user_data_passed_snoc, ?Destroy_call_user_data, ?app_nil_r;
      rewrite user_data_passed_warn_events, user_data_passed_snoc,
        user_data_passed_warn_events;
      by rewrite Hu.
  - rewrite !invalid_user_data_warnings_app, invalid_user_data_reconcile.
    cbn [invalid_user_data_warnings omap app].
    destruct (discarded origPtr (res_of r)); by rewrite !app_nil_r.
Qed.

Lemma user_data_before lineNumber origPool pools flags csvSplit i count :
  invalid_user_data_warnings
    (warn_events g count
       (FindPool_messages lineNumber origPool pools ++
        UserData_messages g lineNumber flags csvSplit i)) =
  (if user_data_refused g flags csvSplit i then [lineNumber] else []).
Proof.
  pose proof (invalid_user_data_before lineNumber origPool pools flags csvSplit i true
                count) as Hb.
  unfold advisory_messages in Hb. cbn [negb] in Hb. by rewrite app_nil_r in Hb.
Qed.

(** [vmaSetAllocationUserData] for a registered allocation, user data
    being enabled: the warning of [PrepareUserData] when it refuses the
    column, then the call. *)
Lemma ExecuteSetAllocationUserData_run lineNumber csvSplit p origPtr allocDesc :
  g_UserDataEnabled g = true ->
  arity_ok SetAllocationUserData csvSplit = true ->
  StrRangeToPtr (param csvSplit 0) = Some origPtr ->
  m_Allocations p !! origPtr = Some allocDesc ->
  let p' := exec (ExecuteSetAllocationUserData g lineNumber csvSplit) p in
  trace p' =
    trace p ++
    warn_events g (m_WarningCount p)
      (UserData_messages g lineNumber (allocationFlags allocDesc) csvSplit 1) ++
    [EvCall (vmaSetAllocationUserData (allocation allocDesc)
               (user_data_value g (allocationFlags allocDesc) csvSplit 1))] /\
  m_Allocations p' = m_Allocations p /\
  m_Pools p' = m_Pools p.
Proof.
  intros Hon Harity Hid Hreg p'. unfold p', ExecuteSetAllocationUserData.
  rewrite exec_bind, Hon. cbn [negb].
  pose proof (RegisterFunctionCall_warned g p [] SetAllocationUserData p (warned_refl g p))
    as Hq.
  generalize dependent ((RegisterFunctionCall SetAllocationUserData p).2). intros q Hq.
  rewrite exec_bind, Validate_run by exact Harity. cbn [fst snd].
  rewrite Hid, exec_bind. cbn [gets fst snd].
  pose proof Hq as (Ha & _). rewrite Ha, Hreg, exec_bind.
  destruct (UserDataOfColumn_warned g p [] lineNumber (allocationFlags allocDesc)
              csvSplit 1 q Hq) as [-> (Ha' & Hp' & _ & Ht' & _)].
  cbn [app] in Ht'. rewrite exec_bind. cbn [invoke mret M_ret exec fst snd].
  cbn [set_trace trace m_Allocations m_Pools]. rewrite Ht', <- (assoc_L (++)).
  split_and!; done.
Qed.

(** C9 (amended).  The user data that a line passes is
    [user_data_value]: it is a null pointer when user data is disabled
    and, when enabled, in pointer mode with a column that does not parse;
    the latter is the case [user_data_refused], where [PrepareUserData]
    raises "Invalid pUserData" and returns [false], which no handler
    looks at.  Each of the creation handlers that take user data, on a
    line whose parameters decode, raises that warning once when the
    column is refused and not otherwise, and goes on: it passes
    [user_data_value], once, in its live call.  [vmaSetAllocationUserData]
    does the same for a registered allocation when user data is enabled;
    when it is disabled the handler only counts the call and invokes
    nothing. *)
Theorem user_data_handling lineNumber csvSplit p :
  (forall flags i,
     (g_UserDataEnabled g = false ->
      user_data_value g flags csvSplit i = nullptr /\
      user_data_refused g flags csvSplit i = false) /\
     (g_UserDataEnabled g = true ->
      (FIRST_PARAM_INDEX + i < GetCount csvSplit)%nat ->
      test_bits flags VMA_ALLOCATION_CREATE_USER_DATA_COPY_STRING_BIT = false ->
      StrRangeToPtr (param csvSplit i) = None ->
      user_data_value g flags csvSplit i = nullptr /\
      user_data_refused g flags csvSplit i = true /\
      forall q,
        UserDataOfColumn g lineNumber flags csvSplit i q =
        (nullptr, exec (warn g (MsgInvalidUserData lineNumber)) q)) /\
     (user_data_refused g flags csvSplit i = true ->
      g_UserDataEnabled g = true /\
      (FIRST_PARAM_INDEX + i < GetCount csvSplit)%nat /\
      test_bits flags VMA_ALLOCATION_CREATE_USER_DATA_COPY_STRING_BIT = false /\
      StrRangeToPtr (param csvSplit i) = None)) /\
  (forall info allocInfo origPool origPtr,
     arity_ok CreateBuffer csvSplit = true ->
     CreateBuffer_params csvSplit = Some (info, allocInfo, origPool, origPtr) ->
     let p' := exec (ExecuteCreateBuffer g lineNumber csvSplit) p in
     user_data_passed (trace p') =
       user_data_passed (trace p) ++ [user_data_value g (aci_flags allocInfo) csvSplit 11] /\
     invalid_user_data_warnings (trace p') =
       invalid_user_data_warnings (trace p) ++
       (if user_data_refused g (aci_flags allocInfo) csvSplit 11
        then [lineNumber] else [])) /\
  (forall info allocInfo origPool origPtr,
     arity_ok CreateImage csvSplit = true ->
     CreateImage_params csvSplit = Some (info, allocInfo, origPool, origPtr) ->
     let p' := exec (ExecuteCreateImage g lineNumber csvSplit) p in
     user_data_passed (trace p') =
       user_data_passed (trace p) ++ [user_data_value g (aci_flags allocInfo) csvSplit 20] /\
     invalid_user_data_warnings (trace p') =
       invalid_user_data_warnings (trace p) ++
       (if user_data_refused g (aci_flags allocInfo) csvSplit 20
        then [lineNumber] else [])) /\
  (forall memReq allocInfo origPool origPtr,
     arity_ok AllocateMemory csvSplit = true ->
     AllocateMemory_params csvSplit = Some (memReq, allocInfo, origPool, origPtr) ->
     let p' := exec (ExecuteAllocateMemory g lineNumber csvSplit) p in
     user_data_passed (trace p') =
       user_data_passed (trace p) ++ [user_data_value g (aci_flags allocInfo) csvSplit 10] /\
     invalid_user_data_warnings (trace p') =
       invalid_user_data_warnings (trace p) ++
       (if user_data_refused g (aci_flags allocInfo) csvSplit 10
        then [lineNumber] else [])) /\
  (forall objType memReq allocInfo requires prefers origPool origPtr,
     parameter_count_ok csvSplit 13 true = true ->
     AllocateMemoryFor_params csvSplit =
       Some (memReq, allocInfo, requires, prefers, origPool, origPtr) ->
     let p' :=
       exec (ExecuteAllocateMemoryForBufferOrImage g lineNumber csvSplit objType) p in
     user_data_passed (trace p') =
       user_data_passed (trace p) ++ [user_data_value g (aci_flags allocInfo) csvSplit 12] /\
     invalid_user_data_warnings (trace p') =
       invalid_user_data_warnings (trace p) ++
       (if user_data_refused g (aci_flags allocInfo) csvSplit 12
        then [lineNumber] else [])) /\
  (forall origPtr allocDesc,
     g_UserDataEnabled g = true ->
     arity_ok SetAllocationUserData csvSplit = true ->
     StrRangeToPtr (param csvSplit 0) = Some origPtr ->
     m_Allocations p !! origPtr = Some allocDesc ->
     let p' := exec (ExecuteSetAllocationUserData g lineNumber csvSplit) p in
     calls p' =
       calls p ++
       [vmaSetAllocationUserData (allocation allocDesc)
          (user_data_value g (allocationFlags allocDesc) csvSplit 1)] /\
     invalid_user_data_warnings (trace p') =
       invalid_user_data_warnings (trace p) ++
       (if user_data_refused g (allocationFlags allocDesc) csvSplit 1
        then [lineNumber] else [])) /\
  (g_UserDataEnabled g = false ->
   exec (ExecuteSetAllocationUserData g lineNumber csvSplit) p =
   set_Stats (Statistics_RegisterFunctionCall SetAllocationUserData (m_Stats p)) p).
Proof.
  split_and!.
  - intros flags i. split_and!.
    + intros Hoff. unfold user_data_value, user_data_refused. rewrite Hoff.
      split; [by destruct (bool_decide _)|]. by rewrite andb_false_r.
    + intros Hon Hcol Hmode Hparse. split_and!.
      * unfold user_data_value. unfold param in Hparse.
        by rewrite bool_decide_eq_true_2, Hon, Hmode, Hparse.
      * unfold user_data_refused.
        by rewrite !bool_decide_eq_true_2, Hon, Hmode.
      * intros q. unfold UserDataOfColumn, PrepareUserData. unfold param in Hparse.
        rewrite bool_decide_eq_true_2, Hon, Hmode, Hparse by done.
        cbn [negb]. unfold exec. rewrite !run_bind, !warn_run. reflexivity.
    + unfold user_data_refused. intros Hrefused.
      apply andb_prop in Hrefused as [Hrefused Hparse].
      apply andb_prop in Hrefused as [Hrefused Hmode].
      apply andb_prop in Hrefused as [Hcol Hon].
      apply bool_decide_eq_true in Hcol, Hparse. apply negb_true_iff in Hmode.
      by split_and!.
  - intros info allocInfo origPool origPtr Harity Hparams p'.
    pose proof (ExecuteCreateBuffer_created g lineNumber csvSplit p _ _ _ _ Harity Hparams)
      as Hcreated.
    eapply created_user_data_effects in Hcreated as [Hpassed Hwarned]; [|reflexivity].
    rewrite user_data_before in Hwarned. by split.
  - intros info allocInfo origPool origPtr Harity Hparams p'.
    pose proof (ExecuteCreateImage_created g lineNumber csvSplit p _ _ _ _ Harity Hparams)
      as Hcreated.
    eapply created_user_data_effects in Hcreated as [Hpassed Hwarned]; [|reflexivity].
    rewrite user_data_before in Hwarned. by split.
  - intros memReq allocInfo origPool origPtr Harity Hparams p'.
    pose proof (ExecuteAllocateMemory_created g lineNumber csvSplit p _ _ _ _ Harity Hparams)
      as Hcreated.
    eapply created_user_data_effects in Hcreated as [Hpassed Hwarned]; [|reflexivity].
    rewrite user_data_before in Hwarned. by split.
  - intros objType memReq allocInfo requires prefers origPool origPtr Harity Hparams p'.
    pose proof (ExecuteAllocateMemoryFor_created g lineNumber csvSplit objType p
                  _ _ _ _ _ _ Harity Hparams) as Hcreated.
    cbv zeta in Hcreated.
    eapply created_user_data_effects in Hcreated as [Hpassed Hwarned]; [|reflexivity].
    rewrite invalid_user_data_before in Hwarned. by split.
  - intros origPtr allocDesc Hon Harity Hid Hreg p'.
    destruct (ExecuteSetAllocationUserData_run lineNumber csvSplit p origPtr allocDesc
                Hon Harity Hid Hreg) as (Htrace & _).
    fold p' in Htrace. unfold calls. rewrite Htrace.
    rewrite !calls_of_app, calls_of_warn_events, !invalid_user_data_warnings_app.
    split; [reflexivity|].
    cbn [invalid_user_data_warnings omap app]. rewrite app_nil_r.
    unfold UserData_messages. by destruct (user_data_refused _ _ _ _).
  - intros Hoff. unfold ExecuteSetAllocationUserData, RegisterFunctionCall, on_Stats.
    rewrite exec_bind, Hoff. reflexivity.
Qed.

End UserDataRecords.

Lemma user_data_handling_witness :
  let csvSplit :=
    CommonSpec.comma_CsvSplit_Set
      "0,0.0,0,vmaCreateBuffer,0,1024,128,0,0,1,0,0,0,0,1A2B,zz" None in
  let p' :=
    exec (@ExecuteCreateBuffer CommonSpec.common granting_allocator default_globals
            3 csvSplit) Player_new in
  user_data_passed (trace p') = [nullptr] /\
  invalid_user_data_warnings (trace p') = [3].
Proof.
  intros csvSplit p'.
  pose proof (proj1 (proj2 (@user_data_handling CommonSpec.common granting_allocator
                              default_globals 3 csvSplit Player_new))) as W.
  specialize (W {| buf_flags := 0; buf_size := 1024; buf_usage := 128;
                   buf_sharingMode := 0 |}
                {| aci_flags := 0; aci_usage := 1; aci_requiredFlags := 0;
                   aci_preferredFlags := 0; aci_memoryTypeBits := 0;
                   aci_pool := VK_NULL_HANDLE; aci_pUserData := nullptr |}
                0 6699 ltac:(vm_compute; reflexivity) ltac:(vm_compute; reflexivity)).
  cbv zeta in W. fold p' in W.
  assert (@user_data_value CommonSpec.common default_globals 0 csvSplit 11 = nullptr)
    as Hvalue by (vm_compute; reflexivity).
  assert (@user_data_refused CommonSpec.common default_globals 0 csvSplit 11 = true)
    as Hrefused by (vm_compute; reflexivity).
  cbn [aci_flags] in W. rewrite Hvalue, Hrefused in W. exact W.
Defined.
